(** * DMWSS Game Boy core: a shallow embedding and its verification

    The development follows the C++ sources of the emulation core:

    - [core/types.hpp]                fixed-width integers
    - [core/memory/mbc.cpp]           cartridge controllers MBC0/1/3/5
    - [core/memory/memory.cpp]        the memory bus with its page tables
    - [core/timer/timer.cpp]          the timer, and the scheduler
    - [core/ppu/ppu.cpp]              the picture unit
    - [core/cpu/cpu.cpp], [cpu.hpp]   the processor and its opcode handlers

    Integers are [Z] with the wrap-around of the C++ type written out.
    A [std::array] is a list of its fixed length; a [std::vector] is a list
    whose out-of-range subscript is a fault ([None]).  The two tables of
    [std::function] handlers of the bus hold the closures registered by the
    picture unit and the timer; they are represented by the name of the
    closure, and the closure bodies are given once ([IOReadHandler_call],
    [IOWriteHandler_call]). *)

From Stdlib Require Import ZArith Lia Bool Sorted.
From stdpp Require Import base list.

Open Scope Z_scope.

(** ** core/types.hpp *)

Definition u8 (z : Z) : Z := z mod 0x100.
Definition u16 (z : Z) : Z := z mod 0x10000.
Definition u32 (z : Z) : Z := z mod 0x100000000.
Definition u64 (z : Z) : Z := z mod 0x10000000000000000.

(** [static_cast<s8>] and [static_cast<s16>] of an unsigned value. *)
Definition s8 (z : Z) : Z :=
  if z mod 0x100 <? 0x80 then z mod 0x100 else z mod 0x100 - 0x100.
Definition s16 (z : Z) : Z :=
  if z mod 0x10000 <? 0x8000 then z mod 0x10000 else z mod 0x10000 - 0x10000.

(** [x != 0] on an integer, as C++ converts it to [bool]. *)
Definition nonzero (z : Z) : bool := negb (z =? 0).

(** Subscript of a [std::array] and assignment through it. *)
Definition array_get (a : list Z) (i : Z) : Z := default 0 (a !! Z.to_nat i).
Definition array_set (a : list Z) (i : Z) (v : Z) : list Z := <[Z.to_nat i := v]> a.

(** Subscript of a [std::vector]: outside [0, size) the access is a fault. *)
Definition vector_get (a : list Z) (i : Z) : option Z :=
  if (0 <=? i) && (i <? Z.of_nat (length a)) then a !! Z.to_nat i else None.
Definition vector_size (a : list Z) : Z := Z.of_nat (length a).

(** ** core/memory/mbc.hpp: the cartridge controllers *)

Record MBC0 := mkMBC0 {
  MBC0_m_rom : list Z;
  MBC0_m_ram : list Z;
  MBC0_m_ram_enabled : bool }.

Record MBC1 := mkMBC1 {
  MBC1_m_rom : list Z;
  MBC1_m_ram : list Z;
  MBC1_m_ram_enabled : bool;
  MBC1_m_rom_bank : Z;
  MBC1_m_ram_bank : Z;
  MBC1_m_banking_mode : bool }.

Record MBC3 := mkMBC3 {
  MBC3_m_rom : list Z;
  MBC3_m_ram : list Z;
  MBC3_m_ram_enabled : bool;
  MBC3_m_rom_bank : Z;
  MBC3_m_ram_bank : Z;
  MBC3_m_has_rtc : bool;
  MBC3_m_rtc_seconds : Z;
  MBC3_m_rtc_minutes : Z;
  MBC3_m_rtc_hours : Z;
  MBC3_m_rtc_days_low : Z;
  MBC3_m_rtc_days_high : Z;
  MBC3_m_rtc_latch_data : Z;
  MBC3_m_rtc_latched : bool }.

Record MBC5 := mkMBC5 {
  MBC5_m_rom : list Z;
  MBC5_m_ram : list Z;
  MBC5_m_ram_enabled : bool;
  MBC5_m_rom_bank : Z;
  MBC5_m_ram_bank : Z }.

(** The closed set of classes derived from [MBC]. *)
Inductive MBC :=
| Cart_MBC0 (c : MBC0)
| Cart_MBC1 (c : MBC1)
| Cart_MBC3 (c : MBC3)
| Cart_MBC5 (c : MBC5).

(** *** MBC0 *)

Definition MBC0_new (rom_data : list Z) : MBC0 :=
  {| MBC0_m_rom := rom_data; MBC0_m_ram := []; MBC0_m_ram_enabled := false |}.

Definition MBC0_Read (c : MBC0) (address : Z) : option Z :=
  if address <? vector_size (MBC0_m_rom c)
  then vector_get (MBC0_m_rom c) address
  else Some 0xFF.

Definition MBC0_Write (c : MBC0) (address value : Z) : MBC0 := c.

Definition MBC0_ReadRAM (c : MBC0) (address : Z) : option Z := Some 0xFF.

Definition MBC0_WriteRAM (c : MBC0) (address value : Z) : MBC0 := c.

(** *** MBC1 *)

Definition MBC1_new (rom_data : list Z) : MBC1 :=
  {| MBC1_m_rom := rom_data;
     MBC1_m_ram := replicate (32 * 1024) 0;
     MBC1_m_ram_enabled := false;
     MBC1_m_rom_bank := 1;
     MBC1_m_ram_bank := 0;
     MBC1_m_banking_mode := false |}.

Definition MBC1_GetROMBankOffset (c : MBC1) : Z :=
  if negb (MBC1_m_banking_mode c) then
    let bank := Z.land (MBC1_m_rom_bank c) 0x1F in
    let bank := if bank =? 0 then 1 else bank in
    u32 (bank * 0x4000)
  else
    let bank := Z.land (MBC1_m_rom_bank c) 0x1F in
    let bank := if bank =? 0 then 1 else bank in
    u32 (bank * 0x4000).

Definition MBC1_GetRAMBankOffset (c : MBC1) : Z :=
  if MBC1_m_banking_mode c
  then u32 (Z.land (MBC1_m_ram_bank c) 0x03 * 0x2000)
  else 0.

Definition MBC1_Read (c : MBC1) (address : Z) : option Z :=
  if address <=? 0x3FFF then
    vector_get (MBC1_m_rom c) address
  else if address <=? 0x7FFF then
    let offset := u32 (MBC1_GetROMBankOffset c + (address - 0x4000)) in
    if offset <? vector_size (MBC1_m_rom c)
    then vector_get (MBC1_m_rom c) offset
    else Some 0xFF
  else Some 0xFF.

Definition MBC1_Write (c : MBC1) (address value : Z) : MBC1 :=
  if address <=? 0x1FFF then
    mkMBC1 (MBC1_m_rom c) (MBC1_m_ram c) (Z.land value 0x0F =? 0x0A)
           (MBC1_m_rom_bank c) (MBC1_m_ram_bank c) (MBC1_m_banking_mode c)
  else if address <=? 0x3FFF then
    let rom_bank := Z.land value 0x1F in
    let rom_bank := if rom_bank =? 0 then 1 else rom_bank in
    mkMBC1 (MBC1_m_rom c) (MBC1_m_ram c) (MBC1_m_ram_enabled c)
           rom_bank (MBC1_m_ram_bank c) (MBC1_m_banking_mode c)
  else if address <=? 0x5FFF then
    mkMBC1 (MBC1_m_rom c) (MBC1_m_ram c) (MBC1_m_ram_enabled c)
           (MBC1_m_rom_bank c) (Z.land value 0x03) (MBC1_m_banking_mode c)
  else if address <=? 0x7FFF then
    mkMBC1 (MBC1_m_rom c) (MBC1_m_ram c) (MBC1_m_ram_enabled c)
           (MBC1_m_rom_bank c) (MBC1_m_ram_bank c) (nonzero (Z.land value 0x01))
  else c.

Definition MBC1_ReadRAM (c : MBC1) (address : Z) : option Z :=
  if negb (MBC1_m_ram_enabled c) then Some 0xFF
  else
    let offset := u32 (MBC1_GetRAMBankOffset c + (address - 0xA000)) in
    if offset <? vector_size (MBC1_m_ram c)
    then vector_get (MBC1_m_ram c) offset
    else Some 0xFF.

Definition MBC1_WriteRAM (c : MBC1) (address value : Z) : MBC1 :=
  if negb (MBC1_m_ram_enabled c) then c
  else
    let offset := u32 (MBC1_GetRAMBankOffset c + (address - 0xA000)) in
    if offset <? vector_size (MBC1_m_ram c)
    then mkMBC1 (MBC1_m_rom c) (array_set (MBC1_m_ram c) offset value)
                (MBC1_m_ram_enabled c) (MBC1_m_rom_bank c) (MBC1_m_ram_bank c)
                (MBC1_m_banking_mode c)
    else c.

(** *** MBC3 *)

Definition MBC3_new (rom_data : list Z) (has_rtc : bool) : MBC3 :=
  {| MBC3_m_rom := rom_data;
     MBC3_m_ram := replicate (32 * 1024) 0;
     MBC3_m_ram_enabled := false;
     MBC3_m_rom_bank := 1;
     MBC3_m_ram_bank := 0;
     MBC3_m_has_rtc := has_rtc;
     MBC3_m_rtc_seconds := 0;
     MBC3_m_rtc_minutes := 0;
     MBC3_m_rtc_hours := 0;
     MBC3_m_rtc_days_low := 0;
     MBC3_m_rtc_days_high := 0;
     MBC3_m_rtc_latch_data := 0;
     MBC3_m_rtc_latched := false |}.

Definition MBC3_set_ram_enabled (v : bool) (c : MBC3) : MBC3 :=
  mkMBC3 (MBC3_m_rom c) (MBC3_m_ram c) v (MBC3_m_rom_bank c) (MBC3_m_ram_bank c)
         (MBC3_m_has_rtc c) (MBC3_m_rtc_seconds c) (MBC3_m_rtc_minutes c)
         (MBC3_m_rtc_hours c) (MBC3_m_rtc_days_low c) (MBC3_m_rtc_days_high c)
         (MBC3_m_rtc_latch_data c) (MBC3_m_rtc_latched c).

Definition MBC3_set_rom_bank (v : Z) (c : MBC3) : MBC3 :=
  mkMBC3 (MBC3_m_rom c) (MBC3_m_ram c) (MBC3_m_ram_enabled c) v (MBC3_m_ram_bank c)
         (MBC3_m_has_rtc c) (MBC3_m_rtc_seconds c) (MBC3_m_rtc_minutes c)
         (MBC3_m_rtc_hours c) (MBC3_m_rtc_days_low c) (MBC3_m_rtc_days_high c)
         (MBC3_m_rtc_latch_data c) (MBC3_m_rtc_latched c).

Definition MBC3_set_ram_bank (v : Z) (c : MBC3) : MBC3 :=
  mkMBC3 (MBC3_m_rom c) (MBC3_m_ram c) (MBC3_m_ram_enabled c) (MBC3_m_rom_bank c) v
         (MBC3_m_has_rtc c) (MBC3_m_rtc_seconds c) (MBC3_m_rtc_minutes c)
         (MBC3_m_rtc_hours c) (MBC3_m_rtc_days_low c) (MBC3_m_rtc_days_high c)
         (MBC3_m_rtc_latch_data c) (MBC3_m_rtc_latched c).

Definition MBC3_set_ram (v : list Z) (c : MBC3) : MBC3 :=
  mkMBC3 (MBC3_m_rom c) v (MBC3_m_ram_enabled c) (MBC3_m_rom_bank c) (MBC3_m_ram_bank c)
         (MBC3_m_has_rtc c) (MBC3_m_rtc_seconds c) (MBC3_m_rtc_minutes c)
         (MBC3_m_rtc_hours c) (MBC3_m_rtc_days_low c) (MBC3_m_rtc_days_high c)
         (MBC3_m_rtc_latch_data c) (MBC3_m_rtc_latched c).

(** The five RTC registers, by the register index that selects them. *)
Definition MBC3_set_rtc (index v : Z) (c : MBC3) : MBC3 :=
  mkMBC3 (MBC3_m_rom c) (MBC3_m_ram c) (MBC3_m_ram_enabled c) (MBC3_m_rom_bank c)
         (MBC3_m_ram_bank c) (MBC3_m_has_rtc c)
         (if index =? 0x08 then v else MBC3_m_rtc_seconds c)
         (if index =? 0x09 then v else MBC3_m_rtc_minutes c)
         (if index =? 0x0A then v else MBC3_m_rtc_hours c)
         (if index =? 0x0B then v else MBC3_m_rtc_days_low c)
         (if index =? 0x0C then v else MBC3_m_rtc_days_high c)
         (MBC3_m_rtc_latch_data c) (MBC3_m_rtc_latched c).

Definition MBC3_set_latch (data : Z) (latched : bool) (c : MBC3) : MBC3 :=
  mkMBC3 (MBC3_m_rom c) (MBC3_m_ram c) (MBC3_m_ram_enabled c) (MBC3_m_rom_bank c)
         (MBC3_m_ram_bank c) (MBC3_m_has_rtc c) (MBC3_m_rtc_seconds c)
         (MBC3_m_rtc_minutes c) (MBC3_m_rtc_hours c) (MBC3_m_rtc_days_low c)
         (MBC3_m_rtc_days_high c) data latched.

Definition MBC3_GetROMBankOffset (c : MBC3) : Z :=
  let bank := Z.land (MBC3_m_rom_bank c) 0x7F in
  let bank := if bank =? 0 then 1 else bank in
  u32 (bank * 0x4000).

Definition MBC3_GetRAMBankOffset (c : MBC3) : Z :=
  u32 (Z.land (MBC3_m_ram_bank c) 0x03 * 0x2000).

Definition MBC3_Read (c : MBC3) (address : Z) : option Z :=
  if address <=? 0x3FFF then
    vector_get (MBC3_m_rom c) address
  else if address <=? 0x7FFF then
    let offset := u32 (MBC3_GetROMBankOffset c + (address - 0x4000)) in
    if offset <? vector_size (MBC3_m_rom c)
    then vector_get (MBC3_m_rom c) offset
    else Some 0xFF
  else Some 0xFF.

Definition MBC3_Write (c : MBC3) (address value : Z) : MBC3 :=
  if address <=? 0x1FFF then
    MBC3_set_ram_enabled (Z.land value 0x0F =? 0x0A) c
  else if address <=? 0x3FFF then
    let rom_bank := Z.land value 0x7F in
    MBC3_set_rom_bank (if rom_bank =? 0 then 1 else rom_bank) c
  else if address <=? 0x5FFF then
    MBC3_set_ram_bank value c
  else if address <=? 0x7FFF then
    let latched :=
      if (MBC3_m_rtc_latch_data c =? 0x00) && (value =? 0x01)
      then true else MBC3_m_rtc_latched c in
    MBC3_set_latch value latched c
  else c.

Definition MBC3_ReadRAM (c : MBC3) (address : Z) : option Z :=
  if negb (MBC3_m_ram_enabled c) then Some 0xFF
  else if MBC3_m_ram_bank c <=? 0x03 then
    let offset := u32 (MBC3_GetRAMBankOffset c + (address - 0xA000)) in
    if offset <? vector_size (MBC3_m_ram c)
    then vector_get (MBC3_m_ram c) offset
    else Some 0xFF
  else if MBC3_m_has_rtc c && (0x08 <=? MBC3_m_ram_bank c) && (MBC3_m_ram_bank c <=? 0x0C) then
    match MBC3_m_ram_bank c with
    | 0x08 => Some (MBC3_m_rtc_seconds c)
    | 0x09 => Some (MBC3_m_rtc_minutes c)
    | 0x0A => Some (MBC3_m_rtc_hours c)
    | 0x0B => Some (MBC3_m_rtc_days_low c)
    | 0x0C => Some (MBC3_m_rtc_days_high c)
    | _ => Some 0xFF
    end
  else Some 0xFF.

Definition MBC3_WriteRAM (c : MBC3) (address value : Z) : MBC3 :=
  if negb (MBC3_m_ram_enabled c) then c
  else if MBC3_m_ram_bank c <=? 0x03 then
    let offset := u32 (MBC3_GetRAMBankOffset c + (address - 0xA000)) in
    if offset <? vector_size (MBC3_m_ram c)
    then MBC3_set_ram (array_set (MBC3_m_ram c) offset value) c
    else c
  else if MBC3_m_has_rtc c && (0x08 <=? MBC3_m_ram_bank c) && (MBC3_m_ram_bank c <=? 0x0C) then
    MBC3_set_rtc (MBC3_m_ram_bank c) value c
  else c.

(** *** MBC5 *)

Definition MBC5_new (rom_data : list Z) : MBC5 :=
  {| MBC5_m_rom := rom_data;
     MBC5_m_ram := replicate (128 * 1024) 0;
     MBC5_m_ram_enabled := false;
     MBC5_m_rom_bank := 1;
     MBC5_m_ram_bank := 0 |}.

Definition MBC5_GetROMBankOffset (c : MBC5) : Z := u32 (MBC5_m_rom_bank c * 0x4000).

Definition MBC5_GetRAMBankOffset (c : MBC5) : Z :=
  u32 (Z.land (MBC5_m_ram_bank c) 0x0F * 0x2000).

Definition MBC5_Read (c : MBC5) (address : Z) : option Z :=
  if address <=? 0x3FFF then
    vector_get (MBC5_m_rom c) address
  else if address <=? 0x7FFF then
    let offset := u32 (MBC5_GetROMBankOffset c + (address - 0x4000)) in
    if offset <? vector_size (MBC5_m_rom c)
    then vector_get (MBC5_m_rom c) offset
    else Some 0xFF
  else Some 0xFF.

Definition MBC5_Write (c : MBC5) (address value : Z) : MBC5 :=
  if address <=? 0x1FFF then
    mkMBC5 (MBC5_m_rom c) (MBC5_m_ram c) (Z.land value 0x0F =? 0x0A)
           (MBC5_m_rom_bank c) (MBC5_m_ram_bank c)
  else if address <=? 0x2FFF then
    mkMBC5 (MBC5_m_rom c) (MBC5_m_ram c) (MBC5_m_ram_enabled c)
           (u16 (Z.lor (Z.land (MBC5_m_rom_bank c) 0x100) value)) (MBC5_m_ram_bank c)
  else if address <=? 0x3FFF then
    mkMBC5 (MBC5_m_rom c) (MBC5_m_ram c) (MBC5_m_ram_enabled c)
           (u16 (Z.lor (Z.land (MBC5_m_rom_bank c) 0x0FF) (Z.shiftl (Z.land value 0x01) 8)))
           (MBC5_m_ram_bank c)
  else if address <=? 0x5FFF then
    mkMBC5 (MBC5_m_rom c) (MBC5_m_ram c) (MBC5_m_ram_enabled c)
           (MBC5_m_rom_bank c) (Z.land value 0x0F)
  else c.

Definition MBC5_ReadRAM (c : MBC5) (address : Z) : option Z :=
  if negb (MBC5_m_ram_enabled c) then Some 0xFF
  else
    let offset := u32 (MBC5_GetRAMBankOffset c + (address - 0xA000)) in
    if offset <? vector_size (MBC5_m_ram c)
    then vector_get (MBC5_m_ram c) offset
    else Some 0xFF.

Definition MBC5_WriteRAM (c : MBC5) (address value : Z) : MBC5 :=
  if negb (MBC5_m_ram_enabled c) then c
  else
    let offset := u32 (MBC5_GetRAMBankOffset c + (address - 0xA000)) in
    if offset <? vector_size (MBC5_m_ram c)
    then mkMBC5 (MBC5_m_rom c) (array_set (MBC5_m_ram c) offset value)
                (MBC5_m_ram_enabled c) (MBC5_m_rom_bank c) (MBC5_m_ram_bank c)
    else c.

(** *** The virtual interface of [MBC] and its factory *)

Definition MBC_Read (c : MBC) (address : Z) : option Z :=
  match c with
  | Cart_MBC0 c => MBC0_Read c address
  | Cart_MBC1 c => MBC1_Read c address
  | Cart_MBC3 c => MBC3_Read c address
  | Cart_MBC5 c => MBC5_Read c address
  end.

Definition MBC_Write (c : MBC) (address value : Z) : MBC :=
  match c with
  | Cart_MBC0 c => Cart_MBC0 (MBC0_Write c address value)
  | Cart_MBC1 c => Cart_MBC1 (MBC1_Write c address value)
  | Cart_MBC3 c => Cart_MBC3 (MBC3_Write c address value)
  | Cart_MBC5 c => Cart_MBC5 (MBC5_Write c address value)
  end.

Definition MBC_ReadRAM (c : MBC) (address : Z) : option Z :=
  match c with
  | Cart_MBC0 c => MBC0_ReadRAM c address
  | Cart_MBC1 c => MBC1_ReadRAM c address
  | Cart_MBC3 c => MBC3_ReadRAM c address
  | Cart_MBC5 c => MBC5_ReadRAM c address
  end.

Definition MBC_WriteRAM (c : MBC) (address value : Z) : MBC :=
  match c with
  | Cart_MBC0 c => Cart_MBC0 (MBC0_WriteRAM c address value)
  | Cart_MBC1 c => Cart_MBC1 (MBC1_WriteRAM c address value)
  | Cart_MBC3 c => Cart_MBC3 (MBC3_WriteRAM c address value)
  | Cart_MBC5 c => Cart_MBC5 (MBC5_WriteRAM c address value)
  end.

Definition MBC_rom (c : MBC) : list Z :=
  match c with
  | Cart_MBC0 c => MBC0_m_rom c
  | Cart_MBC1 c => MBC1_m_rom c
  | Cart_MBC3 c => MBC3_m_rom c
  | Cart_MBC5 c => MBC5_m_rom c
  end.

(** [MBC::Create]: [None] is the null pointer returned for an unsupported
    cartridge type. *)
Definition MBC_Create (cartridge_type : Z) (rom_data : list Z) : option MBC :=
  match cartridge_type with
  | 0x00 => Some (Cart_MBC0 (MBC0_new rom_data))
  | 0x01 | 0x02 | 0x03 => Some (Cart_MBC1 (MBC1_new rom_data))
  | 0x0F | 0x10 | 0x11 | 0x12 | 0x13 =>
      Some (Cart_MBC3 (MBC3_new rom_data ((cartridge_type =? 0x0F) || (cartridge_type =? 0x10))))
  | 0x19 | 0x1A | 0x1B | 0x1C | 0x1D | 0x1E => Some (Cart_MBC5 (MBC5_new rom_data))
  | _ => None
  end.

(** ** State of the components

    The processor, the picture unit and the timer each hold a reference to
    the one memory bus; the closures that the picture unit and the timer
    register with the bus capture their owner.  The state reachable through
    the bus is therefore one record, [Bus]. *)

(** [PPU::Mode], with the values of the enumeration. *)
Inductive Mode := HBLANK | VBLANK | OAM_SCAN | DRAWING.

Definition Mode_to_u8 (m : Mode) : Z :=
  match m with HBLANK => 0 | VBLANK => 1 | OAM_SCAN => 2 | DRAWING => 3 end.

(** [PPU::Sprite]. *)
Record Sprite := mkSprite {
  sprite_y : Z;
  sprite_x : Z;
  sprite_tile : Z;
  sprite_flags : Z }.

Definition Sprite_priority (s : Sprite) : bool := Z.land (sprite_flags s) 0x80 =? 0.
Definition Sprite_y_flip (s : Sprite) : bool := nonzero (Z.land (sprite_flags s) 0x40).
Definition Sprite_x_flip (s : Sprite) : bool := nonzero (Z.land (sprite_flags s) 0x20).
Definition Sprite_palette (s : Sprite) : Z := if nonzero (Z.land (sprite_flags s) 0x10) then 1 else 0.

(** A non-null entry of a page table: a pointer into [m_vram] or [m_wram]. *)
Inductive PagePtr :=
| vram_data (offset : Z)
| wram_data (offset : Z).

(** The closures passed to [Memory::RegisterIOHandler], named by the
    register they serve.  Their bodies are [IOReadHandler_call] and
    [IOWriteHandler_call] below. *)
Inductive IOReadHandler :=
| PPU_read_LCDC | PPU_read_STAT | PPU_read_SCY | PPU_read_SCX | PPU_read_LY
| PPU_read_LYC | PPU_read_BGP | PPU_read_OBP0 | PPU_read_OBP1 | PPU_read_WY
| PPU_read_WX
| Timer_read_DIV | Timer_read_TIMA | Timer_read_TMA | Timer_read_TAC.

Inductive IOWriteHandler :=
| PPU_write_LCDC | PPU_write_STAT | PPU_write_SCY | PPU_write_SCX | PPU_write_LY
| PPU_write_LYC | PPU_write_BGP | PPU_write_OBP0 | PPU_write_OBP1 | PPU_write_WY
| PPU_write_WX
| Timer_write_DIV | Timer_write_TIMA | Timer_write_TMA | Timer_write_TAC.

(** [Timer] (core/timer/timer.hpp): the 16-bit divider, TIMA, TMA, TAC and the
    residual cycle counter of TIMA. *)
Record Timer := mkTimer {
  m_div_counter : Z;
  m_tima : Z;
  m_tma : Z;
  m_tac : Z;
  m_timer_counter : Z }.

Definition set_m_div_counter (v : Z) (x : Timer) : Timer :=
  mkTimer v (m_tima x) (m_tma x) (m_tac x) (m_timer_counter x).
Definition set_m_tima (v : Z) (x : Timer) : Timer :=
  mkTimer (m_div_counter x) v (m_tma x) (m_tac x) (m_timer_counter x).
Definition set_m_tma (v : Z) (x : Timer) : Timer :=
  mkTimer (m_div_counter x) (m_tima x) v (m_tac x) (m_timer_counter x).
Definition set_m_tac (v : Z) (x : Timer) : Timer :=
  mkTimer (m_div_counter x) (m_tima x) (m_tma x) v (m_timer_counter x).
Definition set_m_timer_counter (v : Z) (x : Timer) : Timer :=
  mkTimer (m_div_counter x) (m_tima x) (m_tma x) (m_tac x) v.

(** [PPU] (core/ppu/ppu.hpp). *)
Record PPU := mkPPU {
  m_mode : Mode;
  m_cycle_counter : Z;
  m_scanline : Z;
  m_frame_ready : bool;
  m_framebuffer : list Z;
  m_sprite_buffer : list Sprite;
  m_sprite_count : Z;
  m_lcdc : Z;
  m_stat : Z;
  m_scy : Z;
  m_scx : Z;
  m_lyc : Z;
  m_bgp : Z;
  m_obp0 : Z;
  m_obp1 : Z;
  m_wy : Z;
  m_wx : Z }.

Definition set_m_mode (v : Mode) (x : PPU) : PPU :=
  mkPPU v (m_cycle_counter x) (m_scanline x) (m_frame_ready x) (m_framebuffer x)
    (m_sprite_buffer x) (m_sprite_count x) (m_lcdc x) (m_stat x) (m_scy x) (m_scx x)
    (m_lyc x) (m_bgp x) (m_obp0 x) (m_obp1 x) (m_wy x) (m_wx x).
Definition set_m_cycle_counter (v : Z) (x : PPU) : PPU :=
  mkPPU (m_mode x) v (m_scanline x) (m_frame_ready x) (m_framebuffer x) (m_sprite_buffer
    x) (m_sprite_count x) (m_lcdc x) (m_stat x) (m_scy x) (m_scx x) (m_lyc x) (m_bgp x)
    (m_obp0 x) (m_obp1 x) (m_wy x) (m_wx x).
Definition set_m_scanline (v : Z) (x : PPU) : PPU :=
  mkPPU (m_mode x) (m_cycle_counter x) v (m_frame_ready x) (m_framebuffer x)
    (m_sprite_buffer x) (m_sprite_count x) (m_lcdc x) (m_stat x) (m_scy x) (m_scx x)
    (m_lyc x) (m_bgp x) (m_obp0 x) (m_obp1 x) (m_wy x) (m_wx x).
Definition set_m_frame_ready (v : bool) (x : PPU) : PPU :=
  mkPPU (m_mode x) (m_cycle_counter x) (m_scanline x) v (m_framebuffer x)
    (m_sprite_buffer x) (m_sprite_count x) (m_lcdc x) (m_stat x) (m_scy x) (m_scx x)
    (m_lyc x) (m_bgp x) (m_obp0 x) (m_obp1 x) (m_wy x) (m_wx x).
Definition set_m_framebuffer (v : list Z) (x : PPU) : PPU :=
  mkPPU (m_mode x) (m_cycle_counter x) (m_scanline x) (m_frame_ready x) v
    (m_sprite_buffer x) (m_sprite_count x) (m_lcdc x) (m_stat x) (m_scy x) (m_scx x)
    (m_lyc x) (m_bgp x) (m_obp0 x) (m_obp1 x) (m_wy x) (m_wx x).
Definition set_m_sprite_buffer (v : list Sprite) (x : PPU) : PPU :=
  mkPPU (m_mode x) (m_cycle_counter x) (m_scanline x) (m_frame_ready x) (m_framebuffer
    x) v (m_sprite_count x) (m_lcdc x) (m_stat x) (m_scy x) (m_scx x) (m_lyc x) (m_bgp
    x) (m_obp0 x) (m_obp1 x) (m_wy x) (m_wx x).
Definition set_m_sprite_count (v : Z) (x : PPU) : PPU :=
  mkPPU (m_mode x) (m_cycle_counter x) (m_scanline x) (m_frame_ready x) (m_framebuffer
    x) (m_sprite_buffer x) v (m_lcdc x) (m_stat x) (m_scy x) (m_scx x) (m_lyc x) (m_bgp
    x) (m_obp0 x) (m_obp1 x) (m_wy x) (m_wx x).
Definition set_m_lcdc (v : Z) (x : PPU) : PPU :=
  mkPPU (m_mode x) (m_cycle_counter x) (m_scanline x) (m_frame_ready x) (m_framebuffer
    x) (m_sprite_buffer x) (m_sprite_count x) v (m_stat x) (m_scy x) (m_scx x) (m_lyc x)
    (m_bgp x) (m_obp0 x) (m_obp1 x) (m_wy x) (m_wx x).
Definition set_m_stat (v : Z) (x : PPU) : PPU :=
  mkPPU (m_mode x) (m_cycle_counter x) (m_scanline x) (m_frame_ready x) (m_framebuffer
    x) (m_sprite_buffer x) (m_sprite_count x) (m_lcdc x) v (m_scy x) (m_scx x) (m_lyc x)
    (m_bgp x) (m_obp0 x) (m_obp1 x) (m_wy x) (m_wx x).
Definition set_m_scy (v : Z) (x : PPU) : PPU :=
  mkPPU (m_mode x) (m_cycle_counter x) (m_scanline x) (m_frame_ready x) (m_framebuffer
    x) (m_sprite_buffer x) (m_sprite_count x) (m_lcdc x) (m_stat x) v (m_scx x) (m_lyc
    x) (m_bgp x) (m_obp0 x) (m_obp1 x) (m_wy x) (m_wx x).
Definition set_m_scx (v : Z) (x : PPU) : PPU :=
  mkPPU (m_mode x) (m_cycle_counter x) (m_scanline x) (m_frame_ready x) (m_framebuffer
    x) (m_sprite_buffer x) (m_sprite_count x) (m_lcdc x) (m_stat x) (m_scy x) v (m_lyc
    x) (m_bgp x) (m_obp0 x) (m_obp1 x) (m_wy x) (m_wx x).
Definition set_m_lyc (v : Z) (x : PPU) : PPU :=
  mkPPU (m_mode x) (m_cycle_counter x) (m_scanline x) (m_frame_ready x) (m_framebuffer
    x) (m_sprite_buffer x) (m_sprite_count x) (m_lcdc x) (m_stat x) (m_scy x) (m_scx x)
    v (m_bgp x) (m_obp0 x) (m_obp1 x) (m_wy x) (m_wx x).
Definition set_m_bgp (v : Z) (x : PPU) : PPU :=
  mkPPU (m_mode x) (m_cycle_counter x) (m_scanline x) (m_frame_ready x) (m_framebuffer
    x) (m_sprite_buffer x) (m_sprite_count x) (m_lcdc x) (m_stat x) (m_scy x) (m_scx x)
    (m_lyc x) v (m_obp0 x) (m_obp1 x) (m_wy x) (m_wx x).
Definition set_m_obp0 (v : Z) (x : PPU) : PPU :=
  mkPPU (m_mode x) (m_cycle_counter x) (m_scanline x) (m_frame_ready x) (m_framebuffer
    x) (m_sprite_buffer x) (m_sprite_count x) (m_lcdc x) (m_stat x) (m_scy x) (m_scx x)
    (m_lyc x) (m_bgp x) v (m_obp1 x) (m_wy x) (m_wx x).
Definition set_m_obp1 (v : Z) (x : PPU) : PPU :=
  mkPPU (m_mode x) (m_cycle_counter x) (m_scanline x) (m_frame_ready x) (m_framebuffer
    x) (m_sprite_buffer x) (m_sprite_count x) (m_lcdc x) (m_stat x) (m_scy x) (m_scx x)
    (m_lyc x) (m_bgp x) (m_obp0 x) v (m_wy x) (m_wx x).
Definition set_m_wy (v : Z) (x : PPU) : PPU :=
  mkPPU (m_mode x) (m_cycle_counter x) (m_scanline x) (m_frame_ready x) (m_framebuffer
    x) (m_sprite_buffer x) (m_sprite_count x) (m_lcdc x) (m_stat x) (m_scy x) (m_scx x)
    (m_lyc x) (m_bgp x) (m_obp0 x) (m_obp1 x) v (m_wx x).
Definition set_m_wx (v : Z) (x : PPU) : PPU :=
  mkPPU (m_mode x) (m_cycle_counter x) (m_scanline x) (m_frame_ready x) (m_framebuffer
    x) (m_sprite_buffer x) (m_sprite_count x) (m_lcdc x) (m_stat x) (m_scy x) (m_scx x)
    (m_lyc x) (m_bgp x) (m_obp0 x) (m_obp1 x) (m_wy x) v.

(** [Memory] (core/memory/memory.hpp). *)
Record Memory := mkMemory {
  m_wram : list Z;
  m_vram : list Z;
  m_oam : list Z;
  m_hram : list Z;
  m_io : list Z;
  m_ie_register : Z;
  m_read_page_table : list (option PagePtr);
  m_write_page_table : list (option PagePtr);
  m_mbc : option MBC;
  m_io_read_handlers : list (option IOReadHandler);
  m_io_write_handlers : list (option IOWriteHandler) }.

Definition set_m_wram (v : list Z) (x : Memory) : Memory :=
  mkMemory v (m_vram x) (m_oam x) (m_hram x) (m_io x) (m_ie_register x)
    (m_read_page_table x) (m_write_page_table x) (m_mbc x) (m_io_read_handlers x)
    (m_io_write_handlers x).
Definition set_m_vram (v : list Z) (x : Memory) : Memory :=
  mkMemory (m_wram x) v (m_oam x) (m_hram x) (m_io x) (m_ie_register x)
    (m_read_page_table x) (m_write_page_table x) (m_mbc x) (m_io_read_handlers x)
    (m_io_write_handlers x).
Definition set_m_oam (v : list Z) (x : Memory) : Memory :=
  mkMemory (m_wram x) (m_vram x) v (m_hram x) (m_io x) (m_ie_register x)
    (m_read_page_table x) (m_write_page_table x) (m_mbc x) (m_io_read_handlers x)
    (m_io_write_handlers x).
Definition set_m_hram (v : list Z) (x : Memory) : Memory :=
  mkMemory (m_wram x) (m_vram x) (m_oam x) v (m_io x) (m_ie_register x)
    (m_read_page_table x) (m_write_page_table x) (m_mbc x) (m_io_read_handlers x)
    (m_io_write_handlers x).
Definition set_m_io (v : list Z) (x : Memory) : Memory :=
  mkMemory (m_wram x) (m_vram x) (m_oam x) (m_hram x) v (m_ie_register x)
    (m_read_page_table x) (m_write_page_table x) (m_mbc x) (m_io_read_handlers x)
    (m_io_write_handlers x).
Definition set_m_ie_register (v : Z) (x : Memory) : Memory :=
  mkMemory (m_wram x) (m_vram x) (m_oam x) (m_hram x) (m_io x) v (m_read_page_table x)
    (m_write_page_table x) (m_mbc x) (m_io_read_handlers x) (m_io_write_handlers x).
Definition set_m_read_page_table (v : list (option PagePtr)) (x : Memory) : Memory :=
  mkMemory (m_wram x) (m_vram x) (m_oam x) (m_hram x) (m_io x) (m_ie_register x) v
    (m_write_page_table x) (m_mbc x) (m_io_read_handlers x) (m_io_write_handlers x).
Definition set_m_write_page_table (v : list (option PagePtr)) (x : Memory) : Memory :=
  mkMemory (m_wram x) (m_vram x) (m_oam x) (m_hram x) (m_io x) (m_ie_register x)
    (m_read_page_table x) v (m_mbc x) (m_io_read_handlers x) (m_io_write_handlers x).
Definition set_m_mbc (v : option MBC) (x : Memory) : Memory :=
  mkMemory (m_wram x) (m_vram x) (m_oam x) (m_hram x) (m_io x) (m_ie_register x)
    (m_read_page_table x) (m_write_page_table x) v (m_io_read_handlers x)
    (m_io_write_handlers x).
Definition set_m_io_read_handlers (v : list (option IOReadHandler)) (x : Memory) : Memory :=
  mkMemory (m_wram x) (m_vram x) (m_oam x) (m_hram x) (m_io x) (m_ie_register x)
    (m_read_page_table x) (m_write_page_table x) (m_mbc x) v (m_io_write_handlers x).
Definition set_m_io_write_handlers (v : list (option IOWriteHandler)) (x : Memory) : Memory :=
  mkMemory (m_wram x) (m_vram x) (m_oam x) (m_hram x) (m_io x) (m_ie_register x)
    (m_read_page_table x) (m_write_page_table x) (m_mbc x) (m_io_read_handlers x) v.

(** The memory bus together with the two components whose closures it holds. *)
Record Bus := mkBus {
  memory : Memory;
  ppu : PPU;
  timer : Timer }.

Definition set_memory (v : Memory) (x : Bus) : Bus :=
  mkBus v (ppu x) (timer x).
Definition set_ppu (v : PPU) (x : Bus) : Bus :=
  mkBus (memory x) v (timer x).
Definition set_timer (v : Timer) (x : Bus) : Bus :=
  mkBus (memory x) (ppu x) v.

Definition set_ppu_of (f : PPU -> PPU) (b : Bus) : Bus := set_ppu (f (ppu b)) b.
Definition set_timer_of (f : Timer -> Timer) (b : Bus) : Bus := set_timer (f (timer b)) b.
Definition set_memory_of (f : Memory -> Memory) (b : Bus) : Bus := set_memory (f (memory b)) b.

(** ** core/memory/memory.hpp: the memory map *)

Definition ROM_BANK_0_START : Z := 0x0000.
Definition ROM_BANK_0_END : Z := 0x3FFF.
Definition ROM_BANK_N_START : Z := 0x4000.
Definition ROM_BANK_N_END : Z := 0x7FFF.
Definition VRAM_START : Z := 0x8000.
Definition VRAM_END : Z := 0x9FFF.
Definition EXTERNAL_RAM_START : Z := 0xA000.
Definition EXTERNAL_RAM_END : Z := 0xBFFF.
Definition WRAM_START : Z := 0xC000.
Definition WRAM_END : Z := 0xDFFF.
Definition ECHO_RAM_START : Z := 0xE000.
Definition ECHO_RAM_END : Z := 0xFDFF.
Definition OAM_START : Z := 0xFE00.
Definition OAM_END : Z := 0xFE9F.
Definition UNUSABLE_START : Z := 0xFEA0.
Definition UNUSABLE_END : Z := 0xFEFF.
Definition IO_START : Z := 0xFF00.
Definition IO_END : Z := 0xFF7F.
Definition HRAM_START : Z := 0xFF80.
Definition HRAM_END : Z := 0xFFFE.
Definition IE_REGISTER : Z := 0xFFFF.

Definition WRAM_SIZE : Z := 8192.
Definition VRAM_SIZE : Z := 8192.
Definition OAM_SIZE : Z := 160.
Definition HRAM_SIZE : Z := 127.
Definition IO_SIZE : Z := 128.

Definition PAGE_SIZE : Z := 256.
Definition PAGE_COUNT : Z := 256.

(** ** The closures of [Timer::RegisterIOHandlers] and [PPU::RegisterIOHandlers] *)

Definition Timer_IsTimerEnabled (t : Timer) : bool := nonzero (Z.land (m_tac t) 0x04).

Definition IOReadHandler_call (h : IOReadHandler) (b : Bus) (address : Z) : Z :=
  match h with
  | PPU_read_LCDC => m_lcdc (ppu b)
  | PPU_read_STAT => m_stat (ppu b)
  | PPU_read_SCY => m_scy (ppu b)
  | PPU_read_SCX => m_scx (ppu b)
  | PPU_read_LY => m_scanline (ppu b)
  | PPU_read_LYC => m_lyc (ppu b)
  | PPU_read_BGP => m_bgp (ppu b)
  | PPU_read_OBP0 => m_obp0 (ppu b)
  | PPU_read_OBP1 => m_obp1 (ppu b)
  | PPU_read_WY => m_wy (ppu b)
  | PPU_read_WX => m_wx (ppu b)
  | Timer_read_DIV => u8 (Z.shiftr (m_div_counter (timer b)) 8)
  | Timer_read_TIMA => m_tima (timer b)
  | Timer_read_TMA => m_tma (timer b)
  | Timer_read_TAC => Z.lor (m_tac (timer b)) 0xF8
  end.

Definition IOWriteHandler_call (h : IOWriteHandler) (b : Bus) (address value : Z) : Bus :=
  match h with
  | PPU_write_LCDC => set_ppu_of (set_m_lcdc value) b
  | PPU_write_STAT =>
      set_ppu_of (fun p => set_m_stat (Z.lor (Z.land value 0xF8) (Z.land (m_stat p) 0x07)) p) b
  | PPU_write_SCY => set_ppu_of (set_m_scy value) b
  | PPU_write_SCX => set_ppu_of (set_m_scx value) b
  | PPU_write_LY => b
  | PPU_write_LYC => set_ppu_of (set_m_lyc value) b
  | PPU_write_BGP => set_ppu_of (set_m_bgp value) b
  | PPU_write_OBP0 => set_ppu_of (set_m_obp0 value) b
  | PPU_write_OBP1 => set_ppu_of (set_m_obp1 value) b
  | PPU_write_WY => set_ppu_of (set_m_wy value) b
  | PPU_write_WX => set_ppu_of (set_m_wx value) b
  | Timer_write_DIV => set_timer_of (set_m_div_counter 0) b
  | Timer_write_TIMA =>
      set_timer_of (fun t => set_m_timer_counter 0 (set_m_tima value t)) b
  | Timer_write_TMA => set_timer_of (set_m_tma value) b
  | Timer_write_TAC =>
      set_timer_of (fun t =>
        let was_enabled := Timer_IsTimerEnabled t in
        let t := set_m_tac (Z.land value 0x07) t in
        if negb (eqb was_enabled (Timer_IsTimerEnabled t))
        then set_m_timer_counter 0 t
        else t) b
  end.

(** ** core/memory/memory.cpp *)

(** The two page tables are filled side by side, entry by entry. *)
Definition Memory_map_page (page_index : Z) (p : PagePtr) (m : Memory) : Memory :=
  set_m_write_page_table (<[Z.to_nat page_index := Some p]> (m_write_page_table m))
    (set_m_read_page_table (<[Z.to_nat page_index := Some p]> (m_read_page_table m)) m).

Definition Memory_InitializePageTables (m : Memory) : Memory :=
  let m := set_m_read_page_table (replicate (Z.to_nat PAGE_COUNT) None) m in
  let m := set_m_write_page_table (replicate (Z.to_nat PAGE_COUNT) None) m in
  let m := fold_left (fun m i =>
             let page_index := u16 ((VRAM_START + i * PAGE_SIZE) / PAGE_SIZE) in
             Memory_map_page page_index (vram_data (i * PAGE_SIZE)) m)
           (seqZ 0 32) m in
  let m := fold_left (fun m i =>
             let page_index := u16 ((WRAM_START + i * PAGE_SIZE) / PAGE_SIZE) in
             Memory_map_page page_index (wram_data (i * PAGE_SIZE)) m)
           (seqZ 0 32) m in
  let m := fold_left (fun m i =>
             let page_index := u16 ((ECHO_RAM_START + i * PAGE_SIZE) / PAGE_SIZE) in
             let wram_offset := i * PAGE_SIZE in
             if wram_offset <? WRAM_SIZE
             then Memory_map_page page_index (wram_data wram_offset) m
             else m)
           (seqZ 0 30) m in
  m.

Definition Memory_Reset (m : Memory) : Memory :=
  let m := set_m_wram (replicate (Z.to_nat WRAM_SIZE) 0) m in
  let m := set_m_vram (replicate (Z.to_nat VRAM_SIZE) 0) m in
  let m := set_m_oam (replicate (Z.to_nat OAM_SIZE) 0) m in
  let m := set_m_hram (replicate (Z.to_nat HRAM_SIZE) 0) m in
  let m := set_m_io (replicate (Z.to_nat IO_SIZE) 0) m in
  let m := set_m_ie_register 0 m in
  Memory_InitializePageTables m.

(** [Memory::Memory()]: no cartridge, no handler, then [Reset]. *)
Definition Memory_new : Memory :=
  Memory_Reset
    {| m_wram := replicate (Z.to_nat WRAM_SIZE) 0;
       m_vram := replicate (Z.to_nat VRAM_SIZE) 0;
       m_oam := replicate (Z.to_nat OAM_SIZE) 0;
       m_hram := replicate (Z.to_nat HRAM_SIZE) 0;
       m_io := replicate (Z.to_nat IO_SIZE) 0;
       m_ie_register := 0;
       m_read_page_table := replicate (Z.to_nat PAGE_COUNT) None;
       m_write_page_table := replicate (Z.to_nat PAGE_COUNT) None;
       m_mbc := None;
       m_io_read_handlers := replicate (Z.to_nat IO_SIZE) None;
       m_io_write_handlers := replicate (Z.to_nat IO_SIZE) None |}.

(** [page_ptr[offset]] and [page_ptr[offset] = value]. *)
Definition PagePtr_load (m : Memory) (p : PagePtr) (offset : Z) : Z :=
  match p with
  | vram_data base => array_get (m_vram m) (base + offset)
  | wram_data base => array_get (m_wram m) (base + offset)
  end.

Definition PagePtr_store (m : Memory) (p : PagePtr) (offset value : Z) : Memory :=
  match p with
  | vram_data base => set_m_vram (array_set (m_vram m) (base + offset) value) m
  | wram_data base => set_m_wram (array_set (m_wram m) (base + offset) value) m
  end.

Definition Memory_ReadIO (b : Bus) (address : Z) : Z :=
  let offset := u16 (address - IO_START) in
  match default None (m_io_read_handlers (memory b) !! Z.to_nat offset) with
  | Some handler => IOReadHandler_call handler b address
  | None => array_get (m_io (memory b)) offset
  end.

Definition Memory_WriteIO (b : Bus) (address value : Z) : Bus :=
  let offset := u16 (address - IO_START) in
  match default None (m_io_write_handlers (memory b) !! Z.to_nat offset) with
  | Some handler => IOWriteHandler_call handler b address value
  | None => set_memory_of (fun m => set_m_io (array_set (m_io m) offset value) m) b
  end.

(** [Memory::Read].  The result is [None] when the cartridge controller
    subscripts its ROM vector out of range. *)
Definition Memory_Read (b : Bus) (address : Z) : option Z :=
  let m := memory b in
  let page := u8 (address / PAGE_SIZE) in
  let offset := u8 (address mod PAGE_SIZE) in
  match default None (m_read_page_table m !! Z.to_nat page) with
  | Some page_ptr => Some (PagePtr_load m page_ptr offset)
  | None =>
    if (ROM_BANK_0_START <=? address) && (address <=? ROM_BANK_N_END) then
      match m_mbc m with
      | Some mbc => MBC_Read mbc address
      | None => Some 0xFF
      end
    else if (EXTERNAL_RAM_START <=? address) && (address <=? EXTERNAL_RAM_END) then
      match m_mbc m with
      | Some mbc => MBC_ReadRAM mbc address
      | None => Some 0xFF
      end
    else if (OAM_START <=? address) && (address <=? OAM_END) then
      Some (array_get (m_oam m) (address - OAM_START))
    else if (UNUSABLE_START <=? address) && (address <=? UNUSABLE_END) then
      Some 0xFF
    else if (IO_START <=? address) && (address <=? IO_END) then
      Some (Memory_ReadIO b address)
    else if (HRAM_START <=? address) && (address <=? HRAM_END) then
      Some (array_get (m_hram m) (address - HRAM_START))
    else if address =? IE_REGISTER then
      Some (m_ie_register m)
    else Some 0xFF
  end.

Definition Memory_Write (b : Bus) (address value : Z) : Bus :=
  let m := memory b in
  let page := u8 (address / PAGE_SIZE) in
  let offset := u8 (address mod PAGE_SIZE) in
  match default None (m_write_page_table m !! Z.to_nat page) with
  | Some page_ptr => set_memory (PagePtr_store m page_ptr offset value) b
  | None =>
    if (ROM_BANK_0_START <=? address) && (address <=? ROM_BANK_N_END) then
      match m_mbc m with
      | Some mbc => set_memory (set_m_mbc (Some (MBC_Write mbc address value)) m) b
      | None => b
      end
    else if (EXTERNAL_RAM_START <=? address) && (address <=? EXTERNAL_RAM_END) then
      match m_mbc m with
      | Some mbc => set_memory (set_m_mbc (Some (MBC_WriteRAM mbc address value)) m) b
      | None => b
      end
    else if (OAM_START <=? address) && (address <=? OAM_END) then
      set_memory (set_m_oam (array_set (m_oam m) (address - OAM_START) value) m) b
    else if (UNUSABLE_START <=? address) && (address <=? UNUSABLE_END) then
      b
    else if (IO_START <=? address) && (address <=? IO_END) then
      Memory_WriteIO b address value
    else if (HRAM_START <=? address) && (address <=? HRAM_END) then
      set_memory (set_m_hram (array_set (m_hram m) (address - HRAM_START) value) m) b
    else if address =? IE_REGISTER then
      set_memory (set_m_ie_register value m) b
    else b
  end.

Definition Memory_Read16 (b : Bus) (address : Z) : option Z :=
  match Memory_Read b address with
  | Some low =>
    match Memory_Read b (u16 (address + 1)) with
    | Some high => Some (Z.lor (Z.shiftl high 8) low)
    | None => None
    end
  | None => None
  end.

Definition Memory_Write16 (b : Bus) (address value : Z) : Bus :=
  let b := Memory_Write b address (u8 (Z.land value 0xFF)) in
  Memory_Write b (u16 (address + 1)) (u8 (Z.land (Z.shiftr value 8) 0xFF)).

(** [Memory::LoadROM]: the returned [bool] and the bus memory afterwards. *)
Definition Memory_LoadROM (m : Memory) (data : list Z) : bool * Memory :=
  if vector_size data <? 0x150 then (false, m)
  else
    let cartridge_type := array_get data 0x0147 in
    let m := set_m_mbc (MBC_Create cartridge_type data) m in
    match m_mbc m with
    | None => (false, m)
    | Some _ => (true, m)
    end.

Definition Memory_RegisterIOHandler (m : Memory) (address : Z)
    (read_handler : IOReadHandler) (write_handler : IOWriteHandler) : Memory :=
  if (address <? IO_START) || (IO_END <? address) then m
  else
    let offset := u16 (address - IO_START) in
    let m := set_m_io_read_handlers
               (<[Z.to_nat offset := Some read_handler]> (m_io_read_handlers m)) m in
    set_m_io_write_handlers
      (<[Z.to_nat offset := Some write_handler]> (m_io_write_handlers m)) m.

Definition Memory_RequestInterrupt (m : Memory) (interrupt_bit : Z) : Memory :=
  set_m_io (array_set (m_io m) 0x0F (u8 (Z.lor (array_get (m_io m) 0x0F) interrupt_bit))) m.

(** ** core/timer/timer.cpp: the timer *)

Definition Timer_Reset (t : Timer) : Timer :=
  {| m_div_counter := 0; m_tima := 0; m_tma := 0; m_tac := 0; m_timer_counter := 0 |}.

Definition Timer_UpdateDIV (cycles : Z) (t : Timer) : Timer :=
  set_m_div_counter (u16 (m_div_counter t + cycles)) t.

Definition Timer_GetTimerFrequency (t : Timer) : Z :=
  match Z.land (m_tac t) 0x03 with
  | 0 => 1024
  | 1 => 16
  | 2 => 64
  | 3 => 256
  | _ => 1024
  end.

(** One turn of the [while] loop of [Timer::UpdateTIMA]. *)
Definition Timer_UpdateTIMA_body (frequency : Z) (b : Bus) : Bus :=
  let t := timer b in
  let t := set_m_timer_counter (u32 (m_timer_counter t - frequency)) t in
  let t := set_m_tima (u8 (m_tima t + 1)) t in
  if m_tima t =? 0 then
    let t := set_m_tima (m_tma t) t in
    set_memory (Memory_RequestInterrupt (memory b) 0x04) (set_timer t b)
  else set_timer t b.

(** The loop, with a bound on the number of turns. *)
Fixpoint Timer_UpdateTIMA_loop (fuel : nat) (frequency : Z) (b : Bus) : Bus :=
  match fuel with
  | O => b
  | S fuel =>
    if frequency <=? m_timer_counter (timer b)
    then Timer_UpdateTIMA_loop fuel frequency (Timer_UpdateTIMA_body frequency b)
    else b
  end.

(** [Timer::UpdateTIMA].  Each turn takes [frequency] off the counter, so
    the quotient bounds the number of turns ([Timer_UpdateTIMA_loop_exit]
    shows that the loop condition is false at the end). *)
Definition Timer_UpdateTIMA (cycles : Z) (b : Bus) : Bus :=
  let frequency := Timer_GetTimerFrequency (timer b) in
  let b := set_timer_of (fun t => set_m_timer_counter (u32 (m_timer_counter t + cycles)) t) b in
  Timer_UpdateTIMA_loop (Z.to_nat (m_timer_counter (timer b) / frequency)) frequency b.

Definition Timer_Step (cycles : Z) (b : Bus) : Bus :=
  let b := set_timer_of (Timer_UpdateDIV cycles) b in
  if Timer_IsTimerEnabled (timer b) then Timer_UpdateTIMA cycles b else b.

Definition Timer_RegisterIOHandlers (m : Memory) : Memory :=
  let m := Memory_RegisterIOHandler m 0xFF04 Timer_read_DIV Timer_write_DIV in
  let m := Memory_RegisterIOHandler m 0xFF05 Timer_read_TIMA Timer_write_TIMA in
  let m := Memory_RegisterIOHandler m 0xFF06 Timer_read_TMA Timer_write_TMA in
  Memory_RegisterIOHandler m 0xFF07 Timer_read_TAC Timer_write_TAC.

(** [Timer::Timer(memory, scheduler)]. *)
Definition Timer_new (m : Memory) : Timer * Memory :=
  let t := {| m_div_counter := 0; m_tima := 0; m_tma := 0; m_tac := 0;
              m_timer_counter := 0 |} in
  let m := Timer_RegisterIOHandlers m in
  (Timer_Reset t, m).

(** ** core/ppu/ppu.hpp, core/ppu/ppu.cpp: the picture unit *)

Definition SCREEN_WIDTH : Z := 160.
Definition SCREEN_HEIGHT : Z := 144.

Definition CYCLES_PER_SCANLINE : Z := 456.
Definition OAM_SCAN_CYCLES : Z := 80.
Definition DRAWING_CYCLES : Z := 172.
Definition HBLANK_CYCLES : Z := 204.
Definition VBLANK_LINES : Z := 10.
Definition SCANLINES_PER_FRAME : Z := 154.

Definition LCDC_BG_ENABLE : Z := 0x01.
Definition LCDC_OBJ_ENABLE : Z := 0x02.
Definition LCDC_OBJ_SIZE : Z := 0x04.
Definition LCDC_BG_TILE_MAP : Z := 0x08.
Definition LCDC_BG_TILE_DATA : Z := 0x10.
Definition LCDC_WIN_ENABLE : Z := 0x20.
Definition LCDC_WIN_TILE_MAP : Z := 0x40.
Definition LCDC_LCD_ENABLE : Z := 0x80.

Definition STAT_MODE_FLAG : Z := 0x03.
Definition STAT_LYC_EQUAL : Z := 0x04.
Definition STAT_HBLANK_INT : Z := 0x08.
Definition STAT_VBLANK_INT : Z := 0x10.
Definition STAT_OAM_INT : Z := 0x20.
Definition STAT_LYC_INT : Z := 0x40.

Definition PPU_Reset (p : PPU) : PPU :=
  let p := set_m_framebuffer (replicate (Z.to_nat (SCREEN_WIDTH * SCREEN_HEIGHT)) 0xFFFFFFFF) p in
  let p := set_m_mode OAM_SCAN p in
  let p := set_m_cycle_counter 0 p in
  let p := set_m_scanline 0 p in
  let p := set_m_frame_ready false p in
  set_m_sprite_count 0 p.

Definition PPU_RegisterIOHandlers (m : Memory) : Memory :=
  let m := Memory_RegisterIOHandler m 0xFF40 PPU_read_LCDC PPU_write_LCDC in
  let m := Memory_RegisterIOHandler m 0xFF41 PPU_read_STAT PPU_write_STAT in
  let m := Memory_RegisterIOHandler m 0xFF42 PPU_read_SCY PPU_write_SCY in
  let m := Memory_RegisterIOHandler m 0xFF43 PPU_read_SCX PPU_write_SCX in
  let m := Memory_RegisterIOHandler m 0xFF44 PPU_read_LY PPU_write_LY in
  let m := Memory_RegisterIOHandler m 0xFF45 PPU_read_LYC PPU_write_LYC in
  let m := Memory_RegisterIOHandler m 0xFF47 PPU_read_BGP PPU_write_BGP in
  let m := Memory_RegisterIOHandler m 0xFF48 PPU_read_OBP0 PPU_write_OBP0 in
  let m := Memory_RegisterIOHandler m 0xFF49 PPU_read_OBP1 PPU_write_OBP1 in
  let m := Memory_RegisterIOHandler m 0xFF4A PPU_read_WY PPU_write_WY in
  Memory_RegisterIOHandler m 0xFF4B PPU_read_WX PPU_write_WX.

(** [PPU::PPU(memory, scheduler)]. *)
Definition PPU_new (m : Memory) : PPU * Memory :=
  let p := {| m_mode := OAM_SCAN; m_cycle_counter := 0; m_scanline := 0;
              m_frame_ready := false;
              m_framebuffer := replicate (Z.to_nat (SCREEN_WIDTH * SCREEN_HEIGHT)) 0;
              m_sprite_buffer := replicate 10 (mkSprite 0 0 0 0);
              m_sprite_count := 0;
              m_lcdc := 0x91; m_stat := 0x00; m_scy := 0; m_scx := 0; m_lyc := 0;
              m_bgp := 0xFC; m_obp0 := 0xFF; m_obp1 := 0xFF; m_wy := 0; m_wx := 0 |} in
  (PPU_Reset p, PPU_RegisterIOHandlers m).

(** [m_memory.Write(0xFF0F, m_memory.Read(0xFF0F) | mask)]. *)
Definition PPU_raise_IF (mask : Z) (b : Bus) : option Bus :=
  match Memory_Read b 0xFF0F with
  | Some if_reg => Some (Memory_Write b 0xFF0F (u8 (Z.lor if_reg mask)))
  | None => None
  end.

Definition PPU_SetMode (mode : Mode) (b : Bus) : option Bus :=
  let b := set_ppu_of (set_m_mode mode) b in
  let b := set_ppu_of (fun p =>
             set_m_stat (u8 (Z.lor (Z.land (m_stat p) 0xFC) (Mode_to_u8 mode))) p) b in
  let b := Memory_Write b 0xFF41 (m_stat (ppu b)) in
  let request_stat_int :=
    match mode with
    | HBLANK => nonzero (Z.land (m_stat (ppu b)) STAT_HBLANK_INT)
    | VBLANK => nonzero (Z.land (m_stat (ppu b)) STAT_VBLANK_INT)
    | OAM_SCAN => nonzero (Z.land (m_stat (ppu b)) STAT_OAM_INT)
    | DRAWING => false
    end in
  if request_stat_int then PPU_raise_IF 0x02 b else Some b.

Definition PPU_UpdateStatRegister (b : Bus) : option Bus :=
  let lyc_equal := m_scanline (ppu b) =? m_lyc (ppu b) in
  b ← (if lyc_equal then
         let b := set_ppu_of (fun p => set_m_stat (u8 (Z.lor (m_stat p) STAT_LYC_EQUAL)) p) b in
         if nonzero (Z.land (m_stat (ppu b)) STAT_LYC_INT)
         then PPU_raise_IF 0x02 b
         else Some b
       else
         Some (set_ppu_of (fun p =>
                 set_m_stat (u8 (Z.land (m_stat p) (Z.lnot STAT_LYC_EQUAL))) p) b));
  Some (Memory_Write b 0xFF41 (m_stat (ppu b))).

(** The body of the [for] loop of [PPU::ScanOAM], for sprite [i]. *)
Definition PPU_ScanOAM_body (oam : list Z) (sprite_height : Z) (i : Z) (p : PPU) : PPU :=
  let sprite := {| sprite_y := array_get oam (i * 4 + 0);
                   sprite_x := array_get oam (i * 4 + 1);
                   sprite_tile := array_get oam (i * 4 + 2);
                   sprite_flags := array_get oam (i * 4 + 3) |} in
  let sprite_y := s16 (sprite_y sprite - 16) in
  let scanline := s16 (m_scanline p) in
  if (sprite_y <=? scanline) && (scanline <? sprite_y + sprite_height) then
    set_m_sprite_count (u8 (m_sprite_count p + 1))
      (set_m_sprite_buffer
         (<[Z.to_nat (m_sprite_count p) := sprite]> (m_sprite_buffer p)) p)
  else p.

(** [for (u8 i = 0; i < 40 && m_sprite_count < 10; i++)] over the indices
    that remain. *)
Fixpoint PPU_ScanOAM_loop (oam : list Z) (sprite_height : Z) (indices : list Z) (p : PPU) : PPU :=
  match indices with
  | [] => p
  | i :: rest =>
    if m_sprite_count p <? 10
    then PPU_ScanOAM_loop oam sprite_height rest (PPU_ScanOAM_body oam sprite_height i p)
    else p
  end.

Definition PPU_ScanOAM (b : Bus) : Bus :=
  let p := set_m_sprite_count 0 (ppu b) in
  let oam := m_oam (memory b) in
  let sprite_height := if nonzero (Z.land (m_lcdc p) LCDC_OBJ_SIZE) then 16 else 8 in
  set_ppu (PPU_ScanOAM_loop oam sprite_height (seqZ 0 40) p) b.

Definition PPU_GetTilePixel (vram : list Z) (tile_data_addr x y : Z) : Z :=
  let addr := u16 (tile_data_addr + y * 2) in
  let byte1 := array_get vram addr in
  let byte2 := array_get vram (addr + 1) in
  let bit := u8 (7 - x) in
  u8 (Z.lor (Z.shiftl (Z.land (Z.shiftr byte2 bit) 1) 1) (Z.land (Z.shiftr byte1 bit) 1)).

Definition PPU_GetColor (palette color_id : Z) : Z :=
  let color := u8 (Z.land (Z.shiftr palette (color_id * 2)) 0x03) in
  array_get [0xFFFFFFFF; 0xFFAAAAAA; 0xFF555555; 0xFF000000] color.

(** The tile data address of a background or window tile. *)
Definition PPU_tile_addr (signed_addressing : bool) (tile_data_base tile_index : Z) : Z :=
  if signed_addressing then
    let signed_index := s8 tile_index in
    u16 (tile_data_base + (signed_index + 128) * 16)
  else
    u16 (tile_data_base + tile_index * 16).

Definition PPU_RenderBackground (scanline : Z) (b : Bus) : Bus :=
  let vram := m_vram (memory b) in
  let p := ppu b in
  let tile_map_base := if nonzero (Z.land (m_lcdc p) LCDC_BG_TILE_MAP) then 0x1C00 else 0x1800 in
  let signed_addressing := Z.land (m_lcdc p) LCDC_BG_TILE_DATA =? 0 in
  let tile_data_base := if signed_addressing then 0x1000 else 0x0000 in
  let y := u8 (scanline + m_scy p) in
  let tile_y := u8 (y / 8) in
  let pixel_y := u8 (y mod 8) in
  let framebuffer :=
    fold_left (fun fb x =>
      let scroll_x := u8 (x + m_scx p) in
      let tile_x := u8 (scroll_x / 8) in
      let pixel_x := u8 (scroll_x mod 8) in
      let tile_map_addr := u16 (tile_map_base + tile_y * 32 + tile_x) in
      let tile_index := array_get vram tile_map_addr in
      let tile_addr := PPU_tile_addr signed_addressing tile_data_base tile_index in
      let color_id := PPU_GetTilePixel vram tile_addr pixel_x pixel_y in
      let color := PPU_GetColor (m_bgp p) color_id in
      array_set fb (scanline * SCREEN_WIDTH + x) color)
    (seqZ 0 SCREEN_WIDTH) (m_framebuffer p) in
  set_ppu (set_m_framebuffer framebuffer p) b.

Definition PPU_RenderWindow (scanline : Z) (b : Bus) : Bus :=
  let p := ppu b in
  if scanline <? m_wy p then b
  else
    let vram := m_vram (memory b) in
    let tile_map_base := if nonzero (Z.land (m_lcdc p) LCDC_WIN_TILE_MAP) then 0x1C00 else 0x1800 in
    let signed_addressing := Z.land (m_lcdc p) LCDC_BG_TILE_DATA =? 0 in
    let tile_data_base := if signed_addressing then 0x1000 else 0x0000 in
    let window_y := u8 (scanline - m_wy p) in
    let tile_y := u8 (window_y / 8) in
    let pixel_y := u8 (window_y mod 8) in
    let framebuffer :=
      fold_left (fun fb x =>
        let window_x := s16 (x - (m_wx p - 7)) in
        if window_x <? 0 then fb
        else
          let tile_x := u8 (window_x / 8) in
          let pixel_x := u8 (window_x mod 8) in
          let tile_map_addr := u16 (tile_map_base + tile_y * 32 + tile_x) in
          let tile_index := array_get vram tile_map_addr in
          let tile_addr := PPU_tile_addr signed_addressing tile_data_base tile_index in
          let color_id := PPU_GetTilePixel vram tile_addr pixel_x pixel_y in
          let color := PPU_GetColor (m_bgp p) color_id in
          array_set fb (scanline * SCREEN_WIDTH + x) color)
      (seqZ 0 SCREEN_WIDTH) (m_framebuffer p) in
    set_ppu (set_m_framebuffer framebuffer p) b.

(** The pixels of one sprite on the line: the inner [for] loop of
    [PPU::RenderSprites]. *)
Definition PPU_RenderSprites_sprite (vram : list Z) (p : PPU) (scanline sprite_height : Z)
    (sprite : Sprite) (fb : list Z) : list Z :=
  let sprite_y := s16 (sprite_y sprite - 16) in
  let sprite_x := s16 (sprite_x sprite - 8) in
  let y_offset := u8 (scanline - sprite_y) in
  let y_offset := if Sprite_y_flip sprite then u8 (sprite_height - 1 - y_offset) else y_offset in
  let tile_index := sprite_tile sprite in
  let tile_index := if sprite_height =? 16 then Z.land tile_index 0xFE else tile_index in
  let tile_addr := u16 (tile_index * 16) in
  let palette := if nonzero (Sprite_palette sprite) then m_obp1 p else m_obp0 p in
  fold_left (fun fb x =>
    let screen_x := s16 (sprite_x + x) in
    if (screen_x <? 0) || (SCREEN_WIDTH <=? screen_x) then fb
    else
      let pixel_x := if Sprite_x_flip sprite then u8 (7 - x) else x in
      let color_id := PPU_GetTilePixel vram tile_addr pixel_x y_offset in
      if color_id =? 0 then fb
      else if negb (Sprite_priority sprite)
              && negb (array_get fb (scanline * SCREEN_WIDTH + screen_x) =? PPU_GetColor (m_bgp p) 0)
      then fb
      else array_set fb (scanline * SCREEN_WIDTH + screen_x) (PPU_GetColor palette color_id))
  (seqZ 0 8) fb.

Definition PPU_RenderSprites (scanline : Z) (b : Bus) : Bus :=
  let p := ppu b in
  if m_sprite_count p =? 0 then b
  else
    let vram := m_vram (memory b) in
    let sprite_height := if nonzero (Z.land (m_lcdc p) LCDC_OBJ_SIZE) then 16 else 8 in
    let framebuffer :=
      fold_left (fun fb sprite =>
        PPU_RenderSprites_sprite vram p scanline sprite_height sprite fb)
      (reverse (take (Z.to_nat (m_sprite_count p)) (m_sprite_buffer p)))
      (m_framebuffer p) in
    set_ppu (set_m_framebuffer framebuffer p) b.

Definition PPU_RenderScanline (b : Bus) : Bus :=
  if SCREEN_HEIGHT <=? m_scanline (ppu b) then b
  else
    let b := if nonzero (Z.land (m_lcdc (ppu b)) LCDC_BG_ENABLE)
             then PPU_RenderBackground (m_scanline (ppu b)) b else b in
    let b := if nonzero (Z.land (m_lcdc (ppu b)) LCDC_WIN_ENABLE)
             then PPU_RenderWindow (m_scanline (ppu b)) b else b in
    let b := if nonzero (Z.land (m_lcdc (ppu b)) LCDC_OBJ_ENABLE)
             then PPU_RenderSprites (m_scanline (ppu b)) b else b in
    b.

(** [PPU::Step].  At most one mode transition is taken per call. *)
Definition PPU_Step (cycles : Z) (b : Bus) : option Bus :=
  if Z.land (m_lcdc (ppu b)) LCDC_LCD_ENABLE =? 0 then Some b
  else
    let b := set_ppu_of (fun p => set_m_cycle_counter (u32 (m_cycle_counter p + cycles)) p) b in
    match m_mode (ppu b) with
    | OAM_SCAN =>
      if OAM_SCAN_CYCLES <=? m_cycle_counter (ppu b) then
        let b := set_ppu_of (fun p =>
                   set_m_cycle_counter (u32 (m_cycle_counter p - OAM_SCAN_CYCLES)) p) b in
        let b := PPU_ScanOAM b in
        PPU_SetMode DRAWING b
      else Some b
    | DRAWING =>
      if DRAWING_CYCLES <=? m_cycle_counter (ppu b) then
        let b := set_ppu_of (fun p =>
                   set_m_cycle_counter (u32 (m_cycle_counter p - DRAWING_CYCLES)) p) b in
        let b := PPU_RenderScanline b in
        PPU_SetMode HBLANK b
      else Some b
    | HBLANK =>
      if HBLANK_CYCLES <=? m_cycle_counter (ppu b) then
        let b := set_ppu_of (fun p =>
                   set_m_cycle_counter (u32 (m_cycle_counter p - HBLANK_CYCLES)) p) b in
        let b := set_ppu_of (fun p => set_m_scanline (u8 (m_scanline p + 1)) p) b in
        let b := Memory_Write b 0xFF44 (m_scanline (ppu b)) in
        b ← PPU_UpdateStatRegister b;
        if SCREEN_HEIGHT <=? m_scanline (ppu b) then
          b ← PPU_SetMode VBLANK b;
          let b := set_ppu_of (set_m_frame_ready true) b in
          PPU_raise_IF 0x01 b
        else
          PPU_SetMode OAM_SCAN b
      else Some b
    | VBLANK =>
      if CYCLES_PER_SCANLINE <=? m_cycle_counter (ppu b) then
        let b := set_ppu_of (fun p =>
                   set_m_cycle_counter (u32 (m_cycle_counter p - CYCLES_PER_SCANLINE)) p) b in
        let b := set_ppu_of (fun p => set_m_scanline (u8 (m_scanline p + 1)) p) b in
        let b := Memory_Write b 0xFF44 (m_scanline (ppu b)) in
        b ← PPU_UpdateStatRegister b;
        if SCANLINES_PER_FRAME <=? m_scanline (ppu b) then
          let b := set_ppu_of (set_m_scanline 0) b in
          let b := Memory_Write b 0xFF44 (m_scanline (ppu b)) in
          PPU_SetMode OAM_SCAN b
        else Some b
      else Some b
    end.

(** ** core/cpu/cpu.hpp: the processor *)

(** [CPU::Registers]. *)
Record Registers := mkRegisters {
  af : Z;
  bc : Z;
  de : Z;
  hl : Z;
  sp : Z;
  pc : Z }.

Definition set_af (v : Z) (x : Registers) : Registers :=
  mkRegisters v (bc x) (de x) (hl x) (sp x) (pc x).
Definition set_bc (v : Z) (x : Registers) : Registers :=
  mkRegisters (af x) v (de x) (hl x) (sp x) (pc x).
Definition set_de (v : Z) (x : Registers) : Registers :=
  mkRegisters (af x) (bc x) v (hl x) (sp x) (pc x).
Definition set_hl (v : Z) (x : Registers) : Registers :=
  mkRegisters (af x) (bc x) (de x) v (sp x) (pc x).
Definition set_sp (v : Z) (x : Registers) : Registers :=
  mkRegisters (af x) (bc x) (de x) (hl x) v (pc x).
Definition set_pc (v : Z) (x : Registers) : Registers :=
  mkRegisters (af x) (bc x) (de x) (hl x) (sp x) v.

(** [CPU] (core/cpu/cpu.hpp). *)
Record CPU := mkCPU {
  m_regs : Registers;
  m_ime : bool;
  m_halted : bool;
  m_stopped : bool;
  m_cycles : Z }.

Definition set_m_regs (v : Registers) (x : CPU) : CPU :=
  mkCPU v (m_ime x) (m_halted x) (m_stopped x) (m_cycles x).
Definition set_m_ime (v : bool) (x : CPU) : CPU :=
  mkCPU (m_regs x) v (m_halted x) (m_stopped x) (m_cycles x).
Definition set_m_halted (v : bool) (x : CPU) : CPU :=
  mkCPU (m_regs x) (m_ime x) v (m_stopped x) (m_cycles x).
Definition set_m_stopped (v : bool) (x : CPU) : CPU :=
  mkCPU (m_regs x) (m_ime x) (m_halted x) v (m_cycles x).
Definition set_m_cycles (v : Z) (x : CPU) : CPU :=
  mkCPU (m_regs x) (m_ime x) (m_halted x) (m_stopped x) v.

(** The processor and the bus it refers to. *)
Record Machine := mkMachine {
  cpu : CPU;
  bus : Bus }.

Definition set_cpu (v : CPU) (x : Machine) : Machine := mkMachine v (bus x).
Definition set_bus (v : Bus) (x : Machine) : Machine := mkMachine (cpu x) v.

Definition FLAG_C : Z := 0x10.
Definition FLAG_H : Z := 0x20.
Definition FLAG_N : Z := 0x40.
Definition FLAG_Z : Z := 0x80.

(** The register unions: each pair is stored as its 16-bit member, the first
    8-bit member of the anonymous [struct] being the low byte. *)
Inductive Reg8 := reg_a | reg_f | reg_b | reg_c | reg_d | reg_e | reg_h | reg_l.
Inductive Reg16 := reg_af | reg_bc | reg_de | reg_hl | reg_sp | reg_pc.

Definition Reg16_eqb (r1 r2 : Reg16) : bool :=
  match r1, r2 with
  | reg_af, reg_af | reg_bc, reg_bc | reg_de, reg_de
  | reg_hl, reg_hl | reg_sp, reg_sp | reg_pc, reg_pc => true
  | _, _ => false
  end.

Definition high_byte (w : Z) : Z := Z.land (Z.shiftr w 8) 0xFF.
Definition low_byte (w : Z) : Z := Z.land w 0xFF.
Definition with_high_byte (w v : Z) : Z := Z.lor (Z.shiftl v 8) (Z.land w 0xFF).
Definition with_low_byte (w v : Z) : Z := Z.lor (Z.land w 0xFF00) v.

Definition Registers_get16 (r : Reg16) (x : Registers) : Z :=
  match r with
  | reg_af => af x | reg_bc => bc x | reg_de => de x
  | reg_hl => hl x | reg_sp => sp x | reg_pc => pc x
  end.

Definition Registers_set16 (r : Reg16) (v : Z) (x : Registers) : Registers :=
  match r with
  | reg_af => set_af v x | reg_bc => set_bc v x | reg_de => set_de v x
  | reg_hl => set_hl v x | reg_sp => set_sp v x | reg_pc => set_pc v x
  end.

Definition Registers_get8 (r : Reg8) (x : Registers) : Z :=
  match r with
  | reg_a => high_byte (af x) | reg_f => low_byte (af x)
  | reg_b => high_byte (bc x) | reg_c => low_byte (bc x)
  | reg_d => high_byte (de x) | reg_e => low_byte (de x)
  | reg_h => high_byte (hl x) | reg_l => low_byte (hl x)
  end.

Definition Registers_set8 (r : Reg8) (v : Z) (x : Registers) : Registers :=
  match r with
  | reg_a => set_af (with_high_byte (af x) v) x
  | reg_f => set_af (with_low_byte (af x) v) x
  | reg_b => set_bc (with_high_byte (bc x) v) x
  | reg_c => set_bc (with_low_byte (bc x) v) x
  | reg_d => set_de (with_high_byte (de x) v) x
  | reg_e => set_de (with_low_byte (de x) v) x
  | reg_h => set_hl (with_high_byte (hl x) v) x
  | reg_l => set_hl (with_low_byte (hl x) v) x
  end.

(** *** Member functions as state transformers

    A member function of [CPU] reads and writes the processor and, through
    [m_memory], the bus; it has no result when the bus faults. *)
Definition M (A : Type) : Type := Machine -> option (A * Machine).

#[global] Instance M_ret : MRet M := fun A a s => Some (a, s).
#[global] Instance M_bind : MBind M := fun A B f m s =>
  match m s with
  | Some (a, s') => f a s'
  | None => None
  end.

Definition CPU_get16 (r : Reg16) : M Z :=
  fun s => Some (Registers_get16 r (m_regs (cpu s)), s).
Definition CPU_set16 (r : Reg16) (v : Z) : M unit :=
  fun s => Some (tt, set_cpu (set_m_regs (Registers_set16 r v (m_regs (cpu s))) (cpu s)) s).
Definition CPU_get8 (r : Reg8) : M Z :=
  fun s => Some (Registers_get8 r (m_regs (cpu s)), s).
Definition CPU_set8 (r : Reg8) (v : Z) : M unit :=
  fun s => Some (tt, set_cpu (set_m_regs (Registers_set8 r v (m_regs (cpu s))) (cpu s)) s).

(** [m_cycles += n]. *)
Definition CPU_add_cycles (n : Z) : M unit :=
  fun s => Some (tt, set_cpu (set_m_cycles (u32 (m_cycles (cpu s) + n)) (cpu s)) s).
Definition CPU_get_cycles : M Z := fun s => Some (m_cycles (cpu s), s).
Definition CPU_set_cycles (n : Z) : M unit :=
  fun s => Some (tt, set_cpu (set_m_cycles n (cpu s)) s).
Definition CPU_get_ime : M bool := fun s => Some (m_ime (cpu s), s).
Definition CPU_set_ime (v : bool) : M unit :=
  fun s => Some (tt, set_cpu (set_m_ime v (cpu s)) s).
Definition CPU_get_halted : M bool := fun s => Some (m_halted (cpu s), s).
Definition CPU_set_halted (v : bool) : M unit :=
  fun s => Some (tt, set_cpu (set_m_halted v (cpu s)) s).
Definition CPU_set_stopped (v : bool) : M unit :=
  fun s => Some (tt, set_cpu (set_m_stopped v (cpu s)) s).

(** [m_memory.Read], [m_memory.Write] and their 16-bit forms. *)
Definition CPU_memory_Read (address : Z) : M Z :=
  fun s => match Memory_Read (bus s) address with
           | Some v => Some (v, s)
           | None => None
           end.
Definition CPU_memory_Write (address value : Z) : M unit :=
  fun s => Some (tt, set_bus (Memory_Write (bus s) address value) s).
Definition CPU_memory_Read16 (address : Z) : M Z :=
  fun s => match Memory_Read16 (bus s) address with
           | Some v => Some (v, s)
           | None => None
           end.
Definition CPU_memory_Write16 (address value : Z) : M unit :=
  fun s => Some (tt, set_bus (Memory_Write16 (bus s) address value) s).

Definition CPU_GetFlag (flag : Z) : M bool :=
  f ← CPU_get8 reg_f; mret (nonzero (Z.land f flag)).

Definition CPU_SetFlag (flag : Z) (value : bool) : M unit :=
  f ← CPU_get8 reg_f;
  if value then CPU_set8 reg_f (u8 (Z.lor f flag))
  else CPU_set8 reg_f (u8 (Z.land f (Z.lnot flag))).

Definition CPU_SetFlags (z n h c : bool) : M unit :=
  CPU_set8 reg_f
    (Z.lor (Z.lor (Z.lor (if z then FLAG_Z else 0) (if n then FLAG_N else 0))
                  (if h then FLAG_H else 0)) (if c then FLAG_C else 0)).

Definition CPU_ReadByte (address : Z) : M Z :=
  CPU_add_cycles 4;; CPU_memory_Read address.

Definition CPU_WriteByte (address value : Z) : M unit :=
  CPU_add_cycles 4;; CPU_memory_Write address value.

Definition CPU_ReadWord (address : Z) : M Z :=
  CPU_add_cycles 8;; CPU_memory_Read16 address.

Definition CPU_WriteWord (address value : Z) : M unit :=
  CPU_add_cycles 8;; CPU_memory_Write16 address value.

Definition CPU_FetchByte : M Z :=
  address ← CPU_get16 reg_pc;
  CPU_set16 reg_pc (u16 (address + 1));;
  CPU_ReadByte address.

Definition CPU_FetchWord : M Z :=
  address ← CPU_get16 reg_pc;
  value ← CPU_ReadWord address;
  address ← CPU_get16 reg_pc;
  CPU_set16 reg_pc (u16 (address + 2));;
  mret value.

Definition CPU_Push (value : Z) : M unit :=
  address ← CPU_get16 reg_sp;
  CPU_set16 reg_sp (u16 (address - 2));;
  address ← CPU_get16 reg_sp;
  CPU_WriteWord address value.

Definition CPU_Pop : M Z :=
  address ← CPU_get16 reg_sp;
  value ← CPU_ReadWord address;
  address ← CPU_get16 reg_sp;
  CPU_set16 reg_sp (u16 (address + 2));;
  mret value.

(** [CPU::Reset]. *)
Definition CPU_Reset (c : CPU) : CPU :=
  {| m_regs := {| af := 0x01B0; bc := 0x0013; de := 0x00D8; hl := 0x014D;
                  sp := 0xFFFE; pc := 0x0100 |};
     m_ime := false; m_halted := false; m_stopped := false; m_cycles := 0 |}.

(** [CPU::CPU(memory, scheduler)]. *)
Definition CPU_new : CPU :=
  CPU_Reset {| m_regs := mkRegisters 0 0 0 0 0 0;
               m_ime := false; m_halted := false; m_stopped := false; m_cycles := 0 |}.

(** *** 8-bit loads *)

Definition CPU_OP_LD_r_r (dest : Reg8) (src : Z) : M unit :=
  CPU_set8 dest src;; CPU_add_cycles 4.

Definition CPU_OP_LD_r_n (reg : Reg8) : M unit :=
  v ← CPU_FetchByte; CPU_set8 reg v;; CPU_add_cycles 4.

Definition CPU_OP_LD_r_HL (reg : Reg8) : M unit :=
  address ← CPU_get16 reg_hl; v ← CPU_ReadByte address; CPU_set8 reg v.

Definition CPU_OP_LD_HL_r (reg : Z) : M unit :=
  address ← CPU_get16 reg_hl; CPU_WriteByte address reg.

Definition CPU_OP_LD_HL_n : M unit :=
  value ← CPU_FetchByte;
  address ← CPU_get16 reg_hl;
  CPU_WriteByte address value;;
  CPU_add_cycles 4.

Definition CPU_OP_LD_A_BC : M unit :=
  address ← CPU_get16 reg_bc; v ← CPU_ReadByte address; CPU_set8 reg_a v.

Definition CPU_OP_LD_A_DE : M unit :=
  address ← CPU_get16 reg_de; v ← CPU_ReadByte address; CPU_set8 reg_a v.

Definition CPU_OP_LD_A_nn : M unit :=
  address ← CPU_FetchWord; v ← CPU_ReadByte address; CPU_set8 reg_a v.

Definition CPU_OP_LD_BC_A : M unit :=
  address ← CPU_get16 reg_bc; a ← CPU_get8 reg_a; CPU_WriteByte address a.

Definition CPU_OP_LD_DE_A : M unit :=
  address ← CPU_get16 reg_de; a ← CPU_get8 reg_a; CPU_WriteByte address a.

Definition CPU_OP_LD_nn_A : M unit :=
  address ← CPU_FetchWord; a ← CPU_get8 reg_a; CPU_WriteByte address a.

Definition CPU_OP_LDH_A_n : M unit :=
  offset ← CPU_FetchByte; v ← CPU_ReadByte (u16 (0xFF00 + offset)); CPU_set8 reg_a v.

Definition CPU_OP_LDH_n_A : M unit :=
  offset ← CPU_FetchByte; a ← CPU_get8 reg_a; CPU_WriteByte (u16 (0xFF00 + offset)) a.

Definition CPU_OP_LD_A_C : M unit :=
  c ← CPU_get8 reg_c; v ← CPU_ReadByte (u16 (0xFF00 + c)); CPU_set8 reg_a v.

Definition CPU_OP_LD_C_A : M unit :=
  c ← CPU_get8 reg_c; a ← CPU_get8 reg_a; CPU_WriteByte (u16 (0xFF00 + c)) a.

Definition CPU_OP_LDI_HL_A : M unit :=
  address ← CPU_get16 reg_hl; a ← CPU_get8 reg_a;
  CPU_WriteByte address a;;
  address ← CPU_get16 reg_hl; CPU_set16 reg_hl (u16 (address + 1)).

Definition CPU_OP_LDI_A_HL : M unit :=
  address ← CPU_get16 reg_hl; v ← CPU_ReadByte address; CPU_set8 reg_a v;;
  address ← CPU_get16 reg_hl; CPU_set16 reg_hl (u16 (address + 1)).

Definition CPU_OP_LDD_HL_A : M unit :=
  address ← CPU_get16 reg_hl; a ← CPU_get8 reg_a;
  CPU_WriteByte address a;;
  address ← CPU_get16 reg_hl; CPU_set16 reg_hl (u16 (address - 1)).

Definition CPU_OP_LDD_A_HL : M unit :=
  address ← CPU_get16 reg_hl; v ← CPU_ReadByte address; CPU_set8 reg_a v;;
  address ← CPU_get16 reg_hl; CPU_set16 reg_hl (u16 (address - 1)).

(** *** 16-bit loads *)

Definition CPU_OP_LD_rr_nn (reg : Reg16) : M unit :=
  v ← CPU_FetchWord; CPU_set16 reg v;; CPU_add_cycles 4.

Definition CPU_OP_LD_SP_HL : M unit :=
  v ← CPU_get16 reg_hl; CPU_set16 reg_sp v;; CPU_add_cycles 8.

Definition CPU_OP_PUSH (reg : Z) : M unit :=
  CPU_Push reg;; CPU_add_cycles 4.

Definition CPU_OP_POP (reg : Reg16) : M unit :=
  v ← CPU_Pop; CPU_set16 reg v;;
  if Reg16_eqb reg reg_af
  then f ← CPU_get8 reg_f; CPU_set8 reg_f (Z.land f 0xF0)
  else mret tt.

Definition CPU_OP_LD_nn_SP : M unit :=
  address ← CPU_FetchWord;
  v ← CPU_get16 reg_sp;
  CPU_WriteWord address v;;
  CPU_add_cycles 4.

Definition CPU_OP_LD_HL_SP_e : M unit :=
  byte ← CPU_FetchByte;
  let offset := s8 byte in
  sp ← CPU_get16 reg_sp;
  let result := u32 (sp + offset) in
  CPU_SetFlag FLAG_Z false;;
  CPU_SetFlag FLAG_N false;;
  CPU_SetFlag FLAG_H (0x0F <? Z.land sp 0x0F + Z.land offset 0x0F);;
  CPU_SetFlag FLAG_C (0xFF <? Z.land sp 0xFF + Z.land offset 0xFF);;
  CPU_set16 reg_hl (u16 result);;
  CPU_add_cycles 4.

(** *** 8-bit arithmetic *)

Definition CPU_OP_ADD_A_r (value : Z) : M unit :=
  a ← CPU_get8 reg_a;
  let result := u16 (a + value) in
  CPU_SetFlag FLAG_Z (Z.land result 0xFF =? 0);;
  CPU_SetFlag FLAG_N false;;
  CPU_SetFlag FLAG_H (0x0F <? Z.land a 0x0F + Z.land value 0x0F);;
  CPU_SetFlag FLAG_C (0xFF <? result);;
  CPU_set8 reg_a (u8 result);;
  CPU_add_cycles 4.

Definition CPU_OP_ADC_A_r (value : Z) : M unit :=
  cf ← CPU_GetFlag FLAG_C;
  let carry := if (cf : bool) then 1 else 0 in
  a ← CPU_get8 reg_a;
  let result := u16 (a + value + carry) in
  CPU_SetFlag FLAG_Z (Z.land result 0xFF =? 0);;
  CPU_SetFlag FLAG_N false;;
  CPU_SetFlag FLAG_H (0x0F <? Z.land a 0x0F + Z.land value 0x0F + carry);;
  CPU_SetFlag FLAG_C (0xFF <? result);;
  CPU_set8 reg_a (u8 result);;
  CPU_add_cycles 4.

Definition CPU_OP_SUB_r (value : Z) : M unit :=
  a ← CPU_get8 reg_a;
  let result := u16 (a - value) in
  CPU_SetFlag FLAG_Z (Z.land result 0xFF =? 0);;
  CPU_SetFlag FLAG_N true;;
  CPU_SetFlag FLAG_H (Z.land a 0x0F <? Z.land value 0x0F);;
  CPU_SetFlag FLAG_C (a <? value);;
  CPU_set8 reg_a (u8 result);;
  CPU_add_cycles 4.

Definition CPU_OP_SBC_A_r (value : Z) : M unit :=
  cf ← CPU_GetFlag FLAG_C;
  let carry := if (cf : bool) then 1 else 0 in
  a ← CPU_get8 reg_a;
  let result := u16 (a - value - carry) in
  CPU_SetFlag FLAG_Z (Z.land result 0xFF =? 0);;
  CPU_SetFlag FLAG_N true;;
  CPU_SetFlag FLAG_H (Z.land a 0x0F <? Z.land value 0x0F + carry);;
  CPU_SetFlag FLAG_C (a <? value + carry);;
  CPU_set8 reg_a (u8 result);;
  CPU_add_cycles 4.

Definition CPU_OP_AND_r (value : Z) : M unit :=
  a ← CPU_get8 reg_a;
  CPU_set8 reg_a (Z.land a value);;
  a ← CPU_get8 reg_a;
  CPU_SetFlags (a =? 0) false true false;;
  CPU_add_cycles 4.

Definition CPU_OP_XOR_r (value : Z) : M unit :=
  a ← CPU_get8 reg_a;
  CPU_set8 reg_a (Z.lxor a value);;
  a ← CPU_get8 reg_a;
  CPU_SetFlags (a =? 0) false false false;;
  CPU_add_cycles 4.

Definition CPU_OP_OR_r (value : Z) : M unit :=
  a ← CPU_get8 reg_a;
  CPU_set8 reg_a (Z.lor a value);;
  a ← CPU_get8 reg_a;
  CPU_SetFlags (a =? 0) false false false;;
  CPU_add_cycles 4.

Definition CPU_OP_CP_r (value : Z) : M unit :=
  a ← CPU_get8 reg_a;
  let result := u16 (a - value) in
  CPU_SetFlag FLAG_Z (Z.land result 0xFF =? 0);;
  CPU_SetFlag FLAG_N true;;
  CPU_SetFlag FLAG_H (Z.land a 0x0F <? Z.land value 0x0F);;
  CPU_SetFlag FLAG_C (a <? value);;
  CPU_add_cycles 4.

Definition CPU_OP_INC_r (reg : Reg8) : M unit :=
  v ← CPU_get8 reg;
  CPU_set8 reg (u8 (v + 1));;
  v ← CPU_get8 reg;
  CPU_SetFlag FLAG_Z (v =? 0);;
  CPU_SetFlag FLAG_N false;;
  CPU_SetFlag FLAG_H (Z.land v 0x0F =? 0);;
  CPU_add_cycles 4.

Definition CPU_OP_DEC_r (reg : Reg8) : M unit :=
  v ← CPU_get8 reg;
  CPU_set8 reg (u8 (v - 1));;
  v ← CPU_get8 reg;
  CPU_SetFlag FLAG_Z (v =? 0);;
  CPU_SetFlag FLAG_N true;;
  CPU_SetFlag FLAG_H (Z.land v 0x0F =? 0x0F);;
  CPU_add_cycles 4.

Definition CPU_OP_INC_HL : M unit :=
  address ← CPU_get16 reg_hl;
  value ← CPU_ReadByte address;
  let value := u8 (value + 1) in
  address ← CPU_get16 reg_hl;
  CPU_WriteByte address value;;
  CPU_SetFlag FLAG_Z (value =? 0);;
  CPU_SetFlag FLAG_N false;;
  CPU_SetFlag FLAG_H (Z.land value 0x0F =? 0).

Definition CPU_OP_DEC_HL : M unit :=
  address ← CPU_get16 reg_hl;
  value ← CPU_ReadByte address;
  let value := u8 (value - 1) in
  address ← CPU_get16 reg_hl;
  CPU_WriteByte address value;;
  CPU_SetFlag FLAG_Z (value =? 0);;
  CPU_SetFlag FLAG_N true;;
  CPU_SetFlag FLAG_H (Z.land value 0x0F =? 0x0F).

(** *** 16-bit arithmetic *)

Definition CPU_OP_ADD_HL_rr (value : Z) : M unit :=
  hl ← CPU_get16 reg_hl;
  let result := u32 (hl + value) in
  CPU_SetFlag FLAG_N false;;
  CPU_SetFlag FLAG_H (0x0FFF <? Z.land hl 0x0FFF + Z.land value 0x0FFF);;
  CPU_SetFlag FLAG_C (0xFFFF <? result);;
  CPU_set16 reg_hl (u16 result);;
  CPU_add_cycles 8.

Definition CPU_OP_INC_rr (reg : Reg16) : M unit :=
  v ← CPU_get16 reg; CPU_set16 reg (u16 (v + 1));; CPU_add_cycles 8.

Definition CPU_OP_DEC_rr (reg : Reg16) : M unit :=
  v ← CPU_get16 reg; CPU_set16 reg (u16 (v - 1));; CPU_add_cycles 8.

Definition CPU_OP_ADD_SP_e : M unit :=
  byte ← CPU_FetchByte;
  let offset := s8 byte in
  sp ← CPU_get16 reg_sp;
  let result := u32 (sp + offset) in
  CPU_SetFlag FLAG_Z false;;
  CPU_SetFlag FLAG_N false;;
  CPU_SetFlag FLAG_H (0x0F <? Z.land sp 0x0F + Z.land offset 0x0F);;
  CPU_SetFlag FLAG_C (0xFF <? Z.land sp 0xFF + Z.land offset 0xFF);;
  CPU_set16 reg_sp (u16 result);;
  CPU_add_cycles 12.

(** *** Jumps *)

Definition CPU_OP_JP_nn : M unit :=
  address ← CPU_FetchWord; CPU_set16 reg_pc address;; CPU_add_cycles 4.

Definition CPU_OP_JP_HL : M unit :=
  v ← CPU_get16 reg_hl; CPU_set16 reg_pc v;; CPU_add_cycles 4.

Definition CPU_OP_JP_cc_nn (condition : bool) : M unit :=
  address ← CPU_FetchWord;
  (if condition then CPU_set16 reg_pc address;; CPU_add_cycles 4 else mret tt);;
  CPU_add_cycles 4.

Definition CPU_OP_JR_e : M unit :=
  byte ← CPU_FetchByte;
  let offset := s8 byte in
  pc ← CPU_get16 reg_pc;
  CPU_set16 reg_pc (u16 (pc + offset));;
  CPU_add_cycles 4.

Definition CPU_OP_JR_cc_e (condition : bool) : M unit :=
  byte ← CPU_FetchByte;
  let offset := s8 byte in
  (if condition then
     pc ← CPU_get16 reg_pc;
     CPU_set16 reg_pc (u16 (pc + offset));;
     CPU_add_cycles 4
   else mret tt);;
  CPU_add_cycles 4.

(** *** Calls and returns *)

Definition CPU_OP_CALL_nn : M unit :=
  address ← CPU_FetchWord;
  pc ← CPU_get16 reg_pc;
  CPU_Push pc;;
  CPU_set16 reg_pc address;;
  CPU_add_cycles 4.

Definition CPU_OP_CALL_cc_nn (condition : bool) : M unit :=
  address ← CPU_FetchWord;
  (if condition then
     pc ← CPU_get16 reg_pc;
     CPU_Push pc;;
     CPU_set16 reg_pc address;;
     CPU_add_cycles 4
   else mret tt);;
  CPU_add_cycles 4.

Definition CPU_OP_RET : M unit :=
  v ← CPU_Pop; CPU_set16 reg_pc v;; CPU_add_cycles 4.

Definition CPU_OP_RET_cc (condition : bool) : M unit :=
  (if condition then
     v ← CPU_Pop; CPU_set16 reg_pc v;; CPU_add_cycles 12
   else mret tt);;
  CPU_add_cycles 8.

Definition CPU_OP_RETI : M unit :=
  v ← CPU_Pop; CPU_set16 reg_pc v;; CPU_set_ime true;; CPU_add_cycles 4.

Definition CPU_OP_RST (vector : Z) : M unit :=
  pc ← CPU_get16 reg_pc;
  CPU_Push pc;;
  CPU_set16 reg_pc vector;;
  CPU_add_cycles 16.

(** *** Rotates and shifts

    The handlers that take [u8& reg] and are called both on a register and
    on a local copy of [(HL)] are functions from the old value to the new
    one; the caller stores the result ([CPU_on_reg8]).  None of them is
    called on [F], so storing after the flags are set gives the state the
    C++ code reaches. *)

Definition CPU_OP_RLCA : M unit :=
  a ← CPU_get8 reg_a;
  let carry := nonzero (Z.land a 0x80) in
  CPU_set8 reg_a (u8 (Z.lor (Z.shiftl a 1) (if carry then 1 else 0)));;
  CPU_SetFlags false false false carry;;
  CPU_add_cycles 4.

Definition CPU_OP_RLA : M unit :=
  a ← CPU_get8 reg_a;
  let carry := nonzero (Z.land a 0x80) in
  cf ← CPU_GetFlag FLAG_C;
  CPU_set8 reg_a (u8 (Z.lor (Z.shiftl a 1) (if (cf : bool) then 1 else 0)));;
  CPU_SetFlags false false false carry;;
  CPU_add_cycles 4.

Definition CPU_OP_RRCA : M unit :=
  a ← CPU_get8 reg_a;
  let carry := nonzero (Z.land a 0x01) in
  CPU_set8 reg_a (u8 (Z.lor (Z.shiftr a 1) (if carry then 0x80 else 0)));;
  CPU_SetFlags false false false carry;;
  CPU_add_cycles 4.

Definition CPU_OP_RRA : M unit :=
  a ← CPU_get8 reg_a;
  let carry := nonzero (Z.land a 0x01) in
  cf ← CPU_GetFlag FLAG_C;
  CPU_set8 reg_a (u8 (Z.lor (Z.shiftr a 1) (if (cf : bool) then 0x80 else 0)));;
  CPU_SetFlags false false false carry;;
  CPU_add_cycles 4.

Definition CPU_OP_RLC (reg : Z) : M Z :=
  let carry := nonzero (Z.land reg 0x80) in
  let reg := u8 (Z.lor (Z.shiftl reg 1) (if carry then 1 else 0)) in
  CPU_SetFlags (reg =? 0) false false carry;;
  CPU_add_cycles 8;;
  mret reg.

Definition CPU_OP_RL (reg : Z) : M Z :=
  let carry := nonzero (Z.land reg 0x80) in
  cf ← CPU_GetFlag FLAG_C;
  let reg := u8 (Z.lor (Z.shiftl reg 1) (if (cf : bool) then 1 else 0)) in
  CPU_SetFlags (reg =? 0) false false carry;;
  CPU_add_cycles 8;;
  mret reg.

Definition CPU_OP_RRC (reg : Z) : M Z :=
  let carry := nonzero (Z.land reg 0x01) in
  let reg := u8 (Z.lor (Z.shiftr reg 1) (if carry then 0x80 else 0)) in
  CPU_SetFlags (reg =? 0) false false carry;;
  CPU_add_cycles 8;;
  mret reg.

Definition CPU_OP_RR (reg : Z) : M Z :=
  let carry := nonzero (Z.land reg 0x01) in
  cf ← CPU_GetFlag FLAG_C;
  let reg := u8 (Z.lor (Z.shiftr reg 1) (if (cf : bool) then 0x80 else 0)) in
  CPU_SetFlags (reg =? 0) false false carry;;
  CPU_add_cycles 8;;
  mret reg.

Definition CPU_OP_SLA (reg : Z) : M Z :=
  let carry := nonzero (Z.land reg 0x80) in
  let reg := u8 (Z.shiftl reg 1) in
  CPU_SetFlags (reg =? 0) false false carry;;
  CPU_add_cycles 8;;
  mret reg.

Definition CPU_OP_SRA (reg : Z) : M Z :=
  let carry := nonzero (Z.land reg 0x01) in
  let msb := Z.land reg 0x80 in
  let reg := u8 (Z.lor (Z.shiftr reg 1) msb) in
  CPU_SetFlags (reg =? 0) false false carry;;
  CPU_add_cycles 8;;
  mret reg.

Definition CPU_OP_SRL (reg : Z) : M Z :=
  let carry := nonzero (Z.land reg 0x01) in
  let reg := u8 (Z.shiftr reg 1) in
  CPU_SetFlags (reg =? 0) false false carry;;
  CPU_add_cycles 8;;
  mret reg.

Definition CPU_OP_SWAP (reg : Z) : M Z :=
  let reg := u8 (Z.lor (Z.shiftl (Z.land reg 0x0F) 4) (Z.shiftr (Z.land reg 0xF0) 4)) in
  CPU_SetFlags (reg =? 0) false false false;;
  CPU_add_cycles 8;;
  mret reg.

(** *** Bit operations *)

Definition CPU_OP_BIT (bit value : Z) : M unit :=
  let is_set := nonzero (Z.land value (Z.shiftl 1 bit)) in
  CPU_SetFlag FLAG_Z (negb is_set);;
  CPU_SetFlag FLAG_N false;;
  CPU_SetFlag FLAG_H true;;
  CPU_add_cycles 8.

Definition CPU_OP_SET (bit : Z) (reg : Z) : M Z :=
  CPU_add_cycles 8;;
  mret (u8 (Z.lor reg (Z.shiftl 1 bit))).

Definition CPU_OP_RES (bit : Z) (reg : Z) : M Z :=
  CPU_add_cycles 8;;
  mret (u8 (Z.land reg (Z.lnot (Z.shiftl 1 bit)))).

(** *** Miscellaneous *)

Definition CPU_OP_DAA : M unit :=
  a ← CPU_get8 reg_a;
  nf ← CPU_GetFlag FLAG_N;
  a ← (if negb nf then
         cf ← CPU_GetFlag FLAG_C;
         a ← (if cf || (0x99 <? a)
              then CPU_SetFlag FLAG_C true;; mret (u8 (a + 0x60))
              else mret a);
         hf ← CPU_GetFlag FLAG_H;
         if hf || (0x09 <? Z.land a 0x0F) then mret (u8 (a + 0x06)) else mret a
       else
         cf ← CPU_GetFlag FLAG_C;
         let a := if (cf : bool) then u8 (a - 0x60) else a in
         hf ← CPU_GetFlag FLAG_H;
         mret (if (hf : bool) then u8 (a - 0x06) else a));
  CPU_set8 reg_a a;;
  a ← CPU_get8 reg_a;
  CPU_SetFlag FLAG_Z (a =? 0);;
  CPU_SetFlag FLAG_H false;;
  CPU_add_cycles 4.

Definition CPU_OP_CPL : M unit :=
  a ← CPU_get8 reg_a;
  CPU_set8 reg_a (u8 (Z.lnot a));;
  CPU_SetFlag FLAG_N true;;
  CPU_SetFlag FLAG_H true;;
  CPU_add_cycles 4.

Definition CPU_OP_CCF : M unit :=
  CPU_SetFlag FLAG_N false;;
  CPU_SetFlag FLAG_H false;;
  cf ← CPU_GetFlag FLAG_C;
  CPU_SetFlag FLAG_C (negb cf);;
  CPU_add_cycles 4.

Definition CPU_OP_SCF : M unit :=
  CPU_SetFlag FLAG_N false;;
  CPU_SetFlag FLAG_H false;;
  CPU_SetFlag FLAG_C true;;
  CPU_add_cycles 4.

Definition CPU_OP_NOP : M unit := CPU_add_cycles 4.

Definition CPU_OP_HALT : M unit := CPU_set_halted true;; CPU_add_cycles 4.

Definition CPU_OP_STOP : M unit := CPU_set_stopped true;; CPU_add_cycles 4.

Definition CPU_OP_DI : M unit := CPU_set_ime false;; CPU_add_cycles 4.

Definition CPU_OP_EI : M unit := CPU_set_ime true;; CPU_add_cycles 4.

(** *** CB-prefixed instructions *)

(** The [get_reg] closure of [ExecuteCBInstruction]; index 6 is never asked. *)
Definition CPU_get_reg (reg_index : Z) : option Reg8 :=
  match reg_index with
  | 0 => Some reg_b
  | 1 => Some reg_c
  | 2 => Some reg_d
  | 3 => Some reg_e
  | 4 => Some reg_h
  | 5 => Some reg_l
  | 7 => Some reg_a
  | _ => None
  end.

(** A handler with a [u8&] parameter, called on a register. *)
Definition CPU_on_reg8 (reg : option Reg8) (op : Z -> M Z) : M unit :=
  match reg with
  | Some r => v ← CPU_get8 r; v ← op v; CPU_set8 r v
  | None => v ← op 0; mret tt
  end.

Definition CPU_rotate_shift (sub_op : Z) (value : Z) : M Z :=
  match sub_op with
  | 0 => CPU_OP_RLC value
  | 1 => CPU_OP_RRC value
  | 2 => CPU_OP_RL value
  | 3 => CPU_OP_RR value
  | 4 => CPU_OP_SLA value
  | 5 => CPU_OP_SRA value
  | 6 => CPU_OP_SWAP value
  | 7 => CPU_OP_SRL value
  | _ => mret value
  end.

Definition CPU_ExecuteCBInstruction (opcode : Z) : M unit :=
  let reg_index := Z.land opcode 0x07 in
  let bit := Z.land (Z.shiftr opcode 3) 0x07 in
  let op_type := Z.land (Z.shiftr opcode 6) 0x03 in
  if reg_index =? 6 then
    address ← CPU_get16 reg_hl;
    value ← CPU_ReadByte address;
    match op_type with
    | 0 =>
      let sub_op := Z.land (Z.shiftr opcode 3) 0x07 in
      value ← CPU_rotate_shift sub_op value;
      address ← CPU_get16 reg_hl;
      CPU_WriteByte address value;;
      CPU_add_cycles 8
    | 1 => CPU_OP_BIT bit value;; CPU_add_cycles 4
    | 2 =>
      let value := u8 (Z.land value (Z.lnot (Z.shiftl 1 bit))) in
      address ← CPU_get16 reg_hl;
      CPU_WriteByte address value;;
      CPU_add_cycles 8
    | 3 =>
      let value := u8 (Z.lor value (Z.shiftl 1 bit)) in
      address ← CPU_get16 reg_hl;
      CPU_WriteByte address value;;
      CPU_add_cycles 8
    | _ => mret tt
    end
  else
    let reg := CPU_get_reg reg_index in
    match op_type with
    | 0 =>
      let sub_op := Z.land (Z.shiftr opcode 3) 0x07 in
      CPU_on_reg8 reg (CPU_rotate_shift sub_op)
    | 1 =>
      match reg with
      | Some r => v ← CPU_get8 r; CPU_OP_BIT bit v
      | None => CPU_OP_BIT bit 0
      end
    | 2 => CPU_on_reg8 reg (CPU_OP_RES bit)
    | 3 => CPU_on_reg8 reg (CPU_OP_SET bit)
    | _ => mret tt
    end.

(** *** core/cpu/cpu.cpp *)

Definition CPU_ExecuteInstruction (opcode : Z) : M unit :=
  match opcode with
  | 0x00 => CPU_OP_NOP
  | 0x01 => CPU_OP_LD_rr_nn reg_bc
  | 0x11 => CPU_OP_LD_rr_nn reg_de
  | 0x21 => CPU_OP_LD_rr_nn reg_hl
  | 0x31 => CPU_OP_LD_rr_nn reg_sp
  | 0x08 => CPU_OP_LD_nn_SP
  | 0xF8 => CPU_OP_LD_HL_SP_e
  | 0xF9 => CPU_OP_LD_SP_HL
  | 0x06 => CPU_OP_LD_r_n reg_b
  | 0x0E => CPU_OP_LD_r_n reg_c
  | 0x16 => CPU_OP_LD_r_n reg_d
  | 0x1E => CPU_OP_LD_r_n reg_e
  | 0x26 => CPU_OP_LD_r_n reg_h
  | 0x2E => CPU_OP_LD_r_n reg_l
  | 0x3E => CPU_OP_LD_r_n reg_a
  | 0x40 => v1 ← CPU_get8 reg_b; CPU_OP_LD_r_r reg_b v1
  | 0x41 => v1 ← CPU_get8 reg_c; CPU_OP_LD_r_r reg_b v1
  | 0x42 => v1 ← CPU_get8 reg_d; CPU_OP_LD_r_r reg_b v1
  | 0x43 => v1 ← CPU_get8 reg_e; CPU_OP_LD_r_r reg_b v1
  | 0x44 => v1 ← CPU_get8 reg_h; CPU_OP_LD_r_r reg_b v1
  | 0x45 => v1 ← CPU_get8 reg_l; CPU_OP_LD_r_r reg_b v1
  | 0x46 => CPU_OP_LD_r_HL reg_b
  | 0x47 => v1 ← CPU_get8 reg_a; CPU_OP_LD_r_r reg_b v1
  | 0x48 => v1 ← CPU_get8 reg_b; CPU_OP_LD_r_r reg_c v1
  | 0x49 => v1 ← CPU_get8 reg_c; CPU_OP_LD_r_r reg_c v1
  | 0x4A => v1 ← CPU_get8 reg_d; CPU_OP_LD_r_r reg_c v1
  | 0x4B => v1 ← CPU_get8 reg_e; CPU_OP_LD_r_r reg_c v1
  | 0x4C => v1 ← CPU_get8 reg_h; CPU_OP_LD_r_r reg_c v1
  | 0x4D => v1 ← CPU_get8 reg_l; CPU_OP_LD_r_r reg_c v1
  | 0x4E => CPU_OP_LD_r_HL reg_c
  | 0x4F => v1 ← CPU_get8 reg_a; CPU_OP_LD_r_r reg_c v1
  | 0x50 => v1 ← CPU_get8 reg_b; CPU_OP_LD_r_r reg_d v1
  | 0x51 => v1 ← CPU_get8 reg_c; CPU_OP_LD_r_r reg_d v1
  | 0x52 => v1 ← CPU_get8 reg_d; CPU_OP_LD_r_r reg_d v1
  | 0x53 => v1 ← CPU_get8 reg_e; CPU_OP_LD_r_r reg_d v1
  | 0x54 => v1 ← CPU_get8 reg_h; CPU_OP_LD_r_r reg_d v1
  | 0x55 => v1 ← CPU_get8 reg_l; CPU_OP_LD_r_r reg_d v1
  | 0x56 => CPU_OP_LD_r_HL reg_d
  | 0x57 => v1 ← CPU_get8 reg_a; CPU_OP_LD_r_r reg_d v1
  | 0x58 => v1 ← CPU_get8 reg_b; CPU_OP_LD_r_r reg_e v1
  | 0x59 => v1 ← CPU_get8 reg_c; CPU_OP_LD_r_r reg_e v1
  | 0x5A => v1 ← CPU_get8 reg_d; CPU_OP_LD_r_r reg_e v1
  | 0x5B => v1 ← CPU_get8 reg_e; CPU_OP_LD_r_r reg_e v1
  | 0x5C => v1 ← CPU_get8 reg_h; CPU_OP_LD_r_r reg_e v1
  | 0x5D => v1 ← CPU_get8 reg_l; CPU_OP_LD_r_r reg_e v1
  | 0x5E => CPU_OP_LD_r_HL reg_e
  | 0x5F => v1 ← CPU_get8 reg_a; CPU_OP_LD_r_r reg_e v1
  | 0x60 => v1 ← CPU_get8 reg_b; CPU_OP_LD_r_r reg_h v1
  | 0x61 => v1 ← CPU_get8 reg_c; CPU_OP_LD_r_r reg_h v1
  | 0x62 => v1 ← CPU_get8 reg_d; CPU_OP_LD_r_r reg_h v1
  | 0x63 => v1 ← CPU_get8 reg_e; CPU_OP_LD_r_r reg_h v1
  | 0x64 => v1 ← CPU_get8 reg_h; CPU_OP_LD_r_r reg_h v1
  | 0x65 => v1 ← CPU_get8 reg_l; CPU_OP_LD_r_r reg_h v1
  | 0x66 => CPU_OP_LD_r_HL reg_h
  | 0x67 => v1 ← CPU_get8 reg_a; CPU_OP_LD_r_r reg_h v1
  | 0x68 => v1 ← CPU_get8 reg_b; CPU_OP_LD_r_r reg_l v1
  | 0x69 => v1 ← CPU_get8 reg_c; CPU_OP_LD_r_r reg_l v1
  | 0x6A => v1 ← CPU_get8 reg_d; CPU_OP_LD_r_r reg_l v1
  | 0x6B => v1 ← CPU_get8 reg_e; CPU_OP_LD_r_r reg_l v1
  | 0x6C => v1 ← CPU_get8 reg_h; CPU_OP_LD_r_r reg_l v1
  | 0x6D => v1 ← CPU_get8 reg_l; CPU_OP_LD_r_r reg_l v1
  | 0x6E => CPU_OP_LD_r_HL reg_l
  | 0x6F => v1 ← CPU_get8 reg_a; CPU_OP_LD_r_r reg_l v1
  | 0x70 => v0 ← CPU_get8 reg_b; CPU_OP_LD_HL_r v0
  | 0x71 => v0 ← CPU_get8 reg_c; CPU_OP_LD_HL_r v0
  | 0x72 => v0 ← CPU_get8 reg_d; CPU_OP_LD_HL_r v0
  | 0x73 => v0 ← CPU_get8 reg_e; CPU_OP_LD_HL_r v0
  | 0x74 => v0 ← CPU_get8 reg_h; CPU_OP_LD_HL_r v0
  | 0x75 => v0 ← CPU_get8 reg_l; CPU_OP_LD_HL_r v0
  | 0x36 => CPU_OP_LD_HL_n
  | 0x77 => v0 ← CPU_get8 reg_a; CPU_OP_LD_HL_r v0
  | 0x78 => v1 ← CPU_get8 reg_b; CPU_OP_LD_r_r reg_a v1
  | 0x79 => v1 ← CPU_get8 reg_c; CPU_OP_LD_r_r reg_a v1
  | 0x7A => v1 ← CPU_get8 reg_d; CPU_OP_LD_r_r reg_a v1
  | 0x7B => v1 ← CPU_get8 reg_e; CPU_OP_LD_r_r reg_a v1
  | 0x7C => v1 ← CPU_get8 reg_h; CPU_OP_LD_r_r reg_a v1
  | 0x7D => v1 ← CPU_get8 reg_l; CPU_OP_LD_r_r reg_a v1
  | 0x7E => CPU_OP_LD_r_HL reg_a
  | 0x7F => v1 ← CPU_get8 reg_a; CPU_OP_LD_r_r reg_a v1
  | 0x0A => CPU_OP_LD_A_BC
  | 0x1A => CPU_OP_LD_A_DE
  | 0xFA => CPU_OP_LD_A_nn
  | 0x02 => CPU_OP_LD_BC_A
  | 0x12 => CPU_OP_LD_DE_A
  | 0xEA => CPU_OP_LD_nn_A
  | 0xF0 => CPU_OP_LDH_A_n
  | 0xE0 => CPU_OP_LDH_n_A
  | 0xF2 => CPU_OP_LD_A_C
  | 0xE2 => CPU_OP_LD_C_A
  | 0x22 => CPU_OP_LDI_HL_A
  | 0x2A => CPU_OP_LDI_A_HL
  | 0x32 => CPU_OP_LDD_HL_A
  | 0x3A => CPU_OP_LDD_A_HL
  | 0xC5 => v0 ← CPU_get16 reg_bc; CPU_OP_PUSH v0
  | 0xD5 => v0 ← CPU_get16 reg_de; CPU_OP_PUSH v0
  | 0xE5 => v0 ← CPU_get16 reg_hl; CPU_OP_PUSH v0
  | 0xF5 => v0 ← CPU_get16 reg_af; CPU_OP_PUSH v0
  | 0xC1 => CPU_OP_POP reg_bc
  | 0xD1 => CPU_OP_POP reg_de
  | 0xE1 => CPU_OP_POP reg_hl
  | 0xF1 => CPU_OP_POP reg_af
  | 0x80 => v0 ← CPU_get8 reg_b; CPU_OP_ADD_A_r v0
  | 0x81 => v0 ← CPU_get8 reg_c; CPU_OP_ADD_A_r v0
  | 0x82 => v0 ← CPU_get8 reg_d; CPU_OP_ADD_A_r v0
  | 0x83 => v0 ← CPU_get8 reg_e; CPU_OP_ADD_A_r v0
  | 0x84 => v0 ← CPU_get8 reg_h; CPU_OP_ADD_A_r v0
  | 0x85 => v0 ← CPU_get8 reg_l; CPU_OP_ADD_A_r v0
  | 0x86 => hl ← CPU_get16 reg_hl; v0 ← CPU_ReadByte hl; CPU_OP_ADD_A_r v0
  | 0x87 => v0 ← CPU_get8 reg_a; CPU_OP_ADD_A_r v0
  | 0xC6 => v0 ← CPU_FetchByte; CPU_OP_ADD_A_r v0
  | 0x88 => v0 ← CPU_get8 reg_b; CPU_OP_ADC_A_r v0
  | 0x89 => v0 ← CPU_get8 reg_c; CPU_OP_ADC_A_r v0
  | 0x8A => v0 ← CPU_get8 reg_d; CPU_OP_ADC_A_r v0
  | 0x8B => v0 ← CPU_get8 reg_e; CPU_OP_ADC_A_r v0
  | 0x8C => v0 ← CPU_get8 reg_h; CPU_OP_ADC_A_r v0
  | 0x8D => v0 ← CPU_get8 reg_l; CPU_OP_ADC_A_r v0
  | 0x8E => hl ← CPU_get16 reg_hl; v0 ← CPU_ReadByte hl; CPU_OP_ADC_A_r v0
  | 0x8F => v0 ← CPU_get8 reg_a; CPU_OP_ADC_A_r v0
  | 0xCE => v0 ← CPU_FetchByte; CPU_OP_ADC_A_r v0
  | 0x90 => v0 ← CPU_get8 reg_b; CPU_OP_SUB_r v0
  | 0x91 => v0 ← CPU_get8 reg_c; CPU_OP_SUB_r v0
  | 0x92 => v0 ← CPU_get8 reg_d; CPU_OP_SUB_r v0
  | 0x93 => v0 ← CPU_get8 reg_e; CPU_OP_SUB_r v0
  | 0x94 => v0 ← CPU_get8 reg_h; CPU_OP_SUB_r v0
  | 0x95 => v0 ← CPU_get8 reg_l; CPU_OP_SUB_r v0
  | 0x96 => hl ← CPU_get16 reg_hl; v0 ← CPU_ReadByte hl; CPU_OP_SUB_r v0
  | 0x97 => v0 ← CPU_get8 reg_a; CPU_OP_SUB_r v0
  | 0xD6 => v0 ← CPU_FetchByte; CPU_OP_SUB_r v0
  | 0x98 => v0 ← CPU_get8 reg_b; CPU_OP_SBC_A_r v0
  | 0x99 => v0 ← CPU_get8 reg_c; CPU_OP_SBC_A_r v0
  | 0x9A => v0 ← CPU_get8 reg_d; CPU_OP_SBC_A_r v0
  | 0x9B => v0 ← CPU_get8 reg_e; CPU_OP_SBC_A_r v0
  | 0x9C => v0 ← CPU_get8 reg_h; CPU_OP_SBC_A_r v0
  | 0x9D => v0 ← CPU_get8 reg_l; CPU_OP_SBC_A_r v0
  | 0x9E => hl ← CPU_get16 reg_hl; v0 ← CPU_ReadByte hl; CPU_OP_SBC_A_r v0
  | 0x9F => v0 ← CPU_get8 reg_a; CPU_OP_SBC_A_r v0
  | 0xDE => v0 ← CPU_FetchByte; CPU_OP_SBC_A_r v0
  | 0xA0 => v0 ← CPU_get8 reg_b; CPU_OP_AND_r v0
  | 0xA1 => v0 ← CPU_get8 reg_c; CPU_OP_AND_r v0
  | 0xA2 => v0 ← CPU_get8 reg_d; CPU_OP_AND_r v0
  | 0xA3 => v0 ← CPU_get8 reg_e; CPU_OP_AND_r v0
  | 0xA4 => v0 ← CPU_get8 reg_h; CPU_OP_AND_r v0
  | 0xA5 => v0 ← CPU_get8 reg_l; CPU_OP_AND_r v0
  | 0xA6 => hl ← CPU_get16 reg_hl; v0 ← CPU_ReadByte hl; CPU_OP_AND_r v0
  | 0xA7 => v0 ← CPU_get8 reg_a; CPU_OP_AND_r v0
  | 0xE6 => v0 ← CPU_FetchByte; CPU_OP_AND_r v0
  | 0xA8 => v0 ← CPU_get8 reg_b; CPU_OP_XOR_r v0
  | 0xA9 => v0 ← CPU_get8 reg_c; CPU_OP_XOR_r v0
  | 0xAA => v0 ← CPU_get8 reg_d; CPU_OP_XOR_r v0
  | 0xAB => v0 ← CPU_get8 reg_e; CPU_OP_XOR_r v0
  | 0xAC => v0 ← CPU_get8 reg_h; CPU_OP_XOR_r v0
  | 0xAD => v0 ← CPU_get8 reg_l; CPU_OP_XOR_r v0
  | 0xAE => hl ← CPU_get16 reg_hl; v0 ← CPU_ReadByte hl; CPU_OP_XOR_r v0
  | 0xAF => v0 ← CPU_get8 reg_a; CPU_OP_XOR_r v0
  | 0xEE => v0 ← CPU_FetchByte; CPU_OP_XOR_r v0
  | 0xB0 => v0 ← CPU_get8 reg_b; CPU_OP_OR_r v0
  | 0xB1 => v0 ← CPU_get8 reg_c; CPU_OP_OR_r v0
  | 0xB2 => v0 ← CPU_get8 reg_d; CPU_OP_OR_r v0
  | 0xB3 => v0 ← CPU_get8 reg_e; CPU_OP_OR_r v0
  | 0xB4 => v0 ← CPU_get8 reg_h; CPU_OP_OR_r v0
  | 0xB5 => v0 ← CPU_get8 reg_l; CPU_OP_OR_r v0
  | 0xB6 => hl ← CPU_get16 reg_hl; v0 ← CPU_ReadByte hl; CPU_OP_OR_r v0
  | 0xB7 => v0 ← CPU_get8 reg_a; CPU_OP_OR_r v0
  | 0xF6 => v0 ← CPU_FetchByte; CPU_OP_OR_r v0
  | 0xB8 => v0 ← CPU_get8 reg_b; CPU_OP_CP_r v0
  | 0xB9 => v0 ← CPU_get8 reg_c; CPU_OP_CP_r v0
  | 0xBA => v0 ← CPU_get8 reg_d; CPU_OP_CP_r v0
  | 0xBB => v0 ← CPU_get8 reg_e; CPU_OP_CP_r v0
  | 0xBC => v0 ← CPU_get8 reg_h; CPU_OP_CP_r v0
  | 0xBD => v0 ← CPU_get8 reg_l; CPU_OP_CP_r v0
  | 0xBE => hl ← CPU_get16 reg_hl; v0 ← CPU_ReadByte hl; CPU_OP_CP_r v0
  | 0xBF => v0 ← CPU_get8 reg_a; CPU_OP_CP_r v0
  | 0xFE => v0 ← CPU_FetchByte; CPU_OP_CP_r v0
  | 0x04 => CPU_OP_INC_r reg_b
  | 0x0C => CPU_OP_INC_r reg_c
  | 0x14 => CPU_OP_INC_r reg_d
  | 0x1C => CPU_OP_INC_r reg_e
  | 0x24 => CPU_OP_INC_r reg_h
  | 0x2C => CPU_OP_INC_r reg_l
  | 0x34 => CPU_OP_INC_HL
  | 0x3C => CPU_OP_INC_r reg_a
  | 0x05 => CPU_OP_DEC_r reg_b
  | 0x0D => CPU_OP_DEC_r reg_c
  | 0x15 => CPU_OP_DEC_r reg_d
  | 0x1D => CPU_OP_DEC_r reg_e
  | 0x25 => CPU_OP_DEC_r reg_h
  | 0x2D => CPU_OP_DEC_r reg_l
  | 0x35 => CPU_OP_DEC_HL
  | 0x3D => CPU_OP_DEC_r reg_a
  | 0x09 => v0 ← CPU_get16 reg_bc; CPU_OP_ADD_HL_rr v0
  | 0x19 => v0 ← CPU_get16 reg_de; CPU_OP_ADD_HL_rr v0
  | 0x29 => v0 ← CPU_get16 reg_hl; CPU_OP_ADD_HL_rr v0
  | 0x39 => v0 ← CPU_get16 reg_sp; CPU_OP_ADD_HL_rr v0
  | 0xE8 => CPU_OP_ADD_SP_e
  | 0x03 => CPU_OP_INC_rr reg_bc
  | 0x13 => CPU_OP_INC_rr reg_de
  | 0x23 => CPU_OP_INC_rr reg_hl
  | 0x33 => CPU_OP_INC_rr reg_sp
  | 0x0B => CPU_OP_DEC_rr reg_bc
  | 0x1B => CPU_OP_DEC_rr reg_de
  | 0x2B => CPU_OP_DEC_rr reg_hl
  | 0x3B => CPU_OP_DEC_rr reg_sp
  | 0xC3 => CPU_OP_JP_nn
  | 0xE9 => CPU_OP_JP_HL
  | 0xC2 => cc ← CPU_GetFlag FLAG_Z; CPU_OP_JP_cc_nn (negb cc)
  | 0xCA => cc ← CPU_GetFlag FLAG_Z; CPU_OP_JP_cc_nn cc
  | 0xD2 => cc ← CPU_GetFlag FLAG_C; CPU_OP_JP_cc_nn (negb cc)
  | 0xDA => cc ← CPU_GetFlag FLAG_C; CPU_OP_JP_cc_nn cc
  | 0x18 => CPU_OP_JR_e
  | 0x20 => cc ← CPU_GetFlag FLAG_Z; CPU_OP_JR_cc_e (negb cc)
  | 0x28 => cc ← CPU_GetFlag FLAG_Z; CPU_OP_JR_cc_e cc
  | 0x30 => cc ← CPU_GetFlag FLAG_C; CPU_OP_JR_cc_e (negb cc)
  | 0x38 => cc ← CPU_GetFlag FLAG_C; CPU_OP_JR_cc_e cc
  | 0xCD => CPU_OP_CALL_nn
  | 0xC4 => cc ← CPU_GetFlag FLAG_Z; CPU_OP_CALL_cc_nn (negb cc)
  | 0xCC => cc ← CPU_GetFlag FLAG_Z; CPU_OP_CALL_cc_nn cc
  | 0xD4 => cc ← CPU_GetFlag FLAG_C; CPU_OP_CALL_cc_nn (negb cc)
  | 0xDC => cc ← CPU_GetFlag FLAG_C; CPU_OP_CALL_cc_nn cc
  | 0xC9 => CPU_OP_RET
  | 0xC0 => cc ← CPU_GetFlag FLAG_Z; CPU_OP_RET_cc (negb cc)
  | 0xC8 => cc ← CPU_GetFlag FLAG_Z; CPU_OP_RET_cc cc
  | 0xD0 => cc ← CPU_GetFlag FLAG_C; CPU_OP_RET_cc (negb cc)
  | 0xD8 => cc ← CPU_GetFlag FLAG_C; CPU_OP_RET_cc cc
  | 0xD9 => CPU_OP_RETI
  | 0xC7 => CPU_OP_RST 0x00
  | 0xCF => CPU_OP_RST 0x08
  | 0xD7 => CPU_OP_RST 0x10
  | 0xDF => CPU_OP_RST 0x18
  | 0xE7 => CPU_OP_RST 0x20
  | 0xEF => CPU_OP_RST 0x28
  | 0xF7 => CPU_OP_RST 0x30
  | 0xFF => CPU_OP_RST 0x38
  | 0x07 => CPU_OP_RLCA
  | 0x17 => CPU_OP_RLA
  | 0x0F => CPU_OP_RRCA
  | 0x1F => CPU_OP_RRA
  | 0x27 => CPU_OP_DAA
  | 0x2F => CPU_OP_CPL
  | 0x3F => CPU_OP_CCF
  | 0x37 => CPU_OP_SCF
  | 0x76 => CPU_OP_HALT
  | 0x10 => CPU_OP_STOP
  | 0xF3 => CPU_OP_DI
  | 0xFB => CPU_OP_EI
  | 0xCB => cb_opcode ← CPU_FetchByte; CPU_ExecuteCBInstruction cb_opcode
  | _ => mret tt
  end.

(** What [CPU::ServiceInterrupts] does for interrupt [i] once its bit is
    found set: the body of the [if] inside the [for] loop. *)
Definition CPU_ServiceInterrupts_accept (if_reg i : Z) : M unit :=
  CPU_set_ime false;;
  CPU_memory_Write 0xFF0F (u8 (Z.land if_reg (Z.lnot (Z.shiftl 1 i))));;
  pc ← CPU_get16 reg_pc;
  CPU_Push pc;;
  let vector := u16 (0x0040 + i * 0x08) in
  CPU_set16 reg_pc vector;;
  CPU_add_cycles 20.

(** [for (u8 i = 0; i < 5; i++) if (triggered & (1 << i)) { ...; break; }]
    over the values of [i] that remain. *)
Fixpoint CPU_ServiceInterrupts_loop (indices : list Z) (triggered if_reg : Z) : M unit :=
  match indices with
  | [] => mret tt
  | i :: rest =>
    if nonzero (Z.land triggered (Z.shiftl 1 i))
    then CPU_ServiceInterrupts_accept if_reg i
    else CPU_ServiceInterrupts_loop rest triggered if_reg
  end.

Definition CPU_ServiceInterrupts : M unit :=
  ime ← CPU_get_ime;
  if negb ime then mret tt
  else
    if_reg ← CPU_memory_Read 0xFF0F;
    ie_reg ← CPU_memory_Read 0xFFFF;
    let triggered := Z.land if_reg ie_reg in
    if triggered =? 0 then mret tt
    else CPU_ServiceInterrupts_loop (seqZ 0 5) triggered if_reg.

(** [CPU::Step]: the result is the cycle count returned. *)
Definition CPU_Step : M Z :=
  CPU_set_cycles 0;;
  halted ← CPU_get_halted;
  still_halted ←
    (if (halted : bool) then
       if_reg ← CPU_memory_Read 0xFF0F;
       ie_reg ← CPU_memory_Read 0xFFFF;
       if nonzero (Z.land if_reg ie_reg)
       then CPU_set_halted false;; mret false
       else CPU_set_cycles 4;; mret true
     else mret false);
  if still_halted : bool then CPU_get_cycles
  else
    CPU_ServiceInterrupts;;
    opcode ← CPU_FetchByte;
    CPU_ExecuteInstruction opcode;;
    CPU_get_cycles.

Definition CPU_RequestInterrupt (interrupt_bit : Z) : M unit :=
  if_reg ← CPU_memory_Read 0xFF0F;
  CPU_memory_Write 0xFF0F (u8 (Z.lor if_reg (Z.shiftl 1 interrupt_bit)));;
  halted ← CPU_get_halted;
  if (halted : bool) then CPU_set_halted false else mret tt.

(** ** core/scheduler/scheduler.hpp, core/timer/timer.cpp: the scheduler *)

Module EventType.
Inductive t :=
| VBLANK | HBLANK | HBLANK_EXIT | OAM_SCAN | LCD_TRANSFER | TIMER_OVERFLOW
| SERIAL_TRANSFER | APU_CHANNEL_1 | APU_CHANNEL_2 | APU_CHANNEL_3 | APU_CHANNEL_4
| APU_FRAME_SEQUENCER | DMA_TRANSFER | JOYPAD_INTERRUPT.

Definition to_int (e : t) : Z :=
  match e with
  | VBLANK => 0 | HBLANK => 1 | HBLANK_EXIT => 2 | OAM_SCAN => 3 | LCD_TRANSFER => 4
  | TIMER_OVERFLOW => 5 | SERIAL_TRANSFER => 6 | APU_CHANNEL_1 => 7 | APU_CHANNEL_2 => 8
  | APU_CHANNEL_3 => 9 | APU_CHANNEL_4 => 10 | APU_FRAME_SEQUENCER => 11
  | DMA_TRANSFER => 12 | JOYPAD_INTERRUPT => 13
  end.

Definition eqb (a b : t) : bool := to_int a =? to_int b.

Scheme Equality for t.
End EventType.

(** [Scheduler::ScheduledEvent]; the callback is a closure of a type the
    scheduler does not look into. *)
Record ScheduledEvent (EventCallback : Type) := mkScheduledEvent {
  event_type : EventType.t;
  fire_at_cycle : Z;
  callback : EventCallback }.

Arguments mkScheduledEvent {EventCallback}.
Arguments event_type {EventCallback}.
Arguments fire_at_cycle {EventCallback}.
Arguments callback {EventCallback}.

(** [std::priority_queue<ScheduledEvent, std::vector<ScheduledEvent>,
    std::greater<ScheduledEvent>>]: the operations the scheduler uses.
    [pq_elements] is the content of the underlying container, in no
    particular order; [pq_top] of an empty queue has no value. *)
Class PriorityQueue (E Q : Type) := {
  pq_new : Q;
  pq_empty : Q -> bool;
  pq_size : Q -> nat;
  pq_top : Q -> option E;
  pq_pop : Q -> Q;
  pq_push : E -> Q -> Q;
  pq_elements : Q -> list E;
  pq_wf : Q -> Prop }.

(** What the C++ standard promises of these operations, for the order
    [greater] on the key [key]: the top is an element with the least key,
    [pop] removes it, [push] adds one element. *)
Class PriorityQueueLaws {E Q : Type} (key : E -> Z) (PQ : PriorityQueue E Q) := {
  pq_new_wf : pq_wf pq_new;
  pq_new_elements : pq_elements pq_new = [];
  pq_empty_spec : forall q, pq_empty q = true <-> pq_elements q = [];
  pq_size_spec : forall q, pq_size q = length (pq_elements q);
  pq_top_spec : forall q, pq_wf q -> pq_empty q = false ->
    exists e, pq_top q = Some e
              /\ pq_elements q ≡ₚ e :: pq_elements (pq_pop q)
              /\ Forall (fun e' => key e <= key e') (pq_elements q);
  pq_pop_wf : forall q, pq_wf q -> pq_wf (pq_pop q);
  pq_push_wf : forall e q, pq_wf q -> pq_wf (pq_push e q);
  pq_push_elements : forall e q, pq_elements (pq_push e q) ≡ₚ e :: pq_elements q }.

(** [Scheduler]. *)
Record Scheduler (Q : Type) := mkScheduler {
  m_event_queue : Q;
  m_current_cycle : Z }.

Arguments mkScheduler {Q}.
Arguments m_event_queue {Q}.
Arguments m_current_cycle {Q}.

Section SchedulerOperations.

Context {EventCallback Q : Type}.
Context {PQ : PriorityQueue (ScheduledEvent EventCallback) Q}.

Definition Scheduler_new : Scheduler Q :=
  {| m_event_queue := pq_new; m_current_cycle := 0 |}.

Definition Scheduler_Schedule (type : EventType.t) (cycles : Z) (cb : EventCallback)
    (s : Scheduler Q) : Scheduler Q :=
  let event := {| event_type := type;
                  fire_at_cycle := u64 (m_current_cycle s + cycles);
                  callback := cb |} in
  mkScheduler (pq_push event (m_event_queue s)) (m_current_cycle s).

(** The [while (!m_event_queue.empty())] loop of [Scheduler::Deschedule],
    on the pair of the old and the new queue, with a bound on its turns. *)
Fixpoint Scheduler_Deschedule_loop (fuel : nat) (type : EventType.t)
    (queue new_queue : Q) : Q * Q :=
  match fuel with
  | O => (queue, new_queue)
  | S fuel =>
    if pq_empty queue then (queue, new_queue)
    else
      match pq_top queue with
      | Some event =>
        let queue := pq_pop queue in
        let new_queue :=
          if negb (EventType.eqb (event_type event) type)
          then pq_push event new_queue
          else new_queue in
        Scheduler_Deschedule_loop fuel type queue new_queue
      | None => (queue, new_queue)
      end
  end.

(** [Scheduler::Deschedule].  Every turn pops one event, so the size of
    the queue bounds the number of turns. *)
Definition Scheduler_Deschedule (type : EventType.t) (s : Scheduler Q) : Scheduler Q :=
  let '(_, new_queue) :=
    Scheduler_Deschedule_loop (pq_size (m_event_queue s)) type (m_event_queue s) pq_new in
  mkScheduler new_queue (m_current_cycle s).

Definition Scheduler_Advance (cycles : Z) (s : Scheduler Q) : Scheduler Q :=
  mkScheduler (m_event_queue s) (u64 (m_current_cycle s + cycles)).

Definition Scheduler_GetCurrentCycle (s : Scheduler Q) : Z := m_current_cycle s.

Definition Scheduler_GetCyclesUntilNextEvent (s : Scheduler Q) : Z :=
  if pq_empty (m_event_queue s) then 0xFFFFFFFFFFFFFFFF
  else
    match pq_top (m_event_queue s) with
    | Some next_event =>
      if fire_at_cycle next_event <=? m_current_cycle s then 0
      else u64 (fire_at_cycle next_event - m_current_cycle s)
    | None => 0xFFFFFFFFFFFFFFFF
    end.

(** [Scheduler::Reset] pops until the queue is empty. *)
Fixpoint Scheduler_Reset_loop (fuel : nat) (queue : Q) : Q :=
  match fuel with
  | O => queue
  | S fuel => if pq_empty queue then queue else Scheduler_Reset_loop fuel (pq_pop queue)
  end.

Definition Scheduler_Reset (s : Scheduler Q) : Scheduler Q :=
  mkScheduler (Scheduler_Reset_loop (pq_size (m_event_queue s)) (m_event_queue s)) 0.

End SchedulerOperations.

(** A priority queue that satisfies the laws: the events kept in a list
    sorted by fire cycle. *)
Section SortedQueue.

Context {EventCallback : Type}.

Fixpoint SortedQueue_insert (e : ScheduledEvent EventCallback)
    (q : list (ScheduledEvent EventCallback)) : list (ScheduledEvent EventCallback) :=
  match q with
  | [] => [e]
  | e' :: q' =>
    if fire_at_cycle e <=? fire_at_cycle e'
    then e :: e' :: q'
    else e' :: SortedQueue_insert e q'
  end.

Definition SortedQueue_le (a b : ScheduledEvent EventCallback) : Prop :=
  fire_at_cycle a <= fire_at_cycle b.

#[global] Instance SortedQueue :
  PriorityQueue (ScheduledEvent EventCallback) (list (ScheduledEvent EventCallback)) :=
  {| pq_new := [];
     pq_empty q := match q with [] => true | _ => false end;
     pq_size q := length q;
     pq_top q := head q;
     pq_pop q := tail q;
     pq_push e q := SortedQueue_insert e q;
     pq_elements q := q;
     pq_wf q := StronglySorted SortedQueue_le q |}.

End SortedQueue.

(** ** machine/gameboy.cpp: the components as [GameBoy::GameBoy()] wires them *)

Definition GameBoy_new : Machine :=
  let m := Memory_new in
  let c := CPU_new in
  let '(p, m) := PPU_new m in
  let '(t, m) := Timer_new m in
  {| cpu := c; bus := {| memory := m; ppu := p; timer := t |} |}.

(** * The vocabulary of the statements

    Predicates on the state that the constructors establish, the reference
    behaviour that the statements compare the code with, and the concrete
    machines on which the code is run. *)

(** ** The bus as [Memory::InitializePageTables] and the handler
    registrations leave it *)

(** The entry of page [page] in both page tables: VRAM, WRAM and the echo
    of WRAM are paged, everything else is not. *)
Definition Memory_page_entry (page : Z) : option PagePtr :=
  if (0x80 <=? page) && (page <=? 0x9F) then Some (vram_data ((page - 0x80) * 0x100))
  else if (0xC0 <=? page) && (page <=? 0xDF) then Some (wram_data ((page - 0xC0) * 0x100))
  else if (0xE0 <=? page) && (page <=? 0xFD) then Some (wram_data ((page - 0xE0) * 0x100))
  else None.

Definition Memory_paged (m : Memory) : Prop :=
  m_read_page_table m = Memory_page_entry <$> seqZ 0 PAGE_COUNT
  /\ m_write_page_table m = Memory_page_entry <$> seqZ 0 PAGE_COUNT.

(** The [std::array] members have the length of their type. *)
Definition Memory_sized (m : Memory) : Prop :=
  length (m_wram m) = Z.to_nat WRAM_SIZE
  /\ length (m_vram m) = Z.to_nat VRAM_SIZE
  /\ length (m_oam m) = Z.to_nat OAM_SIZE
  /\ length (m_hram m) = Z.to_nat HRAM_SIZE
  /\ length (m_io m) = Z.to_nat IO_SIZE.

Definition in_WRAM (a : Z) : Prop := WRAM_START <= a <= WRAM_END.
Definition in_VRAM (a : Z) : Prop := VRAM_START <= a <= VRAM_END.
Definition in_HRAM (a : Z) : Prop := HRAM_START <= a <= HRAM_END.
Definition in_OAM (a : Z) : Prop := OAM_START <= a <= OAM_END.

(** The closures registered by [PPU::RegisterIOHandlers] and
    [Timer::RegisterIOHandlers], by offset from 0xFF00. *)
Definition IO_read_handler_entry (offset : Z) : option IOReadHandler :=
  match offset with
  | 0x04 => Some Timer_read_DIV | 0x05 => Some Timer_read_TIMA
  | 0x06 => Some Timer_read_TMA | 0x07 => Some Timer_read_TAC
  | 0x40 => Some PPU_read_LCDC | 0x41 => Some PPU_read_STAT
  | 0x42 => Some PPU_read_SCY | 0x43 => Some PPU_read_SCX
  | 0x44 => Some PPU_read_LY | 0x45 => Some PPU_read_LYC
  | 0x47 => Some PPU_read_BGP | 0x48 => Some PPU_read_OBP0
  | 0x49 => Some PPU_read_OBP1 | 0x4A => Some PPU_read_WY
  | 0x4B => Some PPU_read_WX
  | _ => None
  end.

Definition IO_write_handler_entry (offset : Z) : option IOWriteHandler :=
  match offset with
  | 0x04 => Some Timer_write_DIV | 0x05 => Some Timer_write_TIMA
  | 0x06 => Some Timer_write_TMA | 0x07 => Some Timer_write_TAC
  | 0x40 => Some PPU_write_LCDC | 0x41 => Some PPU_write_STAT
  | 0x42 => Some PPU_write_SCY | 0x43 => Some PPU_write_SCX
  | 0x44 => Some PPU_write_LY | 0x45 => Some PPU_write_LYC
  | 0x47 => Some PPU_write_BGP | 0x48 => Some PPU_write_OBP0
  | 0x49 => Some PPU_write_OBP1 | 0x4A => Some PPU_write_WY
  | 0x4B => Some PPU_write_WX
  | _ => None
  end.

Definition Memory_wired (m : Memory) : Prop :=
  m_io_read_handlers m = IO_read_handler_entry <$> seqZ 0 IO_SIZE
  /\ m_io_write_handlers m = IO_write_handler_entry <$> seqZ 0 IO_SIZE.

(** The bus of a constructed machine: page tables initialised, handlers of
    the picture unit and of the timer registered. *)
Definition Bus_wired (b : Bus) : Prop :=
  Memory_paged (memory b) /\ Memory_wired (memory b).

(** ** The picture unit *)

(** [PPU::Step] called once for each element of [chunks], in order. *)
Fixpoint PPU_run (chunks : list Z) (b : Bus) : option Bus :=
  match chunks with
  | [] => Some b
  | cycles :: rest => b ← PPU_Step cycles b; PPU_run rest b
  end.

Definition total_cycles (chunks : list Z) : Z := foldr Z.add 0 chunks.

(** What the mode state machine reads or writes besides STAT. *)
Definition PPU_same_line_state (b b' : Bus) : Prop :=
  m_mode (ppu b') = m_mode (ppu b)
  /\ m_cycle_counter (ppu b') = m_cycle_counter (ppu b)
  /\ m_scanline (ppu b') = m_scanline (ppu b)
  /\ m_lcdc (ppu b') = m_lcdc (ppu b).

(** The reference timing of a line: the mode [t] cycles into line [line],
    and the cycle of the line at which that mode began. *)
Definition PPU_mode_at (line t : Z) : Mode :=
  if line <? SCREEN_HEIGHT then
    if t <? 80 then OAM_SCAN else if t <? 80 + 172 then DRAWING else HBLANK
  else VBLANK.

Definition PPU_mode_start (line t : Z) : Z :=
  if line <? SCREEN_HEIGHT then
    if t <? 80 then 0 else if t <? 80 + 172 then 80 else 80 + 172
  else 0.

Definition PPU_next_line (line : Z) : Z :=
  if line + 1 <? SCANLINES_PER_FRAME then line + 1 else 0.

Definition PPU_lcd_on (b : Bus) : Prop := Z.land (m_lcdc (ppu b)) LCDC_LCD_ENABLE <> 0.

(** The picture unit is [t] cycles into line [line]; at [t = 456] it stands
    at the start of the next line. *)
Definition PPU_on_line (line t : Z) (b : Bus) : Prop :=
  Bus_wired b /\ PPU_lcd_on b /\ 0 <= line < SCANLINES_PER_FRAME /\ 0 <= t <= 456 /\
  if t <? 456 then
    m_scanline (ppu b) = line
    /\ m_mode (ppu b) = PPU_mode_at line t
    /\ m_cycle_counter (ppu b) = t - PPU_mode_start line t
  else
    m_scanline (ppu b) = PPU_next_line line
    /\ m_mode (ppu b) = PPU_mode_at (PPU_next_line line) 0
    /\ m_cycle_counter (ppu b) = 0.

(** A line begins: the LCD is on, the counter is zero, and the mode is the
    first of the line (OAM_SCAN on lines 0-143, VBLANK on lines 144-153). *)
Definition PPU_line_start (b : Bus) : Prop :=
  Bus_wired b /\ PPU_lcd_on b /\ m_cycle_counter (ppu b) = 0
  /\ ((m_mode (ppu b) = OAM_SCAN /\ 0 <= m_scanline (ppu b) < 144)
      \/ (m_mode (ppu b) = VBLANK /\ 144 <= m_scanline (ppu b) <= 153)).

(** The cycle of the line at which the mode in force at cycle [t] ends. *)
Definition PPU_mode_end (line t : Z) : Z :=
  if line <? SCREEN_HEIGHT then
    if t <? 80 then 80 else if t <? 80 + 172 then 80 + 172 else 456
  else 456.

(** A call of [cycles] made [t] cycles into line [line] keeps step with the
    reference timing: it begins in the last mode of the line, or it ends
    before the mode that follows the one in which it begins has ended. *)
Definition PPU_call_in_step (line t cycles : Z) : bool :=
  (456 <=? PPU_mode_end line t)
  || (t + cycles <? PPU_mode_end line (PPU_mode_end line t)).

(** Every call of [chunks], the first made [t] cycles into the line, keeps
    step. *)
Fixpoint PPU_calls_in_step (line t : Z) (chunks : list Z) : bool :=
  match chunks with
  | [] => true
  | cycles :: rest =>
    PPU_call_in_step line t cycles && PPU_calls_in_step line (t + cycles) rest
  end.

(** Line and mode that the reference timing gives [t] cycles after the start
    of line [line]: at [t = 456] the next line begins. *)
Definition PPU_reference (line t : Z) : Z * Mode :=
  if t <? 456 then (line, PPU_mode_at line t)
  else (PPU_next_line line, PPU_mode_at (PPU_next_line line) 0).

(** Mode, line and cycle counter of the picture unit. *)
Definition PPU_observe (b : Bus) : Mode * Z * Z :=
  (m_mode (ppu b), m_scanline (ppu b), m_cycle_counter (ppu b)).

(** The bus reached from power-on after one full line and the OAM scan of
    line 1: the picture unit draws line 1, and STAT shows the mode. *)
Definition PPU_drawing_line_1 : Bus :=
  default (bus GameBoy_new) (PPU_run [80; 172; 204; 80] (bus GameBoy_new)).

(** The bus reached from power-on after one full line and the OAM scan of
    line 1, with the LCD then switched off by a write of 0x11 to LCDC. *)
Definition PPU_lcd_off_in_line_1 : option Bus :=
  b ← PPU_run [80; 172; 204; 80] (bus GameBoy_new);
  Some (Memory_Write b 0xFF40 0x11).

(** What a program sees of a bus whose LCD is off: LCDC bit 7, LY, the mode
    bits of STAT, and the picture unit after 0x91 is written to LCDC. *)
Definition PPU_lcd_off_view (b : Bus) : Z * option Z * option Z * (Mode * Z * Z) :=
  (Z.land (m_lcdc (ppu b)) LCDC_LCD_ENABLE,
   Memory_Read b 0xFF44,
   (fun stat => Z.land stat STAT_MODE_FLAG) <$> Memory_Read b 0xFF41,
   PPU_observe (Memory_Write b 0xFF40 0x91)).

(** ** The timer *)

(** The period table, indexed by TAC bits 0-1. *)
Definition Timer_period (tac : Z) : Z :=
  array_get [1024; 16; 64; 256] (Z.land tac 3).

(** One increment of TIMA with reload from TMA; the flag records that an
    overflow happened. *)
Definition Timer_tick (tma : Z) (s : Z * bool) : Z * bool :=
  if fst s =? 0xFF then (tma, true) else (fst s + 1, snd s).

Fixpoint Timer_ticks (n : nat) (tma : Z) (s : Z * bool) : Z * bool :=
  match n with
  | O => s
  | S n => Timer_ticks n tma (Timer_tick tma s)
  end.

(** The state the loop of [Timer::UpdateTIMA] reaches: [n] ticks of TIMA,
    the residual reduced to its remainder, and the interrupt requested if a
    tick overflowed. *)
Definition Timer_after_ticks (n : nat) (residual : Z) (b : Bus) : Bus :=
  let t := timer b in
  let r := Timer_ticks n (m_tma t) (m_tima t, false) in
  set_memory (if snd r then Memory_RequestInterrupt (memory b) 0x04 else memory b)
    (set_timer (set_m_tima (fst r) (set_m_timer_counter residual t)) b).

(** TMA=0xAB, TIMA=0xFF, TAC=0x05, written through the registers' I/O
    addresses of a machine at power-on. *)
Definition Timer_overflow_scenario : Bus :=
  Memory_Write (Memory_Write (Memory_Write (bus GameBoy_new) 0xFF06 0xAB) 0xFF05 0xFF) 0xFF07 0x05.

(** ** The scheduler *)

#[global] Instance EventType_eq_dec : EqDecision EventType.t := EventType.t_eq_dec.

(** The test [event.type != type] of [Scheduler::Deschedule]. *)
Definition other_kind {EventCallback : Type} (type : EventType.t)
    (e : ScheduledEvent EventCallback) : bool :=
  negb (EventType.eqb (event_type e) type).

(** Four pending events, callbacks numbered 0 to 3, at cycle 7. *)
Definition Scheduler_example : Scheduler (list (ScheduledEvent Z)) :=
  Scheduler_Advance 7
    (Scheduler_Schedule EventType.VBLANK 100 3
      (Scheduler_Schedule EventType.TIMER_OVERFLOW 16 2
        (Scheduler_Schedule EventType.VBLANK 50 1
          (Scheduler_Schedule EventType.HBLANK 50 0 Scheduler_new)))).

(** ** The cartridge *)

(** A ROM image of the smallest size [Memory::LoadROM] accepts, all zero but
    for the cartridge type in its header. *)
Definition small_cartridge (cartridge_type : Z) : list Z :=
  <[Z.to_nat 0x0147 := cartridge_type]> (replicate (Z.to_nat 0x150) 0).

(** The bus of a machine at power-on after [LoadROM(data)], with the result
    of the call. *)
Definition Bus_with_cartridge (data : list Z) : bool * Bus :=
  let '(ok, m) := Memory_LoadROM (memory (bus GameBoy_new)) data in
  (ok, set_memory m (bus GameBoy_new)).

(** ** The processor *)

Inductive BranchKind := JP_cc | JR_cc | CALL_cc | RET_cc.
Inductive Condition := cc_NZ | cc_Z | cc_NC | cc_C.

(** The sixteen conditional branch opcodes. *)
Definition branch_opcode (k : BranchKind) (cc : Condition) : Z :=
  match k, cc with
  | JP_cc, cc_NZ => 0xC2 | JP_cc, cc_Z => 0xCA | JP_cc, cc_NC => 0xD2 | JP_cc, cc_C => 0xDA
  | JR_cc, cc_NZ => 0x20 | JR_cc, cc_Z => 0x28 | JR_cc, cc_NC => 0x30 | JR_cc, cc_C => 0x38
  | CALL_cc, cc_NZ => 0xC4 | CALL_cc, cc_Z => 0xCC | CALL_cc, cc_NC => 0xD4 | CALL_cc, cc_C => 0xDC
  | RET_cc, cc_NZ => 0xC0 | RET_cc, cc_Z => 0xC8 | RET_cc, cc_NC => 0xD0 | RET_cc, cc_C => 0xD8
  end.

(** The condition as [CPU::ExecuteInstruction] passes it, from the flags
    byte [f]. *)
Definition condition_holds (cc : Condition) (f : Z) : bool :=
  match cc with
  | cc_NZ => negb (nonzero (Z.land f FLAG_Z))
  | cc_Z => nonzero (Z.land f FLAG_Z)
  | cc_NC => negb (nonzero (Z.land f FLAG_C))
  | cc_C => nonzero (Z.land f FLAG_C)
  end.

(** A flags byte under which [cc] holds, or does not. *)
Definition flags_for (cc : Condition) (taken : bool) : Z :=
  match cc with
  | cc_NZ => if taken then 0x00 else 0x80
  | cc_Z => if taken then 0x80 else 0x00
  | cc_NC => if taken then 0x00 else 0x10
  | cc_C => if taken then 0x10 else 0x00
  end.

(** The reference T-cycle counts of the conditional branches, taken and not
    taken: JP cc 16/12, JR cc 12/8, CALL cc 24/12, RET cc 20/8. *)
Definition reference_branch_cycles (k : BranchKind) (taken : bool) : Z :=
  match k with
  | JP_cc => if taken then 16 else 12
  | JR_cc => if taken then 12 else 8
  | CALL_cc => if taken then 24 else 12
  | RET_cc => if taken then 20 else 8
  end.

(** The counts that [CPU::Step] returns for them. *)
Definition CPU_Step_branch_cycles (k : BranchKind) (taken : bool) : Z :=
  match k with
  | JP_cc => if taken then 20 else 16
  | JR_cc => if taken then 16 else 12
  | CALL_cc => if taken then 28 else 16
  | RET_cc => if taken then 32 else 12
  end.

(** The tail of [CPU::Step]: fetch, execute, return [m_cycles]. *)
Definition CPU_fetch_execute : M Z :=
  opcode ← CPU_FetchByte;
  CPU_ExecuteInstruction opcode;;
  CPU_get_cycles.

(** The lowest set bit among bits 0-4. *)
Definition lowest_set_bit (t : Z) : Z :=
  if Z.testbit t 0 then 0
  else if Z.testbit t 1 then 1
  else if Z.testbit t 2 then 2
  else if Z.testbit t 3 then 3
  else 4.

(** The machine in which the fetch begins after interrupt [i] was accepted
    with IF = [if_reg]: IME cleared, bit [i] of IF cleared, PC pushed, PC at
    the vector, and [cycles] in [m_cycles]. *)
Definition CPU_interrupt_accepted (s : Machine) (if_reg i : Z) (cycles : Z) : Machine :=
  let regs := m_regs (cpu s) in
  {| cpu := {| m_regs := set_pc (0x0040 + i * 0x08) (set_sp (u16 (sp regs - 2)) regs);
               m_ime := false;
               m_halted := m_halted (cpu s);
               m_stopped := m_stopped (cpu s);
               m_cycles := cycles |};
     bus := Memory_Write16
              (Memory_Write (bus s) 0xFF0F (u8 (Z.land if_reg (Z.lnot (Z.shiftl 1 i)))))
              (u16 (sp regs - 2)) (pc regs) |}.

(** A machine at power-on with [code] written to WRAM from 0xC000 on and the
    registers set to [regs]. *)
Definition program_in_WRAM (code : list Z) (regs : Registers) : Machine :=
  let m := GameBoy_new in
  {| cpu := set_m_regs regs (cpu m);
     bus := fold_left (fun b '(i, byte) => Memory_Write b (0xC000 + Z.of_nat i) byte)
                      (imap (fun i byte => (i, byte)) code) (bus m) |}.

(** The cycle count [CPU::Step] returns, with PC and the halted latch
    after it. *)
Definition observe_Step (s : Machine) : option (Z * Z * bool) :=
  (fun '(n, s') => (n, pc (m_regs (cpu s')), m_halted (cpu s'))) <$> CPU_Step s.

Definition Step_cycles (s : Machine) : option Z := fst <$> CPU_Step s.

(** A conditional branch at 0xC000 with operand bytes 0x10 0xC1, flags byte
    [f], SP = 0xFFFE. *)
Definition branch_machine (k : BranchKind) (cc : Condition) (f : Z) : Machine :=
  program_in_WRAM [branch_opcode k cc; 0x10; 0xC1] (mkRegisters f 0 0 0 0xFFFE 0xC000).

(** The unconditional JP nn, JR e, CALL nn and RET, run the same way. *)
Definition unconditional_branch_cycles : list (option Z) :=
  (fun op => Step_cycles
               (program_in_WRAM [op; 0x10; 0xC1] (mkRegisters 0 0 0 0 0xFFFE 0xC000)))
    <$> [0xC3; 0x18; 0xCD; 0xC9].

(** A machine with a 32 KiB ROM of NOPs, the V-blank interrupt requested and
    enabled (IF = IE = 0x01), SP = 0xFFFE, and the given IME and PC. *)
Definition interrupt_machine (ime : bool) (pc0 : Z) : Machine :=
  let m := GameBoy_new in
  let '(_, b) := Bus_with_cartridge (replicate (Z.to_nat 0x8000) 0) in
  {| cpu := set_m_ime ime (set_m_regs (mkRegisters 0 0 0 0 0xFFFE pc0) (cpu m));
     bus := Memory_Write (Memory_Write b 0xFF0F 0x01) 0xFFFF 0x01 |}.

(** Of a result of the processor: the value, [m_cycles], PC, SP, IME, IF and
    the word at 0xFFFC. *)
Definition observe_interrupt {A : Type} (r : option (A * Machine))
  : option (A * Z * Z * Z * bool * option Z * option Z) :=
  '(n, s') ← r;
  Some (n, m_cycles (cpu s'), pc (m_regs (cpu s')), sp (m_regs (cpu s')), m_ime (cpu s'),
        Memory_Read (bus s') 0xFF0F, Memory_Read16 (bus s') 0xFFFC).

(** A halted machine with a NOP at PC = 0xC000 and IF = IE = [flags]. *)
Definition halted_machine (flags : Z) : Machine :=
  let s := program_in_WRAM [0x00] (mkRegisters 0 0 0 0 0xFFFE 0xC000) in
  {| cpu := set_m_halted true (cpu s);
     bus := Memory_Write (Memory_Write (bus s) 0xFF0F flags) 0xFFFF flags |}.

(** IF & IE & 0x1F as the processor reads it. *)
Definition pending_interrupts (s : Machine) : option Z :=
  if_reg ← Memory_Read (bus s) 0xFF0F;
  ie_reg ← Memory_Read (bus s) 0xFFFF;
  Some (Z.land (Z.land if_reg ie_reg) 0x1F).

(** * Further vocabulary

    Definitions used by the properties proved in the last part of the file:
    regions of the map, the cartridge, the picture unit's registers, the
    rest of the scheduler and the processor's registers and flags. *)

(** ** The memory map *)

(** The echo of work RAM and the unusable region. *)
Definition in_ECHO (a : Z) : Prop := ECHO_RAM_START <= a <= ECHO_RAM_END.
Definition in_UNUSABLE (a : Z) : Prop := UNUSABLE_START <= a <= UNUSABLE_END.

(** The addresses backed by an array of [Memory]. *)
Definition in_RAM (a : Z) : Prop :=
  in_VRAM a \/ in_WRAM a \/ in_ECHO a \/ in_OAM a \/ in_HRAM a.

(** The arrays of [Memory] that back the RAM regions of the map. *)
Inductive RAMArray := ram_wram | ram_vram | ram_oam | ram_hram.

(** The array, the assignment [array[i] = v] and the declared size. *)
Definition RAM_array (k : RAMArray) (m : Memory) : list Z :=
  match k with
  | ram_wram => m_wram m | ram_vram => m_vram m | ram_oam => m_oam m | ram_hram => m_hram m
  end.

Definition RAM_update (k : RAMArray) (i v : Z) (m : Memory) : Memory :=
  match k with
  | ram_wram => set_m_wram (array_set (m_wram m) i v) m
  | ram_vram => set_m_vram (array_set (m_vram m) i v) m
  | ram_oam => set_m_oam (array_set (m_oam m) i v) m
  | ram_hram => set_m_hram (array_set (m_hram m) i v) m
  end.

Definition RAM_size (k : RAMArray) : Z :=
  match k with
  | ram_wram => WRAM_SIZE | ram_vram => VRAM_SIZE | ram_oam => OAM_SIZE | ram_hram => HRAM_SIZE
  end.

(** The byte of storage behind an address of the RAM regions: the array and
    the index in it; the echo region shares the bytes of WRAM. *)
Definition RAM_cell (a : Z) : option (RAMArray * Z) :=
  if (VRAM_START <=? a) && (a <=? VRAM_END) then Some (ram_vram, a - VRAM_START)
  else if (WRAM_START <=? a) && (a <=? WRAM_END) then Some (ram_wram, a - WRAM_START)
  else if (ECHO_RAM_START <=? a) && (a <=? ECHO_RAM_END) then Some (ram_wram, a - ECHO_RAM_START)
  else if (OAM_START <=? a) && (a <=? OAM_END) then Some (ram_oam, a - OAM_START)
  else if (HRAM_START <=? a) && (a <=? HRAM_END) then Some (ram_hram, a - HRAM_START)
  else None.

(** ** The cartridge *)

(** The cartridge types for which [MBC::Create] returns a controller. *)
Definition supported_cartridge_types : list Z :=
  [0x00; 0x01; 0x02; 0x03; 0x0F; 0x10; 0x11; 0x12; 0x13; 0x19; 0x1A; 0x1B; 0x1C; 0x1D; 0x1E].

(** The controller without banking. *)
Definition MBC_is_MBC0 (c : MBC) : bool :=
  match c with Cart_MBC0 _ => true | _ => false end.

(** External RAM answers: it is enabled and, on MBC3, a RAM bank or (with a
    clock) a clock register is selected. *)
Definition MBC_ram_accessible (c : MBC) : bool :=
  match c with
  | Cart_MBC0 _ => false
  | Cart_MBC1 c => MBC1_m_ram_enabled c
  | Cart_MBC3 c =>
      MBC3_m_ram_enabled c
      && ((MBC3_m_ram_bank c <=? 0x03)
          || (MBC3_m_has_rtc c && (0x08 <=? MBC3_m_ram_bank c) && (MBC3_m_ram_bank c <=? 0x0C)))
  | Cart_MBC5 c => MBC5_m_ram_enabled c
  end.

(** The RAM vector has the size the constructor gives it. *)
Definition MBC_ram_sized (c : MBC) : Prop :=
  match c with
  | Cart_MBC0 _ => True
  | Cart_MBC1 c => vector_size (MBC1_m_ram c) = 32 * 1024
  | Cart_MBC3 c => vector_size (MBC3_m_ram c) = 32 * 1024
  | Cart_MBC5 c => vector_size (MBC5_m_ram c) = 128 * 1024
  end.

(** The ROM byte at [offset], 0xFF beyond the end of the image. *)
Definition ROM_byte (rom : list Z) (offset : Z) : Z := default 0xFF (rom !! Z.to_nat offset).

(** The bank that the window 0x4000-0x7FFF shows after [value] is written to
    the bank register at [address] (0x2000-0x3FFF). *)
Definition MBC_selected_bank (c : MBC) (address value : Z) : Z :=
  match c with
  | Cart_MBC0 _ => 1
  | Cart_MBC1 _ => if Z.land value 0x1F =? 0 then 1 else Z.land value 0x1F
  | Cart_MBC3 _ => if Z.land value 0x7F =? 0 then 1 else Z.land value 0x7F
  | Cart_MBC5 c =>
      if address <=? 0x2FFF
      then Z.lor (Z.land (MBC5_m_rom_bank c) 0x100) value
      else Z.lor (Z.land (MBC5_m_rom_bank c) 0x0FF) (Z.shiftl (Z.land value 0x01) 8)
  end.

(** A machine with the smallest MBC1+RAM cartridge, external RAM enabled by
    a write of 0x0A to 0x0000. *)
Definition Bus_with_RAM_enabled : Bus :=
  Memory_Write (snd (Bus_with_cartridge (small_cartridge 0x03))) 0x0000 0x0A.

(** A 48 KiB MBC1 image: bank 0 filled with 0x11, bank 1 with 0x22, bank 2
    with 0x33. *)
Definition three_bank_cartridge : list Z :=
  <[Z.to_nat 0x0147 := 0x01]>
    (replicate (Z.to_nat 0x4000) 0x11 ++ replicate (Z.to_nat 0x4000) 0x22
     ++ replicate (Z.to_nat 0x4000) 0x33).

(** ** The timer *)

(** What [Timer::Step] may change of the bus: the timer's own counters, and
    bit 2 of IF. *)
Definition Timer_Step_footprint (b b' : Bus) : Prop :=
  ppu b' = ppu b
  /\ m_tma (timer b') = m_tma (timer b)
  /\ m_tac (timer b') = m_tac (timer b)
  /\ (memory b' = memory b \/ memory b' = Memory_RequestInterrupt (memory b) 0x04).

(** ** The picture unit *)

(** The sprite at index [i] of OAM. *)
Definition OAM_sprite (oam : list Z) (i : Z) : Sprite :=
  {| sprite_y := array_get oam (i * 4 + 0);
     sprite_x := array_get oam (i * 4 + 1);
     sprite_tile := array_get oam (i * 4 + 2);
     sprite_flags := array_get oam (i * 4 + 3) |}.

(** The line test of [PPU::ScanOAM]. *)
Definition Sprite_on_line (sprite_height scanline : Z) (s : Sprite) : bool :=
  (s16 (sprite_y s - 16) <=? s16 scanline)
  && (s16 scanline <? s16 (sprite_y s - 16) + sprite_height).

(** The sprites among [indices] of OAM that cover the line, in OAM order. *)
Definition OAM_sprites_on_line (oam : list Z) (sprite_height scanline : Z)
    (indices : list Z) : list Sprite :=
  filter (fun s => Sprite_on_line sprite_height scanline s = true) (OAM_sprite oam <$> indices).

(** Power-on bus with twelve sprites at Y = 16 (the top line) in OAM. *)
Definition Bus_with_sprites : Bus :=
  fold_left (fun b i => Memory_Write b (0xFE00 + i * 4) 16) (seqZ 0 12) (bus GameBoy_new).

(** Pixel [j] of the frame buffer lies in row [scanline]. *)
Definition in_framebuffer_row (scanline j : Z) : Prop :=
  scanline * SCREEN_WIDTH <= j < scanline * SCREEN_WIDTH + SCREEN_WIDTH.

(** Bus [b'] differs from [b] at most in pixels other than [j] of the frame
    buffer. *)
Definition PPU_pixel_frame (j : Z) (b b' : Bus) : Prop :=
  array_get (m_framebuffer (ppu b')) j = array_get (m_framebuffer (ppu b)) j
  /\ length (m_framebuffer (ppu b')) = length (m_framebuffer (ppu b))
  /\ memory b' = memory b
  /\ PPU_same_line_state b b'.

(** The chunks of one line: calls of at most 80 cycles that sum to 456. *)
Definition PPU_line_chunks (chunks : list Z) : Prop :=
  Forall (fun cycles => 0 <= cycles <= 80) chunks /\ total_cycles chunks = 456.

(** STAT bits 0-1 show the mode of the picture unit. *)
Definition PPU_stat_shows_mode (b : Bus) : Prop :=
  Z.land (m_stat (ppu b)) STAT_MODE_FLAG = Mode_to_u8 (m_mode (ppu b)).

(** What drawing leaves alone: everything but the frame buffer, the sprite
    buffer and the sprite count. *)
Definition PPU_draws_only (b b' : Bus) : Prop :=
  memory b' = memory b /\ timer b' = timer b
  /\ m_mode (ppu b') = m_mode (ppu b)
  /\ m_stat (ppu b') = m_stat (ppu b)
  /\ m_frame_ready (ppu b') = m_frame_ready (ppu b)
  /\ m_lyc (ppu b') = m_lyc (ppu b)
  /\ m_scanline (ppu b') = m_scanline (ppu b)
  /\ m_cycle_counter (ppu b') = m_cycle_counter (ppu b).

(** One call of [PPU::Step] seen from the status register: the bus stays
    wired, the timer is untouched, the frame flag is never cleared, and STAT
    bits 0-1 either keep their value while the mode stays or show the mode. *)
Definition PPU_status_step (b b' : Bus) : Prop :=
  Bus_wired b' /\ timer b' = timer b
  /\ (m_frame_ready (ppu b') = m_frame_ready (ppu b) \/ m_frame_ready (ppu b') = true)
  /\ ((m_mode (ppu b') = m_mode (ppu b)
       /\ Z.land (m_stat (ppu b')) STAT_MODE_FLAG = Z.land (m_stat (ppu b)) STAT_MODE_FLAG)
      \/ PPU_stat_shows_mode b').

(** The STAT interrupt source that [PPU::SetMode] consults for a mode:
    bit 3 for HBLANK, bit 4 for VBLANK, bit 5 for OAM_SCAN, none for DRAWING. *)
Definition STAT_interrupt_selected (mode : Mode) (stat : Z) : bool :=
  match mode with
  | HBLANK => Z.testbit stat 3
  | VBLANK => Z.testbit stat 4
  | OAM_SCAN => Z.testbit stat 5
  | DRAWING => false
  end.

(** The value of [m_io[0x0F]], the backing cell of IF. *)
Definition Bus_IF (b : Bus) : Z := array_get (m_io (memory b)) 0x0F.

(** The power-on bus put in HBLANK on the last visible line. *)
Definition Bus_at_line_143 : Bus :=
  set_ppu_of (fun p => set_m_mode HBLANK (set_m_scanline 143 p)) (bus GameBoy_new).

(** The power-on bus put in HBLANK of line 0, and in VBLANK on line 153. *)
Definition Bus_in_HBLANK : Bus := set_ppu_of (set_m_mode HBLANK) (bus GameBoy_new).

Definition Bus_at_line_153 : Bus :=
  set_ppu_of (fun p => set_m_mode VBLANK (set_m_scanline 153 p)) (bus GameBoy_new).

(** The registers of the picture unit that are stored as written: LCDC, SCY,
    SCX, LYC, BGP, OBP0, OBP1, WY and WX. *)
Definition PPU_plain_registers : list Z :=
  [0xFF40; 0xFF42; 0xFF43; 0xFF45; 0xFF47; 0xFF48; 0xFF49; 0xFF4A; 0xFF4B].

(** ** The scheduler *)

Section SchedulerEvents.

Context {EventCallback Q : Type}.
Context {PQ : PriorityQueue (ScheduledEvent EventCallback) Q}.

(** The [while] loop of [Scheduler::ProcessEvents] (core/timer/timer.cpp),
    for callbacks that act on a state [W] outside the scheduler: [run cb w]
    is the state after the call [cb()] in state [w]. *)
Fixpoint Scheduler_ProcessEvents_loop {W : Type} (fuel : nat) (run : EventCallback -> W -> W)
    (current_cycle : Z) (queue : Q) (w : W) : Q * W :=
  match fuel with
  | O => (queue, w)
  | S fuel =>
    if pq_empty queue then (queue, w)
    else
      match pq_top queue with
      | Some next_event =>
        if fire_at_cycle next_event <=? current_cycle then
          let w := run (callback next_event) w in
          Scheduler_ProcessEvents_loop fuel run current_cycle (pq_pop queue) w
        else (queue, w)
      | None => (queue, w)
      end
  end.

(** [Scheduler::ProcessEvents].  Every turn pops one event, so the size of
    the queue bounds the number of turns. *)
Definition Scheduler_ProcessEvents {W : Type} (run : EventCallback -> W -> W)
    (s : Scheduler Q) (w : W) : Scheduler Q * W :=
  let '(queue, w) :=
    Scheduler_ProcessEvents_loop (pq_size (m_event_queue s)) run (m_current_cycle s)
      (m_event_queue s) w in
  (mkScheduler queue (m_current_cycle s), w).

(** The least fire cycle of a collection of events. *)
Definition earliest_fire (events : list (ScheduledEvent EventCallback)) : option Z :=
  foldr (fun e acc => Some match acc with
                           | Some m => Z.min (fire_at_cycle e) m
                           | None => fire_at_cycle e
                           end) None events.

(** The current cycle and every fire cycle are 64-bit values. *)
Definition Scheduler_in_range (s : Scheduler Q) : Prop :=
  0 <= m_current_cycle s < 2 ^ 64
  /\ Forall (fun e => 0 <= fire_at_cycle e < 2 ^ 64) (pq_elements (m_event_queue s)).

End SchedulerEvents.

(** ** The processor *)

(** The two 8-bit members that share storage with a 16-bit register: the
    high byte first. *)
Definition Reg16_halves (r : Reg16) : option (Reg8 * Reg8) :=
  match r with
  | reg_af => Some (reg_a, reg_f)
  | reg_bc => Some (reg_b, reg_c)
  | reg_de => Some (reg_d, reg_e)
  | reg_hl => Some (reg_h, reg_l)
  | reg_sp | reg_pc => None
  end.

(** Every register holds a 16-bit value. *)
Definition Registers_in_range (x : Registers) : Prop :=
  forall r, 0 <= Registers_get16 r x <= 0xFFFF.

(** The stack pointer leaves room for one word in RAM below it. *)
Definition CPU_stack_in_RAM (s : Machine) : Prop :=
  in_RAM (u16 (sp (m_regs (cpu s)) - 2)) /\ in_RAM (u16 (sp (m_regs (cpu s)) - 2) + 1).

(** The operand bytes 0x10 0xC1 at PC = 0xC000, SP = 0xFFFE. *)
Definition CPU_call_example : Machine :=
  program_in_WRAM [0x10; 0xC1] (mkRegisters 0 0 0 0 0xFFFE 0xC000).

(** IME set, V-blank and timer requested (IF = 0x05), only the timer
    enabled (IE = 0x04), PC = 0xC000, SP = 0xFFFE. *)
Definition CPU_interrupt_example : Machine :=
  {| cpu := set_m_ime true (set_m_regs (mkRegisters 0 0 0 0 0xFFFE 0xC000) (cpu GameBoy_new));
     bus := Memory_Write (Memory_Write (bus GameBoy_new) 0xFF0F 0x05) 0xFFFF 0x04 |}.

(** The value [CPU::SetFlag] stores in F. *)
Definition flag_update (f flag : Z) (value : bool) : Z :=
  if value then u8 (Z.lor f flag) else u8 (Z.land f (Z.lnot flag)).

(** Packed binary-coded decimal: two decimal digits in one byte, the number
    they denote, and the byte of a number below 100. *)
Definition BCD_valid (b : Z) : Prop := 0 <= b /\ b / 16 <= 9 /\ b mod 16 <= 9.
Definition BCD_value (b : Z) : Z := (b / 16) * 10 + b mod 16.
Definition to_BCD (n : Z) : Z := (n / 10) * 16 + n mod 10.

(** The flag [flag] of the processor. *)
Definition CPU_flag (flag : Z) (s : Machine) : bool :=
  nonzero (Z.land (Registers_get8 reg_f (m_regs (cpu s))) flag).

(** What an arithmetic instruction leaves alone: every register but A and
    F, the low four bits of F, the interrupt and halt latches and the bus. *)
Definition CPU_ALU_frame (s s' : Machine) : Prop :=
  bc (m_regs (cpu s')) = bc (m_regs (cpu s))
  /\ de (m_regs (cpu s')) = de (m_regs (cpu s))
  /\ hl (m_regs (cpu s')) = hl (m_regs (cpu s))
  /\ sp (m_regs (cpu s')) = sp (m_regs (cpu s))
  /\ pc (m_regs (cpu s')) = pc (m_regs (cpu s))
  /\ Z.land (Registers_get8 reg_f (m_regs (cpu s'))) 0x0F
     = Z.land (Registers_get8 reg_f (m_regs (cpu s))) 0x0F
  /\ m_ime (cpu s') = m_ime (cpu s)
  /\ m_halted (cpu s') = m_halted (cpu s)
  /\ m_stopped (cpu s') = m_stopped (cpu s)
  /\ bus s' = bus s.

(** The hundred bytes that are packed decimals. *)
Definition BCD_bytes : list Z := to_BCD <$> seqZ 0 100.

(** A and the carry flag that the handlers leave after ADD A,value and DAA,
    and after SUB value and DAA, as functions of A and the operand: the
    values of [CPU_OP_ADD_A_r_spec], [CPU_OP_SUB_r_spec] and
    [CPU_OP_DAA_spec], evaluated on the hundred decimal operands. *)
Definition DAA_after_ADD (a value : Z) : Z * bool :=
  let result := u16 (a + value) in
  let hf := 0x0F <? Z.land a 0x0F + Z.land value 0x0F in
  let cf := 0xFF <? result in
  let a := u8 result in
  let a1 := if cf || (0x99 <? a) then u8 (a + 0x60) else a in
  (if hf || (0x09 <? Z.land a1 0x0F) then u8 (a1 + 0x06) else a1, cf || (0x99 <? a)).

Definition DAA_after_SUB (a value : Z) : Z * bool :=
  let result := u16 (a - value) in
  let hf := Z.land a 0x0F <? Z.land value 0x0F in
  let cf := a <? value in
  let a := u8 result in
  let a1 := if cf then u8 (a - 0x60) else a in
  (if hf then u8 (a1 - 0x06) else a1, cf).

(** * Verification *)

(** ** Arrays, pages and handlers *)

Lemma array_get_set_eq (a : list Z) (i v : Z) :
  0 <= i < Z.of_nat (length a) -> array_get (array_set a i v) i = v.
Proof.
  intros H. unfold array_get, array_set.
  rewrite list_lookup_insert_eq; [done | lia].
Qed.

Lemma array_set_length (a : list Z) (i v : Z) : length (array_set a i v) = length a.
Proof. apply length_insert. Qed.

Lemma Memory_InitializePageTables_paged (m : Memory) :
  Memory_paged (Memory_InitializePageTables m).
Proof. split; vm_compute; reflexivity. Qed.

Lemma page_lookup (page : Z) :
  0 <= page < 256 ->
  default None ((Memory_page_entry <$> seqZ 0 PAGE_COUNT) !! Z.to_nat page) = Memory_page_entry page.
Proof.
  intros H. rewrite list_lookup_fmap, lookup_seqZ_lt by (unfold PAGE_COUNT; lia).
  simpl. f_equal. lia.
Qed.

Ltac decide_cmp :=
  repeat first
    [ rewrite (proj2 (Z.leb_le _ _)) by lia
    | rewrite (proj2 (Z.leb_gt _ _)) by lia
    | rewrite (proj2 (Z.ltb_lt _ _)) by lia
    | rewrite (proj2 (Z.ltb_ge _ _)) by lia
    | rewrite (proj2 (Z.eqb_eq _ _)) by lia
    | rewrite (proj2 (Z.eqb_neq _ _)) by lia ];
  cbn [andb orb negb].

Ltac divmod256 a :=
  pose proof (Z.div_mod a 256 ltac:(lia));
  pose proof (Z.mod_pos_bound a 256 ltac:(lia)).

Lemma address_page (a : Z) :
  0 <= a <= 0xFFFF -> u8 (a / PAGE_SIZE) = a / 256 /\ u8 (a mod PAGE_SIZE) = a mod 256
  /\ 0 <= a / 256 < 256 /\ 0 <= a mod 256 < 256.
Proof.
  intros H. unfold u8, PAGE_SIZE.
  divmod256 a.
  assert (0 <= a / 256 < 256) by lia.
  rewrite !Z.mod_small by lia. auto.
Qed.

Lemma Memory_read_page (m : Memory) (a : Z) :
  Memory_paged m -> 0 <= a <= 0xFFFF ->
  default None (m_read_page_table m !! Z.to_nat (u8 (a / PAGE_SIZE))) = Memory_page_entry (a / 256).
Proof.
  intros [Hr _] Ha. destruct (address_page a Ha) as (-> & _ & ? & _).
  rewrite Hr. by apply page_lookup.
Qed.

Lemma Memory_write_page (m : Memory) (a : Z) :
  Memory_paged m -> 0 <= a <= 0xFFFF ->
  default None (m_write_page_table m !! Z.to_nat (u8 (a / PAGE_SIZE))) = Memory_page_entry (a / 256).
Proof.
  intros [_ Hw] Ha. destruct (address_page a Ha) as (-> & _ & ? & _).
  rewrite Hw. by apply page_lookup.
Qed.

Lemma page_entry_WRAM a : in_WRAM a -> Memory_page_entry (a / 256) = Some (wram_data ((a / 256 - 0xC0) * 0x100)).
Proof.
  unfold in_WRAM, WRAM_START, WRAM_END. intros H.
  assert (0xC0 <= a / 256 <= 0xDF) by (divmod256 a; lia).
  unfold Memory_page_entry. decide_cmp. reflexivity.
Qed.

Lemma page_entry_VRAM a : in_VRAM a -> Memory_page_entry (a / 256) = Some (vram_data ((a / 256 - 0x80) * 0x100)).
Proof.
  unfold in_VRAM, VRAM_START, VRAM_END. intros H.
  assert (0x80 <= a / 256 <= 0x9F) by (divmod256 a; lia).
  unfold Memory_page_entry. decide_cmp. reflexivity.
Qed.

Lemma page_entry_high a : 0xFE00 <= a <= 0xFFFF -> Memory_page_entry (a / 256) = None.
Proof.
  intros H.
  assert (0xFE <= a / 256 <= 0xFF) by (divmod256 a; lia).
  unfold Memory_page_entry. decide_cmp. reflexivity.
Qed.

(** The page-table entry that [Memory::Read] and [Memory::Write] consult for
    address [a]: [Some] is the paged fast path, [None] the slow path. *)
Lemma Memory_page_of_address (m : Memory) (a : Z) :
  Memory_paged m ->
  (in_WRAM a \/ in_VRAM a ->
   is_Some (default None (m_write_page_table m !! Z.to_nat (u8 (a / PAGE_SIZE))))
   /\ is_Some (default None (m_read_page_table m !! Z.to_nat (u8 (a / PAGE_SIZE)))))
  /\ (in_HRAM a \/ in_OAM a ->
      default None (m_write_page_table m !! Z.to_nat (u8 (a / PAGE_SIZE))) = None
      /\ default None (m_read_page_table m !! Z.to_nat (u8 (a / PAGE_SIZE))) = None).
Proof.
  intros Hp. split; intros Hreg.
  - assert (Ha : 0 <= a <= 0xFFFF)
      by (unfold in_WRAM, in_VRAM, WRAM_START, WRAM_END, VRAM_START, VRAM_END in Hreg; lia).
    rewrite (Memory_write_page _ _ Hp Ha), (Memory_read_page _ _ Hp Ha).
    destruct Hreg as [H | H];
      [rewrite (page_entry_WRAM a H) | rewrite (page_entry_VRAM a H)]; split; eauto.
  - assert (Ha : 0xFE00 <= a <= 0xFFFF)
      by (unfold in_HRAM, in_OAM, HRAM_START, HRAM_END, OAM_START, OAM_END in Hreg; lia).
    rewrite (Memory_write_page _ _ Hp), (Memory_read_page _ _ Hp) by lia.
    rewrite page_entry_high by lia. split; reflexivity.
Qed.

(** ** Write then read of RAM *)

(** C4: for every address [a] in WRAM, VRAM, HRAM or OAM and every byte [v],
    [Write(a, v)] followed by [Read(a)] returns [v].  WRAM and VRAM go through
    the page tables (the fast path), HRAM and OAM through the address
    comparisons (the slow path), and the result is the same on both. *)
Theorem Memory_Write_Read_RAM (b : Bus) (a v : Z) :
  Memory_paged (memory b) -> Memory_sized (memory b) ->
  0 <= v <= 0xFF ->
  in_WRAM a \/ in_VRAM a \/ in_HRAM a \/ in_OAM a ->
  Memory_Read (Memory_Write b a v) a = Some v
  /\ (in_WRAM a \/ in_VRAM a ->
      is_Some (default None (m_write_page_table (memory b) !! Z.to_nat (u8 (a / PAGE_SIZE))))
      /\ is_Some (default None (m_read_page_table (memory b) !! Z.to_nat (u8 (a / PAGE_SIZE)))))
  /\ (in_HRAM a \/ in_OAM a ->
      default None (m_write_page_table (memory b) !! Z.to_nat (u8 (a / PAGE_SIZE))) = None
      /\ default None (m_read_page_table (memory b) !! Z.to_nat (u8 (a / PAGE_SIZE))) = None).
Proof.
  intros Hp (Hw & Hv & Ho & Hh & Hi) _ Hreg.
  split; [| exact (Memory_page_of_address (memory b) a Hp)].
  assert (Ha : 0 <= a <= 0xFFFF).
  { unfold in_WRAM, in_VRAM, in_HRAM, in_OAM, WRAM_START, WRAM_END, VRAM_START, VRAM_END,
      HRAM_START, HRAM_END, OAM_START, OAM_END in Hreg. lia. }
  destruct (address_page a Ha) as (Hpage & Hoff & Hpr & Hor).
  pose proof (Z.div_mod a 256 ltac:(lia)) as Hdm.
  unfold Memory_Write. rewrite (Memory_write_page _ _ Hp Ha).
  destruct Hreg as [H | [H | [H | H]]].
  - rewrite (page_entry_WRAM a H). unfold Memory_Read. cbn [memory set_memory PagePtr_store].
    rewrite Memory_read_page; [| destruct Hp; split; assumption | assumption].
    rewrite (page_entry_WRAM a H). cbn [PagePtr_load m_wram set_m_wram].
    rewrite Hoff. f_equal. apply array_get_set_eq. rewrite Hw.
    unfold in_WRAM, WRAM_START, WRAM_END, WRAM_SIZE in *. lia.
  - rewrite (page_entry_VRAM a H). unfold Memory_Read. cbn [memory set_memory PagePtr_store].
    rewrite Memory_read_page; [| destruct Hp; split; assumption | assumption].
    rewrite (page_entry_VRAM a H). cbn [PagePtr_load m_vram set_m_vram].
    rewrite Hoff. f_equal. apply array_get_set_eq. rewrite Hv.
    unfold in_VRAM, VRAM_START, VRAM_END, VRAM_SIZE in *. lia.
  - unfold in_HRAM, HRAM_START, HRAM_END in H.
    rewrite page_entry_high by lia.
    unfold ROM_BANK_0_START, ROM_BANK_N_END, EXTERNAL_RAM_START, EXTERNAL_RAM_END, OAM_START,
      OAM_END, UNUSABLE_START, UNUSABLE_END, IO_START, IO_END, HRAM_START, HRAM_END.
    decide_cmp.
    unfold Memory_Read. cbn [memory set_memory].
    rewrite Memory_read_page; [| destruct Hp; split; assumption | assumption].
    rewrite page_entry_high by lia.
    unfold ROM_BANK_0_START, ROM_BANK_N_END, EXTERNAL_RAM_START, EXTERNAL_RAM_END, OAM_START,
      OAM_END, UNUSABLE_START, UNUSABLE_END, IO_START, IO_END, HRAM_START, HRAM_END.
    decide_cmp. cbn [m_hram set_m_hram]. f_equal. apply array_get_set_eq.
    rewrite Hh. unfold HRAM_SIZE. lia.
  - unfold in_OAM, OAM_START, OAM_END in H.
    rewrite page_entry_high by lia.
    unfold ROM_BANK_0_START, ROM_BANK_N_END, EXTERNAL_RAM_START, EXTERNAL_RAM_END, OAM_START,
      OAM_END, UNUSABLE_START, UNUSABLE_END, IO_START, IO_END, HRAM_START, HRAM_END.
    decide_cmp.
    unfold Memory_Read. cbn [memory set_memory].
    rewrite Memory_read_page; [| destruct Hp; split; assumption | assumption].
    rewrite page_entry_high by lia.
    unfold ROM_BANK_0_START, ROM_BANK_N_END, EXTERNAL_RAM_START, EXTERNAL_RAM_END, OAM_START,
      OAM_END, UNUSABLE_START, UNUSABLE_END, IO_START, IO_END, HRAM_START, HRAM_END.
    decide_cmp. cbn [m_oam set_m_oam]. f_equal. apply array_get_set_eq.
    rewrite Ho. unfold OAM_SIZE. lia.
Qed.

Lemma Memory_Write_Read_RAM_witness :
  Memory_Read (Memory_Write (bus GameBoy_new) 0xC123 0x5A) 0xC123 = Some 0x5A
  /\ Memory_Read (Memory_Write (bus GameBoy_new) 0xFE9F 0xA5) 0xFE9F = Some 0xA5.
Proof.
  split.
  - apply (Memory_Write_Read_RAM (bus GameBoy_new) 0xC123 0x5A).
    + split; vm_compute; reflexivity.
    + repeat split; vm_compute; reflexivity.
    + lia.
    + left. unfold in_WRAM, WRAM_START, WRAM_END. lia.
  - apply (Memory_Write_Read_RAM (bus GameBoy_new) 0xFE9F 0xA5).
    + split; vm_compute; reflexivity.
    + repeat split; vm_compute; reflexivity.
    + lia.
    + right. right. right. unfold in_OAM, OAM_START, OAM_END. lia.
Defined.

(** ** The I/O registers *)

Lemma GameBoy_new_wired : Bus_wired (bus GameBoy_new).
Proof. repeat split; vm_compute; reflexivity. Qed.

Lemma io_read_handler_lookup (m : Memory) (a : Z) :
  Memory_wired m -> IO_START <= a <= IO_END ->
  default None (m_io_read_handlers m !! Z.to_nat (u16 (a - IO_START))) = IO_read_handler_entry (a - 0xFF00).
Proof.
  intros [Hr _] H. unfold IO_START, IO_END in *. rewrite Hr.
  unfold u16. rewrite Z.mod_small by lia.
  rewrite list_lookup_fmap, lookup_seqZ_lt by (unfold IO_SIZE; lia).
  simpl. f_equal. lia.
Qed.

Lemma io_write_handler_lookup (m : Memory) (a : Z) :
  Memory_wired m -> IO_START <= a <= IO_END ->
  default None (m_io_write_handlers m !! Z.to_nat (u16 (a - IO_START))) = IO_write_handler_entry (a - 0xFF00).
Proof.
  intros [_ Hw] H. unfold IO_START, IO_END in *. rewrite Hw.
  unfold u16. rewrite Z.mod_small by lia.
  rewrite list_lookup_fmap, lookup_seqZ_lt by (unfold IO_SIZE; lia).
  simpl. f_equal. lia.
Qed.

Ltac unfold_map :=
  unfold ROM_BANK_0_START, ROM_BANK_N_END, EXTERNAL_RAM_START, EXTERNAL_RAM_END, OAM_START,
    OAM_END, UNUSABLE_START, UNUSABLE_END, IO_START, IO_END, HRAM_START, HRAM_END, IE_REGISTER in *.

Lemma Memory_Write_IO (b : Bus) (a v : Z) :
  Bus_wired b -> IO_START <= a <= IO_END ->
  Memory_Write b a v =
  match IO_write_handler_entry (a - 0xFF00) with
  | Some handler => IOWriteHandler_call handler b a v
  | None => set_memory_of (fun m => set_m_io (array_set (m_io m) (a - 0xFF00) v) m) b
  end.
Proof.
  intros [Hp Hw] H. pose proof H as H'. unfold IO_START, IO_END in H'.
  unfold Memory_Write. rewrite (Memory_write_page _ _ Hp) by lia.
  rewrite page_entry_high by lia. unfold_map. decide_cmp.
  unfold Memory_WriteIO. rewrite (io_write_handler_lookup _ _ Hw H).
  unfold IO_START, u16. rewrite Z.mod_small by lia. reflexivity.
Qed.

Lemma Memory_Read_IO (b : Bus) (a : Z) :
  Bus_wired b -> IO_START <= a <= IO_END ->
  Memory_Read b a =
  Some match IO_read_handler_entry (a - 0xFF00) with
       | Some handler => IOReadHandler_call handler b a
       | None => array_get (m_io (memory b)) (a - 0xFF00)
       end.
Proof.
  intros [Hp Hw] H. pose proof H as H'. unfold IO_START, IO_END in H'.
  unfold Memory_Read. rewrite (Memory_read_page _ _ Hp) by lia.
  rewrite page_entry_high by lia. unfold_map. decide_cmp.
  unfold Memory_ReadIO. rewrite (io_read_handler_lookup _ _ Hw H).
  unfold IO_START, u16. rewrite Z.mod_small by lia. reflexivity.
Qed.

(** C10: a write of any value to 0xFF44 through the bus leaves the whole bus
    (memory, picture unit, timer) as it was, and a read of 0xFF44 after it
    returns the line counter [m_scanline] of the picture unit. *)
Theorem Memory_Write_LY_discarded (b : Bus) (v : Z) :
  Bus_wired b -> 0 <= v <= 0xFF ->
  Memory_Write b 0xFF44 v = b
  /\ Memory_Read (Memory_Write b 0xFF44 v) 0xFF44 = Some (m_scanline (ppu b)).
Proof.
  intros Hw _.
  assert (E : Memory_Write b 0xFF44 v = b).
  { rewrite Memory_Write_IO by (unfold IO_START, IO_END; done || lia). reflexivity. }
  rewrite E. split; [reflexivity |].
  rewrite Memory_Read_IO by (unfold IO_START, IO_END; done || lia). reflexivity.
Qed.

Lemma Memory_Write_LY_discarded_witness :
  Memory_Write (bus GameBoy_new) 0xFF44 0x5A = bus GameBoy_new
  /\ Memory_Read (Memory_Write (bus GameBoy_new) 0xFF44 0x5A) 0xFF44
     = Some (m_scanline (ppu (bus GameBoy_new))).
Proof.
  apply Memory_Write_LY_discarded; [repeat split; vm_compute; reflexivity | lia].
Defined.

(** ** The picture unit: one call of [PPU::Step] *)


Lemma PPU_same_line_state_refl b : PPU_same_line_state b b.
Proof. by repeat split. Qed.

Lemma PPU_same_line_state_trans b1 b2 b3 :
  PPU_same_line_state b1 b2 -> PPU_same_line_state b2 b3 -> PPU_same_line_state b1 b3.
Proof. unfold PPU_same_line_state. intros (?&?&?&?) (?&?&?&?). repeat split; congruence. Qed.

Lemma Bus_wired_set_ppu (p : PPU) (b : Bus) : Bus_wired b -> Bus_wired (set_ppu p b).
Proof. done. Qed.

Lemma Bus_wired_set_io (io : list Z) (b : Bus) :
  Bus_wired b -> Bus_wired (set_memory_of (set_m_io io) b).
Proof. done. Qed.

Lemma PPU_raise_IF_spec (mask : Z) (b : Bus) :
  Bus_wired b ->
  exists b', PPU_raise_IF mask b = Some b' /\ Bus_wired b' /\ ppu b' = ppu b.
Proof.
  intros Hw. unfold PPU_raise_IF.
  rewrite Memory_Read_IO by (unfold IO_START, IO_END; done || lia).
  rewrite Memory_Write_IO by (unfold IO_START, IO_END; done || lia).
  cbn [IO_read_handler_entry IO_write_handler_entry Z.sub Z.add Z.opp Z.pos_sub Pos.succ_double_mask Pos.sub_mask Pos.double_mask Pos.pred_double].
  eexists. split; [reflexivity |]. split; [| reflexivity]. exact Hw.
Qed.

Lemma Memory_Write_STAT (b : Bus) (v : Z) :
  Bus_wired b ->
  Memory_Write b 0xFF41 v =
  set_ppu_of (fun p => set_m_stat (Z.lor (Z.land v 0xF8) (Z.land (m_stat p) 0x07)) p) b.
Proof.
  intros Hw. rewrite Memory_Write_IO by (unfold IO_START, IO_END; done || lia). reflexivity.
Qed.

Lemma Memory_Write_LY (b : Bus) (v : Z) : Bus_wired b -> Memory_Write b 0xFF44 v = b.
Proof.
  intros Hw. rewrite Memory_Write_IO by (unfold IO_START, IO_END; done || lia). reflexivity.
Qed.

Lemma PPU_SetMode_spec (mode : Mode) (b : Bus) :
  Bus_wired b ->
  exists b', PPU_SetMode mode b = Some b' /\ Bus_wired b'
    /\ m_mode (ppu b') = mode
    /\ m_cycle_counter (ppu b') = m_cycle_counter (ppu b)
    /\ m_scanline (ppu b') = m_scanline (ppu b)
    /\ m_lcdc (ppu b') = m_lcdc (ppu b).
Proof.
  intros Hw. unfold PPU_SetMode.
  rewrite Memory_Write_STAT by exact Hw.
  match goal with |- context [if ?c then PPU_raise_IF _ ?x else _] =>
    destruct c; [destruct (PPU_raise_IF_spec 0x02 x) as (b' & E & Hw' & Hp); [exact Hw |] |] end.
  - exists b'. split; [exact E |]. split; [exact Hw' |]. rewrite Hp. cbn. by repeat split.
  - eexists. split; [reflexivity |]. split; [exact Hw |]. cbn. by repeat split.
Qed.

Lemma PPU_UpdateStatRegister_spec (b : Bus) :
  Bus_wired b ->
  exists b', PPU_UpdateStatRegister b = Some b' /\ Bus_wired b' /\ PPU_same_line_state b b'.
Proof.
  intros Hw. unfold PPU_UpdateStatRegister.
  destruct (m_scanline (ppu b) =? m_lyc (ppu b)).
  - match goal with |- context [if ?c then PPU_raise_IF _ ?x else _] =>
      destruct c; [destruct (PPU_raise_IF_spec 0x02 x) as (b' & E & Hw' & Hp); [exact Hw |] |] end.
    + rewrite E. cbn [mbind option_bind]. rewrite Memory_Write_STAT by exact Hw'.
      eexists. split; [reflexivity |]. split; [exact Hw' |].
      unfold PPU_same_line_state. cbn. rewrite Hp. cbn. by repeat split.
    + cbn [mbind option_bind]. rewrite Memory_Write_STAT by exact Hw.
      eexists. split; [reflexivity |]. split; [exact Hw |].
      unfold PPU_same_line_state. cbn. by repeat split.
  - cbn [mbind option_bind]. rewrite Memory_Write_STAT by exact Hw.
    eexists. split; [reflexivity |]. split; [exact Hw |].
    unfold PPU_same_line_state. cbn. by repeat split.
Qed.

Lemma PPU_ScanOAM_loop_spec oam h indices p :
  let p' := PPU_ScanOAM_loop oam h indices p in
  m_mode p' = m_mode p /\ m_cycle_counter p' = m_cycle_counter p
  /\ m_scanline p' = m_scanline p /\ m_lcdc p' = m_lcdc p.
Proof.
  revert p. induction indices as [| i rest IH]; intros p; [done |].
  cbn [PPU_ScanOAM_loop]. destruct (m_sprite_count p <? 10); [| done].
  specialize (IH (PPU_ScanOAM_body oam h i p)). cbn zeta in IH.
  destruct IH as (-> & -> & -> & ->).
  unfold PPU_ScanOAM_body.
  match goal with |- context [if ?c then _ else _] => destruct c end; done.
Qed.

Lemma PPU_ScanOAM_spec (b : Bus) :
  Bus_wired b -> Bus_wired (PPU_ScanOAM b) /\ PPU_same_line_state b (PPU_ScanOAM b).
Proof.
  intros Hw. split; [exact Hw |]. unfold PPU_ScanOAM, PPU_same_line_state.
  cbn [ppu set_ppu].
  match goal with |- context [PPU_ScanOAM_loop ?o ?h ?i ?p] =>
    destruct (PPU_ScanOAM_loop_spec o h i p) as (-> & -> & -> & ->) end.
  done.
Qed.

Lemma PPU_render_layer (c : bool) (f : Bus -> Bus) (b : Bus) :
  Bus_wired b ->
  (Bus_wired (f b) /\ PPU_same_line_state b (f b)) ->
  Bus_wired (if c then f b else b) /\ PPU_same_line_state b (if c then f b else b).
Proof.
  intros Hw Hf. destruct c; [exact Hf | split; [exact Hw | apply PPU_same_line_state_refl]].
Qed.

Lemma PPU_RenderBackground_spec (l : Z) (b : Bus) :
  Bus_wired b ->
  Bus_wired (PPU_RenderBackground l b) /\ PPU_same_line_state b (PPU_RenderBackground l b).
Proof. intros Hw. split; [exact Hw | by repeat split]. Qed.

Lemma PPU_RenderWindow_spec (l : Z) (b : Bus) :
  Bus_wired b ->
  Bus_wired (PPU_RenderWindow l b) /\ PPU_same_line_state b (PPU_RenderWindow l b).
Proof.
  intros Hw. unfold PPU_RenderWindow. destruct (l <? m_wy (ppu b)).
  - split; [exact Hw | apply PPU_same_line_state_refl].
  - split; [exact Hw | by repeat split].
Qed.

Lemma PPU_RenderSprites_spec (l : Z) (b : Bus) :
  Bus_wired b ->
  Bus_wired (PPU_RenderSprites l b) /\ PPU_same_line_state b (PPU_RenderSprites l b).
Proof.
  intros Hw. unfold PPU_RenderSprites. destruct (m_sprite_count (ppu b) =? 0).
  - split; [exact Hw | apply PPU_same_line_state_refl].
  - split; [exact Hw | by repeat split].
Qed.

Lemma PPU_RenderScanline_spec (b : Bus) :
  Bus_wired b -> Bus_wired (PPU_RenderScanline b) /\ PPU_same_line_state b (PPU_RenderScanline b).
Proof.
  intros Hw. unfold PPU_RenderScanline.
  destruct (SCREEN_HEIGHT <=? m_scanline (ppu b));
    [split; [exact Hw | apply PPU_same_line_state_refl] |].
  cbv zeta.
  set (c1 := nonzero (Z.land (m_lcdc (ppu b)) LCDC_BG_ENABLE)).
  destruct (PPU_render_layer c1 (PPU_RenderBackground (m_scanline (ppu b))) b Hw
              (PPU_RenderBackground_spec _ b Hw)) as [W1 S1].
  set (b1 := if c1 then PPU_RenderBackground (m_scanline (ppu b)) b else b) in *.
  set (c2 := nonzero (Z.land (m_lcdc (ppu b1)) LCDC_WIN_ENABLE)).
  destruct (PPU_render_layer c2 (PPU_RenderWindow (m_scanline (ppu b1))) b1 W1
              (PPU_RenderWindow_spec _ b1 W1)) as [W2 S2].
  set (b2 := if c2 then PPU_RenderWindow (m_scanline (ppu b1)) b1 else b1) in *.
  set (c3 := nonzero (Z.land (m_lcdc (ppu b2)) LCDC_OBJ_ENABLE)).
  destruct (PPU_render_layer c3 (PPU_RenderSprites (m_scanline (ppu b2))) b2 W2
              (PPU_RenderSprites_spec _ b2 W2)) as [W3 S3].
  split; [exact W3 |].
  eapply PPU_same_line_state_trans; [exact S1 |].
  eapply PPU_same_line_state_trans; [exact S2 | exact S3].
Qed.

Lemma PPU_on_line_within (line t : Z) (b : Bus) (mode : Mode) (start : Z) :
  Bus_wired b -> PPU_lcd_on b -> 0 <= line < 154 -> 0 <= t < 456 ->
  PPU_mode_at line t = mode -> PPU_mode_start line t = start ->
  m_scanline (ppu b) = line -> m_mode (ppu b) = mode -> m_cycle_counter (ppu b) = t - start ->
  PPU_on_line line t b.
Proof.
  intros Hw Hon Hl Ht Hm Hs H1 H2 H3. unfold PPU_on_line, SCANLINES_PER_FRAME.
  rewrite (proj2 (Z.ltb_lt t 456)) by lia. rewrite Hm, Hs.
  split; [exact Hw |]. split; [exact Hon |]. repeat split; try assumption; lia.
Qed.

Lemma PPU_on_line_end (line : Z) (b : Bus) (next : Z) (mode : Mode) :
  Bus_wired b -> PPU_lcd_on b -> 0 <= line < 154 ->
  PPU_next_line line = next -> PPU_mode_at next 0 = mode ->
  m_scanline (ppu b) = next -> m_mode (ppu b) = mode -> m_cycle_counter (ppu b) = 0 ->
  PPU_on_line line 456 b.
Proof.
  intros Hw Hon Hl Hn Hm H1 H2 H3. unfold PPU_on_line, SCANLINES_PER_FRAME.
  rewrite Z.ltb_irrefl, Hn, Hm.
  split; [exact Hw |]. split; [exact Hon |]. repeat split; try assumption; lia.
Qed.

Lemma u32_range (z : Z) : 0 <= u32 z < 0x100000000.
Proof. unfold u32. apply Z.mod_pos_bound. lia. Qed.

Lemma u32_small (z : Z) : 0 <= z < 0x100000000 -> u32 z = z.
Proof. intros H. unfold u32. apply Z.mod_small. exact H. Qed.

Lemma u8_small (z : Z) : 0 <= z < 0x100 -> u8 z = z.
Proof. intros H. unfold u8. apply Z.mod_small. exact H. Qed.

Lemma PPU_mode_at_cases line t :
  0 <= line < 154 -> 0 <= t < 456 ->
  (line < 144 /\ t < 80 /\ PPU_mode_at line t = OAM_SCAN /\ PPU_mode_start line t = 0)
  \/ (line < 144 /\ 80 <= t < 252 /\ PPU_mode_at line t = DRAWING /\ PPU_mode_start line t = 80)
  \/ (line < 144 /\ 252 <= t /\ PPU_mode_at line t = HBLANK /\ PPU_mode_start line t = 252)
  \/ (144 <= line /\ PPU_mode_at line t = VBLANK /\ PPU_mode_start line t = 0).
Proof.
  intros Hl Ht. unfold PPU_mode_at, PPU_mode_start, SCREEN_HEIGHT.
  destruct (Z.ltb_spec line 144); [| right; right; right; done].
  destruct (Z.ltb_spec t 80); [left; repeat split; done || lia |].
  destruct (Z.ltb_spec t (80 + 172)); [right; left | right; right; left];
    repeat split; done || lia.
Qed.

Lemma PPU_set_counter_spec (f : Z -> Z) (b : Bus) :
  let b' := set_ppu_of (fun p => set_m_cycle_counter (f (m_cycle_counter p)) p) b in
  Bus_wired b ->
  Bus_wired b' /\ m_mode (ppu b') = m_mode (ppu b) /\ m_scanline (ppu b') = m_scanline (ppu b)
  /\ m_lcdc (ppu b') = m_lcdc (ppu b)
  /\ m_cycle_counter (ppu b') = f (m_cycle_counter (ppu b)).
Proof. intros b' Hw. subst b'. split; [exact Hw |]. repeat split; reflexivity. Qed.

Lemma PPU_set_scanline_spec (f : Z -> Z) (b : Bus) :
  let b' := set_ppu_of (fun p => set_m_scanline (f (m_scanline p)) p) b in
  Bus_wired b ->
  Bus_wired b' /\ m_mode (ppu b') = m_mode (ppu b)
  /\ m_scanline (ppu b') = f (m_scanline (ppu b))
  /\ m_lcdc (ppu b') = m_lcdc (ppu b)
  /\ m_cycle_counter (ppu b') = m_cycle_counter (ppu b).
Proof. intros b' Hw. subst b'. split; [exact Hw |]. repeat split; reflexivity. Qed.

Lemma PPU_set_frame_ready_spec (v : bool) (b : Bus) :
  let b' := set_ppu_of (set_m_frame_ready v) b in
  Bus_wired b ->
  Bus_wired b' /\ m_mode (ppu b') = m_mode (ppu b)
  /\ m_scanline (ppu b') = m_scanline (ppu b)
  /\ m_lcdc (ppu b') = m_lcdc (ppu b)
  /\ m_cycle_counter (ppu b') = m_cycle_counter (ppu b).
Proof. intros b' Hw. subst b'. split; [exact Hw |]. repeat split; reflexivity. Qed.

Lemma PPU_next_line_inc line : line + 1 < 154 -> PPU_next_line line = line + 1.
Proof. intros H. unfold PPU_next_line, SCANLINES_PER_FRAME. by decide_cmp. Qed.

Lemma PPU_next_line_wrap line : 154 <= line + 1 -> PPU_next_line line = 0.
Proof. intros H. unfold PPU_next_line, SCANLINES_PER_FRAME. by decide_cmp. Qed.

Lemma PPU_mode_at_visible line : line < 144 -> PPU_mode_at line 0 = OAM_SCAN.
Proof. intros H. unfold PPU_mode_at, SCREEN_HEIGHT. by decide_cmp. Qed.

Lemma PPU_mode_at_vblank line t : 144 <= line -> PPU_mode_at line t = VBLANK.
Proof. intros H. unfold PPU_mode_at, SCREEN_HEIGHT. by decide_cmp. Qed.

Ltac mode_cases line t Hl :=
  destruct (PPU_mode_at_cases line t Hl ltac:(lia))
    as [(? & ? & ?Em & ?Es) | [(? & ? & ?Em & ?Es) | [(? & ? & ?Em & ?Es) | (? & ?Em & ?Es)]]];
  try lia.

Lemma PPU_call_in_step_spec line t cycles :
  PPU_call_in_step line t cycles
  = if line <? 144 then
      if t <? 80 then t + cycles <? 252
      else if t <? 252 then t + cycles <? 456 else true
    else true.
Proof.
  unfold PPU_call_in_step, PPU_mode_end, SCREEN_HEIGHT.
  change (80 + 172) with 252.
  destruct (line <? 144); [| reflexivity].
  destruct (t <? 80); [reflexivity |].
  destruct (t <? 252); reflexivity.
Qed.

Lemma PPU_mode_end_spec line t :
  PPU_mode_end line t
  = if line <? 144 then if t <? 80 then 80 else if t <? 252 then 252 else 456 else 456.
Proof. reflexivity. Qed.

Lemma PPU_Step_call (line t cycles : Z) (b : Bus) :
  PPU_on_line line t b -> 0 <= cycles -> t + cycles <= 456 ->
  exists b', PPU_Step cycles b = Some b'
    /\ if PPU_call_in_step line t cycles then PPU_on_line line (t + cycles) b'
       else m_scanline (ppu b') = line
            /\ m_mode (ppu b') = PPU_mode_at line (PPU_mode_end line t)
            /\ m_cycle_counter (ppu b') = t + cycles - PPU_mode_end line t.
Proof.
  intros Hb Hc Hsum.
  destruct Hb as (Hw & Hon & Hl & Ht & Hst).
  pose proof Hon as Hon'. unfold PPU_lcd_on in Hon'.
  unfold SCANLINES_PER_FRAME in Hl.
  unfold PPU_Step. rewrite (proj2 (Z.eqb_neq _ _) Hon').
  unfold OAM_SCAN_CYCLES, DRAWING_CYCLES, HBLANK_CYCLES, CYCLES_PER_SCANLINE,
    SCREEN_HEIGHT, SCANLINES_PER_FRAME.
  cbv zeta.
  destruct (PPU_set_counter_spec (fun c => u32 (c + cycles)) b Hw) as (W0 & M0 & L0 & D0 & C0).
  cbv beta in C0.
  remember (set_ppu_of (fun p => set_m_cycle_counter (u32 (m_cycle_counter p + cycles)) p) b)
    as b0 eqn:Eb0.
  clear Eb0. rewrite M0, C0.
  assert (Hon0 : PPU_lcd_on b0) by (unfold PPU_lcd_on; rewrite D0; exact Hon).
  destruct (Z.ltb_spec t 456) as [Ht456 | Ht456].
  2: { (* a line start reached at t = 456: only cycles = 0 remains *)
    assert (t = 456) by lia. assert (cycles = 0) by lia. subst t cycles.
    destruct Hst as (HLY & Hmode & Hcnt).
    assert (Hn : 0 <= PPU_next_line line < 154)
      by (unfold PPU_next_line, SCANLINES_PER_FRAME; destruct (Z.ltb_spec (line + 1) 154); lia).
    rewrite Hcnt in *. change (u32 (0 + 0)) with 0 in *. rewrite Hmode.
    assert (Hin : PPU_call_in_step line 456 0 = true).
    { rewrite PPU_call_in_step_spec. destruct (line <? 144); reflexivity. }
    rewrite Hin.
    exists b0.
    assert (Hend : PPU_on_line line (456 + 0) b0).
    { eapply PPU_on_line_end; try exact W0; try exact Hon0; try reflexivity; try lia; congruence. }
    unfold PPU_mode_at at 1. unfold SCREEN_HEIGHT.
    destruct (Z.ltb_spec (PPU_next_line line) 144); cbn; split; done. }
  destruct Hst as (HLY & Hmode & Hcnt).
  rewrite Hmode, Hcnt in *.
  rewrite PPU_call_in_step_spec, PPU_mode_end_spec.
  destruct (PPU_mode_at_cases line t Hl ltac:(lia))
    as [(Hv & Ht' & Em0 & Es0) | [(Hv & Ht' & Em0 & Es0) | [(Hv & Ht' & Em0 & Es0) | (Hv & Em0 & Es0)]]];
    rewrite Em0, Es0 in *; rewrite u32_small in * by lia;
    decide_cmp.
  - (* OAM_SCAN *)
    destruct (Z.leb_spec 80 (t - 0 + cycles)) as [Hx | Hx].
    + destruct (PPU_set_counter_spec (fun c => u32 (c - 80)) b0 W0) as (W1 & M1 & L1 & D1 & C1).
      cbv beta in C1.
      remember (set_ppu_of (fun p => set_m_cycle_counter (u32 (m_cycle_counter p - 80)) p) b0)
        as b1 eqn:Eb1. clear Eb1.
      destruct (PPU_ScanOAM_spec b1 W1) as (W2 & M2 & C2 & L2 & D2).
      destruct (PPU_SetMode_spec DRAWING (PPU_ScanOAM b1) W2) as (b' & E & W' & M' & C' & L' & D').
      exists b'. split; [exact E |].
      assert (EC : m_cycle_counter (ppu b') = t + cycles - 80).
      { rewrite C', C2, C1, C0. rewrite u32_small by lia. lia. }
      destruct (Z.ltb_spec (t + cycles) 252) as [Hy | Hy].
      * mode_cases line (t + cycles) Hl.
        apply (PPU_on_line_within line (t + cycles) b' DRAWING 80);
          [exact W' | | lia | lia | exact Em | exact Es | congruence | exact M' | exact EC].
        unfold PPU_lcd_on. rewrite D', D2, D1. exact Hon0.
      * split; [congruence |]. split; [| exact EC].
        rewrite M'. unfold PPU_mode_at, SCREEN_HEIGHT. by decide_cmp.
    + exists b0. split; [reflexivity |].
      rewrite (proj2 (Z.ltb_lt (t + cycles) 252)) by lia.
      mode_cases line (t + cycles) Hl.
      apply (PPU_on_line_within line (t + cycles) b0 _ _ W0 Hon0 Hl ltac:(lia) Em Es);
        [congruence | congruence | rewrite C0; lia].
  - (* DRAWING *)
    destruct (Z.leb_spec 172 (t - 80 + cycles)) as [Hx | Hx].
    + destruct (PPU_set_counter_spec (fun c => u32 (c - 172)) b0 W0) as (W1 & M1 & L1 & D1 & C1).
      cbv beta in C1.
      remember (set_ppu_of (fun p => set_m_cycle_counter (u32 (m_cycle_counter p - 172)) p) b0)
        as b1 eqn:Eb1. clear Eb1.
      destruct (PPU_RenderScanline_spec b1 W1) as (W2 & M2 & C2 & L2 & D2).
      destruct (PPU_SetMode_spec HBLANK (PPU_RenderScanline b1) W2)
        as (b' & E & W' & M' & C' & L' & D').
      exists b'. split; [exact E |].
      assert (EC : m_cycle_counter (ppu b') = t + cycles - 252).
      { rewrite C', C2, C1, C0. rewrite u32_small by lia. lia. }
      destruct (Z.ltb_spec (t + cycles) 456) as [Hy | Hy].
      * mode_cases line (t + cycles) Hl.
        apply (PPU_on_line_within line (t + cycles) b' HBLANK 252);
          [exact W' | | lia | lia | exact Em | exact Es | congruence | exact M' | exact EC].
        unfold PPU_lcd_on. rewrite D', D2, D1. exact Hon0.
      * split; [congruence |]. split; [| exact EC].
        rewrite M'. unfold PPU_mode_at, SCREEN_HEIGHT. by decide_cmp.
    + exists b0. split; [reflexivity |].
      rewrite (proj2 (Z.ltb_lt (t + cycles) 456)) by lia.
      mode_cases line (t + cycles) Hl.
      apply (PPU_on_line_within line (t + cycles) b0 _ _ W0 Hon0 Hl ltac:(lia) Em Es);
        [congruence | congruence | rewrite C0; lia].
  - (* HBLANK *)
    destruct (Z.leb_spec 204 (t - 252 + cycles)) as [Hx | Hx].
    + assert (Hend : t + cycles = 456) by lia. rewrite Hend.
      destruct (PPU_set_counter_spec (fun c => u32 (c - 204)) b0 W0) as (W1 & M1 & L1 & D1 & C1).
      cbv beta in C1.
      remember (set_ppu_of (fun p => set_m_cycle_counter (u32 (m_cycle_counter p - 204)) p) b0)
        as b1 eqn:Eb1. clear Eb1.
      destruct (PPU_set_scanline_spec (fun l => u8 (l + 1)) b1 W1) as (W2 & M2 & L2 & D2 & C2).
      cbv beta in L2.
      remember (set_ppu_of (fun p => set_m_scanline (u8 (m_scanline p + 1)) p) b1)
        as b2 eqn:Eb2. clear Eb2.
      rewrite Memory_Write_LY by exact W2.
      assert (EL : m_scanline (ppu b2) = line + 1).
      { rewrite L2, L1, L0, HLY. apply u8_small. lia. }
      assert (EC : m_cycle_counter (ppu b2) = 0).
      { rewrite C2, C1, C0. replace (t - 252 + cycles - 204) with 0 by lia. reflexivity. }
      destruct (PPU_UpdateStatRegister_spec b2 W2) as (b3 & E3 & W3 & M3 & C3 & L3 & D3).
      rewrite E3. cbn [mbind option_bind]. rewrite L3, EL.
      destruct (Z.leb_spec 144 (line + 1)) as [Hvb | Hvb].
      * destruct (PPU_SetMode_spec VBLANK b3 W3) as (b4 & E4 & W4 & M4 & C4 & L4 & D4).
        rewrite E4. cbn [mbind option_bind].
        destruct (PPU_set_frame_ready_spec true b4 W4) as (W5 & M5 & L5 & D5 & C5).
        remember (set_ppu_of (set_m_frame_ready true) b4) as b5 eqn:Eb5. clear Eb5.
        destruct (PPU_raise_IF_spec 0x01 b5 W5) as (b6 & E6 & W6 & P6).
        exists b6. split; [exact E6 |].
        apply (PPU_on_line_end line b6 (line + 1) VBLANK);
          [exact W6 | | lia | apply PPU_next_line_inc; lia | apply PPU_mode_at_vblank; lia
          | rewrite P6; congruence | rewrite P6; congruence | rewrite P6; congruence].
        unfold PPU_lcd_on. rewrite P6, D5, D4, D3, D2, D1. exact Hon0.
      * destruct (PPU_SetMode_spec OAM_SCAN b3 W3) as (b4 & E4 & W4 & M4 & C4 & L4 & D4).
        exists b4. split; [exact E4 |].
        apply (PPU_on_line_end line b4 (line + 1) OAM_SCAN);
          [exact W4 | | lia | apply PPU_next_line_inc; lia | apply PPU_mode_at_visible; lia
          | congruence | congruence | congruence].
        unfold PPU_lcd_on. rewrite D4, D3, D2, D1. exact Hon0.
    + exists b0. split; [reflexivity |].
      mode_cases line (t + cycles) Hl.
      apply (PPU_on_line_within line (t + cycles) b0 _ _ W0 Hon0 Hl ltac:(lia) Em Es);
        [congruence | congruence | rewrite C0; lia].
  - (* VBLANK *)
    destruct (Z.leb_spec 456 (t - 0 + cycles)) as [Hx | Hx].
    + assert (Hend : t + cycles = 456) by lia. rewrite Hend.
      destruct (PPU_set_counter_spec (fun c => u32 (c - 456)) b0 W0) as (W1 & M1 & L1 & D1 & C1).
      cbv beta in C1.
      remember (set_ppu_of (fun p => set_m_cycle_counter (u32 (m_cycle_counter p - 456)) p) b0)
        as b1 eqn:Eb1. clear Eb1.
      destruct (PPU_set_scanline_spec (fun l => u8 (l + 1)) b1 W1) as (W2 & M2 & L2 & D2 & C2).
      cbv beta in L2.
      remember (set_ppu_of (fun p => set_m_scanline (u8 (m_scanline p + 1)) p) b1)
        as b2 eqn:Eb2. clear Eb2.
      rewrite Memory_Write_LY by exact W2.
      assert (EL : m_scanline (ppu b2) = line + 1).
      { rewrite L2, L1, L0, HLY. apply u8_small. lia. }
      assert (EC : m_cycle_counter (ppu b2) = 0).
      { rewrite C2, C1, C0. replace (t - 0 + cycles - 456) with 0 by lia. reflexivity. }
      assert (EM : m_mode (ppu b2) = VBLANK) by congruence.
      destruct (PPU_UpdateStatRegister_spec b2 W2) as (b3 & E3 & W3 & M3 & C3 & L3 & D3).
      rewrite E3. cbn [mbind option_bind]. rewrite L3, EL.
      destruct (Z.leb_spec 154 (line + 1)) as [Hwrap | Hwrap].
      * destruct (PPU_set_scanline_spec (fun _ => 0) b3 W3) as (W4 & M4 & L4 & D4 & C4).
        cbv beta in L4.
        change (set_ppu_of (set_m_scanline 0) b3)
          with (set_ppu_of (fun p => set_m_scanline ((fun _ => 0) (m_scanline p)) p) b3).
        remember (set_ppu_of (fun p => set_m_scanline ((fun _ => 0) (m_scanline p)) p) b3)
          as b4 eqn:Eb4. clear Eb4.
        rewrite Memory_Write_LY by exact W4.
        destruct (PPU_SetMode_spec OAM_SCAN b4 W4) as (b5 & E5 & W5 & M5 & C5 & L5 & D5).
        exists b5. split; [exact E5 |].
        apply (PPU_on_line_end line b5 0 OAM_SCAN);
          [exact W5 | | lia | apply PPU_next_line_wrap; lia | apply PPU_mode_at_visible; lia
          | congruence | congruence | congruence].
        unfold PPU_lcd_on. rewrite D5, D4, D3, D2, D1. exact Hon0.
      * exists b3. split; [reflexivity |].
        apply (PPU_on_line_end line b3 (line + 1) VBLANK);
          [exact W3 | | lia | apply PPU_next_line_inc; lia | apply PPU_mode_at_vblank; lia
          | congruence | congruence | congruence].
        unfold PPU_lcd_on. rewrite D3, D2, D1. exact Hon0.
    + exists b0. split; [reflexivity |].
      mode_cases line (t + cycles) Hl.
      apply (PPU_on_line_within line (t + cycles) b0 _ _ W0 Hon0 Hl ltac:(lia) Em Es);
        [congruence | congruence | rewrite C0; lia].
Qed.


Lemma PPU_Step_on_line (line t cycles : Z) (b : Bus) :
  PPU_on_line line t b -> 0 <= cycles <= 80 -> t + cycles <= 456 ->
  exists b', PPU_Step cycles b = Some b' /\ PPU_on_line line (t + cycles) b'.
Proof.
  intros Hb Hc Hsum.
  destruct (PPU_Step_call line t cycles b Hb ltac:(lia) Hsum) as (b' & E & H).
  exists b'. split; [exact E |].
  replace (PPU_call_in_step line t cycles) with true in H; [exact H |].
  rewrite PPU_call_in_step_spec.
  destruct (line <? 144); [| reflexivity].
  destruct (Z.ltb_spec t 80); [symmetry; apply Z.ltb_lt; lia |].
  destruct (Z.ltb_spec t 252); [symmetry; apply Z.ltb_lt; lia | reflexivity].
Qed.

Lemma PPU_run_on_line (chunks : list Z) (line t : Z) (b : Bus) :
  PPU_on_line line t b ->
  Forall (fun cycles => 0 <= cycles <= 80) chunks ->
  t + total_cycles chunks <= 456 ->
  exists b', PPU_run chunks b = Some b' /\ PPU_on_line line (t + total_cycles chunks) b'.
Proof.
  revert t b. induction chunks as [| cycles rest IH]; intros t b Hb Hall Hsum.
  - exists b. cbn. rewrite Z.add_0_r. done.
  - apply Forall_cons in Hall as [Hc Hrest]. cbn [total_cycles foldr] in *.
    fold (total_cycles rest) in *.
    assert (0 <= total_cycles rest).
    { clear -Hrest. induction Hrest; cbn; [lia |]. fold (total_cycles l). lia. }
    destruct (PPU_Step_on_line line t cycles b Hb Hc ltac:(lia)) as (b1 & E1 & H1).
    destruct (IH (t + cycles) b1 H1 Hrest ltac:(lia)) as (b' & E' & H').
    exists b'. cbn [PPU_run]. rewrite E1. cbn [mbind option_bind].
    split; [exact E' |]. replace (t + (cycles + total_cycles rest)) with (t + cycles + total_cycles rest) by lia.
    exact H'.
Qed.

Lemma PPU_line_start_on_line (b : Bus) :
  PPU_line_start b -> PPU_on_line (m_scanline (ppu b)) 0 b.
Proof.
  intros (Hw & Hon & Hc & Hm).
  assert (Hl : 0 <= m_scanline (ppu b) < 154) by lia.
  destruct Hm as [(Hm & Hv) | (Hm & Hv)].
  - apply (PPU_on_line_within _ 0 b OAM_SCAN 0); try done; try lia.
    + apply PPU_mode_at_visible. lia.
    + unfold PPU_mode_start, SCREEN_HEIGHT. by decide_cmp.
  - apply (PPU_on_line_within _ 0 b VBLANK 0); try done; try lia.
    + apply PPU_mode_at_vblank. lia.
    + unfold PPU_mode_start, SCREEN_HEIGHT. by decide_cmp.
Qed.

(** ** The picture unit: the timing of a line *)

Lemma total_cycles_nonneg (chunks : list Z) :
  Forall (fun cycles => 0 <= cycles) chunks -> 0 <= total_cycles chunks.
Proof. intros H. induction H; cbn; [lia |]. fold (total_cycles l). lia. Qed.

Lemma PPU_run_in_step (chunks : list Z) (line t : Z) (b : Bus) :
  PPU_on_line line t b ->
  Forall (fun cycles => 0 <= cycles) chunks ->
  t + total_cycles chunks <= 456 ->
  PPU_calls_in_step line t chunks = true ->
  exists b', PPU_run chunks b = Some b' /\ PPU_on_line line (t + total_cycles chunks) b'.
Proof.
  revert t b. induction chunks as [| cycles rest IH]; intros t b Hb Hall Hsum Hin.
  - exists b. cbn. rewrite Z.add_0_r. done.
  - apply Forall_cons in Hall as [Hc Hrest]. cbn [total_cycles foldr] in *.
    fold (total_cycles rest) in *.
    pose proof (total_cycles_nonneg rest Hrest).
    cbn [PPU_calls_in_step] in Hin. apply andb_true_iff in Hin as [Hin1 Hin2].
    destruct (PPU_Step_call line t cycles b Hb Hc ltac:(lia)) as (b1 & E1 & H1).
    rewrite Hin1 in H1.
    destruct (IH (t + cycles) b1 H1 Hrest ltac:(lia) Hin2) as (b' & E' & H').
    exists b'. cbn [PPU_run]. rewrite E1. cbn [mbind option_bind].
    split; [exact E' |].
    replace (t + (cycles + total_cycles rest)) with (t + cycles + total_cycles rest) by lia.
    exact H'.
Qed.

Lemma PPU_run_out_of_step (chunks : list Z) (line t : Z) (b : Bus) :
  PPU_on_line line t b ->
  Forall (fun cycles => 0 <= cycles) chunks ->
  t + total_cycles chunks <= 456 ->
  PPU_calls_in_step line t chunks = false ->
  exists pre cycles rest b',
    chunks = pre ++ cycles :: rest
    /\ PPU_calls_in_step line t pre = true
    /\ PPU_call_in_step line (t + total_cycles pre) cycles = false
    /\ PPU_run (pre ++ [cycles]) b = Some b'
    /\ m_scanline (ppu b') = line
    /\ m_mode (ppu b') = PPU_mode_at line (PPU_mode_end line (t + total_cycles pre))
    /\ m_cycle_counter (ppu b')
       = t + total_cycles pre + cycles - PPU_mode_end line (t + total_cycles pre).
Proof.
  revert t b. induction chunks as [| c chunks IH]; intros t b Hb Hall Hsum Hout.
  - discriminate Hout.
  - apply Forall_cons in Hall as [Hc Hrest]. cbn [total_cycles foldr] in Hsum.
    fold (total_cycles chunks) in Hsum.
    pose proof (total_cycles_nonneg chunks Hrest).
    cbn [PPU_calls_in_step] in Hout.
    destruct (PPU_Step_call line t c b Hb Hc ltac:(lia)) as (b1 & E1 & H1).
    destruct (PPU_call_in_step line t c) eqn:Hin.
    + cbn [andb] in Hout.
      destruct (IH (t + c) b1 H1 Hrest ltac:(lia) Hout)
        as (pre & cycles & rest & b' & -> & Hpre & Hcall & Hrun & HL & HM & HC).
      exists (c :: pre), cycles, rest, b'.
      cbn [total_cycles foldr]. fold (total_cycles pre).
      replace (t + (c + total_cycles pre)) with (t + c + total_cycles pre) by lia.
      split; [reflexivity |]. split; [cbn [PPU_calls_in_step]; by rewrite Hin, Hpre |].
      split; [exact Hcall |].
      split; [cbn [app PPU_run]; rewrite E1; exact Hrun |]. done.
    + exists [], c, chunks, b1. cbn [total_cycles foldr]. rewrite Z.add_0_r.
      split; [reflexivity |]. split; [reflexivity |]. split; [exact Hin |].
      split; [cbn [app PPU_run]; rewrite E1; reflexivity |]. exact H1.
Qed.

Lemma PPU_call_out_of_step (line t cycles : Z) :
  0 <= line < 154 -> 0 <= t -> t + cycles <= 456 ->
  PPU_call_in_step line t cycles = false ->
  line < 144
  /\ PPU_mode_end line (PPU_mode_end line t) <= t + cycles
  /\ (line, PPU_mode_at line (PPU_mode_end line t)) <> PPU_reference line (t + cycles).
Proof.
  intros Hl Ht Hsum. rewrite PPU_call_in_step_spec, !PPU_mode_end_spec.
  unfold PPU_reference, PPU_mode_at, SCREEN_HEIGHT.
  destruct (Z.ltb_spec line 144); [| discriminate].
  rewrite PPU_next_line_inc by lia.
  destruct (Z.ltb_spec t 80).
  - intros Hx%Z.ltb_ge. decide_cmp. split; [lia |]. split; [lia |].
    destruct (Z.ltb_spec (t + cycles) 456); [| intros [= ?]; lia].
    decide_cmp. discriminate.
  - destruct (Z.ltb_spec t 252); [| discriminate].
    intros Hx%Z.ltb_ge. decide_cmp. split; [lia |]. split; [lia |].
    intros [= ?]. lia.
Qed.

Lemma PPU_calls_in_step_vblank (line t : Z) (chunks : list Z) :
  144 <= line -> PPU_calls_in_step line t chunks = true.
Proof.
  intros Hl. revert t. induction chunks as [| c rest IH]; intros t; [reflexivity |].
  cbn [PPU_calls_in_step]. rewrite IH, PPU_call_in_step_spec.
  by rewrite (proj2 (Z.ltb_ge line 144)) by lia.
Qed.

Lemma PPU_calls_in_step_172 (line t : Z) (chunks : list Z) :
  Forall (fun cycles => cycles <= 172) chunks -> PPU_calls_in_step line t chunks = true.
Proof.
  intros Hall. revert t. induction Hall as [| c rest Hc _ IH]; intros t; [reflexivity |].
  cbn [PPU_calls_in_step]. rewrite IH, PPU_call_in_step_spec, andb_true_r.
  destruct (line <? 144); [| reflexivity].
  destruct (Z.ltb_spec t 80); [apply Z.ltb_lt; lia |].
  destruct (Z.ltb_spec t 252); [apply Z.ltb_lt; lia | reflexivity].
Qed.

(** C3, for calls that keep step with the reference timing.  With LCDC bit 7
    set, from the start of a line (cycle counter 0, mode OAM_SCAN on a line
    below 144, mode VBLANK on lines 144-153), [PPU::Step] is called with
    cycle counts that sum to at most 456.  When no call reaches the end of
    the mode that follows the one in which it begins, the calls succeed;
    before the sum reaches 456 the line is unchanged, the mode is the one the
    reference timing gives for the elapsed cycles (OAM_SCAN for the first 80,
    DRAWING for the next 172, HBLANK for the last 204 on a visible line,
    VBLANK throughout on lines 144-153) and the cycle counter is the time
    spent in that mode; when the sum is 456 LY has advanced by exactly one,
    wrapping from 153 to 0, and the next line begins.  Otherwise the line is
    a visible one and the first call that reaches too far takes one mode
    transition only: LY is unchanged, the mode is the one after the mode in
    which the call began, with the cycles elapsed since it began on the
    counter, and this is not what the reference timing gives for the elapsed
    cycles.  The condition holds for every split of a line
    144-153 into calls, a single call of 456 cycles included, and on every
    line for calls of at most 172 cycles each. *)
Theorem PPU_Step_line_timing (b : Bus) (chunks : list Z) :
  PPU_line_start b ->
  Forall (fun cycles => 0 <= cycles) chunks ->
  total_cycles chunks <= 456 ->
  let line := m_scanline (ppu b) in
  (PPU_calls_in_step line 0 chunks = true ->
   exists b', PPU_run chunks b = Some b'
     /\ (total_cycles chunks < 456 ->
         m_scanline (ppu b') = line
         /\ m_mode (ppu b') = PPU_mode_at line (total_cycles chunks)
         /\ m_cycle_counter (ppu b')
            = total_cycles chunks - PPU_mode_start line (total_cycles chunks))
     /\ (total_cycles chunks = 456 ->
         m_scanline (ppu b') = PPU_next_line line
         /\ m_mode (ppu b') = PPU_mode_at (PPU_next_line line) 0
         /\ PPU_line_start b'))
  /\ (PPU_calls_in_step line 0 chunks = false ->
      line < 144
      /\ exists pre cycles rest b',
           chunks = pre ++ cycles :: rest
           /\ PPU_calls_in_step line 0 pre = true
           /\ PPU_call_in_step line (total_cycles pre) cycles = false
           /\ PPU_run (pre ++ [cycles]) b = Some b'
           /\ m_scanline (ppu b') = line
           /\ m_mode (ppu b') = PPU_mode_at line (PPU_mode_end line (total_cycles pre))
           /\ m_cycle_counter (ppu b')
              = total_cycles pre + cycles - PPU_mode_end line (total_cycles pre)
           /\ (m_scanline (ppu b'), m_mode (ppu b'))
              <> PPU_reference line (total_cycles pre + cycles))
  /\ (144 <= line \/ Forall (fun cycles => cycles <= 172) chunks ->
      PPU_calls_in_step line 0 chunks = true).
Proof.
  intros Hs Hall Hsum line.
  pose proof (PPU_line_start_on_line b Hs) as Hon0. fold line in Hon0.
  split; [| split].
  - intros Hin.
    destruct (PPU_run_in_step chunks line 0 b Hon0 Hall ltac:(lia) Hin) as (b' & E & Hb').
    exists b'. split; [exact E |].
    rewrite Z.add_0_l in Hb'. destruct Hb' as (Hw & Hon & Hl & Ht & Hst).
    split; intros Hlt.
    + rewrite (proj2 (Z.ltb_lt _ _) Hlt) in Hst. exact Hst.
    + rewrite Hlt, Z.ltb_irrefl in Hst. destruct Hst as (HL & HM & HC).
      split; [exact HL |]. split; [exact HM |].
      split; [exact Hw |]. split; [exact Hon |]. split; [exact HC |].
      rewrite HL, HM. unfold SCANLINES_PER_FRAME in Hl.
      destruct (Z.lt_ge_cases (line + 1) 144).
      * left. rewrite PPU_next_line_inc by lia. rewrite PPU_mode_at_visible by lia.
        split; [done | lia].
      * destruct (Z.lt_ge_cases (line + 1) 154).
        -- right. rewrite PPU_next_line_inc by lia. rewrite PPU_mode_at_vblank by lia.
           split; [done | lia].
        -- left. rewrite PPU_next_line_wrap by lia. rewrite PPU_mode_at_visible by lia.
           split; [done | lia].
  - intros Hout.
    destruct (PPU_run_out_of_step chunks line 0 b Hon0 Hall ltac:(lia) Hout)
      as (pre & cycles & rest & b' & Hchunks & Hpre & Hcall & Hrun & HL & HM & HC).
    rewrite Z.add_0_l in Hcall, HM, HC.
    assert (Hl : 0 <= line < 154) by (destruct Hon0 as (_ & _ & Hl & _); exact Hl).
    assert (Hnn : 0 <= total_cycles pre /\ total_cycles pre + cycles <= 456).
    { subst chunks. apply Forall_app in Hall as [Hp Hr].
      apply Forall_cons in Hr as [Hc Hr].
      pose proof (total_cycles_nonneg pre Hp). pose proof (total_cycles_nonneg rest Hr).
      assert (total_cycles (pre ++ cycles :: rest)
              = total_cycles pre + cycles + total_cycles rest).
      { clear. induction pre as [| c pre IH]; cbn.
        - fold (total_cycles rest). lia.
        - fold (total_cycles (pre ++ cycles :: rest)). fold (total_cycles pre). lia. }
      lia. }
    destruct (PPU_call_out_of_step line (total_cycles pre) cycles Hl
                ltac:(lia) ltac:(lia) Hcall) as (Hv & _ & Hne).
    split; [exact Hv |].
    exists pre, cycles, rest, b'. rewrite HL, HM. done.
  - intros [Hv | H172].
    + by apply PPU_calls_in_step_vblank.
    + by apply PPU_calls_in_step_172.
Qed.

Lemma GameBoy_new_line_start : PPU_line_start (bus GameBoy_new).
Proof.
  split; [apply GameBoy_new_wired |]. split; [vm_compute; discriminate |].
  split; [reflexivity |]. left. split; [reflexivity |]. change (0 <= 0 < 144). lia.
Qed.

(** A line of power-on stepped as the three modes, and line 153 stepped in
    one call. *)
Lemma PPU_Step_line_timing_witness :
  (exists b', PPU_run [80; 172; 204] (bus GameBoy_new) = Some b'
     /\ m_scanline (ppu b') = 1 /\ m_mode (ppu b') = OAM_SCAN /\ PPU_line_start b')
  /\ (exists b', PPU_run [456] Bus_at_line_153 = Some b'
        /\ m_scanline (ppu b') = 0 /\ m_mode (ppu b') = OAM_SCAN /\ PPU_line_start b').
Proof.
  split.
  - destruct (PPU_Step_line_timing (bus GameBoy_new) [80; 172; 204]) as (Hin & _ & _).
    + split; [repeat split; vm_compute; reflexivity |]. split; [vm_compute; discriminate |].
      split; [reflexivity |]. left. split; [reflexivity |]. change (0 <= 0 < 144). lia.
    + repeat constructor; lia.
    + vm_compute. discriminate.
    + destruct (Hin eq_refl) as (b' & E & _ & H456).
      destruct (H456 eq_refl) as (HL & HM & HS).
      exists b'. split; [exact E |]. split; [exact HL |]. split; [exact HM | exact HS].
  - destruct (PPU_Step_line_timing Bus_at_line_153 [456]) as (Hin & _ & _).
    + split; [repeat split; vm_compute; reflexivity |]. split; [vm_compute; discriminate |].
      split; [reflexivity |]. right. split; [reflexivity |]. change (144 <= 153 <= 153). lia.
    + repeat constructor; lia.
    + vm_compute. discriminate.
    + destruct (Hin eq_refl) as (b' & E & _ & H456).
      destruct (H456 eq_refl) as (HL & HM & HS).
      exists b'. split; [exact E |]. split; [exact HL |]. split; [exact HM | exact HS].
Defined.

(** One call of [PPU::Step] takes at most one mode transition: from the start
    of line 0 at power-on, [Step(456)] leaves the picture unit in DRAWING on
    line 0 with 376 cycles on its counter, and LY has not advanced. *)
Lemma PPU_Step_456_single_call :
  PPU_line_start (bus GameBoy_new)
  /\ m_scanline (ppu (bus GameBoy_new)) = 0
  /\ PPU_observe <$> PPU_Step 456 (bus GameBoy_new) = Some (DRAWING, 0, 376)
  /\ ~ (exists b', PPU_Step 456 (bus GameBoy_new) = Some b'
                   /\ m_scanline (ppu b') = m_scanline (ppu (bus GameBoy_new)) + 1).
Proof.
  assert (E : PPU_observe <$> PPU_Step 456 (bus GameBoy_new) = Some (DRAWING, 0, 376))
    by (vm_compute; reflexivity).
  split; [apply GameBoy_new_line_start |]. split; [reflexivity |]. split; [exact E |].
  intros (b' & Hb' & HLY). rewrite Hb' in E. cbn in E.
  injection E as _ E _. rewrite E in HLY. discriminate HLY.
Qed.

(** ** The picture unit with the LCD switched off *)

Lemma Memory_Write_LCDC (b : Bus) (v : Z) :
  Bus_wired b -> Memory_Write b 0xFF40 v = set_ppu_of (set_m_lcdc v) b.
Proof.
  intros Hw. rewrite Memory_Write_IO by (unfold IO_START, IO_END; done || lia). reflexivity.
Qed.

Lemma Memory_Read_LY (b : Bus) : Bus_wired b -> Memory_Read b 0xFF44 = Some (m_scanline (ppu b)).
Proof.
  intros Hw. rewrite Memory_Read_IO by (unfold IO_START, IO_END; done || lia). reflexivity.
Qed.

Lemma Memory_Read_STAT (b : Bus) : Bus_wired b -> Memory_Read b 0xFF41 = Some (m_stat (ppu b)).
Proof.
  intros Hw. rewrite Memory_Read_IO by (unfold IO_START, IO_END; done || lia). reflexivity.
Qed.

(** C7, as the code has it: once a write to LCDC has cleared bit 7,
    [PPU::Step] with any cycle count leaves the whole bus unchanged; LY and
    STAT read what they read before the write: LY the line at which the
    picture unit stopped, not 0, and STAT its old value, whose bits 0-1 are
    the mode at which the picture unit stopped whenever they showed the mode
    before the write, not HBLANK; and after a write to LCDC that sets bit 7
    again the picture unit goes on from the mode, line and cycle counter at
    which it stopped. *)
Theorem PPU_lcd_off_freezes (b : Bus) (off on cycles : Z) :
  Bus_wired b ->
  Z.land off LCDC_LCD_ENABLE = 0 ->
  Z.land on LCDC_LCD_ENABLE <> 0 ->
  let b_off := Memory_Write b 0xFF40 off in
  let b_on := Memory_Write b_off 0xFF40 on in
  PPU_Step cycles b_off = Some b_off
  /\ Memory_Read b_off 0xFF44 = Some (m_scanline (ppu b))
  /\ Memory_Read b_off 0xFF41 = Some (m_stat (ppu b))
  /\ Memory_Read b_off 0xFF44 = Memory_Read b 0xFF44
  /\ Memory_Read b_off 0xFF41 = Memory_Read b 0xFF41
  /\ (PPU_stat_shows_mode b ->
      (fun stat => Z.land stat STAT_MODE_FLAG) <$> Memory_Read b_off 0xFF41
      = Some (Mode_to_u8 (m_mode (ppu b))))
  /\ PPU_lcd_on b_on
  /\ m_mode (ppu b_on) = m_mode (ppu b)
  /\ m_scanline (ppu b_on) = m_scanline (ppu b)
  /\ m_cycle_counter (ppu b_on) = m_cycle_counter (ppu b).
Proof.
  intros Hw Hoff Hon b_off b_on. subst b_on b_off.
  rewrite (Memory_Write_LCDC b off Hw).
  assert (Hw' : Bus_wired (set_ppu_of (set_m_lcdc off) b)) by exact Hw.
  rewrite (Memory_Write_LCDC _ on Hw').
  rewrite (Memory_Read_LY _ Hw'), (Memory_Read_STAT _ Hw').
  rewrite (Memory_Read_LY _ Hw), (Memory_Read_STAT _ Hw).
  split; [| split; [| split; [| split; [| split; [| split]]]]]; try reflexivity.
  - unfold PPU_Step. cbn [ppu set_ppu_of set_ppu m_lcdc set_m_lcdc].
    rewrite Hoff. reflexivity.
  - intros Hm. cbn [fmap option_fmap option_map]. f_equal. exact Hm.
  - repeat split. exact Hon.
Qed.

Lemma PPU_drawing_line_1_state :
  m_mode (ppu PPU_drawing_line_1) = DRAWING
  /\ m_scanline (ppu PPU_drawing_line_1) = 1
  /\ m_cycle_counter (ppu PPU_drawing_line_1) = 0
  /\ Z.land (m_stat (ppu PPU_drawing_line_1)) STAT_MODE_FLAG = 3.
Proof. repeat split; vm_compute; reflexivity. Qed.

(** The LCD switched off and on again while the picture unit draws line 1. *)
Lemma PPU_lcd_off_freezes_witness :
  let b := PPU_drawing_line_1 in
  let b_off := Memory_Write b 0xFF40 0x11 in
  let b_on := Memory_Write b_off 0xFF40 0x91 in
  PPU_observe b = (DRAWING, 1, 0)
  /\ PPU_stat_shows_mode b
  /\ PPU_Step 456 b_off = Some b_off
  /\ Memory_Read b_off 0xFF44 = Some 1
  /\ (fun stat => Z.land stat STAT_MODE_FLAG) <$> Memory_Read b_off 0xFF41
     = Some (Mode_to_u8 DRAWING)
  /\ PPU_observe b_on = (DRAWING, 1, 0).
Proof.
  destruct PPU_drawing_line_1_state as (Om & Ol & Oc & Os).
  assert (Hshow : PPU_stat_shows_mode PPU_drawing_line_1).
  { unfold PPU_stat_shows_mode. rewrite Os, Om. reflexivity. }
  pose proof (PPU_lcd_off_freezes PPU_drawing_line_1 0x11 0x91 456) as H.
  cbv zeta in H.
  destruct H as (Hstep & HLY & _ & _ & _ & Hmode & _ & Hm & Hl & Hc).
  - split; (split; vm_compute; exact eq_refl).
  - reflexivity.
  - vm_compute. discriminate.
  - cbv zeta. unfold PPU_observe.
    split; [rewrite Om, Ol, Oc; reflexivity |]. split; [exact Hshow |].
    split; [exact Hstep |]. split; [rewrite HLY, Ol; reflexivity |].
    split; [rewrite (Hmode Hshow), Om; reflexivity |].
    rewrite Hm, Hl, Hc, Om, Ol, Oc. reflexivity.
Defined.

(** The LCD switched off while the picture unit draws line 1: LCDC bit 7 is
    clear, yet LY reads 1 and the mode bits of STAT read DRAWING (3), and
    re-enabling resumes in DRAWING on line 1. *)
Lemma PPU_lcd_off_not_reset :
  PPU_lcd_off_view <$> PPU_lcd_off_in_line_1
  = Some (0, Some 1, Some (Mode_to_u8 DRAWING), (DRAWING, 1, 0))
  /\ Mode_to_u8 DRAWING = 3 /\ Mode_to_u8 HBLANK = 0.
Proof. repeat split; vm_compute; reflexivity. Qed.

(** ** The timer *)

Lemma Timer_GetTimerFrequency_period (t : Timer) :
  Timer_GetTimerFrequency t = Timer_period (m_tac t)
  /\ (Timer_period (m_tac t) = 1024 \/ Timer_period (m_tac t) = 16
      \/ Timer_period (m_tac t) = 64 \/ Timer_period (m_tac t) = 256).
Proof.
  unfold Timer_GetTimerFrequency, Timer_period.
  assert (H : 0 <= Z.land (m_tac t) 3 < 4).
  { change 3 with (Z.ones 2). rewrite Z.land_ones by lia. apply Z.mod_pos_bound. lia. }
  assert (Hc : Z.land (m_tac t) 3 = 0 \/ Z.land (m_tac t) 3 = 1
               \/ Z.land (m_tac t) 3 = 2 \/ Z.land (m_tac t) 3 = 3) by lia.
  destruct Hc as [-> | [-> | [-> | ->]]]; cbn; auto.
Qed.

Lemma Timer_tick_wrap (tma : Z) (i : bool) : Timer_tick tma (0xFF, i) = (tma, true).
Proof. reflexivity. Qed.

Lemma Timer_tick_inc (tma tima : Z) (i : bool) :
  tima <> 0xFF -> Timer_tick tma (tima, i) = (tima + 1, i).
Proof. intros H. unfold Timer_tick. cbn [fst snd]. by rewrite (proj2 (Z.eqb_neq _ _) H). Qed.

Lemma Timer_ticks_irq (n : nat) (tma tima : Z) :
  snd (Timer_ticks n tma (tima, true)) = true.
Proof.
  revert tima. induction n as [| n IH]; intros tima; [reflexivity |].
  cbn [Timer_ticks]. unfold Timer_tick. cbn [fst snd].
  destruct (tima =? 0xFF); apply IH.
Qed.

Lemma Timer_ticks_tima (n : nat) (tma tima : Z) (i j : bool) :
  fst (Timer_ticks n tma (tima, i)) = fst (Timer_ticks n tma (tima, j)).
Proof.
  revert tima i j. induction n as [| n IH]; intros tima i j; [reflexivity |].
  cbn [Timer_ticks]. unfold Timer_tick. cbn [fst snd].
  destruct (tima =? 0xFF); apply IH.
Qed.

Lemma u8_lor_idem (x bit : Z) : u8 (Z.lor (u8 (Z.lor x bit)) bit) = u8 (Z.lor x bit).
Proof.
  unfold u8. apply Z.bits_inj'. intros k Hk. change 256 with (2 ^ 8).
  destruct (Z.lt_ge_cases k 8).
  - rewrite !Z.mod_pow2_bits_low, !Z.lor_spec, Z.mod_pow2_bits_low, Z.lor_spec by lia.
    destruct (Z.testbit x k), (Z.testbit bit k); reflexivity.
  - rewrite !Z.mod_pow2_bits_high by lia. reflexivity.
Qed.

Lemma array_request_idem (a : list Z) (bit : Z) :
  let a' := array_set a 0x0F (u8 (Z.lor (array_get a 0x0F) bit)) in
  array_set a' 0x0F (u8 (Z.lor (array_get a' 0x0F) bit)) = a'.
Proof.
  intros a'. subst a'. unfold array_get, array_set.
  destruct (decide (Z.to_nat 15 < length a)%nat) as [Hlt | Hge].
  - rewrite list_lookup_insert_eq by exact Hlt.
    rewrite list_insert_insert_eq. f_equal. apply u8_lor_idem.
  - rewrite !(list_insert_ge a) by lia. reflexivity.
Qed.

Lemma Memory_RequestInterrupt_idem (m : Memory) (bit : Z) :
  Memory_RequestInterrupt (Memory_RequestInterrupt m bit) bit = Memory_RequestInterrupt m bit.
Proof.
  unfold Memory_RequestInterrupt. cbn [m_io set_m_io].
  rewrite array_request_idem. reflexivity.
Qed.

Lemma Bus_eta (b : Bus) : mkBus (memory b) (ppu b) (timer b) = b.
Proof. by destruct b. Qed.

Lemma Timer_eta (t : Timer) :
  mkTimer (m_div_counter t) (m_tima t) (m_tma t) (m_tac t) (m_timer_counter t) = t.
Proof. by destruct t. Qed.

Lemma Timer_UpdateTIMA_loop_spec (fuel : nat) (P : Z) (b : Bus) :
  0 < P ->
  0 <= m_timer_counter (timer b) < 0x100000000 ->
  0 <= m_tima (timer b) <= 0xFF ->
  0 <= m_tma (timer b) <= 0xFF ->
  m_timer_counter (timer b) / P <= Z.of_nat fuel ->
  Timer_UpdateTIMA_loop fuel P b =
  Timer_after_ticks (Z.to_nat (m_timer_counter (timer b) / P))
                    (m_timer_counter (timer b) mod P) b.
Proof.
  revert b. induction fuel as [| fuel IH]; intros b HP Hc Htima Htma Hfuel.
  - assert (Hq : m_timer_counter (timer b) / P = 0).
    { pose proof (Z.div_pos (m_timer_counter (timer b)) P ltac:(lia) HP). lia. }
    assert (Hsmall : m_timer_counter (timer b) < P).
    { destruct (Z.lt_ge_cases (m_timer_counter (timer b)) P) as [? | Hge]; [done |].
      pose proof (Z.div_le_lower_bound (m_timer_counter (timer b)) P 1 HP ltac:(lia)). lia. }
    cbn [Timer_UpdateTIMA_loop]. rewrite Z.div_small, Z.mod_small by lia.
    unfold Timer_after_ticks. cbn.
    destruct b as [m p t]; destruct t; reflexivity.
  - cbn [Timer_UpdateTIMA_loop].
    destruct (Z.leb_spec P (m_timer_counter (timer b))) as [Hge | Hlt].
    + set (c := m_timer_counter (timer b)) in *.
      assert (Hdiv : c / P = (c - P) / P + 1).
      { replace c with ((c - P) + 1 * P) at 1 by lia. rewrite Z.div_add by lia. lia. }
      assert (Hmod : c mod P = (c - P) mod P).
      { replace c with ((c - P) + 1 * P) at 1 by lia. rewrite Z.mod_add by lia. reflexivity. }
      assert (Hqpos : 0 <= (c - P) / P) by (apply Z.div_pos; lia).
      assert (Hu : u32 (c - P) = c - P) by (apply u32_small; lia).
      rewrite Hdiv, Hmod.
      replace (Z.to_nat ((c - P) / P + 1)) with (S (Z.to_nat ((c - P) / P))) by lia.
      unfold Timer_UpdateTIMA_body.
      cbn [m_tima set_m_tima set_m_timer_counter m_timer_counter m_tma].
      fold c. rewrite Hu.
      destruct (Z.eqb_spec (u8 (m_tima (timer b) + 1)) 0) as [Hwrap | Hnowrap].
      * assert (Hff : m_tima (timer b) = 0xFF).
        { unfold u8 in Hwrap. destruct (Z.eq_dec (m_tima (timer b)) 0xFF); [done |].
          rewrite Z.mod_small in Hwrap; lia. }
        rewrite IH; cbn; try lia.
        unfold Timer_after_ticks. cbn.
        rewrite Hff. cbn [Timer_ticks]. rewrite !Timer_tick_wrap.
        rewrite Timer_ticks_irq.
        rewrite (Timer_ticks_tima _ _ _ true false).
        destruct (snd (Timer_ticks _ _ (m_tma (timer b), false)));
          rewrite ?Memory_RequestInterrupt_idem; reflexivity.
      * assert (Hne : m_tima (timer b) <> 0xFF).
        { intros E. rewrite E in Hnowrap. apply Hnowrap. reflexivity. }
        assert (Hu8 : u8 (m_tima (timer b) + 1) = m_tima (timer b) + 1) by (apply u8_small; lia).
        rewrite IH; cbn; try lia.
        unfold Timer_after_ticks. cbn. rewrite Hu8.
        cbn [Timer_ticks]. rewrite !Timer_tick_inc by exact Hne. reflexivity.
    + rewrite Z.div_small, Z.mod_small by lia.
      unfold Timer_after_ticks. cbn.
      destruct b as [m p t]; destruct t; reflexivity.
Qed.

(** C5: with the timer enabled and P the period selected by TAC bits 0-1
    (1024, 16, 64 or 256), [Timer::Step(cycles)] adds [cycles] to the
    residual counter (a [u32]) and takes P out of it as often as it fits:
    the residual ends below P, TIMA has been incremented once for each P
    taken out, each wrap of TIMA to 0 reloads it from TMA, and bit 2 of IF is
    requested if and only if such a wrap happened; TMA, TAC and the picture
    unit are untouched.  In particular, from TMA=0xAB, TIMA=0xFF, TAC=0x05
    and a residual below 16, [Step(16)] leaves TIMA=0xAB with bit 2 of IF
    set. *)
Theorem Timer_Step_TIMA (b : Bus) (cycles : Z) :
  Timer_IsTimerEnabled (timer b) = true ->
  0 <= m_tima (timer b) <= 0xFF ->
  0 <= m_tma (timer b) <= 0xFF ->
  let P := Timer_period (m_tac (timer b)) in
  let residual := u32 (m_timer_counter (timer b) + cycles) in
  let r := Timer_ticks (Z.to_nat (residual / P)) (m_tma (timer b)) (m_tima (timer b), false) in
  let b' := Timer_Step cycles b in
  (m_timer_counter (timer b') = residual mod P /\ 0 <= residual mod P < P)
  /\ m_tima (timer b') = fst r
  /\ memory b' = (if snd r then Memory_RequestInterrupt (memory b) 0x04 else memory b)
  /\ m_tma (timer b') = m_tma (timer b)
  /\ m_tac (timer b') = m_tac (timer b)
  /\ m_div_counter (timer b') = u16 (m_div_counter (timer b) + cycles)
  /\ ppu b' = ppu b
  /\ (m_tma (timer b) = 0xAB -> m_tima (timer b) = 0xFF -> m_tac (timer b) = 0x05 ->
      0 <= m_timer_counter (timer b) < 16 -> cycles = 16 ->
      (Z.to_nat 0x0F < length (m_io (memory b)))%nat ->
      m_tima (timer b') = 0xAB
      /\ Z.testbit (array_get (m_io (memory b')) 0x0F) 2 = true).
Proof.
  intros Hen Htima Htma P residual r b'.
  destruct (Timer_GetTimerFrequency_period (timer b)) as [Hf HP].
  assert (HPpos : 0 < P) by (subst P; lia).
  assert (Hres : 0 <= residual < 0x100000000) by apply u32_range.
  assert (Eb' : b' = Timer_after_ticks (Z.to_nat (residual / P)) (residual mod P)
                       (set_timer_of (fun t => set_m_timer_counter residual t)
                          (set_timer_of (Timer_UpdateDIV cycles) b))).
  { subst b'. unfold Timer_Step. cbv zeta.
    change (Timer_IsTimerEnabled (timer (set_timer_of (Timer_UpdateDIV cycles) b)))
      with (Timer_IsTimerEnabled (timer b)).
    rewrite Hen. unfold Timer_UpdateTIMA. cbv zeta.
    change (Timer_GetTimerFrequency (timer (set_timer_of (Timer_UpdateDIV cycles) b)))
      with (Timer_GetTimerFrequency (timer b)).
    rewrite Hf. fold P.
    rewrite Timer_UpdateTIMA_loop_spec; cbn; fold residual; try lia.
    reflexivity. }
  assert (Hmod : 0 <= residual mod P < P) by (apply Z.mod_pos_bound; lia).
  rewrite Eb'. unfold Timer_after_ticks. cbn. fold r.
  split; [split; [reflexivity | exact Hmod] |].
  split; [reflexivity |]. split; [reflexivity |]. split; [reflexivity |].
  split; [reflexivity |]. split; [reflexivity |]. split; [reflexivity |].
  intros E1 E2 E3 E4 E5 Hlen. subst r P residual.
  rewrite E1, E2, E3, E5. rewrite u32_small by lia.
  replace (Z.to_nat ((m_timer_counter (timer b) + 16) / Timer_period 5)) with 1%nat.
  2: { change (Timer_period 5) with 16.
       replace ((m_timer_counter (timer b) + 16) / 16) with 1; [reflexivity |].
       apply Z.div_unique with (r := m_timer_counter (timer b)); lia. }
  cbn [Timer_ticks]. rewrite Timer_tick_wrap. cbn [fst snd].
  split; [reflexivity |].
  unfold Memory_RequestInterrupt. cbn [m_io set_m_io].
  rewrite array_get_set_eq by lia.
  change (Z.testbit (u8 (Z.lor (array_get (m_io (memory b)) 15) 4)) 2 = true).
  unfold u8. change 256 with (2 ^ 8). rewrite Z.mod_pow2_bits_low by lia.
  rewrite Z.lor_spec. apply orb_true_r.
Qed.

Lemma Timer_Step_TIMA_witness :
  let b := Timer_overflow_scenario in
  let b' := Timer_Step 16 b in
  Memory_Read b' 0xFF05 = Some 0xAB
  /\ (fun v => Z.testbit v 2) <$> Memory_Read b' 0xFF0F = Some true
  /\ m_tima (timer b') = 0xAB
  /\ Z.testbit (array_get (m_io (memory b')) 0x0F) 2 = true.
Proof.
  split; [vm_compute; reflexivity |]. split; [vm_compute; reflexivity |].
  assert (H := Timer_Step_TIMA Timer_overflow_scenario 16).
  cbv zeta in H.
  destruct H as (_ & _ & _ & _ & _ & _ & _ & H).
  - vm_compute. reflexivity.
  - vm_compute. split; discriminate.
  - vm_compute. split; discriminate.
  - apply H; try (vm_compute; reflexivity).
    + vm_compute. split; [discriminate | reflexivity].
    + vm_compute. lia.
Defined.

(** ** The scheduler *)

Section SchedulerProofs.

Context {EventCallback Q : Type}.

Context {PQ : PriorityQueue (ScheduledEvent EventCallback) Q}.

Context {Laws : PriorityQueueLaws fire_at_cycle PQ}.

Lemma EventType_eqb_eq (a b : EventType.t) : EventType.eqb a b = true <-> a = b.
Proof.
  unfold EventType.eqb. rewrite Z.eqb_eq. split; [| by intros ->].
  destruct a, b; cbn; intros H; try reflexivity; discriminate.
Qed.

Lemma Scheduler_Deschedule_loop_spec (fuel : nat) (type : EventType.t) (queue new_queue : Q) :
  pq_wf queue -> pq_wf new_queue ->
  (pq_size queue <= fuel)%nat ->
  let r := Scheduler_Deschedule_loop fuel type queue new_queue in
  pq_empty (fst r) = true
  /\ pq_wf (snd r)
  /\ pq_elements (snd r)
     ≡ₚ filter (fun e => other_kind type e = true) (pq_elements queue) ++ pq_elements new_queue.
Proof.
  revert queue new_queue. induction fuel as [| fuel IH]; intros queue new_queue Hq Hn Hsize.
  - cbn. rewrite pq_size_spec in Hsize.
    assert (E : pq_elements queue = []) by (destruct (pq_elements queue); [done | cbn in Hsize; lia]).
    split; [by apply pq_empty_spec |]. split; [exact Hn |]. rewrite E. reflexivity.
  - cbn [Scheduler_Deschedule_loop].
    destruct (pq_empty queue) eqn:Hempty.
    + cbn. split; [exact Hempty |]. split; [exact Hn |].
      apply pq_empty_spec in Hempty. rewrite Hempty. reflexivity.
    + destruct (pq_top_spec queue Hq Hempty) as (e & Htop & Hperm & _).
      rewrite Htop.
      assert (Hsize' : (pq_size (pq_pop queue) <= fuel)%nat).
      { rewrite !pq_size_spec in *. apply Permutation_length in Hperm. cbn in Hperm. lia. }
      fold (other_kind type e).
      destruct (other_kind type e) eqn:Hk.
      * destruct (IH (pq_pop queue) (pq_push e new_queue) (pq_pop_wf _ Hq) (pq_push_wf _ _ Hn) Hsize')
          as (H1 & H2 & H3).
        split; [exact H1 |]. split; [exact H2 |].
        rewrite H3, Hperm, pq_push_elements. rewrite filter_cons_True by exact Hk.
        cbn. symmetry. apply Permutation_middle.
      * destruct (IH (pq_pop queue) new_queue (pq_pop_wf _ Hq) Hn Hsize') as (H1 & H2 & H3).
        split; [exact H1 |]. split; [exact H2 |].
        rewrite H3, Hperm. rewrite filter_cons_False by (rewrite Hk; discriminate).
        reflexivity.
Qed.

(** C9: for every scheduler over a lawful priority queue and every event
    kind [type], the queue after [Deschedule(type)] holds exactly the pending
    events whose kind differs from [type], each with its kind, fire cycle and
    callback as before and as many times as before; the current cycle is
    unchanged, and the queue is still well formed. *)
Theorem Scheduler_Deschedule_removes_kind (type : EventType.t) (s : Scheduler Q) :
  pq_wf (m_event_queue s) ->
  let s' := Scheduler_Deschedule type s in
  pq_elements (m_event_queue s')
    ≡ₚ filter (fun e => event_type e <> type) (pq_elements (m_event_queue s))
  /\ m_current_cycle s' = m_current_cycle s
  /\ pq_wf (m_event_queue s').
Proof.
  intros Hwf s'. subst s'. unfold Scheduler_Deschedule.
  pose proof (Scheduler_Deschedule_loop_spec (pq_size (m_event_queue s)) type
                (m_event_queue s) pq_new Hwf pq_new_wf ltac:(lia)) as H.
  cbv zeta in H.
  destruct (Scheduler_Deschedule_loop _ _ _ _) as [old new]. cbn [fst snd] in H.
  destruct H as (_ & H2 & H3). cbn.
  split; [| split; [reflexivity | exact H2]].
  rewrite H3, pq_new_elements, app_nil_r.
  apply Permutation_refl'. apply list_filter_iff. intros e. unfold other_kind.
  rewrite negb_true_iff, <- not_true_iff_false, EventType_eqb_eq. reflexivity.
Qed.

End SchedulerProofs.

(** The sorted list obeys the laws. *)
Section SortedQueueLaws.

Context {EventCallback : Type}.

Lemma SortedQueue_insert_perm (e : ScheduledEvent EventCallback) (q : list (ScheduledEvent EventCallback)) :
  SortedQueue_insert e q ≡ₚ e :: q.
Proof.
  induction q as [| e' q IH]; cbn; [reflexivity |].
  destruct (fire_at_cycle e <=? fire_at_cycle e'); [reflexivity |].
  rewrite IH. apply perm_swap.
Qed.

Lemma SortedQueue_insert_sorted (e : ScheduledEvent EventCallback) (q : list (ScheduledEvent EventCallback)) :
  StronglySorted SortedQueue_le q -> StronglySorted SortedQueue_le (SortedQueue_insert e q).
Proof.
  induction 1 as [| e' q Hs IH Hall]; cbn.
  - constructor; constructor.
  - destruct (Z.leb_spec (fire_at_cycle e) (fire_at_cycle e')) as [Hle | Hgt].
    + constructor; [by constructor |].
      constructor; [exact Hle |].
      eapply Forall_impl; [exact Hall |]. intros x Hx. unfold SortedQueue_le in *. lia.
    + constructor; [exact IH |].
      rewrite SortedQueue_insert_perm. constructor; [unfold SortedQueue_le; lia | exact Hall].
Qed.

Lemma SortedQueue_laws :
  PriorityQueueLaws fire_at_cycle (SortedQueue (EventCallback := EventCallback)).
Proof.
  split; cbn.
  - constructor.
  - reflexivity.
  - intros [| e q]; split; done.
  - reflexivity.
  - intros [| e q] Hwf Hne; [discriminate |].
    exists e. split; [reflexivity |]. split; [reflexivity |].
    apply StronglySorted_inv in Hwf as [_ Hall].
    constructor; [lia | exact Hall].
  - intros [| e q] Hwf; [constructor |]. by apply StronglySorted_inv in Hwf as [? _].
  - intros e q. apply SortedQueue_insert_sorted.
  - intros e q. apply SortedQueue_insert_perm.
Qed.

End SortedQueueLaws.

Lemma Scheduler_Deschedule_removes_kind_witness :
  let s' := Scheduler_Deschedule EventType.VBLANK Scheduler_example in
  pq_elements (m_event_queue s')
    ≡ₚ filter (fun e => event_type e <> EventType.VBLANK)
         (pq_elements (m_event_queue Scheduler_example))
  /\ m_current_cycle s' = m_current_cycle Scheduler_example
  /\ pq_wf (m_event_queue s').
Proof.
  apply (Scheduler_Deschedule_removes_kind (Laws := SortedQueue_laws)).
  vm_compute. repeat constructor; discriminate.
Defined.

Example Scheduler_example_result :
  m_event_queue (Scheduler_Deschedule EventType.VBLANK Scheduler_example)
  = [mkScheduledEvent EventType.TIMER_OVERFLOW 16 2; mkScheduledEvent EventType.HBLANK 50 0].
Proof. reflexivity. Qed.

(** ** The processor: conditional branches *)

Section CPUProofs.

#[local] Arguments Memory_Read : simpl never.

#[local] Arguments Memory_Write : simpl never.

#[local] Arguments Memory_Read16 : simpl never.

#[local] Arguments Memory_Write16 : simpl never.

#[local] Arguments u8 : simpl never.

#[local] Arguments u16 : simpl never.

#[local] Arguments s8 : simpl never.

#[local] Arguments Z.add : simpl never.

#[local] Arguments Z.sub : simpl never.

#[local] Arguments Z.land : simpl never.

#[local] Arguments Z.lor : simpl never.

#[local] Arguments Z.shiftl : simpl never.

#[local] Arguments Z.shiftr : simpl never.

#[local] Arguments Z.lnot : simpl never.

#[local] Arguments Z.modulo : simpl never.

#[local] Arguments nonzero : simpl never.

Lemma Memory_Read16_total (b : Bus) (a : Z) :
  (forall a, is_Some (Memory_Read b a)) -> is_Some (Memory_Read16 b a).
Proof.
  intros H. unfold Memory_Read16.
  destruct (H a) as [lo ->]. destruct (H (u16 (a + 1))) as [hi ->]. eauto.
Qed.

(** Whatever the machine, as long as the bus does not fault: a step that
    fetches a conditional branch returns the count of
    [CPU_Step_branch_cycles], which is not the reference count. *)
Lemma CPU_Step_conditional_branch_cycles (s : Machine) (k : BranchKind) (cc : Condition) :
  m_halted (cpu s) = false ->
  m_ime (cpu s) = false ->
  (forall a, is_Some (Memory_Read (bus s) a)) ->
  Memory_Read (bus s) (pc (m_regs (cpu s))) = Some (branch_opcode k cc) ->
  let taken := condition_holds cc (low_byte (af (m_regs (cpu s)))) in
  exists s', CPU_Step s = Some (CPU_Step_branch_cycles k taken, s').
Proof.
  intros Hh Hi Hr Hop taken. subst taken.
  destruct s as [[[r_af r_bc r_de r_hl r_sp r_pc] ime halted stopped cycles] b].
  cbn [cpu bus m_regs m_halted m_ime pc af] in *. subst halted ime.
  unfold CPU_Step.
  cbv beta iota zeta delta -[CPU_ExecuteInstruction Memory_Read Memory_Write Memory_Read16
    Memory_Write16 u8 u16 u32 s8 Z.add Z.sub Z.land Z.lor Z.shiftl Z.shiftr Z.lnot Z.modulo
    nonzero Z.mul Z.eqb Z.ltb Z.leb].
  rewrite Hop.
  destruct k, cc.
  all: cbv beta iota zeta delta -[Memory_Read Memory_Write Memory_Read16
    Memory_Write16 u8 u16 u32 s8 Z.add Z.sub Z.land Z.lor Z.shiftl Z.shiftr Z.lnot Z.modulo
    nonzero Z.mul Z.eqb Z.ltb Z.leb].
  all: repeat first
    [ match goal with
      | |- context [Memory_Read16 ?b ?a] =>
          let w := fresh "w" in let Hw := fresh "Hw" in
          destruct (Memory_Read16_total b a Hr) as [w Hw]; rewrite Hw
      | |- context [Memory_Read ?b ?a] =>
          let w := fresh "w" in let Hw := fresh "Hw" in
          destruct (Hr a) as [w Hw]; rewrite Hw
      | |- context [nonzero ?x] => destruct (nonzero x)
      end
    | progress cbv beta iota zeta delta -[Memory_Read Memory_Write Memory_Read16
        Memory_Write16 u8 u16 u32 s8 Z.add Z.sub Z.land Z.lor Z.shiftl Z.shiftr Z.lnot
        Z.modulo nonzero Z.mul Z.eqb Z.ltb Z.leb] ].
  all: eexists; reflexivity.
Qed.

End CPUProofs.

(** C1 fails: run on a machine with the branch at 0xC000, every conditional
    branch opcode makes [CPU::Step] return the count of
    [CPU_Step_branch_cycles] (JP cc 20/16, JR cc 16/12, CALL cc 28/16,
    RET cc 32/12), which exceeds the reference count (JP cc 16/12,
    JR cc 12/8, CALL cc 24/12, RET cc 20/8) by 4, and by 12 for a taken
    RET cc; the unconditional JP, JR, CALL and RET of the same code return
    the reference counts 16, 12, 24 and 16. *)
Theorem CPU_Step_conditional_branch_counts (k : BranchKind) (cc : Condition) (taken : bool) :
  condition_holds cc (flags_for cc taken) = taken
  /\ Step_cycles (branch_machine k cc (flags_for cc taken))
     = Some (CPU_Step_branch_cycles k taken)
  /\ CPU_Step_branch_cycles k taken
     = reference_branch_cycles k taken
       + (if taken then match k with RET_cc => 12 | _ => 4 end else 4)
  /\ Step_cycles (branch_machine JP_cc cc_NZ 0x00) = Some 20
  /\ unconditional_branch_cycles = [Some 16; Some 12; Some 24; Some 16].
Proof.
  split; [destruct cc, taken; reflexivity |].
  split; [destruct k, cc, taken; vm_compute; reflexivity |].
  split; [destruct k, taken; reflexivity |].
  split; vm_compute; reflexivity.
Qed.

(** ** The processor: interrupt service *)

Lemma nonzero_land_bit (t j : Z) :
  0 <= j -> nonzero (Z.land t (Z.shiftl 1 j)) = Z.testbit t j.
Proof.
  intros Hj. unfold nonzero. rewrite Z.shiftl_1_l.
  destruct (Z.testbit t j) eqn:E.
  - apply negb_true_iff, Z.eqb_neq. intros H0.
    assert (Hb : Z.testbit (Z.land t (2 ^ j)) j = true)
      by (rewrite Z.land_spec, E, Z.pow2_bits_true by lia; reflexivity).
    rewrite H0, Z.bits_0 in Hb. discriminate.
  - apply negb_false_iff, Z.eqb_eq. apply Z.bits_inj'. intros k Hk.
    rewrite Z.land_spec, Z.bits_0, Z.pow2_bits_eqb by lia.
    destruct (Z.eqb_spec j k) as [-> | Hne]; [by rewrite E | apply andb_false_r].
Qed.

Lemma lowest_set_bit_spec (t : Z) :
  Z.land t 0x1F <> 0 ->
  let i := lowest_set_bit t in
  0 <= i < 5 /\ Z.testbit t i = true /\ (forall j, 0 <= j < i -> Z.testbit t j = false).
Proof.
  intros Hne. unfold lowest_set_bit.
  destruct (Z.testbit t 0) eqn:E0; [split; [lia |]; split; [done |]; intros; lia |].
  destruct (Z.testbit t 1) eqn:E1.
  { split; [lia |]. split; [done |]. intros j Hj. assert (j = 0) as -> by lia. done. }
  destruct (Z.testbit t 2) eqn:E2.
  { split; [lia |]. split; [done |]. intros j Hj.
    assert (j = 0 \/ j = 1) as [-> | ->] by lia; done. }
  destruct (Z.testbit t 3) eqn:E3.
  { split; [lia |]. split; [done |]. intros j Hj.
    assert (j = 0 \/ j = 1 \/ j = 2) as [-> | [-> | ->]] by lia; done. }
  destruct (Z.testbit t 4) eqn:E4.
  { split; [lia |]. split; [done |]. intros j Hj.
    assert (j = 0 \/ j = 1 \/ j = 2 \/ j = 3) as [-> | [-> | [-> | ->]]] by lia; done. }
  exfalso. apply Hne. apply Z.bits_inj'. intros k Hk.
  rewrite Z.land_spec, Z.bits_0. change 0x1F with (Z.ones 5).
  destruct (Z.lt_ge_cases k 5).
  - assert (k = 0 \/ k = 1 \/ k = 2 \/ k = 3 \/ k = 4) as [-> | [-> | [-> | [-> | ->]]]] by lia;
      rewrite ?E0, ?E1, ?E2, ?E3, ?E4; reflexivity.
  - rewrite Z.ones_spec_high by lia. apply andb_false_r.
Qed.

Ltac cpu_run :=
  cbv beta iota zeta delta -[Memory_Read Memory_Write Memory_Read16
        Memory_Write16 u8 u16 u32 s8 Z.add Z.sub Z.land Z.lor Z.shiftl Z.shiftr Z.lnot
        Z.modulo nonzero Z.mul Z.eqb Z.ltb Z.leb Z.testbit CPU_ExecuteInstruction
        CPU_fetch_execute CPU_interrupt_accepted].

Lemma CPU_ServiceInterrupts_accepts (s : Machine) (if_reg ie_reg i : Z) :
  m_ime (cpu s) = true ->
  Memory_Read (bus s) 0xFF0F = Some if_reg ->
  Memory_Read (bus s) 0xFFFF = Some ie_reg ->
  0 <= i < 5 ->
  Z.testbit (Z.land if_reg ie_reg) i = true ->
  (forall j, 0 <= j < i -> Z.testbit (Z.land if_reg ie_reg) j = false) ->
  CPU_ServiceInterrupts s
  = Some (tt, CPU_interrupt_accepted s if_reg i (u32 (u32 (m_cycles (cpu s) + 8) + 20))).
Proof.
  intros Hime Hif Hie Hi Hset Hlow.
  assert (Ht : Z.land if_reg ie_reg <> 0).
  { intros E. rewrite E, Z.bits_0 in Hset. discriminate. }
  destruct s as [[[r_af r_bc r_de r_hl r_sp r_pc] ime halted stopped cycles] b].
  cbn [cpu bus m_regs m_halted m_ime] in *. subst ime.
  unfold CPU_ServiceInterrupts. change (seqZ 0 5) with [0; 1; 2; 3; 4].
  cpu_run. rewrite Hif, Hie.
  rewrite (proj2 (Z.eqb_neq _ _) Ht).
  assert (Hcase : i = 0 \/ i = 1 \/ i = 2 \/ i = 3 \/ i = 4) by lia.
  assert (Hbit : forall j, 0 <= j <= i ->
            nonzero (Z.land (Z.land if_reg ie_reg) (Z.shiftl 1 j)) = bool_decide (j = i)).
  { intros j Hj. rewrite nonzero_land_bit by lia.
    destruct (decide (j = i)) as [-> | Hn].
    - rewrite bool_decide_eq_true_2 by done. exact Hset.
    - rewrite bool_decide_eq_false_2 by done. apply Hlow. lia. }
  destruct Hcase as [-> | [-> | [-> | [-> | ->]]]].
  all: rewrite ?(Hbit 0), ?(Hbit 1), ?(Hbit 2), ?(Hbit 3), ?(Hbit 4) by lia.
  all: reflexivity.
Qed.

Ltac cpu_run_keep_service :=
  cbv beta iota zeta delta -[Memory_Read Memory_Write Memory_Read16
        Memory_Write16 u8 u16 u32 s8 Z.add Z.sub Z.land Z.lor Z.shiftl Z.shiftr Z.lnot
        Z.modulo nonzero Z.mul Z.eqb Z.ltb Z.leb Z.testbit CPU_ExecuteInstruction
        CPU_ServiceInterrupts CPU_interrupt_accepted lowest_set_bit].

(** With IME set and an interrupt among bits 0-4 both requested and enabled,
    [CPU::Step] accepts the lowest such bit [i] and then fetches and executes
    from the state in which IME is cleared, bit [i] of IF is cleared, PC is
    pushed, PC is 0x40 + 8 * i, and [m_cycles] is 28. *)
Lemma CPU_Step_services_interrupt (s : Machine) (if_reg ie_reg : Z) :
  m_ime (cpu s) = true ->
  Memory_Read (bus s) 0xFF0F = Some if_reg ->
  Memory_Read (bus s) 0xFFFF = Some ie_reg ->
  Z.land (Z.land if_reg ie_reg) 0x1F <> 0 ->
  let i := lowest_set_bit (Z.land if_reg ie_reg) in
  (0 <= i < 5 /\ Z.testbit (Z.land if_reg ie_reg) i = true
   /\ forall j, 0 <= j < i -> Z.testbit (Z.land if_reg ie_reg) j = false)
  /\ CPU_Step s
     = CPU_fetch_execute
         (CPU_interrupt_accepted (set_cpu (set_m_halted false (cpu s)) s) if_reg i 28).
Proof.
  intros Hime Hif Hie Hne i.
  pose proof (lowest_set_bit_spec _ Hne) as Hspec. fold i in Hspec.
  split; [exact Hspec |]. destruct Hspec as (Hi & Hset & Hlow).
  assert (Ht : nonzero (Z.land if_reg ie_reg) = true).
  { unfold nonzero. apply negb_true_iff, Z.eqb_neq. intros E.
    rewrite E, Z.bits_0 in Hset. discriminate. }
  destruct s as [[[r_af r_bc r_de r_hl r_sp r_pc] ime halted stopped cycles] b].
  cbn [cpu bus m_regs m_halted m_ime] in *. subst ime.
  unfold CPU_Step, CPU_fetch_execute.
  destruct halted; cpu_run_keep_service; rewrite ?Hif, ?Hie, ?Ht.
  all: erewrite CPU_ServiceInterrupts_accepts; [| reflexivity | exact Hif | exact Hie | exact Hi | exact Hset | exact Hlow].
  all: reflexivity.
Qed.

(** C2 fails on the cycle count: with IME set and IF = IE = 0x01, SP = 0xFFFE
    and PC = 0x0150 over a ROM of NOPs, [CPU::ServiceInterrupts] clears IME,
    clears bit 0 of IF, pushes 0x0150 at 0xFFFC and sets PC to 0x0040, but it
    leaves 28 cycles in [m_cycles], not 20; [CPU::Step] then returns 36, where
    the NOP at 0x0040 alone takes 8 of this code's cycles. *)
Theorem CPU_Step_interrupt_service_cycles :
  observe_interrupt (CPU_ServiceInterrupts (interrupt_machine true 0x0150))
  = Some (tt, 28, 0x0040, 0xFFFC, false, Some 0, Some 0x0150)
  /\ observe_interrupt (CPU_Step (interrupt_machine true 0x0150))
     = Some (36, 36, 0x0041, 0xFFFC, false, Some 0, Some 0x0150)
  /\ observe_interrupt (CPU_Step (interrupt_machine false 0x0040))
     = Some (8, 8, 0x0041, 0xFFFE, false, Some 1, Some 0).
Proof. repeat split; vm_compute; reflexivity. Qed.

(** ** The processor: HALT *)

(** C6, with the wake-up condition the code tests: while the processor is
    halted, a [CPU::Step] with IF & IE = 0 (all eight bits) returns exactly 4
    cycles and changes nothing but [m_cycles], so no instruction is executed
    and the latch stays set; a [CPU::Step] with IF & IE <> 0 clears the latch
    and goes on as the step of the machine that is not halted. *)
Theorem CPU_Step_halted (s : Machine) (if_reg ie_reg : Z) :
  m_halted (cpu s) = true ->
  Memory_Read (bus s) 0xFF0F = Some if_reg ->
  Memory_Read (bus s) 0xFFFF = Some ie_reg ->
  (Z.land if_reg ie_reg = 0 ->
   CPU_Step s = Some (4, set_cpu (set_m_cycles 4 (cpu s)) s))
  /\ (Z.land if_reg ie_reg <> 0 ->
      CPU_Step s = CPU_Step (set_cpu (set_m_halted false (cpu s)) s)).
Proof.
  intros Hh Hif Hie.
  destruct s as [[[r_af r_bc r_de r_hl r_sp r_pc] ime halted stopped cycles] b].
  cbn [cpu bus m_regs m_halted m_ime] in *. subst halted.
  split; intros Ht.
  - unfold CPU_Step. cpu_run_keep_service. rewrite Hif, Hie, Ht. reflexivity.
  - assert (Hn : nonzero (Z.land if_reg ie_reg) = true)
      by (unfold nonzero; apply negb_true_iff, Z.eqb_neq; exact Ht).
    unfold CPU_Step. cpu_run_keep_service. rewrite Hif, Hie, Hn. reflexivity.
Qed.


Lemma CPU_Step_halted_witness :
  CPU_Step (halted_machine 0x00)
  = Some (4, set_cpu (set_m_cycles 4 (cpu (halted_machine 0x00))) (halted_machine 0x00))
  /\ CPU_Step (halted_machine 0x01)
     = CPU_Step (set_cpu (set_m_halted false (cpu (halted_machine 0x01))) (halted_machine 0x01)).
Proof.
  split.
  - assert (H : m_halted (cpu (halted_machine 0x00)) = true) by (vm_compute; reflexivity).
    assert (Hif : Memory_Read (bus (halted_machine 0x00)) 0xFF0F = Some 0x00)
      by (vm_compute; reflexivity).
    assert (Hie : Memory_Read (bus (halted_machine 0x00)) 0xFFFF = Some 0x00)
      by (vm_compute; reflexivity).
    exact (proj1 (CPU_Step_halted (halted_machine 0x00) 0x00 0x00 H Hif Hie) eq_refl).
  - assert (H : m_halted (cpu (halted_machine 0x01)) = true) by (vm_compute; reflexivity).
    assert (Hif : Memory_Read (bus (halted_machine 0x01)) 0xFF0F = Some 0x01)
      by (vm_compute; reflexivity).
    assert (Hie : Memory_Read (bus (halted_machine 0x01)) 0xFFFF = Some 0x01)
      by (vm_compute; reflexivity).
    refine (proj2 (CPU_Step_halted (halted_machine 0x01) 0x01 0x01 H Hif Hie) _).
    vm_compute. discriminate.
Defined.

(** A halted processor with IF = IE = 0x20: IF & IE & 0x1F is 0, yet the step
    clears the latch, executes the NOP at 0xC000 and returns 8 cycles. *)
Lemma CPU_Step_halted_wakes_on_high_bits :
  m_halted (cpu (halted_machine 0x20)) = true
  /\ pending_interrupts (halted_machine 0x20) = Some 0
  /\ observe_Step (halted_machine 0x20) = Some (8, 0xC001, false)
  /\ observe_Step (halted_machine 0x00) = Some (4, 0xC000, true).
Proof. repeat split; vm_compute; reflexivity. Qed.

(** ** The cartridge controllers *)

Lemma vector_get_Some (a : list Z) (i : Z) :
  0 <= i < vector_size a -> is_Some (vector_get a i).
Proof.
  unfold vector_size, vector_get. intros H.
  rewrite (proj2 (Z.leb_le _ _)), (proj2 (Z.ltb_lt _ _)) by lia. cbn.
  apply lookup_lt_is_Some. lia.
Qed.

Lemma vector_get_None (a : list Z) (i : Z) :
  vector_get a i = None <-> ~ (0 <= i < vector_size a).
Proof.
  split.
  - intros E H. destruct (vector_get_Some a i H) as [v Hv]. congruence.
  - unfold vector_size, vector_get. intros H.
    destruct (Z.leb_spec 0 i); [| reflexivity].
    destruct (Z.ltb_spec i (Z.of_nat (length a))); [lia | reflexivity].
Qed.

Lemma MBC0_Read_total (c : MBC0) (address : Z) : 0 <= address -> is_Some (MBC0_Read c address).
Proof.
  intros H. unfold MBC0_Read.
  destruct (Z.ltb_spec address (vector_size (MBC0_m_rom c))); [| eauto].
  apply vector_get_Some. lia.
Qed.

Lemma MBC1_Read_fault (c : MBC1) (address : Z) :
  0 <= address ->
  MBC1_Read c address = None <-> address <= 0x3FFF /\ vector_size (MBC1_m_rom c) <= address.
Proof.
  intros H. unfold MBC1_Read.
  destruct (Z.leb_spec address 0x3FFF).
  - rewrite vector_get_None. split; lia.
  - destruct (address <=? 0x7FFF).
    + match goal with |- context [u32 ?x] => pose proof (u32_range x); set (o := u32 x) in * end.
      destruct (Z.ltb_spec o (vector_size (MBC1_m_rom c))).
      * rewrite vector_get_None. split; lia.
      * split; [discriminate | lia].
    + split; [discriminate | lia].
Qed.

Lemma MBC3_Read_fault (c : MBC3) (address : Z) :
  0 <= address ->
  MBC3_Read c address = None <-> address <= 0x3FFF /\ vector_size (MBC3_m_rom c) <= address.
Proof.
  intros H. unfold MBC3_Read.
  destruct (Z.leb_spec address 0x3FFF).
  - rewrite vector_get_None. split; lia.
  - destruct (address <=? 0x7FFF).
    + match goal with |- context [u32 ?x] => pose proof (u32_range x); set (o := u32 x) in * end.
      destruct (Z.ltb_spec o (vector_size (MBC3_m_rom c))).
      * rewrite vector_get_None. split; lia.
      * split; [discriminate | lia].
    + split; [discriminate | lia].
Qed.

Lemma MBC5_Read_fault (c : MBC5) (address : Z) :
  0 <= address ->
  MBC5_Read c address = None <-> address <= 0x3FFF /\ vector_size (MBC5_m_rom c) <= address.
Proof.
  intros H. unfold MBC5_Read.
  destruct (Z.leb_spec address 0x3FFF).
  - rewrite vector_get_None. split; lia.
  - destruct (address <=? 0x7FFF).
    + match goal with |- context [u32 ?x] => pose proof (u32_range x); set (o := u32 x) in * end.
      destruct (Z.ltb_spec o (vector_size (MBC5_m_rom c))).
      * rewrite vector_get_None. split; lia.
      * split; [discriminate | lia].
    + split; [discriminate | lia].
Qed.

(** What the controllers do on reads of the ROM region: the only fault is a
    bank-0 read beyond the end of a ROM shorter than the window, by a
    controller other than MBC0. *)
Lemma MBC_Read_fault (c : MBC) (address : Z) :
  0 <= address ->
  MBC_Read c address = None <->
  (match c with Cart_MBC0 _ => False | _ => True end)
  /\ address <= 0x3FFF /\ vector_size (MBC_rom c) <= address.
Proof.
  intros H. destruct c as [c | c | c | c]; cbn [MBC_Read MBC_rom].
  - destruct (MBC0_Read_total c address H) as [v ->]. split; [discriminate | tauto].
  - rewrite MBC1_Read_fault by exact H. tauto.
  - rewrite MBC3_Read_fault by exact H. tauto.
  - rewrite MBC5_Read_fault by exact H. tauto.
Qed.

(** C8 fails: a ROM image of 0x150 bytes with cartridge type 0x01 (MBC1),
    0x11 (MBC3) or 0x19 (MBC5) is accepted by [Memory::LoadROM]; the read of
    0x014F returns the last ROM byte, and the reads of 0x0150 and of 0x3FFF
    subscript the ROM vector beyond its end (a fault, not 0xFF), while the
    bounds-checked switched window returns 0xFF at 0x4000.  With cartridge
    type 0x00 (MBC0) the same reads return 0xFF. *)
Theorem MBC_bank0_read_out_of_range :
  Forall (fun cartridge_type =>
            let '(ok, b) := Bus_with_cartridge (small_cartridge cartridge_type) in
            ok = true
            /\ Memory_Read b 0x014F = Some 0
            /\ Memory_Read b 0x0150 = None
            /\ Memory_Read b 0x3FFF = None
            /\ Memory_Read b 0x4000 = Some 0xFF)
         [0x01; 0x11; 0x19]
  /\ (let '(ok, b) := Bus_with_cartridge (small_cartridge 0x00) in
      ok = true /\ Memory_Read b 0x0150 = Some 0xFF /\ Memory_Read b 0x3FFF = Some 0xFF).
Proof.
  split; [repeat constructor | repeat split]; vm_compute; reflexivity.
Qed.

(** * Further properties

    Properties of the memory map, the cartridge, the timer, the picture
    unit, the scheduler and the processor, read off the code. *)

(** ** The memory map: RAM cells *)

Lemma array_get_set_ne (a : list Z) (i j v : Z) :
  0 <= i -> 0 <= j -> i <> j -> array_get (array_set a i v) j = array_get a j.
Proof.
  intros Hi Hj Hne. unfold array_get, array_set.
  rewrite list_lookup_insert_ne by lia. reflexivity.
Qed.

Lemma between_cases (lo hi a : Z) :
  (lo <= a <= hi /\ (lo <=? a) && (a <=? hi) = true)
  \/ (~ (lo <= a <= hi) /\ (lo <=? a) && (a <=? hi) = false).
Proof.
  destruct (Z.leb_spec lo a), (Z.leb_spec a hi); cbn [andb]; [left | right | right | right];
    split; reflexivity || lia.
Qed.

Lemma RAM_cell_spec (a : Z) :
  (in_VRAM a /\ RAM_cell a = Some (ram_vram, a - 0x8000))
  \/ (in_WRAM a /\ RAM_cell a = Some (ram_wram, a - 0xC000))
  \/ (in_ECHO a /\ RAM_cell a = Some (ram_wram, a - 0xE000))
  \/ (in_OAM a /\ RAM_cell a = Some (ram_oam, a - 0xFE00))
  \/ (in_HRAM a /\ RAM_cell a = Some (ram_hram, a - 0xFF80))
  \/ (~ in_RAM a /\ RAM_cell a = None).
Proof.
  unfold RAM_cell, in_RAM, in_VRAM, in_WRAM, in_ECHO, in_OAM, in_HRAM.
  destruct (between_cases VRAM_START VRAM_END a) as [[H1 ->] | [H1 ->]]; [left; done |].
  destruct (between_cases WRAM_START WRAM_END a) as [[H2 ->] | [H2 ->]]; [right; left; done |].
  destruct (between_cases ECHO_RAM_START ECHO_RAM_END a) as [[H3 ->] | [H3 ->]];
    [right; right; left; done |].
  destruct (between_cases OAM_START OAM_END a) as [[H4 ->] | [H4 ->]];
    [right; right; right; left; done |].
  destruct (between_cases HRAM_START HRAM_END a) as [[H5 ->] | [H5 ->]];
    [right; right; right; right; left; done |].
  right; right; right; right; right. split; [tauto | reflexivity].
Qed.

Ltac RAM_cases a :=
  let H := fresh "Hin" in let E := fresh "Ecell" in
  destruct (RAM_cell_spec a) as [[H E] | [[H E] | [[H E] | [[H E] | [[H E] | [H E]]]]]];
  [ unfold in_VRAM, VRAM_START, VRAM_END in H
  | unfold in_WRAM, WRAM_START, WRAM_END in H
  | unfold in_ECHO, ECHO_RAM_START, ECHO_RAM_END in H
  | unfold in_OAM, OAM_START, OAM_END in H
  | unfold in_HRAM, HRAM_START, HRAM_END in H
  | unfold in_RAM, in_VRAM, VRAM_START, VRAM_END, in_WRAM, WRAM_START, WRAM_END,
      in_ECHO, ECHO_RAM_START, ECHO_RAM_END, in_OAM, OAM_START, OAM_END,
      in_HRAM, HRAM_START, HRAM_END in H ].

Lemma page_entry_ECHO a :
  in_ECHO a -> Memory_page_entry (a / 256) = Some (wram_data ((a / 256 - 0xE0) * 0x100)).
Proof.
  unfold in_ECHO, ECHO_RAM_START, ECHO_RAM_END. intros H.
  assert (0xE0 <= a / 256 <= 0xFD) by (divmod256 a; lia).
  unfold Memory_page_entry. decide_cmp. reflexivity.
Qed.

Lemma page_entry_unpaged a :
  0 <= a < 0x8000 \/ 0xA000 <= a < 0xC000 \/ 0xFE00 <= a <= 0xFFFF ->
  Memory_page_entry (a / 256) = None.
Proof.
  intros H. unfold Memory_page_entry.
  destruct H as [H | [H | H]].
  - assert (0 <= a / 256 < 0x80) by (divmod256 a; lia). decide_cmp. reflexivity.
  - assert (0xA0 <= a / 256 < 0xC0) by (divmod256 a; lia). decide_cmp. reflexivity.
  - assert (0xFE <= a / 256 <= 0xFF) by (divmod256 a; lia). decide_cmp. reflexivity.
Qed.

Lemma RAM_cell_range (a : Z) (k : RAMArray) (i : Z) :
  RAM_cell a = Some (k, i) -> 0 <= a <= 0xFFFF /\ 0 <= i < RAM_size k.
Proof.
  intros E. RAM_cases a; rewrite Ecell in E; inversion E; subst;
    unfold RAM_size, WRAM_SIZE, VRAM_SIZE, OAM_SIZE, HRAM_SIZE; lia.
Qed.

Lemma in_RAM_cell (a : Z) : in_RAM a <-> is_Some (RAM_cell a).
Proof.
  RAM_cases a; rewrite Ecell; unfold in_RAM, in_VRAM, VRAM_START, VRAM_END, in_WRAM,
    WRAM_START, WRAM_END, in_ECHO, ECHO_RAM_START, ECHO_RAM_END, in_OAM, OAM_START, OAM_END,
    in_HRAM, HRAM_START, HRAM_END; split; intros Hx; eauto; try lia.
  destruct Hx as [x Hx]. discriminate Hx.
Qed.

Lemma RAM_cell_alias (a a' : Z) :
  is_Some (RAM_cell a) -> RAM_cell a' = RAM_cell a ->
  a' = a \/ a' = a + 0x2000 \/ a' = a - 0x2000.
Proof.
  intros [x Hx] E. rewrite Hx in E.
  RAM_cases a; rewrite Ecell in Hx; inversion Hx; subst x; clear Hx;
    (RAM_cases a'; rewrite Ecell0 in E; inversion E; lia).
Qed.

Lemma Memory_Write_RAM_cell (b : Bus) (a v : Z) (k : RAMArray) (i : Z) :
  Memory_paged (memory b) -> RAM_cell a = Some (k, i) ->
  Memory_Write b a v = set_memory (RAM_update k i v (memory b)) b.
Proof.
  intros Hp Hc. destruct (RAM_cell_range a k i Hc) as (Ha & _).
  destruct (address_page a Ha) as (Hpage & Hoff & Hpr & Hor).
  pose proof (Z.div_mod a 256 ltac:(lia)) as Hdm.
  unfold Memory_Write. rewrite (Memory_write_page _ _ Hp Ha), Hoff.
  RAM_cases a; rewrite Ecell in Hc; inversion Hc; subst k i; clear Hc.
  - rewrite page_entry_VRAM by (unfold in_VRAM, VRAM_START, VRAM_END; lia).
    cbn [PagePtr_store RAM_update]. do 3 f_equal. lia.
  - rewrite page_entry_WRAM by (unfold in_WRAM, WRAM_START, WRAM_END; lia).
    cbn [PagePtr_store RAM_update]. do 3 f_equal. lia.
  - rewrite page_entry_ECHO by (unfold in_ECHO, ECHO_RAM_START, ECHO_RAM_END; lia).
    cbn [PagePtr_store RAM_update]. do 3 f_equal. lia.
  - rewrite page_entry_high by lia. unfold_map. decide_cmp. reflexivity.
  - rewrite page_entry_high by lia. unfold_map. decide_cmp. reflexivity.
Qed.

Lemma Memory_Read_RAM_cell (b : Bus) (a : Z) (k : RAMArray) (i : Z) :
  Memory_paged (memory b) -> RAM_cell a = Some (k, i) ->
  Memory_Read b a = Some (array_get (RAM_array k (memory b)) i).
Proof.
  intros Hp Hc. destruct (RAM_cell_range a k i Hc) as (Ha & _).
  destruct (address_page a Ha) as (Hpage & Hoff & Hpr & Hor).
  pose proof (Z.div_mod a 256 ltac:(lia)) as Hdm.
  unfold Memory_Read. rewrite (Memory_read_page _ _ Hp Ha), Hoff.
  RAM_cases a; rewrite Ecell in Hc; inversion Hc; subst k i; clear Hc.
  - rewrite page_entry_VRAM by (unfold in_VRAM, VRAM_START, VRAM_END; lia).
    cbn [PagePtr_load RAM_array]. do 2 f_equal. lia.
  - rewrite page_entry_WRAM by (unfold in_WRAM, WRAM_START, WRAM_END; lia).
    cbn [PagePtr_load RAM_array]. do 2 f_equal. lia.
  - rewrite page_entry_ECHO by (unfold in_ECHO, ECHO_RAM_START, ECHO_RAM_END; lia).
    cbn [PagePtr_load RAM_array]. do 2 f_equal. lia.
  - rewrite page_entry_high by lia. unfold_map. decide_cmp. reflexivity.
  - rewrite page_entry_high by lia. unfold_map. decide_cmp. reflexivity.
Qed.

Lemma RAM_array_update_same (k : RAMArray) (i v : Z) (m : Memory) :
  RAM_array k (RAM_update k i v m) = array_set (RAM_array k m) i v.
Proof. destruct k; reflexivity. Qed.

Lemma RAM_array_update_other (k k' : RAMArray) (i v : Z) (m : Memory) :
  k <> k' -> RAM_array k' (RAM_update k i v m) = RAM_array k' m.
Proof. destruct k, k'; try reflexivity; intros H; exfalso; apply H; reflexivity. Qed.

Lemma RAM_update_paged (k : RAMArray) (i v : Z) (m : Memory) :
  Memory_paged m -> Memory_paged (RAM_update k i v m).
Proof. destruct k; exact id. Qed.

Lemma RAM_update_sized (k : RAMArray) (i v : Z) (m : Memory) :
  Memory_sized m -> Memory_sized (RAM_update k i v m).
Proof.
  intros (H1 & H2 & H3 & H4 & H5).
  destruct k; repeat split; cbn; rewrite ?array_set_length; assumption.
Qed.

Lemma RAM_array_length (k : RAMArray) (m : Memory) :
  Memory_sized m -> Z.of_nat (length (RAM_array k m)) = RAM_size k.
Proof.
  intros (H1 & H2 & H3 & H4 & H5). destruct k; cbn; rewrite ?H1, ?H2, ?H3, ?H4;
    unfold WRAM_SIZE, VRAM_SIZE, OAM_SIZE, HRAM_SIZE; lia.
Qed.

(** Reads of everything that is not a RAM cell do not look at the RAM arrays. *)
Lemma Memory_Read_RAM_update_unbacked (b : Bus) (k : RAMArray) (i v a' : Z) :
  Memory_paged (memory b) -> 0 <= a' <= 0xFFFF -> RAM_cell a' = None ->
  Memory_Read (set_memory (RAM_update k i v (memory b)) b) a' = Memory_Read b a'.
Proof.
  intros Hp Ha Hc.
  assert (Hreg : 0 <= a' < 0x8000 \/ 0xA000 <= a' < 0xC000
                 \/ (0xFE00 <= a' <= 0xFFFF /\ ~ (0xFE00 <= a' <= 0xFE9F)
                     /\ ~ (0xFF80 <= a' <= 0xFFFE))).
  { RAM_cases a'; rewrite Ecell in Hc; try discriminate Hc. lia. }
  unfold Memory_Read. cbn [memory set_memory].
  rewrite (Memory_read_page (memory b) a' Hp Ha).
  rewrite (Memory_read_page _ a' (RAM_update_paged k i v _ Hp) Ha).
  rewrite (page_entry_unpaged a') by lia.
  unfold_map.
  destruct ((0 <=? a') && (a' <=? 32767)); [destruct k; reflexivity |].
  destruct ((40960 <=? a') && (a' <=? 49151)); [destruct k; reflexivity |].
  destruct (between_cases 65024 65183 a') as [[H1 ->] | [H1 ->]]; [lia |].
  destruct ((65184 <=? a') && (a' <=? 65279)); [reflexivity |].
  destruct ((65280 <=? a') && (a' <=? 65407)).
  { f_equal. unfold Memory_ReadIO. destruct k; cbn;
      match goal with |- context [default None ?x] => destruct (default None x) as [h |] end;
      try destruct h; reflexivity. }
  destruct (between_cases 65408 65534 a') as [[H2 ->] | [H2 ->]]; [lia |].
  destruct (a' =? 65535); destruct k; reflexivity.
Qed.

Lemma Memory_Read_Write_RAM_other (b : Bus) (a v a' : Z) :
  Memory_paged (memory b) ->
  is_Some (RAM_cell a) -> 0 <= a' <= 0xFFFF -> RAM_cell a' <> RAM_cell a ->
  Memory_Read (Memory_Write b a v) a' = Memory_Read b a'.
Proof.
  intros Hp [[k i] Hc] Ha' Hne.
  rewrite (Memory_Write_RAM_cell b a v k i Hp Hc).
  destruct (RAM_cell a') as [[k' i'] |] eqn:Hc'.
  - rewrite (Memory_Read_RAM_cell _ a' k' i') by (try apply RAM_update_paged; assumption).
    rewrite (Memory_Read_RAM_cell b a' k' i') by assumption.
    f_equal. cbn [memory set_memory].
    destruct (RAM_cell_range _ _ _ Hc) as (_ & ? & _).
    destruct (RAM_cell_range _ _ _ Hc') as (_ & ? & _).
    assert (Hdec : k = k' \/ k <> k')
      by (destruct k, k'; (left; reflexivity) || (right; discriminate)).
    destruct Hdec as [<- | Hk].
    + rewrite RAM_array_update_same. apply array_get_set_ne; try lia.
      intros ->. apply Hne. rewrite Hc. reflexivity.
    + rewrite RAM_array_update_other by exact Hk. reflexivity.
  - apply Memory_Read_RAM_update_unbacked; assumption.
Qed.

Lemma Memory_Read_Write_RAM_same (b : Bus) (a v : Z) :
  Memory_paged (memory b) -> Memory_sized (memory b) ->
  is_Some (RAM_cell a) ->
  Memory_Read (Memory_Write b a v) a = Some v.
Proof.
  intros Hp Hs [[k i] Hc].
  rewrite (Memory_Write_RAM_cell b a v k i Hp Hc).
  rewrite (Memory_Read_RAM_cell _ a k i) by (try apply RAM_update_paged; assumption).
  cbn [memory set_memory]. rewrite RAM_array_update_same. f_equal.
  apply array_get_set_eq.
  destruct (RAM_cell_range _ _ _ Hc) as (_ & ?).
  rewrite (RAM_array_length k _ Hs). lia.
Qed.

Lemma Memory_Write_RAM_invariant (b : Bus) (a v : Z) :
  Memory_paged (memory b) -> Memory_sized (memory b) -> is_Some (RAM_cell a) ->
  Memory_paged (memory (Memory_Write b a v)) /\ Memory_sized (memory (Memory_Write b a v)).
Proof.
  intros Hp Hs [[k i] Hc].
  rewrite (Memory_Write_RAM_cell b a v k i Hp Hc). cbn [memory set_memory].
  split; [apply RAM_update_paged | apply RAM_update_sized]; assumption.
Qed.

(** X1: on a bus with initialised page tables and arrays of their declared
    sizes, an address [a] in echo RAM (0xE000-0xFDFF) is the same cell as
    [a - 0x2000] in work RAM: a write to either is the same write, a read of
    either gives the same byte, and a byte written through one address is
    read back through the other. *)
Theorem Memory_echo_mirrors_WRAM (b : Bus) (a v : Z) :
  Memory_paged (memory b) -> Memory_sized (memory b) -> in_ECHO a ->
  Memory_Write b a v = Memory_Write b (a - 0x2000) v
  /\ Memory_Read b a = Memory_Read b (a - 0x2000)
  /\ Memory_Read (Memory_Write b a v) (a - 0x2000) = Some v
  /\ Memory_Read (Memory_Write b (a - 0x2000) v) a = Some v.
Proof.
  intros Hp Hs He. unfold in_ECHO, ECHO_RAM_START, ECHO_RAM_END in He.
  assert (Hc : RAM_cell a = Some (ram_wram, a - 0xE000)).
  { unfold RAM_cell, VRAM_START, VRAM_END, WRAM_START, WRAM_END, ECHO_RAM_START, ECHO_RAM_END.
    decide_cmp. reflexivity. }
  assert (Hc' : RAM_cell (a - 0x2000) = Some (ram_wram, a - 0xE000)).
  { unfold RAM_cell, VRAM_START, VRAM_END, WRAM_START, WRAM_END, ECHO_RAM_START, ECHO_RAM_END.
    decide_cmp. f_equal. f_equal. lia. }
  assert (E1 : Memory_Write b a v = Memory_Write b (a - 0x2000) v).
  { rewrite (Memory_Write_RAM_cell b a v _ _ Hp Hc).
    rewrite (Memory_Write_RAM_cell b (a - 0x2000) v _ _ Hp Hc'). reflexivity. }
  assert (E2 : forall b', Memory_paged (memory b') ->
                          Memory_Read b' a = Memory_Read b' (a - 0x2000)).
  { intros b' Hp'. rewrite (Memory_Read_RAM_cell b' a _ _ Hp' Hc).
    rewrite (Memory_Read_RAM_cell b' (a - 0x2000) _ _ Hp' Hc'). reflexivity. }
  split; [exact E1 |]. split; [exact (E2 b Hp) |].
  destruct (Memory_Write_RAM_invariant b a v Hp Hs ltac:(rewrite Hc; eauto)) as [Hp' _].
  split.
  - rewrite <- (E2 _ Hp'). apply Memory_Read_Write_RAM_same; try assumption. rewrite Hc; eauto.
  - rewrite <- E1. apply Memory_Read_Write_RAM_same; try assumption. rewrite Hc; eauto.
Qed.

Lemma Memory_echo_mirrors_WRAM_witness :
  Memory_Read (Memory_Write (bus GameBoy_new) 0xE123 0x5A) 0xC123 = Some 0x5A
  /\ Memory_Read (Memory_Write (bus GameBoy_new) 0xC123 0x5A) 0xE123 = Some 0x5A.
Proof.
  assert (H := Memory_echo_mirrors_WRAM (bus GameBoy_new) 0xE123 0x5A).
  destruct H as (_ & _ & H1 & H2).
  - split; vm_compute; reflexivity.
  - repeat split; vm_compute; reflexivity.
  - unfold in_ECHO, ECHO_RAM_START, ECHO_RAM_END. lia.
  - split; [exact H1 | exact H2].
Defined.

(** X2: a write to a RAM address [a] (VRAM, WRAM, echo RAM, OAM or HRAM)
    changes what [Memory::Read] returns at no other address [a'] of the
    16-bit address space, apart from the echo alias of [a] ([a + 0x2000] or
    [a - 0x2000]). *)
Theorem Memory_Write_RAM_frame (b : Bus) (a v a' : Z) :
  Memory_paged (memory b) -> in_RAM a -> 0 <= a' <= 0xFFFF ->
  a' <> a -> a' <> a + 0x2000 -> a' <> a - 0x2000 ->
  Memory_Read (Memory_Write b a v) a' = Memory_Read b a'.
Proof.
  intros Hp Hr Ha' H1 H2 H3. apply in_RAM_cell in Hr.
  apply Memory_Read_Write_RAM_other; try assumption.
  intros E. destruct (RAM_cell_alias a a' Hr E) as [? | [? | ?]]; contradiction.
Qed.

Lemma Memory_Write_RAM_frame_witness :
  Memory_Read (Memory_Write (bus GameBoy_new) 0xC000 0x5A) 0xC001
  = Memory_Read (bus GameBoy_new) 0xC001.
Proof.
  apply (Memory_Write_RAM_frame (bus GameBoy_new) 0xC000 0x5A 0xC001).
  - split; vm_compute; reflexivity.
  - right. left. unfold in_WRAM, WRAM_START, WRAM_END. lia.
  - lia.
  - lia.
  - lia.
  - lia.
Defined.

Lemma Memory_Write16_RAM_cells (b : Bus) (a w : Z) :
  Memory_paged (memory b) -> Memory_sized (memory b) ->
  in_RAM a -> in_RAM (a + 1) -> 0 <= w <= 0xFFFF ->
  Memory_Read16 (Memory_Write16 b a w) a = Some w
  /\ Memory_Read (Memory_Write16 b a w) a = Some (Z.land w 0xFF)
  /\ Memory_Read (Memory_Write16 b a w) (a + 1) = Some (Z.shiftr w 8).
Proof.
  intros Hp Hs Hr Hr1 Hw.
  apply in_RAM_cell in Hr. apply in_RAM_cell in Hr1.
  assert (Ha1 : 0 <= a + 1 <= 0xFFFF).
  { destruct Hr1 as [[k i] Hc]. apply RAM_cell_range in Hc. lia. }
  assert (Ha0 : 0 <= a <= 0xFFFF).
  { destruct Hr as [[k i] Hc]. apply RAM_cell_range in Hc. lia. }
  assert (Hu : u16 (a + 1) = a + 1) by (unfold u16; apply Z.mod_small; lia).
  assert (Hlo : u8 (Z.land w 0xFF) = Z.land w 0xFF).
  { apply u8_small. change 0xFF with (Z.ones 8). rewrite Z.land_ones by lia.
    apply Z.mod_pos_bound. lia. }
  assert (Hhi : u8 (Z.land (Z.shiftr w 8) 0xFF) = Z.shiftr w 8).
  { rewrite Z.shiftr_div_pow2 by lia. change (2 ^ 8) with 256.
    assert (0 <= w / 256 < 256)
      by (split; [apply Z.div_pos; lia | apply Z.div_lt_upper_bound; lia]).
    change 0xFF with (Z.ones 8). rewrite Z.land_ones by lia.
    change (2 ^ 8) with 256. rewrite Z.mod_small by lia. apply u8_small. lia. }
  unfold Memory_Write16. rewrite Hu, Hlo, Hhi.
  destruct (Memory_Write_RAM_invariant b a (Z.land w 0xFF) Hp Hs Hr) as [Hp' Hs'].
  assert (R1 : Memory_Read (Memory_Write (Memory_Write b a (Z.land w 0xFF)) (a + 1)
                              (Z.shiftr w 8)) (a + 1) = Some (Z.shiftr w 8))
    by (apply Memory_Read_Write_RAM_same; assumption).
  assert (R0 : Memory_Read (Memory_Write (Memory_Write b a (Z.land w 0xFF)) (a + 1)
                              (Z.shiftr w 8)) a = Some (Z.land w 0xFF)).
  { rewrite Memory_Read_Write_RAM_other; try assumption.
    - apply Memory_Read_Write_RAM_same; assumption.
    - intros E. destruct (RAM_cell_alias (a + 1) a Hr1 E) as [? | [? | ?]]; lia. }
  split; [| split; [exact R0 | exact R1]].
  unfold Memory_Read16. rewrite Hu, R0, R1. f_equal.
  rewrite <- Z.lor_comm. change 0xFF with (Z.ones 8). rewrite Z.land_ones by lia.
  rewrite Z.shiftr_div_pow2, Z.shiftl_mul_pow2 by lia.
  apply Z.bits_inj'. intros n Hn.
  rewrite Z.lor_spec.
  destruct (Z.lt_ge_cases n 8).
  - rewrite Z.mod_pow2_bits_low by lia.
    rewrite Z.mul_pow2_bits_low by lia. apply orb_false_r.
  - rewrite Z.mod_pow2_bits_high by lia. rewrite Z.mul_pow2_bits by lia.
    rewrite Z.div_pow2_bits by lia. cbn [orb]. f_equal. lia.
Qed.

Lemma Memory_unusable_cell (b : Bus) (a v : Z) :
  Memory_paged (memory b) -> in_UNUSABLE a ->
  Memory_Write b a v = b /\ Memory_Read b a = Some 0xFF.
Proof.
  intros Hp Ha. unfold in_UNUSABLE, UNUSABLE_START, UNUSABLE_END in Ha.
  unfold Memory_Write, Memory_Read.
  rewrite (Memory_write_page _ _ Hp), (Memory_read_page _ _ Hp) by lia.
  rewrite page_entry_high by lia. unfold_map. decide_cmp. split; reflexivity.
Qed.

Lemma Memory_Write16_unusable_high (b : Bus) (a w : Z) :
  Memory_paged (memory b) -> Memory_sized (memory b) ->
  in_RAM a -> in_UNUSABLE (a + 1) -> 0 <= w <= 0xFFFF ->
  Memory_Write16 b a w = Memory_Write b a (Z.land w 0xFF)
  /\ Memory_Read16 (Memory_Write16 b a w) a = Some (Z.lor 0xFF00 (Z.land w 0xFF)).
Proof.
  intros Hp Hs Hr Hu Hw.
  apply in_RAM_cell in Hr.
  assert (Hu16 : u16 (a + 1) = a + 1).
  { unfold in_UNUSABLE, UNUSABLE_START, UNUSABLE_END in Hu.
    unfold u16. apply Z.mod_small. lia. }
  assert (Hlo : u8 (Z.land w 0xFF) = Z.land w 0xFF).
  { apply u8_small. change 0xFF with (Z.ones 8). rewrite Z.land_ones by lia.
    apply Z.mod_pos_bound. lia. }
  destruct (Memory_Write_RAM_invariant b a (Z.land w 0xFF) Hp Hs Hr) as [Hp' Hs'].
  assert (E : Memory_Write16 b a w = Memory_Write b a (Z.land w 0xFF)).
  { unfold Memory_Write16. rewrite Hu16, Hlo.
    apply (Memory_unusable_cell _ (a + 1) _ Hp' Hu). }
  split; [exact E |]. rewrite E. unfold Memory_Read16. rewrite Hu16.
  rewrite (Memory_Read_Write_RAM_same b a _ Hp Hs Hr).
  rewrite (proj2 (Memory_unusable_cell _ (a + 1) 0 Hp' Hu)). reflexivity.
Qed.

(** X3: when [a] and [a + 1] are both RAM addresses, [Memory::Write16]
    followed by [Memory::Read16] at [a] returns the 16-bit value written;
    the low byte is stored at [a] and the high byte at [a + 1] (little
    endian).  When [a] is a RAM address and [a + 1] lies in the unusable
    region, which is the case at 0xFE9F only, the last byte of OAM, the high
    byte is discarded: [Write16] is the write of the low byte alone, and
    [Read16] returns the low byte with 0xFF as its high byte. *)
Theorem Memory_Write16_Read16_RAM (b : Bus) (a w : Z) :
  Memory_paged (memory b) -> Memory_sized (memory b) ->
  in_RAM a -> 0 <= w <= 0xFFFF ->
  (in_RAM (a + 1) ->
   Memory_Read16 (Memory_Write16 b a w) a = Some w
   /\ Memory_Read (Memory_Write16 b a w) a = Some (Z.land w 0xFF)
   /\ Memory_Read (Memory_Write16 b a w) (a + 1) = Some (Z.shiftr w 8))
  /\ (in_UNUSABLE (a + 1) ->
      a = 0xFE9F
      /\ Memory_Write16 b a w = Memory_Write b a (Z.land w 0xFF)
      /\ Memory_Read16 (Memory_Write16 b a w) a = Some (Z.lor 0xFF00 (Z.land w 0xFF))).
Proof.
  intros Hp Hs Hr Hw. split.
  - intros Hr1. by apply Memory_Write16_RAM_cells.
  - intros Hu. split; [| by apply Memory_Write16_unusable_high].
    unfold in_UNUSABLE, UNUSABLE_START, UNUSABLE_END in Hu.
    unfold in_RAM, in_VRAM, in_WRAM, in_ECHO, in_OAM, in_HRAM, VRAM_START, VRAM_END,
      WRAM_START, WRAM_END, ECHO_RAM_START, ECHO_RAM_END, OAM_START, OAM_END,
      HRAM_START, HRAM_END in Hr. lia.
Qed.

(** ** The cartridge behind the bus *)

Lemma MBC_Write_rom (c : MBC) (a v : Z) : MBC_rom (MBC_Write c a v) = MBC_rom c.
Proof.
  destruct c as [c | c | c | c]; cbn.
  - reflexivity.
  - unfold MBC1_Write. repeat match goal with |- context [if ?x then _ else _] => destruct x end;
      reflexivity.
  - unfold MBC3_Write. repeat match goal with |- context [if ?x then _ else _] => destruct x end;
      reflexivity.
  - unfold MBC5_Write. repeat match goal with |- context [if ?x then _ else _] => destruct x end;
      reflexivity.
Qed.

Lemma MBC_WriteRAM_rom (c : MBC) (a v : Z) : MBC_rom (MBC_WriteRAM c a v) = MBC_rom c.
Proof.
  destruct c as [c | c | c | c]; cbn.
  - reflexivity.
  - unfold MBC1_WriteRAM. repeat match goal with |- context [if ?x then _ else _] => destruct x end;
      reflexivity.
  - unfold MBC3_WriteRAM. repeat match goal with |- context [if ?x then _ else _] => destruct x end;
      reflexivity.
  - unfold MBC5_WriteRAM. repeat match goal with |- context [if ?x then _ else _] => destruct x end;
      reflexivity.
Qed.

Lemma MBC_Write_kind (c : MBC) (a v : Z) : MBC_is_MBC0 (MBC_Write c a v) = MBC_is_MBC0 c.
Proof. destruct c; reflexivity. Qed.

Lemma MBC_WriteRAM_kind (c : MBC) (a v : Z) : MBC_is_MBC0 (MBC_WriteRAM c a v) = MBC_is_MBC0 c.
Proof. destruct c; reflexivity. Qed.

(** X4: no [Memory::Write], whatever the address and the value, changes the
    ROM image held by the cartridge controller, or changes whether there is a
    controller and whether it is the plain one (MBC0); writes to ROM addresses
    reach only the banking registers. *)
Theorem Memory_Write_preserves_ROM (b : Bus) (a v : Z) :
  MBC_rom <$> m_mbc (memory (Memory_Write b a v)) = MBC_rom <$> m_mbc (memory b)
  /\ MBC_is_MBC0 <$> m_mbc (memory (Memory_Write b a v)) = MBC_is_MBC0 <$> m_mbc (memory b).
Proof.
  unfold Memory_Write.
  destruct (default None _) as [[base | base] |]; [split; reflexivity | split; reflexivity |].
  destruct (_ && _).
  { destruct (m_mbc (memory b)) as [c |] eqn:E; cbn; rewrite ?E; cbn;
      rewrite ?MBC_Write_rom, ?MBC_Write_kind; split; reflexivity. }
  destruct (_ && _).
  { destruct (m_mbc (memory b)) as [c |] eqn:E; cbn; rewrite ?E; cbn;
      rewrite ?MBC_WriteRAM_rom, ?MBC_WriteRAM_kind; split; reflexivity. }
  destruct (_ && _); [split; reflexivity |].
  destruct (_ && _); [split; reflexivity |].
  destruct (_ && _).
  { unfold Memory_WriteIO. destruct (default None _) as [h |]; [destruct h |]; split; reflexivity. }
  destruct (_ && _); [split; reflexivity |].
  destruct (_ =? _); split; reflexivity.
Qed.

Lemma MBC_ReadRAM_total (c : MBC) (a : Z) : is_Some (MBC_ReadRAM c a).
Proof.
  destruct c as [c | c | c | c]; cbn.
  - unfold MBC0_ReadRAM. eauto.
  - unfold MBC1_ReadRAM. destruct (negb _); [eauto |].
    match goal with |- context [u32 ?x] => pose proof (u32_range x); set (o := u32 x) in * end.
    destruct (Z.ltb_spec o (vector_size (MBC1_m_ram c))); [| eauto].
    apply vector_get_Some. lia.
  - unfold MBC3_ReadRAM. destruct (negb _); [eauto |].
    destruct (_ <=? 3).
    + match goal with |- context [u32 ?x] => pose proof (u32_range x); set (o := u32 x) in * end.
      destruct (Z.ltb_spec o (vector_size (MBC3_m_ram c))); [| eauto].
      apply vector_get_Some. lia.
    + destruct (_ && _); [| eauto].
      destruct (MBC3_m_ram_bank c) as [| p | p]; eauto.
      do 4 (try destruct p as [p | p |]); eauto.
  - unfold MBC5_ReadRAM. destruct (negb _); [eauto |].
    match goal with |- context [u32 ?x] => pose proof (u32_range x); set (o := u32 x) in * end.
    destruct (Z.ltb_spec o (vector_size (MBC5_m_ram c))); [| eauto].
    apply vector_get_Some. lia.
Qed.

(** X5: [Memory::Read] at a non-negative address subscripts the ROM vector
    out of range exactly when the address has no page-table entry, a
    controller other than MBC0 is present, the address lies in bank 0
    (at most 0x3FFF) and the ROM image is no longer than the address; every
    other read returns a byte. *)
Theorem Memory_Read_fault (b : Bus) (a : Z) :
  0 <= a ->
  Memory_Read b a = None <->
  default None (m_read_page_table (memory b) !! Z.to_nat (u8 (a / PAGE_SIZE))) = None
  /\ exists c, m_mbc (memory b) = Some c /\ MBC_is_MBC0 c = false
               /\ a <= 0x3FFF /\ vector_size (MBC_rom c) <= a.
Proof.
  intros Ha. unfold Memory_Read.
  destruct (default None _) as [p |].
  { split; [discriminate | intros [E _]; discriminate E]. }
  unfold_map.
  destruct (between_cases 0 32767 a) as [[H1 ->] | [H1 ->]].
  { destruct (m_mbc (memory b)) as [c |].
    - rewrite MBC_Read_fault by exact Ha. split.
      + intros (Hk & H3 & H4). split; [reflexivity |]. exists c.
        split; [reflexivity |]. split; [destruct c; done | lia].
      + intros (_ & c' & E & Hk & H3 & H4). inversion E; subst c'.
        split; [destruct c; done | lia].
    - split; [discriminate | intros (_ & c & E & _); discriminate E]. }
  assert (Hno : ~ a <= 0x3FFF) by lia.
  assert (R : forall o : option Z, is_Some o ->
              o = None <-> None = (None : option PagePtr) /\
                (exists c, m_mbc (memory b) = Some c /\ MBC_is_MBC0 c = false
                           /\ a <= 0x3FFF /\ vector_size (MBC_rom c) <= a)).
  { intros o [x ->]. split; [discriminate | intros (_ & c & _ & _ & H & _); lia]. }
  destruct (_ && _).
  { apply R. destruct (m_mbc (memory b)); [apply MBC_ReadRAM_total | eauto]. }
  destruct (_ && _); [apply R; eauto |].
  destruct (_ && _); [apply R; eauto |].
  destruct (_ && _); [apply R; eauto |].
  destruct (_ && _); [apply R; eauto |].
  destruct (_ =? _); apply R; eauto.
Qed.

Lemma Memory_Read_fault_witness :
  Memory_Read (snd (Bus_with_cartridge (small_cartridge 0x01))) 0x0150 = None.
Proof.
  apply (Memory_Read_fault (snd (Bus_with_cartridge (small_cartridge 0x01))) 0x0150).
  - lia.
  - split; [vm_compute; reflexivity |].
    exists (Cart_MBC1 (MBC1_new (small_cartridge 0x01))).
    split; [reflexivity |].
    split; [reflexivity |]. split; [lia |]. vm_compute. discriminate.
Defined.

Lemma MBC_Create_supported (cartridge_type : Z) (data : list Z) :
  is_Some (MBC_Create cartridge_type data) <-> cartridge_type ∈ supported_cartridge_types.
Proof.
  split.
  - intros [c Hc]. unfold supported_cartridge_types.
    destruct cartridge_type as [| p | p]; [apply list_elem_of_here | | discriminate Hc].
    do 5 (try destruct p as [p | p |]); try discriminate Hc;
      repeat first [apply list_elem_of_here | apply list_elem_of_further].
  - unfold supported_cartridge_types. intros H.
    repeat (apply elem_of_cons in H as [-> | H]; [cbn; eauto |]).
    apply elem_of_nil in H. contradiction.
Qed.

(** X6: [Memory::LoadROM] returns true exactly when the image has at least
    0x150 bytes and the cartridge type byte at 0x0147 is one of the supported
    types; on success the controller holds the image as given; an image that
    is too short leaves the memory untouched, and an image of an unsupported
    type leaves the memory without a controller. *)
Theorem Memory_LoadROM_accepts (m : Memory) (data : list Z) :
  let cartridge_type := array_get data 0x0147 in
  let r := Memory_LoadROM m data in
  (fst r = true <->
   0x150 <= vector_size data /\ cartridge_type ∈ supported_cartridge_types)
  /\ (fst r = true -> MBC_rom <$> m_mbc (snd r) = Some data)
  /\ (vector_size data < 0x150 -> snd r = m)
  /\ (0x150 <= vector_size data -> snd r = set_m_mbc (MBC_Create cartridge_type data) m)
  /\ (0x150 <= vector_size data -> cartridge_type ∉ supported_cartridge_types ->
      m_mbc (snd r) = None).
Proof.
  intros cartridge_type r. subst r. unfold Memory_LoadROM. fold cartridge_type.
  pose proof (MBC_Create_supported cartridge_type data) as Hs.
  destruct (Z.ltb_spec (vector_size data) 0x150) as [Hsmall | Hbig]; cbn [fst snd].
  { split; [split; [discriminate | lia] |]. split; [discriminate |].
    split; [reflexivity |]. split; intros; lia. }
  cbn [m_mbc set_m_mbc].
  destruct (MBC_Create cartridge_type data) as [c |] eqn:Ec; cbn [fst snd m_mbc set_m_mbc].
  - split; [split; [intros _; split; [lia | apply Hs; eauto] | reflexivity] |].
    split.
    { intros _. cbn. f_equal. revert Ec. unfold MBC_Create.
      destruct cartridge_type as [| p | p]; [intros E; inversion E; reflexivity | | discriminate].
      do 5 (try destruct p as [p | p |]); intros E; inversion E; reflexivity. }
    split; [lia |]. split; [reflexivity |].
    intros _ Hn. exfalso. apply Hn, Hs. eauto.
  - split; [split; [discriminate | intros [_ Hin]; apply Hs in Hin as [c Hc]; discriminate Hc] |].
    split; [discriminate |]. split; [lia |]. split; reflexivity.
Qed.

Lemma Memory_absent_cartridge_cell (b : Bus) (a v : Z) :
  Memory_paged (memory b) -> m_mbc (memory b) = None ->
  0 <= a <= 0x7FFF \/ 0xA000 <= a <= 0xBFFF ->
  Memory_Write b a v = b /\ Memory_Read b a = Some 0xFF.
Proof.
  intros Hp Hm Ha.
  unfold Memory_Write, Memory_Read.
  rewrite (Memory_write_page _ _ Hp), (Memory_read_page _ _ Hp) by lia.
  rewrite page_entry_unpaged by lia. unfold_map. rewrite Hm.
  destruct Ha as [Ha | Ha]; decide_cmp; split; reflexivity.
Qed.

(** X7: on a bus with initialised page tables, a write to the unusable
    region (0xFEA0-0xFEFF), or to a ROM or external-RAM address while no
    cartridge is loaded, changes nothing, and a read there returns 0xFF. *)
Theorem Memory_open_bus (b : Bus) (a v : Z) :
  Memory_paged (memory b) ->
  in_UNUSABLE a
  \/ (m_mbc (memory b) = None /\ (0 <= a <= 0x7FFF \/ 0xA000 <= a <= 0xBFFF)) ->
  Memory_Write b a v = b /\ Memory_Read b a = Some 0xFF.
Proof.
  intros Hp [Ha | [Hm Ha]].
  - apply Memory_unusable_cell; assumption.
  - apply Memory_absent_cartridge_cell; assumption.
Qed.

Lemma Memory_open_bus_witness :
  (Memory_Write (bus GameBoy_new) 0xFEA0 0x5A = bus GameBoy_new
   /\ Memory_Read (bus GameBoy_new) 0xFEA0 = Some 0xFF)
  /\ (Memory_Write (bus GameBoy_new) 0x2000 0x05 = bus GameBoy_new
      /\ Memory_Read (bus GameBoy_new) 0x2000 = Some 0xFF).
Proof.
  split.
  - apply (Memory_open_bus (bus GameBoy_new) 0xFEA0 0x5A).
    + split; vm_compute; reflexivity.
    + left. unfold in_UNUSABLE, UNUSABLE_START, UNUSABLE_END. lia.
  - apply (Memory_open_bus (bus GameBoy_new) 0x2000 0x05).
    + split; vm_compute; reflexivity.
    + right. split; [reflexivity | left; lia].
Defined.

(** ** I/O registers *)

Lemma IO_handler_entries_paired (offset : Z) :
  IO_write_handler_entry offset = None -> IO_read_handler_entry offset = None.
Proof.
  destruct offset as [| p | p]; [reflexivity | | reflexivity].
  do 7 (try destruct p as [p | p |]); (reflexivity || discriminate).
Qed.

Lemma Memory_plain_IO_cell (b : Bus) (a v : Z) :
  Bus_wired b -> Memory_sized (memory b) ->
  IO_START <= a <= IO_END -> IO_write_handler_entry (a - 0xFF00) = None ->
  Memory_Read (Memory_Write b a v) a = Some v
  /\ ppu (Memory_Write b a v) = ppu b
  /\ timer (Memory_Write b a v) = timer b.
Proof.
  intros Hw (_ & _ & _ & _ & Hio) Ha Hn.
  rewrite (Memory_Write_IO b a v Hw Ha), Hn.
  split; [| split; reflexivity].
  rewrite Memory_Read_IO; [| exact Hw | exact Ha].
  rewrite (IO_handler_entries_paired _ Hn). cbn. f_equal.
  apply array_get_set_eq. rewrite Hio. unfold IO_START, IO_END, IO_SIZE in *. lia.
Qed.

(** X8: on a constructed bus, an I/O address (0xFF00-0xFF7F) for which no
    write handler is registered is a plain byte cell: the value written is
    read back and neither the picture unit nor the timer changes.  IF
    (0xFF0F) and IE (0xFFFF) read back what was written, and
    [Memory::RequestInterrupt(bit)] is seen through a read of IF as the old
    value or-ed with [bit]. *)
Theorem Memory_IO_registers (b : Bus) (a v interrupt_bit : Z) :
  Bus_wired b -> Memory_sized (memory b) ->
  (IO_START <= a <= IO_END -> IO_write_handler_entry (a - 0xFF00) = None ->
   Memory_Read (Memory_Write b a v) a = Some v
   /\ ppu (Memory_Write b a v) = ppu b
   /\ timer (Memory_Write b a v) = timer b)
  /\ Memory_Read (Memory_Write b 0xFF0F v) 0xFF0F = Some v
  /\ Memory_Read (Memory_Write b 0xFFFF v) 0xFFFF = Some v
  /\ Memory_Read (set_memory (Memory_RequestInterrupt (memory b) interrupt_bit) b) 0xFF0F
     = (fun if_reg => u8 (Z.lor if_reg interrupt_bit)) <$> Memory_Read b 0xFF0F.
Proof.
  intros Hw Hs. pose proof Hs as (_ & _ & _ & _ & Hio).
  split; [intros Ha Hn; apply Memory_plain_IO_cell; assumption |].
  split; [apply (Memory_plain_IO_cell b 0xFF0F v Hw Hs);
          [unfold IO_START, IO_END; lia | reflexivity] |].
  destruct Hw as [Hp Hh]. split.
  - unfold Memory_Write, Memory_Read.
    rewrite (Memory_write_page _ _ Hp) by lia. rewrite page_entry_high by lia.
    unfold_map. decide_cmp. cbn [memory set_memory].
    rewrite (Memory_read_page _ _ Hp) by lia. rewrite page_entry_high by lia.
    reflexivity.
  - assert (Hw' : Bus_wired (set_memory (Memory_RequestInterrupt (memory b) interrupt_bit) b))
      by (split; assumption).
    rewrite !Memory_Read_IO; try (unfold IO_START, IO_END; lia); [| split; assumption | exact Hw'].
    cbn. f_equal. apply array_get_set_eq. rewrite Hio. unfold IO_SIZE. lia.
Qed.

Lemma Memory_IO_registers_witness :
  Memory_Read (Memory_Write (bus GameBoy_new) 0xFF00 0x30) 0xFF00 = Some 0x30
  /\ Memory_Read (Memory_Write (bus GameBoy_new) 0xFF0F 0x30) 0xFF0F = Some 0x30
  /\ Memory_Read (Memory_Write (bus GameBoy_new) 0xFFFF 0x30) 0xFFFF = Some 0x30.
Proof.
  assert (H := Memory_IO_registers (bus GameBoy_new) 0xFF00 0x30 0x04).
  destruct H as (H1 & H2 & H3 & _).
  - repeat split; vm_compute; reflexivity.
  - repeat split; vm_compute; reflexivity.
  - split; [| split; [exact H2 | exact H3]].
    apply H1; [unfold IO_START, IO_END; lia | reflexivity].
Defined.

(** ** External RAM and ROM banks *)

Lemma vector_get_array_set_eq (a : list Z) (i v : Z) :
  0 <= i < vector_size a -> vector_get (array_set a i v) i = Some v.
Proof.
  intros H. unfold vector_get, vector_size, array_set in *.
  rewrite length_insert. decide_cmp.
  rewrite list_lookup_insert_eq by lia. reflexivity.
Qed.

Lemma vector_size_array_set (a : list Z) (i v : Z) :
  vector_size (array_set a i v) = vector_size a.
Proof. unfold vector_size, array_set. rewrite length_insert. reflexivity. Qed.

Lemma land_ones_bound (x k : Z) : 0 <= k -> 0 <= Z.land x (Z.ones k) < 2 ^ k.
Proof.
  intros Hk. rewrite Z.land_ones by exact Hk. apply Z.mod_pos_bound.
  apply Z.pow_pos_nonneg; lia.
Qed.

Lemma u16_small_9 (z : Z) : 0 <= z < 512 -> u16 z = z.
Proof. intros H. unfold u16. apply Z.mod_small. lia. Qed.

Lemma vector_get_lookup (a : list Z) (i : Z) :
  0 <= i -> (if i <? vector_size a then vector_get a i else Some 0xFF) = Some (ROM_byte a i).
Proof.
  intros Hi. unfold ROM_byte, vector_get, vector_size.
  destruct (Z.ltb_spec i (Z.of_nat (length a))) as [Hlt | Hge].
  - rewrite (proj2 (Z.leb_le 0 i) Hi). cbn [andb].
    destruct (lookup_lt_is_Some_2 a (Z.to_nat i) ltac:(lia)) as [x ->]. reflexivity.
  - rewrite lookup_ge_None_2 by lia. reflexivity.
Qed.


Lemma MBC_WriteRAM_ReadRAM (c : MBC) (a v : Z) :
  MBC_ram_sized c -> 0xA000 <= a <= 0xBFFF ->
  MBC_ReadRAM (MBC_WriteRAM c a v) a = Some (if MBC_ram_accessible c then v else 0xFF)
  /\ (MBC_ram_accessible c = false -> MBC_WriteRAM c a v = c)
  /\ MBC_ram_sized (MBC_WriteRAM c a v)
  /\ MBC_ram_accessible (MBC_WriteRAM c a v) = MBC_ram_accessible c.
Proof.
  intros Hs Ha. destruct c as [c | c | c | c]; cbn in *.
  - repeat split; reflexivity.
  - unfold MBC1_WriteRAM, MBC1_ReadRAM.
    destruct (MBC1_m_ram_enabled c) eqn:Hen; cbn [negb]; [| rewrite ?Hen; repeat split; done].
    assert (Hoff : 0 <= MBC1_GetRAMBankOffset c + (a - 0xA000) < 32 * 1024).
    { unfold MBC1_GetRAMBankOffset. destruct (MBC1_m_banking_mode c); [| lia].
      pose proof (land_ones_bound (MBC1_m_ram_bank c) 2 ltac:(lia)) as Hb.
      change (Z.ones 2) with 3 in Hb. change (2 ^ 2) with 4 in Hb.
      rewrite u32_small by lia. lia. }
    rewrite (u32_small (_ + _)) by lia. rewrite Hs.
    rewrite (proj2 (Z.ltb_lt _ _)) by lia.
    cbn [MBC1_m_ram_enabled MBC1_m_ram MBC1_m_banking_mode MBC1_m_ram_bank].
    rewrite ?Hen. cbn [negb].
    change (MBC1_GetRAMBankOffset (mkMBC1 _ _ _ _ _ _)) with (MBC1_GetRAMBankOffset c).
    rewrite (u32_small (_ + _)) by lia. rewrite vector_size_array_set, Hs.
    rewrite (proj2 (Z.ltb_lt _ _)) by lia.
    rewrite vector_get_array_set_eq by lia. repeat split; done.
  - unfold MBC3_WriteRAM, MBC3_ReadRAM.
    destruct (MBC3_m_ram_enabled c) eqn:Hen; cbn [negb andb]; [| rewrite ?Hen; repeat split; done].
    destruct (Z.leb_spec (MBC3_m_ram_bank c) 3) as [Hb3 | Hb3]; cbn [orb].
    + assert (Hoff : 0 <= MBC3_GetRAMBankOffset c + (a - 0xA000) < 32 * 1024).
      { unfold MBC3_GetRAMBankOffset.
        pose proof (land_ones_bound (MBC3_m_ram_bank c) 2 ltac:(lia)) as Hb.
        change (Z.ones 2) with 3 in Hb. change (2 ^ 2) with 4 in Hb.
        rewrite u32_small by lia. lia. }
      rewrite (u32_small (_ + _)) by lia. rewrite Hs.
      rewrite (proj2 (Z.ltb_lt _ _)) by lia.
      cbn [MBC3_set_ram MBC3_m_ram_enabled MBC3_m_ram MBC3_m_ram_bank].
      rewrite ?Hen. cbn [negb]. rewrite (proj2 (Z.leb_le _ _) Hb3).
      change (MBC3_GetRAMBankOffset (MBC3_set_ram _ c)) with (MBC3_GetRAMBankOffset c).
      rewrite (u32_small (_ + _)) by lia. rewrite vector_size_array_set, Hs.
      rewrite (proj2 (Z.ltb_lt _ _)) by lia.
      rewrite vector_get_array_set_eq by lia. repeat split; done.
    + destruct (MBC3_m_has_rtc c && (8 <=? MBC3_m_ram_bank c) && (MBC3_m_ram_bank c <=? 12))
        eqn:Hrtc.
      * cbn [MBC3_set_rtc MBC3_m_ram_enabled MBC3_m_ram_bank MBC3_m_has_rtc].
        rewrite ?Hen. cbn [negb]. rewrite (proj2 (Z.leb_gt _ _) Hb3), Hrtc.
        apply andb_true_iff in Hrtc as [Hrtc H12]. apply andb_true_iff in Hrtc as [_ H8].
        apply Z.leb_le in H8, H12.
        assert (Hcase : MBC3_m_ram_bank c = 8 \/ MBC3_m_ram_bank c = 9 \/ MBC3_m_ram_bank c = 10
                        \/ MBC3_m_ram_bank c = 11 \/ MBC3_m_ram_bank c = 12) by lia.
        split; [| split; [discriminate | split; [exact Hs |]]].
        -- destruct Hcase as [-> | [-> | [-> | [-> | ->]]]]; reflexivity.
        -- cbn. rewrite ?Hen. reflexivity.
      * rewrite ?Hen. cbn [negb]. rewrite (proj2 (Z.leb_gt _ _) Hb3), Hrtc.
        repeat split; done.
  - unfold MBC5_WriteRAM, MBC5_ReadRAM.
    destruct (MBC5_m_ram_enabled c) eqn:Hen; cbn [negb]; [| rewrite ?Hen; repeat split; done].
    assert (Hoff : 0 <= MBC5_GetRAMBankOffset c + (a - 0xA000) < 128 * 1024).
    { unfold MBC5_GetRAMBankOffset.
      pose proof (land_ones_bound (MBC5_m_ram_bank c) 4 ltac:(lia)) as Hb.
      change (Z.ones 4) with 15 in Hb. change (2 ^ 4) with 16 in Hb.
      rewrite u32_small by lia. lia. }
    rewrite (u32_small (_ + _)) by lia. rewrite Hs.
    rewrite (proj2 (Z.ltb_lt _ _)) by lia.
    cbn [MBC5_m_ram_enabled MBC5_m_ram MBC5_m_ram_bank].
    rewrite ?Hen. cbn [negb].
    change (MBC5_GetRAMBankOffset (mkMBC5 _ _ _ _ _)) with (MBC5_GetRAMBankOffset c).
    rewrite (u32_small (_ + _)) by lia. rewrite vector_size_array_set, Hs.
    rewrite (proj2 (Z.ltb_lt _ _)) by lia.
    rewrite vector_get_array_set_eq by lia. repeat split; done.
Qed.

Lemma Memory_Write_cartridge (b : Bus) (c : MBC) (a v : Z) :
  Memory_paged (memory b) -> m_mbc (memory b) = Some c ->
  0 <= a <= 0x7FFF \/ 0xA000 <= a <= 0xBFFF ->
  Memory_Write b a v
  = set_memory (set_m_mbc (Some (if a <=? 0x7FFF then MBC_Write c a v else MBC_WriteRAM c a v))
                  (memory b)) b.
Proof.
  intros Hp Hm Ha. unfold Memory_Write.
  rewrite (Memory_write_page _ _ Hp) by lia. rewrite page_entry_unpaged by lia.
  unfold_map. rewrite Hm. destruct Ha as [Ha | Ha]; decide_cmp; reflexivity.
Qed.

Lemma Memory_Read_cartridge (b : Bus) (c : MBC) (a : Z) :
  Memory_paged (memory b) -> m_mbc (memory b) = Some c ->
  0 <= a <= 0x7FFF \/ 0xA000 <= a <= 0xBFFF ->
  Memory_Read b a = if a <=? 0x7FFF then MBC_Read c a else MBC_ReadRAM c a.
Proof.
  intros Hp Hm Ha. unfold Memory_Read.
  rewrite (Memory_read_page _ _ Hp) by lia. rewrite page_entry_unpaged by lia.
  unfold_map. rewrite Hm. destruct Ha as [Ha | Ha]; decide_cmp; reflexivity.
Qed.

(** X9: with a controller whose RAM array has its declared size, a write to
    an external-RAM address (0xA000-0xBFFF) followed by a read of it returns
    the value written when the controller's RAM is accessible (enabled, and
    on MBC3 a RAM bank or clock register selected), and 0xFF otherwise, in
    which case the write changed nothing. *)
Theorem Memory_external_RAM (b : Bus) (c : MBC) (a v : Z) :
  Memory_paged (memory b) -> m_mbc (memory b) = Some c -> MBC_ram_sized c ->
  0xA000 <= a <= 0xBFFF ->
  Memory_Read (Memory_Write b a v) a = Some (if MBC_ram_accessible c then v else 0xFF)
  /\ (MBC_ram_accessible c = false -> Memory_Write b a v = set_memory (memory b) b).
Proof.
  intros Hp Hm Hs Ha.
  destruct (MBC_WriteRAM_ReadRAM c a v Hs Ha) as (H1 & H2 & _).
  rewrite (Memory_Write_cartridge b c a v Hp Hm) by lia.
  rewrite (proj2 (Z.leb_gt a 0x7FFF)) by lia.
  split.
  - rewrite (Memory_Read_cartridge _ (MBC_WriteRAM c a v) a); [| exact Hp | reflexivity | lia].
    rewrite (proj2 (Z.leb_gt a 0x7FFF)) by lia. exact H1.
  - intros Hacc. rewrite (H2 Hacc). rewrite <- Hm. destruct b as [m p t]; destruct m; reflexivity.
Qed.

(** X10: after a byte is written to the bank-select range (0x2000-0x3FFF),
    a read in 0x4000-0x7FFF returns the byte of the ROM image at offset
    [bank * 0x4000 + (address - 0x4000)], where [bank] is the bank the
    controller selects for that write (below 512), or 0xFF when that offset
    is past the end of the image. *)
Theorem Memory_ROM_bank_select (b : Bus) (c : MBC) (s v a : Z) :
  Memory_paged (memory b) -> m_mbc (memory b) = Some c ->
  0x2000 <= s <= 0x3FFF -> 0 <= v <= 0xFF -> 0x4000 <= a <= 0x7FFF ->
  let bank := MBC_selected_bank c s v in
  0 <= bank < 512
  /\ Memory_Read (Memory_Write b s v) a
     = Some (ROM_byte (MBC_rom c) (bank * 0x4000 + (a - 0x4000))).
Proof.
  intros Hp Hm Hs Hv Ha bank.
  rewrite (Memory_Write_cartridge b c s v Hp Hm) by lia.
  rewrite (proj2 (Z.leb_le s 0x7FFF)) by lia.
  rewrite (Memory_Read_cartridge _ (MBC_Write c s v) a); [| exact Hp | reflexivity | lia].
  rewrite (proj2 (Z.leb_le a 0x7FFF)) by lia.
  subst bank. destruct c as [c | c | c | c]; cbn [MBC_selected_bank MBC_Write MBC_Read MBC_rom].
  - split; [lia |]. unfold MBC0_Read, MBC0_Write.
    rewrite vector_get_lookup by lia. do 2 f_equal. lia.
  - pose proof (land_ones_bound v 5 ltac:(lia)) as Hb.
    change (Z.ones 5) with 0x1F in Hb. change (2 ^ 5) with 32 in Hb.
    set (bank := if Z.land v 0x1F =? 0 then 1 else Z.land v 0x1F).
    assert (Hbank : 1 <= bank < 32) by (subst bank; destruct (Z.eqb_spec (Z.land v 0x1F) 0); lia).
    split; [lia |].
    unfold MBC1_Read, MBC1_Write. decide_cmp.
    cbn [MBC1_m_rom]. fold bank.
    assert (Eoff : MBC1_GetROMBankOffset
                     (mkMBC1 (MBC1_m_rom c) (MBC1_m_ram c) (MBC1_m_ram_enabled c) bank
                        (MBC1_m_ram_bank c) (MBC1_m_banking_mode c)) = bank * 0x4000).
    { unfold MBC1_GetROMBankOffset. cbn [MBC1_m_banking_mode MBC1_m_rom_bank].
      assert (E : Z.land bank 0x1F = bank).
      { change 0x1F with (Z.ones 5). rewrite Z.land_ones by lia. apply Z.mod_small.
        change (2 ^ 5) with 32. lia. }
      rewrite E. rewrite (proj2 (Z.eqb_neq bank 0)) by lia.
      destruct (negb _); apply u32_small; lia. }
    rewrite Eoff. rewrite (u32_small (_ + _)) by lia.
    apply vector_get_lookup. lia.
  - pose proof (land_ones_bound v 7 ltac:(lia)) as Hb.
    change (Z.ones 7) with 0x7F in Hb. change (2 ^ 7) with 128 in Hb.
    set (bank := if Z.land v 0x7F =? 0 then 1 else Z.land v 0x7F).
    assert (Hbank : 1 <= bank < 128) by (subst bank; destruct (Z.eqb_spec (Z.land v 0x7F) 0); lia).
    split; [lia |].
    unfold MBC3_Read, MBC3_Write. decide_cmp. cbv zeta. fold bank.
    cbn [MBC3_set_rom_bank MBC3_m_rom].
    assert (Eoff : forall x, MBC3_GetROMBankOffset (MBC3_set_rom_bank bank x) = bank * 0x4000).
    { intros x. unfold MBC3_GetROMBankOffset. cbn [MBC3_set_rom_bank MBC3_m_rom_bank].
      assert (E : Z.land bank 0x7F = bank).
      { change 0x7F with (Z.ones 7). rewrite Z.land_ones by lia. apply Z.mod_small.
        change (2 ^ 7) with 128. lia. }
      rewrite E. rewrite (proj2 (Z.eqb_neq bank 0)) by lia. apply u32_small. lia. }
    change (MBC3_GetROMBankOffset _) with (MBC3_GetROMBankOffset (MBC3_set_rom_bank bank c)).
    rewrite Eoff. rewrite (u32_small (_ + _)) by lia.
    apply vector_get_lookup. lia.
  - assert (Hv8 : Z.land v 0xFF = v).
    { change 0xFF with (Z.ones 8). rewrite Z.land_ones by lia. apply Z.mod_small.
      change (2 ^ 8) with 256. lia. }
    assert (Hbank : 0 <= (if s <=? 0x2FFF
                          then Z.lor (Z.land (MBC5_m_rom_bank c) 0x100) v
                          else Z.lor (Z.land (MBC5_m_rom_bank c) 0x0FF)
                                 (Z.shiftl (Z.land v 0x01) 8)) < 512).
    { assert (Hlt : forall x y, 0 <= x < 2 ^ 9 -> 0 <= y < 2 ^ 9 -> 0 <= Z.lor x y < 2 ^ 9).
      { intros x y Hx Hy. split; [apply Z.lor_nonneg; lia |].
        destruct (Z.eq_dec (Z.lor x y) 0) as [-> | Hne]; [lia |].
        apply Z.log2_lt_pow2; [assert (0 <= Z.lor x y) by (apply Z.lor_nonneg; lia); lia |].
        rewrite Z.log2_lor by lia.
        destruct (Z.eq_dec x 0) as [-> | Hx0]; destruct (Z.eq_dec y 0) as [-> | Hy0];
          cbn [Z.log2]; try lia.
        - apply Z.max_lub_lt; [lia | apply Z.log2_lt_pow2; lia].
        - apply Z.max_lub_lt; [apply Z.log2_lt_pow2; lia | lia].
        - apply Z.max_lub_lt; apply Z.log2_lt_pow2; lia. }
      change 512 with (2 ^ 9).
      pose proof (land_ones_bound (MBC5_m_rom_bank c) 8 ltac:(lia)) as H8.
      change (Z.ones 8) with 0xFF in H8.
      pose proof (land_ones_bound v 1 ltac:(lia)) as H1.
      change (Z.ones 1) with 1 in H1.
      assert (H100 : Z.land (MBC5_m_rom_bank c) 0x100 = 0 \/ Z.land (MBC5_m_rom_bank c) 0x100 = 0x100).
      { change 0x100 with (2 ^ 8). rewrite Z.land_comm.
        rewrite <- (Z.shiftl_1_l 8).
        destruct (Z.testbit (MBC5_m_rom_bank c) 8) eqn:Eb.
        - right. apply Z.bits_inj'. intros n Hn. rewrite Z.land_spec, Z.shiftl_1_l.
          rewrite Z.pow2_bits_eqb by lia.
          destruct (Z.eqb_spec 8 n) as [<- | ?]; [rewrite Eb |]; reflexivity.
        - left. apply Z.bits_inj'. intros n Hn. rewrite Z.land_spec, Z.shiftl_1_l, Z.bits_0.
          rewrite Z.pow2_bits_eqb by lia.
          destruct (Z.eqb_spec 8 n) as [<- | ?]; [rewrite Eb |]; reflexivity. }
      destruct (s <=? 0x2FFF).
      - apply Hlt; change (2 ^ 9) with 512; lia.
      - apply Hlt; change (2 ^ 9) with 512; [change (2 ^ 8) with 256 in H8; lia |].
        rewrite Z.shiftl_mul_pow2 by lia. change (2 ^ 8) with 256. change (2 ^ 1) with 2 in H1. lia. }
    split; [exact Hbank |].
    unfold MBC5_Read, MBC5_Write.
    rewrite (proj2 (Z.leb_gt s 0x1FFF)) by lia.
    rewrite (proj2 (Z.leb_le s 0x3FFF)) by lia.
    rewrite (proj2 (Z.leb_gt a 0x3FFF)) by lia.
    rewrite (proj2 (Z.leb_le a 0x7FFF)) by lia.
    destruct (s <=? 0x2FFF); cbn [MBC5_m_rom]; unfold MBC5_GetROMBankOffset;
      cbn [MBC5_m_rom_bank];
      rewrite (u16_small_9 _) by exact Hbank.
    all: rewrite (u32_small (_ * _)) by lia; rewrite (u32_small (_ + _)) by lia;
      apply vector_get_lookup; lia.
Qed.

Lemma Memory_Write16_Read16_RAM_witness :
  (Memory_Read16 (Memory_Write16 (bus GameBoy_new) 0xFFFC 0x1234) 0xFFFC = Some 0x1234
   /\ Memory_Read (Memory_Write16 (bus GameBoy_new) 0xFFFC 0x1234) 0xFFFC = Some 0x34
   /\ Memory_Read (Memory_Write16 (bus GameBoy_new) 0xFFFC 0x1234) 0xFFFD = Some 0x12)
  /\ Memory_Read16 (Memory_Write16 (bus GameBoy_new) 0xFE9F 0x1234) 0xFE9F = Some 0xFF34.
Proof.
  split.
  - apply (Memory_Write16_Read16_RAM (bus GameBoy_new) 0xFFFC 0x1234).
    + split; vm_compute; reflexivity.
    + repeat split; vm_compute; reflexivity.
    + right. right. right. right. unfold in_HRAM, HRAM_START, HRAM_END. lia.
    + lia.
    + right. right. right. right. unfold in_HRAM, HRAM_START, HRAM_END. lia.
  - apply (Memory_Write16_Read16_RAM (bus GameBoy_new) 0xFE9F 0x1234).
    + split; vm_compute; reflexivity.
    + repeat split; vm_compute; reflexivity.
    + right. right. right. left. unfold in_OAM, OAM_START, OAM_END. lia.
    + lia.
    + unfold in_UNUSABLE, UNUSABLE_START, UNUSABLE_END. lia.
Defined.

Lemma Memory_external_RAM_witness :
  Memory_Read (Memory_Write Bus_with_RAM_enabled 0xA000 0x5A) 0xA000 = Some 0x5A
  /\ Memory_Read (Memory_Write (snd (Bus_with_cartridge (small_cartridge 0x03))) 0xA000 0x5A)
       0xA000 = Some 0xFF.
Proof.
  split.
  - refine (proj1 (Memory_external_RAM Bus_with_RAM_enabled
              (MBC_Write (Cart_MBC1 (MBC1_new (small_cartridge 0x03))) 0x0000 0x0A)
              0xA000 0x5A _ _ _ _)).
    + split; vm_compute; reflexivity.
    + reflexivity.
    + vm_compute. reflexivity.
    + lia.
  - refine (proj1 (Memory_external_RAM (snd (Bus_with_cartridge (small_cartridge 0x03)))
              (Cart_MBC1 (MBC1_new (small_cartridge 0x03))) 0xA000 0x5A _ _ _ _)).
    + split; vm_compute; reflexivity.
    + reflexivity.
    + vm_compute. reflexivity.
    + lia.
Defined.

Lemma Memory_ROM_bank_select_witness :
  Memory_Read (Memory_Write (snd (Bus_with_cartridge three_bank_cartridge)) 0x2000 0x02) 0x4000
  = Some 0x33
  /\ Memory_Read (Memory_Write (snd (Bus_with_cartridge three_bank_cartridge)) 0x2000 0x00) 0x4000
     = Some 0x22.
Proof.
  split.
  - refine (eq_trans (proj2 (Memory_ROM_bank_select (snd (Bus_with_cartridge three_bank_cartridge))
            (Cart_MBC1 (MBC1_new three_bank_cartridge)) 0x2000 0x02 0x4000 _ _ _ _ _)) _).
    + split; vm_compute; reflexivity.
    + reflexivity.
    + lia.
    + lia.
    + lia.
    + vm_compute. reflexivity.
  - refine (eq_trans (proj2 (Memory_ROM_bank_select (snd (Bus_with_cartridge three_bank_cartridge))
            (Cart_MBC1 (MBC1_new three_bank_cartridge)) 0x2000 0x00 0x4000 _ _ _ _ _)) _).
    + split; vm_compute; reflexivity.
    + reflexivity.
    + lia.
    + lia.
    + lia.
    + vm_compute. reflexivity.
Defined.

(** ** The timer *)

(** The loop of [Timer::UpdateTIMA] ends with its condition false: the
    quotient is fuel enough. *)
Lemma Timer_UpdateTIMA_loop_exit (fuel : nat) (frequency : Z) (b : Bus) :
  0 < frequency ->
  0 <= m_timer_counter (timer b) < 0x100000000 ->
  m_timer_counter (timer b) / frequency <= Z.of_nat fuel ->
  m_timer_counter (timer (Timer_UpdateTIMA_loop fuel frequency b)) < frequency.
Proof.
  revert b. induction fuel as [| fuel IH]; intros b HP Hc Hfuel.
  - cbn [Timer_UpdateTIMA_loop].
    pose proof (Z.div_pos (m_timer_counter (timer b)) frequency ltac:(lia) HP).
    assert (Hq : m_timer_counter (timer b) / frequency = 0) by lia.
    apply Z.div_small_iff in Hq; lia.
  - cbn [Timer_UpdateTIMA_loop].
    destruct (Z.leb_spec frequency (m_timer_counter (timer b))) as [Hge | Hlt]; [| exact Hlt].
    assert (Hbody : m_timer_counter (timer (Timer_UpdateTIMA_body frequency b))
                    = m_timer_counter (timer b) - frequency).
    { unfold Timer_UpdateTIMA_body. cbv zeta.
      match goal with |- context [if ?c then _ else _] => destruct c end;
        cbn [timer set_timer set_memory m_timer_counter set_m_tima set_m_timer_counter];
        apply u32_small; lia. }
    apply IH; [exact HP | rewrite Hbody; lia |].
    rewrite Hbody.
    replace (m_timer_counter (timer b) - frequency)
      with (m_timer_counter (timer b) + (-1) * frequency) by lia.
    rewrite Z.div_add by lia. lia.
Qed.

Lemma Timer_Step_enabled (b : Bus) (cycles : Z) :
  Timer_IsTimerEnabled (timer b) = true ->
  0 <= m_tima (timer b) <= 0xFF ->
  0 <= m_tma (timer b) <= 0xFF ->
  let P := Timer_period (m_tac (timer b)) in
  let residual := u32 (m_timer_counter (timer b) + cycles) in
  Timer_Step cycles b
  = Timer_after_ticks (Z.to_nat (residual / P)) (residual mod P)
      (set_timer_of (fun t => set_m_timer_counter residual t)
         (set_timer_of (Timer_UpdateDIV cycles) b)).
Proof.
  intros Hen Htima Htma P residual.
  destruct (Timer_GetTimerFrequency_period (timer b)) as [Hf HP].
  assert (HPpos : 0 < P) by (subst P; lia).
  assert (Hres : 0 <= residual < 0x100000000) by apply u32_range.
  unfold Timer_Step. cbv zeta.
  change (Timer_IsTimerEnabled (timer (set_timer_of (Timer_UpdateDIV cycles) b)))
    with (Timer_IsTimerEnabled (timer b)).
  rewrite Hen. unfold Timer_UpdateTIMA. cbv zeta.
  change (Timer_GetTimerFrequency (timer (set_timer_of (Timer_UpdateDIV cycles) b)))
    with (Timer_GetTimerFrequency (timer b)).
  rewrite Hf. fold P.
  rewrite Timer_UpdateTIMA_loop_spec; cbn; fold residual; try lia.
  reflexivity.
Qed.

Lemma Timer_ticks_app (n1 n2 : nat) (tma : Z) (s : Z * bool) :
  Timer_ticks (n1 + n2) tma s = Timer_ticks n2 tma (Timer_ticks n1 tma s).
Proof.
  revert s. induction n1 as [| n1 IH]; intros s; [reflexivity |].
  cbn [Nat.add Timer_ticks]. apply IH.
Qed.

Lemma Timer_ticks_byte (n : nat) (tma tima : Z) (i : bool) :
  0 <= tima <= 0xFF -> 0 <= tma <= 0xFF -> 0 <= fst (Timer_ticks n tma (tima, i)) <= 0xFF.
Proof.
  revert tima i. induction n as [| n IH]; intros tima i Ht Hm; [exact Ht |].
  cbn [Timer_ticks]. unfold Timer_tick. cbn [fst snd].
  destruct (Z.eqb_spec tima 0xFF); apply IH; lia.
Qed.

Lemma Timer_ticks_flag (n : nat) (tma tima : Z) (i : bool) :
  snd (Timer_ticks n tma (tima, i)) = i || snd (Timer_ticks n tma (tima, false)).
Proof.
  destruct i; [| reflexivity]. apply Timer_ticks_irq.
Qed.

(** X11: with the timer enabled, TIMA and TMA bytes and no overflow of the
    32-bit residual counter, stepping the timer by [c1] cycles and then by
    [c2] cycles gives the same bus as one step by [c1 + c2] cycles. *)
Theorem Timer_Step_additive (b : Bus) (c1 c2 : Z) :
  Timer_IsTimerEnabled (timer b) = true ->
  0 <= m_tima (timer b) <= 0xFF ->
  0 <= m_tma (timer b) <= 0xFF ->
  0 <= m_timer_counter (timer b) -> 0 <= c1 -> 0 <= c2 ->
  m_timer_counter (timer b) + c1 + c2 < 0x100000000 ->
  Timer_Step c2 (Timer_Step c1 b) = Timer_Step (c1 + c2) b.
Proof.
  intros Hen Htima Htma Hr Hc1 Hc2 Hsum.
  destruct (Timer_GetTimerFrequency_period (timer b)) as [_ HP].
  set (P := Timer_period (m_tac (timer b))) in *.
  assert (HPpos : 0 < P) by lia.
  set (r := m_timer_counter (timer b)) in *.
  rewrite (Timer_Step_enabled b (c1 + c2) Hen Htima Htma).
  rewrite (Timer_Step_enabled b c1 Hen Htima Htma).
  cbv zeta. fold r P.
  rewrite (u32_small (r + c1)) by lia. rewrite (u32_small (r + (c1 + c2))) by lia.
  set (n1 := Z.to_nat ((r + c1) / P)).
  set (b1 := Timer_after_ticks n1 ((r + c1) mod P) _).
  assert (Hmod1 : 0 <= (r + c1) mod P < P) by (apply Z.mod_pos_bound; lia).
  assert (Hle1 : (r + c1) mod P <= r + c1) by (apply Z.mod_le; lia).
  assert (Htac1 : m_tac (timer b1) = m_tac (timer b)) by reflexivity.
  assert (Htma1 : m_tma (timer b1) = m_tma (timer b)) by reflexivity.
  assert (Hcnt1 : m_timer_counter (timer b1) = (r + c1) mod P) by reflexivity.
  assert (Htima1 : m_tima (timer b1)
                   = fst (Timer_ticks n1 (m_tma (timer b)) (m_tima (timer b), false)))
    by reflexivity.
  assert (Hen1 : Timer_IsTimerEnabled (timer b1) = true) by exact Hen.
  rewrite (Timer_Step_enabled b1 c2 Hen1).
  2: { rewrite Htima1. apply Timer_ticks_byte; assumption. }
  2: { rewrite Htma1. exact Htma. }
  cbv zeta. rewrite Htac1, Hcnt1. fold P.
  rewrite (u32_small (_ + c2)) by lia.
  (* the arithmetic of the two quotients *)
  assert (Hdiv : (r + (c1 + c2)) / P = (r + c1) / P + ((r + c1) mod P + c2) / P).
  { pose proof (Z.div_mod (r + c1) P ltac:(lia)) as E.
    replace (r + (c1 + c2)) with (((r + c1) mod P + c2) + (r + c1) / P * P) by lia.
    rewrite Z.div_add by lia. lia. }
  assert (Hmod : (r + (c1 + c2)) mod P = ((r + c1) mod P + c2) mod P).
  { pose proof (Z.div_mod (r + c1) P ltac:(lia)) as E.
    replace (r + (c1 + c2)) with (((r + c1) mod P + c2) + (r + c1) / P * P) by lia.
    rewrite Z.mod_add by lia. reflexivity. }
  assert (Hq1 : 0 <= (r + c1) / P) by (apply Z.div_pos; lia).
  assert (Hq2 : 0 <= ((r + c1) mod P + c2) / P) by (apply Z.div_pos; lia).
  set (n2 := Z.to_nat (((r + c1) mod P + c2) / P)).
  replace (Z.to_nat ((r + (c1 + c2)) / P)) with (n1 + n2)%nat by (subst n1 n2; lia).
  rewrite Hmod.
  unfold Timer_after_ticks. cbn [timer memory set_timer set_memory set_timer_of
    m_tma m_tima set_m_tima set_m_timer_counter Timer_UpdateDIV set_m_div_counter
    m_div_counter m_tac m_timer_counter ppu].
  subst b1. unfold Timer_after_ticks. cbn [timer memory set_timer set_memory set_timer_of
    m_tma m_tima set_m_tima set_m_timer_counter Timer_UpdateDIV set_m_div_counter
    m_div_counter m_tac m_timer_counter ppu].
  rewrite Timer_ticks_app.
  set (s1 := Timer_ticks n1 (m_tma (timer b)) (m_tima (timer b), false)).
  destruct s1 as [t1 i1] eqn:Es1. cbn [fst snd].
  rewrite (Timer_ticks_tima n2 _ t1 i1 false).
  rewrite (Timer_ticks_flag n2 _ t1 i1).
  assert (Ediv : u16 (u16 (m_div_counter (timer b) + c1) + c2)
                 = u16 (m_div_counter (timer b) + (c1 + c2))).
  { unfold u16. rewrite Z.add_mod_idemp_l by lia. f_equal. lia. }
  cbv [set_memory set_timer set_m_tima set_m_timer_counter Timer_UpdateDIV set_m_div_counter].
  cbn [timer memory ppu m_div_counter m_tima m_tma m_tac m_timer_counter].
  rewrite Ediv.
  destruct i1; cbn [orb].
  - destruct (snd (Timer_ticks n2 (m_tma (timer b)) (t1, false)));
      rewrite ?Memory_RequestInterrupt_idem; reflexivity.
  - reflexivity.
Qed.

Lemma Timer_Step_additive_witness :
  Timer_Step 10 (Timer_Step 6 Timer_overflow_scenario) = Timer_Step (6 + 10) Timer_overflow_scenario.
Proof.
  apply (Timer_Step_additive Timer_overflow_scenario 6 10).
  - vm_compute. reflexivity.
  - vm_compute. split; discriminate.
  - vm_compute. split; discriminate.
  - vm_compute. discriminate.
  - lia.
  - lia.
  - vm_compute. reflexivity.
Defined.

Lemma Timer_UpdateTIMA_loop_footprint (fuel : nat) (frequency : Z) (b : Bus) :
  Timer_Step_footprint b (Timer_UpdateTIMA_loop fuel frequency b)
  /\ m_div_counter (timer (Timer_UpdateTIMA_loop fuel frequency b)) = m_div_counter (timer b).
Proof.
  revert b. induction fuel as [| fuel IH]; intros b.
  - cbn. repeat split; auto.
  - cbn [Timer_UpdateTIMA_loop]. destruct (frequency <=? m_timer_counter (timer b)).
    2: { repeat split; auto. }
    destruct (IH (Timer_UpdateTIMA_body frequency b)) as ((H1 & H2 & H3 & H4) & H5).
    assert (Hbody : Timer_Step_footprint b (Timer_UpdateTIMA_body frequency b)
                    /\ m_div_counter (timer (Timer_UpdateTIMA_body frequency b))
                       = m_div_counter (timer b)).
    { unfold Timer_UpdateTIMA_body. cbv zeta.
      match goal with |- context [if ?c then _ else _] => destruct c end;
        repeat split; auto. }
    destruct Hbody as ((B1 & B2 & B3 & B4) & B5).
    split; [| congruence].
    split; [congruence |]. split; [congruence |]. split; [congruence |].
    destruct H4 as [-> | ->]; destruct B4 as [-> | ->]; auto.
    right. apply Memory_RequestInterrupt_idem.
Qed.

Lemma Timer_Step_footprint_spec (b : Bus) (cycles : Z) :
  Timer_Step_footprint b (Timer_Step cycles b)
  /\ m_div_counter (timer (Timer_Step cycles b)) = u16 (m_div_counter (timer b) + cycles)
  /\ (Timer_IsTimerEnabled (timer b) = false ->
      memory (Timer_Step cycles b) = memory b
      /\ m_tima (timer (Timer_Step cycles b)) = m_tima (timer b)
      /\ m_timer_counter (timer (Timer_Step cycles b)) = m_timer_counter (timer b)).
Proof.
  unfold Timer_Step. cbv zeta.
  change (Timer_IsTimerEnabled (timer (set_timer_of (Timer_UpdateDIV cycles) b)))
    with (Timer_IsTimerEnabled (timer b)).
  destruct (Timer_IsTimerEnabled (timer b)).
  - unfold Timer_UpdateTIMA. cbv zeta.
    match goal with |- context [Timer_UpdateTIMA_loop ?f ?p ?x] =>
      destruct (Timer_UpdateTIMA_loop_footprint f p x) as ((H1 & H2 & H3 & H4) & H5) end.
    split; [| split; [rewrite H5; reflexivity | discriminate]].
    split; [rewrite H1; reflexivity |]. split; [rewrite H2; reflexivity |].
    split; [rewrite H3; reflexivity | exact H4].
  - split; [repeat split; auto |]. split; [reflexivity |]. intros _. repeat split.
Qed.

(** X12: [Timer::Step] leaves the picture unit, TMA and TAC alone and
    changes memory at most by requesting the timer interrupt; DIV's counter
    advances by the number of cycles modulo 2^16; with the timer disabled,
    memory, TIMA and the residual counter do not change. *)
Theorem Timer_Step_frame (b : Bus) (cycles : Z) :
  Timer_Step_footprint b (Timer_Step cycles b)
  /\ m_div_counter (timer (Timer_Step cycles b)) = u16 (m_div_counter (timer b) + cycles)
  /\ (Timer_IsTimerEnabled (timer b) = false ->
      memory (Timer_Step cycles b) = memory b
      /\ m_tima (timer (Timer_Step cycles b)) = m_tima (timer b)
      /\ m_timer_counter (timer (Timer_Step cycles b)) = m_timer_counter (timer b)).
Proof. exact (Timer_Step_footprint_spec b cycles). Qed.

Lemma Timer_DIV_cell (b : Bus) (v cycles : Z) :
  Bus_wired b -> 0 <= cycles < 0x10000 ->
  Memory_Read (Memory_Write b 0xFF04 v) 0xFF04 = Some 0
  /\ Memory_Read (Timer_Step cycles (Memory_Write b 0xFF04 v)) 0xFF04 = Some (cycles / 256).
Proof.
  intros Hw Hc.
  assert (HW : Memory_Write b 0xFF04 v = set_timer_of (set_m_div_counter 0) b).
  { rewrite Memory_Write_IO by (unfold IO_START, IO_END; done || lia). reflexivity. }
  rewrite HW.
  assert (Hw0 : Bus_wired (set_timer_of (set_m_div_counter 0) b)) by exact Hw.
  split.
  - rewrite Memory_Read_IO by (unfold IO_START, IO_END; done || lia). reflexivity.
  - destruct (Timer_Step_footprint_spec (set_timer_of (set_m_div_counter 0) b) cycles)
      as ((_ & _ & _ & Hm) & Hd & _).
    assert (Hw1 : Bus_wired (Timer_Step cycles (set_timer_of (set_m_div_counter 0) b))).
    { unfold Bus_wired. destruct Hm as [-> | ->]; exact Hw0. }
    rewrite Memory_Read_IO by (unfold IO_START, IO_END; done || lia).
    cbn [IO_read_handler_entry IOReadHandler_call Z.sub Z.add Z.opp Z.pos_sub
         Pos.succ_double_mask Pos.sub_mask Pos.double_mask Pos.pred_double].
    change (IO_read_handler_entry (65284 - 65280)) with (Some Timer_read_DIV).
    cbn [IOReadHandler_call]. rewrite Hd. cbn [set_timer_of set_timer timer set_m_div_counter
      m_div_counter].
    f_equal. rewrite Z.add_0_l, Z.shiftr_div_pow2 by lia. change (2 ^ 8) with 256.
    unfold u16. rewrite (Z.mod_small cycles) by lia.
    apply u8_small.
    split; [apply Z.div_pos; lia | apply Z.div_lt_upper_bound; lia].
Qed.

Lemma Timer_register_cells (b : Bus) (v : Z) :
  Bus_wired b ->
  (Memory_Read (Memory_Write b 0xFF06 v) 0xFF06 = Some v
   /\ timer (Memory_Write b 0xFF06 v) = set_m_tma v (timer b))
  /\ (Memory_Read (Memory_Write b 0xFF05 v) 0xFF05 = Some v
      /\ m_timer_counter (timer (Memory_Write b 0xFF05 v)) = 0)
  /\ (Memory_Read (Memory_Write b 0xFF07 v) 0xFF07 = Some (Z.lor (Z.land v 0x07) 0xF8)
      /\ Timer_IsTimerEnabled (timer (Memory_Write b 0xFF07 v)) = nonzero (Z.land v 0x04)
      /\ m_timer_counter (timer (Memory_Write b 0xFF07 v))
         = if eqb (Timer_IsTimerEnabled (timer b)) (nonzero (Z.land v 0x04))
           then m_timer_counter (timer b) else 0).
Proof.
  intros Hw.
  assert (Hbit : nonzero (Z.land (Z.land v 7) 4) = nonzero (Z.land v 4)).
  { rewrite <- Z.land_assoc. reflexivity. }
  rewrite !Memory_Write_IO by (unfold IO_START, IO_END; done || lia).
  cbn [IO_write_handler_entry IOWriteHandler_call Z.sub Z.add Z.opp Z.pos_sub
       Pos.succ_double_mask Pos.sub_mask Pos.double_mask Pos.pred_double].
  change (IO_write_handler_entry (65286 - 65280)) with (Some Timer_write_TMA).
  change (IO_write_handler_entry (65285 - 65280)) with (Some Timer_write_TIMA).
  change (IO_write_handler_entry (65287 - 65280)) with (Some Timer_write_TAC).
  cbn [IOWriteHandler_call].
  rewrite !Memory_Read_IO; try (unfold IO_START, IO_END; done || lia); try exact Hw.
  change (IO_read_handler_entry (65286 - 65280)) with (Some Timer_read_TMA).
  change (IO_read_handler_entry (65285 - 65280)) with (Some Timer_read_TIMA).
  change (IO_read_handler_entry (65287 - 65280)) with (Some Timer_read_TAC).
  cbn [IOReadHandler_call].
  split; [split; reflexivity |]. split; [split; reflexivity |].
  unfold set_timer_of. cbn [timer set_timer]. cbv zeta.
  set (e := Timer_IsTimerEnabled (timer b)).
  assert (He : Timer_IsTimerEnabled (set_m_tac (Z.land v 7) (timer b)) = nonzero (Z.land v 4))
    by (unfold Timer_IsTimerEnabled; cbn [m_tac set_m_tac]; exact Hbit).
  rewrite He.
  destruct (eqb e (nonzero (Z.land v 4))); cbn [negb]; repeat split; try reflexivity;
    unfold Timer_IsTimerEnabled; cbn [m_tac set_m_tac set_m_timer_counter]; exact Hbit.
Qed.

(** X13: the timer registers through the bus of a constructed machine: a
    write to DIV (0xFF04) resets it, whatever the value, and it then reads
    [cycles / 256] after a step of [cycles] < 65536 cycles; TMA and TIMA read
    back the value written, and a write to TIMA clears the residual counter;
    TAC reads back its low three bits with the upper five set, and a write to
    TAC clears the residual counter exactly when it changes the enable bit. *)
Theorem Timer_registers (b : Bus) (v cycles : Z) :
  Bus_wired b ->
  (Memory_Read (Memory_Write b 0xFF04 v) 0xFF04 = Some 0
   /\ (0 <= cycles < 0x10000 ->
       Memory_Read (Timer_Step cycles (Memory_Write b 0xFF04 v)) 0xFF04
       = Some (cycles / 256)))
  /\ (Memory_Read (Memory_Write b 0xFF06 v) 0xFF06 = Some v
      /\ timer (Memory_Write b 0xFF06 v) = set_m_tma v (timer b))
  /\ (Memory_Read (Memory_Write b 0xFF05 v) 0xFF05 = Some v
      /\ m_timer_counter (timer (Memory_Write b 0xFF05 v)) = 0)
  /\ (Memory_Read (Memory_Write b 0xFF07 v) 0xFF07 = Some (Z.lor (Z.land v 0x07) 0xF8)
      /\ Timer_IsTimerEnabled (timer (Memory_Write b 0xFF07 v)) = nonzero (Z.land v 0x04)
      /\ m_timer_counter (timer (Memory_Write b 0xFF07 v))
         = if eqb (Timer_IsTimerEnabled (timer b)) (nonzero (Z.land v 0x04))
           then m_timer_counter (timer b) else 0).
Proof.
  intros Hw. split; [| exact (Timer_register_cells b v Hw)].
  split.
  - exact (proj1 (Timer_DIV_cell b v 0 Hw ltac:(lia))).
  - intros Hc. exact (proj2 (Timer_DIV_cell b v cycles Hw Hc)).
Qed.

Lemma Timer_registers_witness :
  Memory_Read (Memory_Write (bus GameBoy_new) 0xFF04 0x5A) 0xFF04 = Some 0
  /\ Memory_Read (Memory_Write (bus GameBoy_new) 0xFF07 0x05) 0xFF07 = Some 0xFD.
Proof.
  assert (H := Timer_registers (bus GameBoy_new)).
  split.
  - destruct (H 0x5A 0) as ((H1 & _) & _).
    + repeat split; vm_compute; reflexivity.
    + exact H1.
  - destruct (H 0x05 0) as (_ & _ & _ & H1 & _).
    + repeat split; vm_compute; reflexivity.
    + exact H1.
Defined.

(** ** The picture unit: sprites, pixels and lines *)

Lemma PPU_ScanOAM_loop_selects (oam : list Z) (h : Z) (indices : list Z) (p : PPU) :
  0 <= m_sprite_count p <= 10 -> length (m_sprite_buffer p) = 10%nat ->
  let c := m_sprite_count p in
  let found := OAM_sprites_on_line oam h (m_scanline p) indices in
  let p' := PPU_ScanOAM_loop oam h indices p in
  m_sprite_count p' = c + Z.of_nat (length (take (Z.to_nat (10 - c)) found))
  /\ take (Z.to_nat (m_sprite_count p')) (m_sprite_buffer p')
     = take (Z.to_nat c) (m_sprite_buffer p) ++ take (Z.to_nat (10 - c)) found
  /\ length (m_sprite_buffer p') = 10%nat.
Proof.
  revert p. induction indices as [| i rest IH]; intros p Hc Hlen; cbv zeta.
  - cbn [PPU_ScanOAM_loop].
    change (OAM_sprites_on_line oam h (m_scanline p) []) with (@nil Sprite).
    rewrite take_nil. cbn [length]. rewrite Z.add_0_r, app_nil_r. auto.
  - cbn [PPU_ScanOAM_loop].
    destruct (Z.ltb_spec (m_sprite_count p) 10) as [Hlt | Hge].
    2: { assert (E : m_sprite_count p = 10) by lia. rewrite E.
         change (Z.to_nat (10 - 10)) with 0%nat. rewrite take_0. cbn [length].
         rewrite app_nil_r. auto. }
    unfold OAM_sprites_on_line. cbn [fmap list_fmap].
    fold (OAM_sprites_on_line oam h (m_scanline p) rest).
    unfold PPU_ScanOAM_body. cbv zeta. fold (OAM_sprite oam i).
    change ((s16 (sprite_y (OAM_sprite oam i) - 16) <=? s16 (m_scanline p))
            && (s16 (m_scanline p) <? s16 (sprite_y (OAM_sprite oam i) - 16) + h))
      with (Sprite_on_line h (m_scanline p) (OAM_sprite oam i)).
    destruct (Sprite_on_line h (m_scanline p) (OAM_sprite oam i)) eqn:Hon.
    + rewrite filter_cons_True by exact Hon.
      fold (OAM_sprites_on_line oam h (m_scanline p) rest).
      set (p1 := set_m_sprite_count _ _).
      assert (Hc1 : m_sprite_count p1 = m_sprite_count p + 1)
        by (subst p1; cbn; apply u8_small; lia).
      assert (Hs1 : m_scanline p1 = m_scanline p) by reflexivity.
      assert (Hb1 : m_sprite_buffer p1
                    = <[Z.to_nat (m_sprite_count p) := OAM_sprite oam i]> (m_sprite_buffer p))
        by reflexivity.
      specialize (IH p1). cbv zeta in IH. rewrite Hc1, Hs1, Hb1 in IH.
      destruct IH as (I1 & I2 & I3); [lia | rewrite length_insert; exact Hlen |].
      replace (Z.to_nat (10 - m_sprite_count p))
        with (S (Z.to_nat (10 - (m_sprite_count p + 1)))) by lia.
      cbn [take length].
      split; [rewrite I1; lia |]. split; [| exact I3].
      rewrite I2.
      replace (Z.to_nat (m_sprite_count p + 1)) with (S (Z.to_nat (m_sprite_count p))) by lia.
      rewrite (take_S_r _ _ (OAM_sprite oam i)).
      2: { apply list_lookup_insert_eq. lia. }
      rewrite take_insert_ge by lia. rewrite <- app_assoc. reflexivity.
    + rewrite filter_cons_False by (rewrite Hon; discriminate).
      fold (OAM_sprites_on_line oam h (m_scanline p) rest).
      apply (IH p Hc Hlen).
Qed.

(** X14: [PPU::ScanOAM] selects the first ten sprites of OAM, in OAM order,
    whose vertical range (8 or 16 lines by LCDC bit 2) contains the current
    line: the sprite count is their number, at most 10, the sprite buffer
    begins with them, and memory is unchanged. *)
Theorem PPU_ScanOAM_selects (b : Bus) :
  length (m_sprite_buffer (ppu b)) = 10%nat ->
  let sprite_height := if nonzero (Z.land (m_lcdc (ppu b)) LCDC_OBJ_SIZE) then 16 else 8 in
  let found := OAM_sprites_on_line (m_oam (memory b)) sprite_height (m_scanline (ppu b))
                 (seqZ 0 40) in
  let p' := ppu (PPU_ScanOAM b) in
  m_sprite_count p' = Z.of_nat (length (take 10 found))
  /\ 0 <= m_sprite_count p' <= 10
  /\ take (Z.to_nat (m_sprite_count p')) (m_sprite_buffer p') = take 10 found
  /\ memory (PPU_ScanOAM b) = memory b.
Proof.
  intros Hlen sprite_height found p'. subst p'. unfold PPU_ScanOAM. cbv zeta.
  cbn [ppu set_ppu memory].
  pose proof (PPU_ScanOAM_loop_selects (m_oam (memory b)) sprite_height (seqZ 0 40)
                (set_m_sprite_count 0 (ppu b))) as H.
  cbv zeta in H. cbn [m_sprite_count set_m_sprite_count m_sprite_buffer m_scanline] in H.
  destruct H as (H1 & H2 & H3); [lia | exact Hlen |].
  change (m_lcdc (set_m_sprite_count 0 (ppu b))) with (m_lcdc (ppu b)).
  fold sprite_height. fold found in H1, H2.
  change (Z.to_nat (10 - 0)) with 10%nat in *.
  rewrite H2, H1. cbn [take app Z.add].
  change (Z.to_nat 0) with 0%nat. rewrite take_0, Z.add_0_l. cbn [app].
  split; [reflexivity |]. split; [| split; reflexivity].
  rewrite length_take. lia.
Qed.

Lemma PPU_ScanOAM_selects_witness :
  m_sprite_count (ppu (PPU_ScanOAM Bus_with_sprites)) = 10.
Proof.
  assert (H := PPU_ScanOAM_selects Bus_with_sprites).
  cbv zeta in H. destruct H as (H & _).
  - vm_compute. reflexivity.
  - rewrite H. vm_compute. reflexivity.
Defined.

Lemma fold_left_framebuffer_frame {A : Type} (step : list Z -> A -> list Z) (xs : list A)
    (fb : list Z) (j : Z) :
  (forall fb x, x ∈ xs ->
     array_get (step fb x) j = array_get fb j /\ length (step fb x) = length fb) ->
  array_get (fold_left step xs fb) j = array_get fb j
  /\ length (fold_left step xs fb) = length fb.
Proof.
  revert fb. induction xs as [| x xs IH]; intros fb Hstep; [split; reflexivity |].
  cbn [fold_left].
  destruct (Hstep fb x ltac:(apply list_elem_of_here)) as [H1 H2].
  destruct (IH (step fb x)) as [I1 I2].
  { intros fb' x' Hx'. apply Hstep. apply list_elem_of_further. exact Hx'. }
  split; congruence.
Qed.

Lemma array_set_row_frame (fb : list Z) (scanline x color j : Z) :
  0 <= scanline -> 0 <= x < SCREEN_WIDTH -> 0 <= j -> ~ in_framebuffer_row scanline j ->
  array_get (array_set fb (scanline * SCREEN_WIDTH + x) color) j = array_get fb j
  /\ length (array_set fb (scanline * SCREEN_WIDTH + x) color) = length fb.
Proof.
  unfold in_framebuffer_row, SCREEN_WIDTH. intros Hl Hx Hj Hn.
  split; [| apply array_set_length].
  apply array_get_set_ne; lia.
Qed.

Lemma PPU_RenderBackground_frame (l : Z) (b : Bus) (j : Z) :
  0 <= l -> 0 <= j -> ~ in_framebuffer_row l j ->
  array_get (m_framebuffer (ppu (PPU_RenderBackground l b))) j
  = array_get (m_framebuffer (ppu b)) j
  /\ length (m_framebuffer (ppu (PPU_RenderBackground l b))) = length (m_framebuffer (ppu b))
  /\ memory (PPU_RenderBackground l b) = memory b.
Proof.
  intros Hl Hj Hn. unfold PPU_RenderBackground. cbv zeta.
  cbn [ppu set_ppu m_framebuffer set_m_framebuffer memory].
  match goal with |- array_get (fold_left ?s ?xs ?fb) j = _ /\ _ =>
    destruct (fold_left_framebuffer_frame s xs fb j) as [F1 F2];
      [| split; [exact F1 | split; [exact F2 | reflexivity]]] end.
  intros fb x Hx. apply elem_of_seqZ in Hx.
  apply array_set_row_frame; unfold SCREEN_WIDTH in *; lia || assumption.
Qed.

Lemma PPU_RenderWindow_frame (l : Z) (b : Bus) (j : Z) :
  0 <= l -> 0 <= j -> ~ in_framebuffer_row l j ->
  array_get (m_framebuffer (ppu (PPU_RenderWindow l b))) j
  = array_get (m_framebuffer (ppu b)) j
  /\ length (m_framebuffer (ppu (PPU_RenderWindow l b))) = length (m_framebuffer (ppu b))
  /\ memory (PPU_RenderWindow l b) = memory b.
Proof.
  intros Hl Hj Hn. unfold PPU_RenderWindow. cbv zeta.
  destruct (l <? m_wy (ppu b)); [repeat split |].
  cbn [ppu set_ppu m_framebuffer set_m_framebuffer memory].
  match goal with |- array_get (fold_left ?s ?xs ?fb) j = _ /\ _ =>
    destruct (fold_left_framebuffer_frame s xs fb j) as [F1 F2];
      [| split; [exact F1 | split; [exact F2 | reflexivity]]] end.
  intros fb x Hx. apply elem_of_seqZ in Hx.
  match goal with |- context [if ?c then _ else _] => destruct c end;
    [split; reflexivity | apply array_set_row_frame; unfold SCREEN_WIDTH in *; lia || assumption].
Qed.

Lemma PPU_RenderSprites_sprite_frame vram p (l h : Z) (sprite : Sprite) (fb : list Z) (j : Z) :
  0 <= l -> 0 <= j -> ~ in_framebuffer_row l j ->
  array_get (PPU_RenderSprites_sprite vram p l h sprite fb) j = array_get fb j
  /\ length (PPU_RenderSprites_sprite vram p l h sprite fb) = length fb.
Proof.
  intros Hl Hj Hn. unfold PPU_RenderSprites_sprite. cbv zeta.
  apply fold_left_framebuffer_frame. intros fb' x Hx.
  match goal with |- context [if (?a <? 0) || (SCREEN_WIDTH <=? ?a) then _ else _] =>
    destruct (Z.ltb_spec a 0); [split; reflexivity |];
    destruct (Z.leb_spec SCREEN_WIDTH a); [split; reflexivity |]; cbn [orb]
  end.
  destruct (_ =? 0); [split; reflexivity |].
  destruct (_ && _); [split; reflexivity |].
  apply array_set_row_frame; lia || assumption.
Qed.

Lemma PPU_RenderSprites_frame (l : Z) (b : Bus) (j : Z) :
  0 <= l -> 0 <= j -> ~ in_framebuffer_row l j ->
  array_get (m_framebuffer (ppu (PPU_RenderSprites l b))) j
  = array_get (m_framebuffer (ppu b)) j
  /\ length (m_framebuffer (ppu (PPU_RenderSprites l b))) = length (m_framebuffer (ppu b))
  /\ memory (PPU_RenderSprites l b) = memory b.
Proof.
  intros Hl Hj Hn. unfold PPU_RenderSprites. cbv zeta.
  destruct (m_sprite_count (ppu b) =? 0); [repeat split |].
  cbn [ppu set_ppu m_framebuffer set_m_framebuffer memory].
  match goal with |- array_get (fold_left ?s ?xs ?fb) j = _ /\ _ =>
    destruct (fold_left_framebuffer_frame s xs fb j) as [F1 F2];
      [| split; [exact F1 | split; [exact F2 | reflexivity]]] end.
  intros fb x Hx. apply PPU_RenderSprites_sprite_frame; assumption.
Qed.

Lemma PPU_pixel_frame_refl j b : PPU_pixel_frame j b b.
Proof. repeat split. Qed.

Lemma PPU_pixel_frame_trans j b1 b2 b3 :
  PPU_pixel_frame j b1 b2 -> PPU_pixel_frame j b2 b3 -> PPU_pixel_frame j b1 b3.
Proof.
  intros (A1 & A2 & A3 & A4) (B1 & B2 & B3 & B4).
  split; [congruence |]. split; [congruence |]. split; [congruence |].
  eapply PPU_same_line_state_trans; eassumption.
Qed.

(** X15: [PPU::RenderScanline] changes no pixel of the frame buffer outside
    the row of the current line, keeps the buffer's length, and changes
    neither memory nor the mode, the cycle counter, the line or LCDC. *)
Theorem PPU_RenderScanline_frame (b : Bus) (j : Z) :
  0 <= m_scanline (ppu b) -> 0 <= j -> ~ in_framebuffer_row (m_scanline (ppu b)) j ->
  array_get (m_framebuffer (ppu (PPU_RenderScanline b))) j = array_get (m_framebuffer (ppu b)) j
  /\ length (m_framebuffer (ppu (PPU_RenderScanline b))) = length (m_framebuffer (ppu b))
  /\ memory (PPU_RenderScanline b) = memory b
  /\ PPU_same_line_state b (PPU_RenderScanline b).
Proof.
  intros Hl Hj Hn. change (PPU_pixel_frame j b (PPU_RenderScanline b)).
  unfold PPU_RenderScanline.
  destruct (SCREEN_HEIGHT <=? m_scanline (ppu b)); [apply PPU_pixel_frame_refl |].
  cbv zeta.
  set (l := m_scanline (ppu b)) in *.
  assert (Hlayer : forall (render : Z -> Bus -> Bus) (c : Bus -> bool) (b0 : Bus),
            m_scanline (ppu b0) = l ->
            (forall b0, array_get (m_framebuffer (ppu (render l b0))) j
                        = array_get (m_framebuffer (ppu b0)) j
                        /\ length (m_framebuffer (ppu (render l b0)))
                           = length (m_framebuffer (ppu b0))
                        /\ memory (render l b0) = memory b0) ->
            (forall b0, PPU_same_line_state b0 (render l b0)) ->
            PPU_pixel_frame j b0 (if c b0 then render (m_scanline (ppu b0)) b0 else b0)
            /\ m_scanline (ppu (if c b0 then render (m_scanline (ppu b0)) b0 else b0)) = l).
  { intros render c b0 Hl0 Hf Hs. rewrite Hl0. destruct (c b0).
    - destruct (Hf b0) as (F1 & F2 & F3). specialize (Hs b0).
      split; [split; [exact F1 | split; [exact F2 | split; [exact F3 | exact Hs]]] |].
      destruct Hs as (_ & _ & -> & _). exact Hl0.
    - split; [apply PPU_pixel_frame_refl | exact Hl0]. }
  destruct (Hlayer PPU_RenderBackground
              (fun b0 => nonzero (Z.land (m_lcdc (ppu b0)) LCDC_BG_ENABLE)) b eq_refl)
    as [P1 L1].
  { intros b0. apply PPU_RenderBackground_frame; assumption. }
  { intros b0. by repeat split. }
  cbv beta in P1, L1. fold l in P1, L1.
  set (b1 := if nonzero (Z.land (m_lcdc (ppu b)) LCDC_BG_ENABLE)
             then PPU_RenderBackground l b else b) in *.
  destruct (Hlayer PPU_RenderWindow
              (fun b0 => nonzero (Z.land (m_lcdc (ppu b0)) LCDC_WIN_ENABLE)) b1 L1)
    as [P2 L2].
  { intros b0. apply PPU_RenderWindow_frame; assumption. }
  { intros b0. unfold PPU_RenderWindow. destruct (l <? m_wy (ppu b0));
      [apply PPU_same_line_state_refl | by repeat split]. }
  cbv beta in P2, L2.
  set (b2 := if nonzero (Z.land (m_lcdc (ppu b1)) LCDC_WIN_ENABLE)
             then PPU_RenderWindow (m_scanline (ppu b1)) b1 else b1) in *.
  destruct (Hlayer PPU_RenderSprites
              (fun b0 => nonzero (Z.land (m_lcdc (ppu b0)) LCDC_OBJ_ENABLE)) b2 L2)
    as [P3 L3].
  { intros b0. apply PPU_RenderSprites_frame; assumption. }
  { intros b0. unfold PPU_RenderSprites. destruct (m_sprite_count (ppu b0) =? 0);
      [apply PPU_same_line_state_refl | by repeat split]. }
  cbv beta in P3.
  eapply PPU_pixel_frame_trans; [exact P1 |].
  eapply PPU_pixel_frame_trans; [exact P2 | exact P3].
Qed.

Lemma PPU_RenderScanline_frame_witness :
  array_get (m_framebuffer (ppu (PPU_RenderScanline (bus GameBoy_new)))) 160
  = array_get (m_framebuffer (ppu (bus GameBoy_new))) 160.
Proof.
  apply (PPU_RenderScanline_frame (bus GameBoy_new) 160).
  - vm_compute. discriminate.
  - lia.
  - unfold in_framebuffer_row, SCREEN_WIDTH.
    change (m_scanline (ppu (bus GameBoy_new))) with 0. lia.
Defined.

Lemma PPU_run_app (xs ys : list Z) (b : Bus) :
  PPU_run (xs ++ ys) b = b' ← PPU_run xs b; PPU_run ys b'.
Proof.
  revert b. induction xs as [| x xs IH]; intros b; [reflexivity |].
  cbn [app PPU_run]. destruct (PPU_Step x b) as [b1 |]; [apply IH | reflexivity].
Qed.

Lemma PPU_on_line_end_line_start (line : Z) (b : Bus) :
  PPU_on_line line 456 b ->
  PPU_line_start b /\ m_scanline (ppu b) = PPU_next_line line.
Proof.
  intros (Hw & Hon & Hl & Ht & Hst). rewrite Z.ltb_irrefl in Hst.
  destruct Hst as (HL & HM & HC). split; [| exact HL].
  split; [exact Hw |]. split; [exact Hon |]. split; [exact HC |].
  rewrite HL, HM. unfold SCANLINES_PER_FRAME in Hl.
  destruct (Z.lt_ge_cases (line + 1) 144).
  - left. rewrite PPU_next_line_inc by lia. rewrite PPU_mode_at_visible by lia. split; [done | lia].
  - destruct (Z.lt_ge_cases (line + 1) 154).
    + right. rewrite PPU_next_line_inc by lia. rewrite PPU_mode_at_vblank by lia.
      split; [done | lia].
    + left. rewrite PPU_next_line_wrap by lia. rewrite PPU_mode_at_visible by lia.
      split; [done | lia].
Qed.

Lemma PPU_next_line_mod (line : Z) :
  0 <= line < 154 -> PPU_next_line line = (line + 1) mod 154.
Proof.
  intros H. destruct (Z.lt_ge_cases (line + 1) 154).
  - rewrite PPU_next_line_inc by lia. rewrite Z.mod_small by lia. reflexivity.
  - rewrite PPU_next_line_wrap by lia. assert (line = 153) as -> by lia. reflexivity.
Qed.

(** X16: from the start of a line with the LCD on, stepping the picture
    unit through any number of whole lines, each given as steps of at most 80
    cycles that add up to 456, never faults, ends at the start of a line, and
    advances LY by the number of lines modulo 154. *)
Theorem PPU_run_lines (lines : list (list Z)) (b : Bus) :
  PPU_line_start b -> Forall PPU_line_chunks lines ->
  exists b', PPU_run (concat lines) b = Some b'
    /\ PPU_line_start b'
    /\ m_scanline (ppu b') = (m_scanline (ppu b) + Z.of_nat (length lines)) mod 154
    /\ 0 <= m_scanline (ppu b') <= 153.
Proof.
  revert b. induction lines as [| chunks lines IH]; intros b Hs Hall.
  - exists b. split; [reflexivity |]. split; [exact Hs |].
    assert (Hl : 0 <= m_scanline (ppu b) <= 153) by (destruct Hs as (_ & _ & _ & [[_ ?] | [_ ?]]); lia).
    cbn [length]. rewrite Z.add_0_r, Z.mod_small by lia. split; [reflexivity | exact Hl].
  - apply Forall_cons in Hall as [[Hc Ht] Hall].
    assert (Hl : 0 <= m_scanline (ppu b) <= 153) by (destruct Hs as (_ & _ & _ & [[_ ?] | [_ ?]]); lia).
    destruct (PPU_run_on_line chunks _ 0 b (PPU_line_start_on_line b Hs) Hc ltac:(lia))
      as (b1 & E1 & H1).
    rewrite Z.add_0_l, Ht in H1.
    apply PPU_on_line_end_line_start in H1 as [Hs1 HL1].
    destruct (IH b1 Hs1 Hall) as (b' & E' & Hs' & HL' & Hr').
    exists b'. cbn [concat]. rewrite PPU_run_app, E1. cbn [mbind option_bind].
    split; [exact E' |]. split; [exact Hs' |]. split; [| exact Hr'].
    rewrite HL', HL1, PPU_next_line_mod by lia.
    rewrite Z.add_mod_idemp_l by lia. f_equal. cbn [length]. lia.
Qed.

Lemma PPU_run_lines_witness :
  exists b', PPU_run (concat (replicate 154 (replicate 114 4))) (bus GameBoy_new) = Some b'
    /\ PPU_line_start b'
    /\ m_scanline (ppu b')
       = (m_scanline (ppu (bus GameBoy_new))
          + Z.of_nat (length (replicate 154 (replicate 114 4)))) mod 154
    /\ 0 <= m_scanline (ppu b') <= 153.
Proof.
  apply PPU_run_lines.
  - split; [repeat split; vm_compute; reflexivity |]. split; [vm_compute; discriminate |].
    split; [reflexivity |]. left. split; [reflexivity |]. change (0 <= 0 < 144). lia.
  - apply Forall_forall. intros chunks Hx. apply elem_of_replicate in Hx as [-> _].
    split.
    + apply Forall_forall. intros x Hx. apply elem_of_replicate in Hx as [-> _]. lia.
    + vm_compute. reflexivity.
Defined.

(** ** The picture unit: STAT, LY and interrupts *)

Lemma testbit_u8_low (z n : Z) : 0 <= n < 8 -> Z.testbit (u8 z) n = Z.testbit z n.
Proof. intros H. unfold u8. change 0x100 with (2 ^ 8). apply Z.mod_pow2_bits_low. lia. Qed.

Lemma u8_byte (z : Z) : 0 <= u8 z <= 0xFF.
Proof. unfold u8. pose proof (Z.mod_pos_bound z 0x100 ltac:(lia)). lia. Qed.

Lemma STAT_write_byte (z : Z) :
  0 <= z <= 0xFF -> Z.lor (Z.land z 0xF8) (Z.land z 0x07) = z.
Proof.
  intros Hz. rewrite <- Z.land_lor_distr_r. change (Z.lor 0xF8 0x07) with (Z.ones 8).
  rewrite Z.land_ones by lia. apply Z.mod_small. change (2 ^ 8) with 256. lia.
Qed.

Lemma land3_testbit (x y : Z) :
  Z.testbit x 0 = Z.testbit y 0 -> Z.testbit x 1 = Z.testbit y 1 ->
  Z.land x 3 = Z.land y 3.
Proof.
  intros H0 H1. apply Z.bits_inj'. intros n Hn. rewrite !Z.land_spec.
  assert (n = 0 \/ n = 1 \/ 2 <= n) as [-> | [-> | H]] by lia.
  - rewrite H0. reflexivity.
  - rewrite H1. reflexivity.
  - change 3 with (Z.ones 2). rewrite Z.ones_spec_high by lia.
    rewrite !andb_false_r. reflexivity.
Qed.

Lemma STAT_mode_bits_set (stat : Z) (mode : Mode) :
  Z.land (u8 (Z.lor (Z.land stat 0xFC) (Mode_to_u8 mode))) 3 = Mode_to_u8 mode.
Proof.
  transitivity (Z.land (Mode_to_u8 mode) 3); [| destruct mode; reflexivity].
  apply land3_testbit; rewrite testbit_u8_low, Z.lor_spec, Z.land_spec by lia;
    destruct mode; cbn; rewrite ?andb_false_r; reflexivity.
Qed.

Lemma STAT_mode_bits_lyc_set (stat : Z) :
  Z.land (u8 (Z.lor stat STAT_LYC_EQUAL)) 3 = Z.land stat 3.
Proof.
  apply land3_testbit; rewrite testbit_u8_low, Z.lor_spec by lia; cbn;
    apply orb_false_r.
Qed.

Lemma STAT_mode_bits_lyc_clear (stat : Z) :
  Z.land (u8 (Z.land stat (Z.lnot STAT_LYC_EQUAL))) 3 = Z.land stat 3.
Proof.
  apply land3_testbit; rewrite testbit_u8_low, Z.land_spec by lia; cbn;
    apply andb_true_r.
Qed.

Lemma Memory_Read_IF (b : Bus) : Bus_wired b -> Memory_Read b 0xFF0F = Some (Bus_IF b).
Proof.
  intros Hw. rewrite Memory_Read_IO by (unfold IO_START, IO_END; done || lia). reflexivity.
Qed.

Lemma Memory_RequestInterrupt_sized (m : Memory) (bit : Z) :
  Memory_sized m -> Memory_sized (Memory_RequestInterrupt m bit).
Proof.
  intros (S1 & S2 & S3 & S4 & S5).
  repeat split; cbn; rewrite ?array_set_length; assumption.
Qed.

Lemma Memory_RequestInterrupt_IF (m : Memory) (bit : Z) :
  Memory_sized m ->
  array_get (m_io (Memory_RequestInterrupt m bit)) 0x0F
  = u8 (Z.lor (array_get (m_io m) 0x0F) bit).
Proof.
  intros (S1 & S2 & S3 & S4 & S5). cbn [Memory_RequestInterrupt m_io set_m_io].
  apply array_get_set_eq. rewrite S5. unfold IO_SIZE. lia.
Qed.

Lemma PPU_raise_IF_exact (mask : Z) (b : Bus) :
  Bus_wired b ->
  PPU_raise_IF mask b = Some (set_memory (Memory_RequestInterrupt (memory b) mask) b).
Proof.
  intros Hw. unfold PPU_raise_IF.
  rewrite Memory_Read_IO by (unfold IO_START, IO_END; done || lia).
  rewrite Memory_Write_IO by (unfold IO_START, IO_END; done || lia).
  reflexivity.
Qed.

Lemma STAT_source_bit (stat m k : Z) :
  0 <= m <= 3 -> 2 <= k < 8 ->
  nonzero (Z.land (u8 (Z.lor (Z.land stat 0xFC) m)) (Z.shiftl 1 k)) = Z.testbit stat k.
Proof.
  intros Hm Hk. rewrite nonzero_land_bit by lia.
  rewrite testbit_u8_low, Z.lor_spec, Z.land_spec by lia.
  assert (Hm0 : Z.testbit m k = false).
  { assert (m = 0 \/ m = 1 \/ m = 2 \/ m = 3) as [-> | [-> | [-> | ->]]] by lia;
      [apply Z.bits_0 | | |];
      assert (k = 2 \/ k = 3 \/ k = 4 \/ k = 5 \/ k = 6 \/ k = 7)
        as [-> | [-> | [-> | [-> | [-> | ->]]]]] by lia; reflexivity. }
  assert (Hc : Z.testbit 0xFC k = true).
  { assert (k = 2 \/ k = 3 \/ k = 4 \/ k = 5 \/ k = 6 \/ k = 7)
      as [-> | [-> | [-> | [-> | [-> | ->]]]]] by lia; reflexivity. }
  rewrite Hm0, Hc, andb_true_r, orb_false_r. reflexivity.
Qed.

Lemma Mode_to_u8_range (mode : Mode) : 0 <= Mode_to_u8 mode <= 3.
Proof. destruct mode; cbn; lia. Qed.

Lemma PPU_SetMode_exact (mode : Mode) (b : Bus) :
  Bus_wired b ->
  PPU_SetMode mode b
  = Some (mkBus
            (if STAT_interrupt_selected mode (m_stat (ppu b))
             then Memory_RequestInterrupt (memory b) 0x02 else memory b)
            (set_m_stat (u8 (Z.lor (Z.land (m_stat (ppu b)) 0xFC) (Mode_to_u8 mode)))
               (set_m_mode mode (ppu b)))
            (timer b)).
Proof.
  intros Hw. unfold PPU_SetMode.
  rewrite Memory_Write_STAT by exact Hw.
  set (s := u8 (Z.lor (Z.land (m_stat (ppu b)) 0xFC) (Mode_to_u8 mode))).
  assert (Es : Z.lor (Z.land s 0xF8) (Z.land s 0x07) = s)
    by (apply STAT_write_byte, u8_byte).
  match goal with |- context [if _ then PPU_raise_IF _ ?x else _] => set (b1 := x) end.
  assert (Hb1 : b1 = mkBus (memory b) (set_m_stat s (set_m_mode mode (ppu b))) (timer b)).
  { subst b1. unfold set_ppu_of, set_ppu. cbn [ppu memory timer m_stat set_m_stat set_m_mode].
    fold s. rewrite Es. reflexivity. }
  clearbody b1. subst b1.
  rewrite PPU_raise_IF_exact by exact Hw.
  cbn [ppu memory timer m_stat set_m_stat set_memory].
  pose proof (Mode_to_u8_range mode) as Hm.
  assert (H3 : nonzero (Z.land s STAT_HBLANK_INT) = Z.testbit (m_stat (ppu b)) 3)
    by (apply (STAT_source_bit _ _ 3); lia).
  assert (H4 : nonzero (Z.land s STAT_VBLANK_INT) = Z.testbit (m_stat (ppu b)) 4)
    by (apply (STAT_source_bit _ _ 4); lia).
  assert (H5 : nonzero (Z.land s STAT_OAM_INT) = Z.testbit (m_stat (ppu b)) 5)
    by (apply (STAT_source_bit _ _ 5); lia).
  destruct mode; cbn [STAT_interrupt_selected]; rewrite ?H3, ?H4, ?H5;
    match goal with
    | |- context [if ?c then _ else _] => destruct c; reflexivity
    | _ => reflexivity
    end.
Qed.

Lemma STAT_LYC_source_bit (stat : Z) :
  nonzero (Z.land (u8 (Z.lor stat STAT_LYC_EQUAL)) STAT_LYC_INT) = Z.testbit stat 6.
Proof.
  change STAT_LYC_INT with (Z.shiftl 1 6). rewrite nonzero_land_bit by lia.
  rewrite testbit_u8_low, Z.lor_spec by lia. apply orb_false_r.
Qed.

Lemma PPU_UpdateStatRegister_exact (b : Bus) :
  Bus_wired b ->
  PPU_UpdateStatRegister b
  = Some (mkBus
            (if (m_scanline (ppu b) =? m_lyc (ppu b)) && Z.testbit (m_stat (ppu b)) 6
             then Memory_RequestInterrupt (memory b) 0x02 else memory b)
            (set_m_stat
               (if m_scanline (ppu b) =? m_lyc (ppu b)
                then u8 (Z.lor (m_stat (ppu b)) STAT_LYC_EQUAL)
                else u8 (Z.land (m_stat (ppu b)) (Z.lnot STAT_LYC_EQUAL)))
               (ppu b))
            (timer b)).
Proof.
  intros Hw. unfold PPU_UpdateStatRegister.
  destruct (m_scanline (ppu b) =? m_lyc (ppu b)); cbn [andb].
  - set (s := u8 (Z.lor (m_stat (ppu b)) STAT_LYC_EQUAL)).
    assert (Es : Z.lor (Z.land s 0xF8) (Z.land s 0x07) = s)
      by (apply STAT_write_byte, u8_byte).
    cbn [ppu set_ppu_of set_ppu m_stat set_m_stat]. fold s.
    unfold s at 1. rewrite STAT_LYC_source_bit. fold s.
    destruct (Z.testbit (m_stat (ppu b)) 6).
    + rewrite PPU_raise_IF_exact by exact Hw. cbn [mbind option_bind].
      rewrite Memory_Write_STAT by exact Hw.
      unfold set_ppu_of, set_ppu, set_memory.
      cbn [ppu memory timer m_stat set_m_stat]. fold s. rewrite Es.
      destruct (ppu b); reflexivity.
    + cbn [mbind option_bind]. rewrite Memory_Write_STAT by exact Hw.
      unfold set_ppu_of, set_ppu.
      cbn [ppu memory timer m_stat set_m_stat]. fold s. rewrite Es.
      destruct (ppu b); reflexivity.
  - cbn [mbind option_bind].
    set (s := u8 (Z.land (m_stat (ppu b)) (Z.lnot STAT_LYC_EQUAL))).
    assert (Es : Z.lor (Z.land s 0xF8) (Z.land s 0x07) = s)
      by (apply STAT_write_byte, u8_byte).
    rewrite Memory_Write_STAT by exact Hw.
    unfold set_ppu_of, set_ppu.
    cbn [ppu memory timer m_stat set_m_stat]. fold s. rewrite Es.
    destruct (ppu b); reflexivity.
Qed.

Lemma Bus_wired_request (b : Bus) (c : bool) (bit : Z) (p : PPU) (t : Timer) :
  Bus_wired b ->
  Bus_wired (mkBus (if c then Memory_RequestInterrupt (memory b) bit else memory b) p t).
Proof. intros Hw. destruct c; exact Hw. Qed.

Lemma Memory_sized_request (m : Memory) (c : bool) (bit : Z) :
  Memory_sized m -> Memory_sized (if c then Memory_RequestInterrupt m bit else m).
Proof. intros Hs. destruct c; [apply Memory_RequestInterrupt_sized |]; exact Hs. Qed.

Lemma Bus_IF_request (m : Memory) (c : bool) (bit : Z) :
  Memory_sized m ->
  array_get (m_io (if c then Memory_RequestInterrupt m bit else m)) 0x0F
  = if c then u8 (Z.lor (array_get (m_io m) 0x0F) bit) else array_get (m_io m) 0x0F.
Proof. intros Hs. destruct c; [apply Memory_RequestInterrupt_IF; exact Hs | reflexivity]. Qed.

Lemma PPU_draws_only_refl b : PPU_draws_only b b.
Proof. by repeat split. Qed.

Lemma PPU_draws_only_trans b1 b2 b3 :
  PPU_draws_only b1 b2 -> PPU_draws_only b2 b3 -> PPU_draws_only b1 b3.
Proof.
  intros (A1 & A2 & A3 & A4 & A5 & A6 & A7 & A8) (B1 & B2 & B3 & B4 & B5 & B6 & B7 & B8).
  repeat split; congruence.
Qed.

Lemma PPU_ScanOAM_loop_draws oam h indices p :
  let p' := PPU_ScanOAM_loop oam h indices p in
  m_mode p' = m_mode p /\ m_stat p' = m_stat p /\ m_frame_ready p' = m_frame_ready p
  /\ m_lyc p' = m_lyc p /\ m_scanline p' = m_scanline p
  /\ m_cycle_counter p' = m_cycle_counter p.
Proof.
  revert p. induction indices as [| i rest IH]; intros p; [done |].
  cbn [PPU_ScanOAM_loop]. destruct (m_sprite_count p <? 10); [| done].
  specialize (IH (PPU_ScanOAM_body oam h i p)). cbn zeta in IH.
  destruct IH as (-> & -> & -> & -> & -> & ->).
  unfold PPU_ScanOAM_body.
  match goal with |- context [if ?c then _ else _] => destruct c end; done.
Qed.

Lemma PPU_ScanOAM_draws (b : Bus) : PPU_draws_only b (PPU_ScanOAM b).
Proof.
  unfold PPU_ScanOAM, PPU_draws_only. cbn [ppu set_ppu memory timer].
  match goal with |- context [PPU_ScanOAM_loop ?o ?h ?i ?p] =>
    destruct (PPU_ScanOAM_loop_draws o h i p) as (-> & -> & -> & -> & -> & ->) end.
  done.
Qed.

Lemma PPU_draws_layer (c : bool) (f : Bus -> Bus) (b : Bus) :
  PPU_draws_only b (f b) -> PPU_draws_only b (if c then f b else b).
Proof. intros H. destruct c; [exact H | apply PPU_draws_only_refl]. Qed.

Lemma PPU_RenderBackground_draws (l : Z) (b : Bus) :
  PPU_draws_only b (PPU_RenderBackground l b).
Proof. by repeat split. Qed.

Lemma PPU_RenderWindow_draws (l : Z) (b : Bus) : PPU_draws_only b (PPU_RenderWindow l b).
Proof.
  unfold PPU_RenderWindow. destruct (l <? m_wy (ppu b));
    [apply PPU_draws_only_refl | by repeat split].
Qed.

Lemma PPU_RenderSprites_draws (l : Z) (b : Bus) : PPU_draws_only b (PPU_RenderSprites l b).
Proof.
  unfold PPU_RenderSprites. destruct (m_sprite_count (ppu b) =? 0);
    [apply PPU_draws_only_refl | by repeat split].
Qed.

Lemma PPU_RenderScanline_draws (b : Bus) : PPU_draws_only b (PPU_RenderScanline b).
Proof.
  unfold PPU_RenderScanline.
  destruct (SCREEN_HEIGHT <=? m_scanline (ppu b)); [apply PPU_draws_only_refl |].
  cbv zeta.
  set (b1 := if nonzero (Z.land (m_lcdc (ppu b)) LCDC_BG_ENABLE)
             then PPU_RenderBackground (m_scanline (ppu b)) b else b).
  assert (D1 : PPU_draws_only b b1)
    by (apply PPU_draws_layer, PPU_RenderBackground_draws).
  set (b2 := if nonzero (Z.land (m_lcdc (ppu b1)) LCDC_WIN_ENABLE)
             then PPU_RenderWindow (m_scanline (ppu b1)) b1 else b1).
  assert (D2 : PPU_draws_only b1 b2)
    by (apply PPU_draws_layer, PPU_RenderWindow_draws).
  assert (D3 : PPU_draws_only b2
                 (if nonzero (Z.land (m_lcdc (ppu b2)) LCDC_OBJ_ENABLE)
                  then PPU_RenderSprites (m_scanline (ppu b2)) b2 else b2))
    by (apply PPU_draws_layer, PPU_RenderSprites_draws).
  eapply PPU_draws_only_trans; [exact D1 |].
  eapply PPU_draws_only_trans; [exact D2 | exact D3].
Qed.

Lemma PPU_status_step_refl (b : Bus) : Bus_wired b -> PPU_status_step b b.
Proof. intros Hw. split; [exact Hw |]. split; [done |]. split; left; done. Qed.

Lemma PPU_status_step_trans (b1 b2 b3 : Bus) :
  PPU_status_step b1 b2 -> PPU_status_step b2 b3 -> PPU_status_step b1 b3.
Proof.
  intros (W2 & T2 & F2 & S2) (W3 & T3 & F3 & S3).
  split; [exact W3 |]. split; [congruence |]. split.
  - destruct F3 as [F3 | F3]; [| right; exact F3].
    destruct F2 as [F2 | F2]; [left | right]; congruence.
  - destruct S3 as [[M3 B3] | S3]; [| right; exact S3].
    destruct S2 as [[M2 B2] | S2]; [left; split; congruence |].
    right. unfold PPU_stat_shows_mode in *. congruence.
Qed.

Lemma PPU_status_step_same (b b' : Bus) :
  Bus_wired b' -> timer b' = timer b ->
  m_frame_ready (ppu b') = m_frame_ready (ppu b) \/ m_frame_ready (ppu b') = true ->
  m_mode (ppu b') = m_mode (ppu b) ->
  Z.land (m_stat (ppu b')) STAT_MODE_FLAG = Z.land (m_stat (ppu b)) STAT_MODE_FLAG ->
  PPU_status_step b b'.
Proof. intros. split; [assumption |]. split; [assumption |]. split; [assumption |]. by left. Qed.

Lemma PPU_draws_status (b b' : Bus) :
  Bus_wired b -> PPU_draws_only b b' -> PPU_status_step b b'.
Proof.
  intros Hw (A1 & A2 & A3 & A4 & A5 & A6 & A7 & A8).
  apply PPU_status_step_same; try done.
  - unfold Bus_wired in *. rewrite A1. exact Hw.
  - by left.
  - by rewrite A4.
Qed.

Lemma PPU_SetMode_status (mode : Mode) (b : Bus) :
  Bus_wired b ->
  exists b', PPU_SetMode mode b = Some b' /\ PPU_status_step b b'
    /\ m_mode (ppu b') = mode /\ PPU_stat_shows_mode b'.
Proof.
  intros Hw. rewrite PPU_SetMode_exact by exact Hw. eexists. split; [reflexivity |].
  match goal with |- PPU_status_step _ ?x /\ _ => assert (Hs : PPU_stat_shows_mode x) end.
  { unfold PPU_stat_shows_mode. cbn [ppu m_stat m_mode set_m_stat set_m_mode].
    apply STAT_mode_bits_set. }
  split; [| split; [reflexivity | exact Hs]].
  split; [apply (Bus_wired_request b); exact Hw |]. split; [reflexivity |].
  split; [left; reflexivity | right; exact Hs].
Qed.

Lemma PPU_UpdateStatRegister_status (b : Bus) :
  Bus_wired b ->
  exists b', PPU_UpdateStatRegister b = Some b' /\ PPU_status_step b b'
    /\ m_scanline (ppu b') = m_scanline (ppu b).
Proof.
  intros Hw. rewrite PPU_UpdateStatRegister_exact by exact Hw.
  eexists. split; [reflexivity |]. split; [| reflexivity].
  apply PPU_status_step_same;
    [apply (Bus_wired_request b); exact Hw | reflexivity | left; reflexivity | reflexivity |].
  cbn [ppu m_stat set_m_stat]. unfold STAT_MODE_FLAG.
  destruct (m_scanline (ppu b) =? m_lyc (ppu b));
    [apply STAT_mode_bits_lyc_set | apply STAT_mode_bits_lyc_clear].
Qed.

Lemma PPU_raise_IF_status (mask : Z) (b : Bus) :
  Bus_wired b -> exists b', PPU_raise_IF mask b = Some b' /\ PPU_status_step b b'.
Proof.
  intros Hw. rewrite PPU_raise_IF_exact by exact Hw. eexists. split; [reflexivity |].
  apply PPU_status_step_same;
    [exact Hw | reflexivity | left; reflexivity | reflexivity | reflexivity].
Qed.

Lemma PPU_set_field_status (f : PPU -> PPU) (b : Bus) :
  Bus_wired b ->
  (forall p, m_mode (f p) = m_mode p /\ m_stat (f p) = m_stat p
             /\ (m_frame_ready (f p) = m_frame_ready p \/ m_frame_ready (f p) = true)) ->
  PPU_status_step b (set_ppu_of f b).
Proof.
  intros Hw Hf. destruct (Hf (ppu b)) as (A & B & C).
  apply PPU_status_step_same; cbn [ppu set_ppu_of set_ppu timer]; try done.
  by rewrite B.
Qed.

Lemma PPU_status_then (b b0 : Bus) (k : Bus -> option Bus) :
  PPU_status_step b b0 ->
  (Bus_wired b0 -> exists b', k b0 = Some b' /\ PPU_status_step b0 b') ->
  exists b', k b0 = Some b' /\ PPU_status_step b b'.
Proof.
  intros H0 Hk. destruct (Hk (proj1 H0)) as (b' & E & H1).
  exists b'. split; [exact E | eapply PPU_status_step_trans; eassumption].
Qed.

Lemma PPU_set_counter_status (f : Z -> Z) (b : Bus) :
  Bus_wired b ->
  PPU_status_step b (set_ppu_of (fun p => set_m_cycle_counter (f (m_cycle_counter p)) p) b).
Proof. intros Hw. apply PPU_set_field_status; [exact Hw |]. intros p. by repeat split; try left. Qed.

Lemma PPU_line_advance_status (b : Bus) :
  Bus_wired b ->
  let b1 := set_ppu_of (fun p => set_m_scanline (u8 (m_scanline p + 1)) p) b in
  Memory_Write b1 0xFF44 (m_scanline (ppu b1)) = b1 /\ PPU_status_step b b1.
Proof.
  intros Hw b1. assert (Hw1 : Bus_wired b1) by exact Hw.
  split; [apply Memory_Write_LY; exact Hw1 |].
  apply PPU_set_field_status; [exact Hw |]. intros p. by repeat split; try left.
Qed.

Lemma PPU_Step_status_step (cycles : Z) (b : Bus) :
  Bus_wired b -> exists b', PPU_Step cycles b = Some b' /\ PPU_status_step b b'.
Proof.
  intros Hw. unfold PPU_Step.
  destruct (Z.land (m_lcdc (ppu b)) LCDC_LCD_ENABLE =? 0).
  { exists b. split; [reflexivity | apply PPU_status_step_refl; exact Hw]. }
  cbv zeta.
  pose proof (PPU_set_counter_status (fun c => u32 (c + cycles)) b Hw) as S0.
  cbv beta in S0.
  set (b0 := set_ppu_of (fun p => set_m_cycle_counter (u32 (m_cycle_counter p + cycles)) p) b)
    in *.
  clearbody b0.
  assert (Hstay : exists b', Some b0 = Some b' /\ PPU_status_step b b')
    by (exists b0; split; [reflexivity | exact S0]).
  destruct (m_mode (ppu b0)).
  - (* HBLANK *)
    destruct (HBLANK_CYCLES <=? m_cycle_counter (ppu b0)); [| exact Hstay].
    pose proof (PPU_set_counter_status (fun c => u32 (c - HBLANK_CYCLES)) b0 (proj1 S0)) as S1.
    cbv beta in S1.
    set (b1 := set_ppu_of
                 (fun p => set_m_cycle_counter (u32 (m_cycle_counter p - HBLANK_CYCLES)) p) b0)
      in *.
    clearbody b1.
    destruct (PPU_line_advance_status b1 (proj1 S1)) as [E2 S2]. cbv zeta in E2, S2.
    rewrite E2.
    set (b2 := set_ppu_of (fun p => set_m_scanline (u8 (m_scanline p + 1)) p) b1) in *.
    clearbody b2.
    destruct (PPU_UpdateStatRegister_status b2 (proj1 S2)) as (b3 & E3 & S3 & _).
    rewrite E3. cbn [mbind option_bind].
    assert (S03 : PPU_status_step b b3)
      by (eapply PPU_status_step_trans; [exact S0 |];
          eapply PPU_status_step_trans; [exact S1 |];
          eapply PPU_status_step_trans; [exact S2 | exact S3]).
    destruct (SCREEN_HEIGHT <=? m_scanline (ppu b3)).
    + destruct (PPU_SetMode_status VBLANK b3 (proj1 S3)) as (b4 & E4 & S4 & _).
      rewrite E4. cbn [mbind option_bind].
      assert (S5 : PPU_status_step b4 (set_ppu_of (set_m_frame_ready true) b4)).
      { apply PPU_set_field_status; [exact (proj1 S4) |]. intros p. by repeat split; try right. }
      apply (PPU_status_then b (set_ppu_of (set_m_frame_ready true) b4) (PPU_raise_IF 0x01)).
      * eapply PPU_status_step_trans; [exact S03 |].
        eapply PPU_status_step_trans; [exact S4 | exact S5].
      * intros W. apply PPU_raise_IF_status. exact W.
    + apply (PPU_status_then b b3 (PPU_SetMode OAM_SCAN) S03).
      intros W. destruct (PPU_SetMode_status OAM_SCAN b3 W) as (b4 & E4 & S4 & _).
      exists b4. split; assumption.
  - (* VBLANK *)
    destruct (CYCLES_PER_SCANLINE <=? m_cycle_counter (ppu b0)); [| exact Hstay].
    pose proof (PPU_set_counter_status (fun c => u32 (c - CYCLES_PER_SCANLINE)) b0 (proj1 S0))
      as S1.
    cbv beta in S1.
    set (b1 := set_ppu_of
                 (fun p => set_m_cycle_counter (u32 (m_cycle_counter p - CYCLES_PER_SCANLINE)) p)
                 b0) in *.
    clearbody b1.
    destruct (PPU_line_advance_status b1 (proj1 S1)) as [E2 S2]. cbv zeta in E2, S2.
    rewrite E2.
    set (b2 := set_ppu_of (fun p => set_m_scanline (u8 (m_scanline p + 1)) p) b1) in *.
    clearbody b2.
    destruct (PPU_UpdateStatRegister_status b2 (proj1 S2)) as (b3 & E3 & S3 & _).
    rewrite E3. cbn [mbind option_bind].
    assert (S03 : PPU_status_step b b3)
      by (eapply PPU_status_step_trans; [exact S0 |];
          eapply PPU_status_step_trans; [exact S1 |];
          eapply PPU_status_step_trans; [exact S2 | exact S3]).
    destruct (SCANLINES_PER_FRAME <=? m_scanline (ppu b3)).
    + assert (S4 : PPU_status_step b3 (set_ppu_of (set_m_scanline 0) b3)).
      { apply PPU_set_field_status; [exact (proj1 S3) |]. intros p. by repeat split; try left. }
      rewrite Memory_Write_LY by exact (proj1 S4).
      apply (PPU_status_then b (set_ppu_of (set_m_scanline 0) b3) (PPU_SetMode OAM_SCAN)).
      * eapply PPU_status_step_trans; [exact S03 | exact S4].
      * intros W. destruct (PPU_SetMode_status OAM_SCAN _ W) as (b5 & E5 & S5 & _).
        exists b5. split; assumption.
    + exists b3. split; [reflexivity | exact S03].
  - (* OAM_SCAN *)
    destruct (OAM_SCAN_CYCLES <=? m_cycle_counter (ppu b0)); [| exact Hstay].
    pose proof (PPU_set_counter_status (fun c => u32 (c - OAM_SCAN_CYCLES)) b0 (proj1 S0)) as S1.
    cbv beta in S1.
    set (b1 := set_ppu_of
                 (fun p => set_m_cycle_counter (u32 (m_cycle_counter p - OAM_SCAN_CYCLES)) p) b0)
      in *.
    clearbody b1.
    pose proof (PPU_draws_status b1 (PPU_ScanOAM b1) (proj1 S1) (PPU_ScanOAM_draws b1)) as S2.
    apply (PPU_status_then b (PPU_ScanOAM b1) (PPU_SetMode DRAWING)).
    + eapply PPU_status_step_trans; [exact S0 |].
      eapply PPU_status_step_trans; [exact S1 | exact S2].
    + intros W. destruct (PPU_SetMode_status DRAWING _ W) as (b5 & E5 & S5 & _).
      exists b5. split; assumption.
  - (* DRAWING *)
    destruct (DRAWING_CYCLES <=? m_cycle_counter (ppu b0)); [| exact Hstay].
    pose proof (PPU_set_counter_status (fun c => u32 (c - DRAWING_CYCLES)) b0 (proj1 S0)) as S1.
    cbv beta in S1.
    set (b1 := set_ppu_of
                 (fun p => set_m_cycle_counter (u32 (m_cycle_counter p - DRAWING_CYCLES)) p) b0)
      in *.
    clearbody b1.
    pose proof (PPU_draws_status b1 (PPU_RenderScanline b1) (proj1 S1)
                  (PPU_RenderScanline_draws b1)) as S2.
    apply (PPU_status_then b (PPU_RenderScanline b1) (PPU_SetMode HBLANK)).
    + eapply PPU_status_step_trans; [exact S0 |].
      eapply PPU_status_step_trans; [exact S1 | exact S2].
    + intros W. destruct (PPU_SetMode_status HBLANK _ W) as (b5 & E5 & S5 & _).
      exists b5. split; assumption.
Qed.

(** X17: on a constructed bus [PPU::Step] never faults, leaves the bus
    constructed and the timer untouched, never clears the frame-ready flag,
    keeps STAT bits 0-1 equal to the mode once they are, makes them equal to
    the mode whenever it changes the mode, and STAT is read through 0xFF41. *)
Theorem PPU_Step_keeps_STAT_mode (cycles : Z) (b : Bus) :
  Bus_wired b ->
  exists b', PPU_Step cycles b = Some b'
    /\ Bus_wired b'
    /\ timer b' = timer b
    /\ (m_frame_ready (ppu b) = true -> m_frame_ready (ppu b') = true)
    /\ (PPU_stat_shows_mode b -> PPU_stat_shows_mode b')
    /\ (m_mode (ppu b') <> m_mode (ppu b) -> PPU_stat_shows_mode b')
    /\ Memory_Read b' 0xFF41 = Some (m_stat (ppu b')).
Proof.
  intros Hw. destruct (PPU_Step_status_step cycles b Hw) as (b' & E & W & T & F & S).
  exists b'. split; [exact E |]. split; [exact W |]. split; [exact T |].
  split; [| split; [| split]].
  - intros Hf. destruct F as [F | F]; congruence.
  - intros Hs. destruct S as [[M B] | S]; [| exact S].
    unfold PPU_stat_shows_mode in *. congruence.
  - intros Hm. destruct S as [[M B] | S]; [contradiction | exact S].
  - apply Memory_Read_STAT. exact W.
Qed.

Lemma PPU_Step_keeps_STAT_mode_witness :
  exists b', PPU_Step 80 (bus GameBoy_new) = Some b'
    /\ Bus_wired b' /\ timer b' = timer (bus GameBoy_new).
Proof.
  destruct (PPU_Step_keeps_STAT_mode 80 (bus GameBoy_new)) as (b' & E & W & T & _).
  - repeat split; vm_compute; reflexivity.
  - exists b'. split; [exact E |]. split; [exact W | exact T].
Defined.

(** X18: a step that ends HBLANK on line 143 enters VBLANK: LY becomes 144
    (also as read through 0xFF44), the frame-ready flag is set, 204 cycles are
    taken off the counter, bit 0 of IF (V-blank) is set, and bit 1 of IF
    (STAT) is set as well when STAT bit 4 is set. *)
Theorem PPU_Step_enters_VBlank (cycles : Z) (b : Bus) :
  Bus_wired b -> Memory_sized (memory b) -> PPU_lcd_on b ->
  m_mode (ppu b) = HBLANK -> m_scanline (ppu b) = 143 ->
  HBLANK_CYCLES <= u32 (m_cycle_counter (ppu b) + cycles) ->
  exists b', PPU_Step cycles b = Some b'
    /\ m_mode (ppu b') = VBLANK
    /\ m_scanline (ppu b') = 144
    /\ m_frame_ready (ppu b') = true
    /\ m_cycle_counter (ppu b') = u32 (u32 (m_cycle_counter (ppu b) + cycles) - HBLANK_CYCLES)
    /\ Memory_Read b' 0xFF44 = Some 144
    /\ exists flags, Memory_Read b' 0xFF0F = Some flags
         /\ Z.testbit flags 0 = true
         /\ (Z.testbit (m_stat (ppu b)) 4 = true -> Z.testbit flags 1 = true).
Proof.
  intros Hw Hs Hon Hmode Hline Hcnt. unfold PPU_lcd_on in Hon.
  unfold PPU_Step. rewrite (proj2 (Z.eqb_neq _ _) Hon). cbv zeta.
  cbn [ppu set_ppu_of set_ppu m_mode set_m_cycle_counter m_cycle_counter].
  rewrite Hmode. rewrite (proj2 (Z.leb_le _ _) Hcnt).
  match goal with |- context [Memory_Write ?x 0xFF44 _] => set (b2 := x) end.
  assert (Hw2 : Bus_wired b2) by exact Hw.
  assert (Hl2 : m_scanline (ppu b2) = 144)
    by (subst b2; cbn [ppu set_ppu_of set_ppu m_scanline set_m_scanline set_m_cycle_counter];
        rewrite Hline; reflexivity).
  assert (Hm2 : memory b2 = memory b) by reflexivity.
  assert (Hst2 : m_stat (ppu b2) = m_stat (ppu b)) by reflexivity.
  assert (Hc2 : m_cycle_counter (ppu b2)
                = u32 (u32 (m_cycle_counter (ppu b) + cycles) - HBLANK_CYCLES)) by reflexivity.
  clearbody b2.
  rewrite Memory_Write_LY by exact Hw2.
  rewrite PPU_UpdateStatRegister_exact by exact Hw2. cbn [mbind option_bind].
  cbn [ppu memory timer m_scanline set_m_stat].
  rewrite Hl2. change (SCREEN_HEIGHT <=? 144) with true. cbv iota.
  set (c3 := (144 =? m_lyc (ppu b2)) && Z.testbit (m_stat (ppu b2)) 6).
  set (s3 := if 144 =? m_lyc (ppu b2) then _ else _).
  assert (Hw3 : Bus_wired (mkBus (if c3 then Memory_RequestInterrupt (memory b2) 2 else memory b2)
                             (set_m_stat s3 (ppu b2)) (timer b2)))
    by (apply (Bus_wired_request b2); exact Hw2).
  rewrite PPU_SetMode_exact by exact Hw3. cbn [mbind option_bind].
  cbn [ppu memory timer m_stat set_m_stat].
  set (c4 := STAT_interrupt_selected VBLANK s3).
  match goal with |- context [PPU_raise_IF 1 ?x] => set (b5 := x) end.
  assert (Hw5 : Bus_wired b5).
  { subst b5. unfold set_ppu_of, set_ppu. cbn [memory ppu timer].
    destruct c4, c3; exact Hw2. }
  rewrite PPU_raise_IF_exact by exact Hw5.
  eexists. split; [reflexivity |].
  assert (Hw6 : Bus_wired (set_memory (Memory_RequestInterrupt (memory b5) 1) b5)) by exact Hw5.
  split; [reflexivity |]. split; [exact Hl2 |]. split; [reflexivity |].
  split; [exact Hc2 |].
  split; [rewrite Memory_Read_LY by exact Hw6; cbn; rewrite Hl2; reflexivity |].
  rewrite Memory_Read_IF by exact Hw6. eexists. split; [reflexivity |].
  unfold Bus_IF. cbn [memory set_memory].
  assert (Hs2 : Memory_sized (memory b2)) by (rewrite Hm2; exact Hs).
  assert (Hs3 : Memory_sized (if c3 then Memory_RequestInterrupt (memory b2) 2 else memory b2))
    by (apply Memory_sized_request; exact Hs2).
  assert (Hs5 : Memory_sized (memory b5)).
  { subst b5. cbn [memory set_ppu_of set_ppu]. apply Memory_sized_request. exact Hs3. }
  rewrite Memory_RequestInterrupt_IF by exact Hs5.
  split.
  - rewrite testbit_u8_low, Z.lor_spec by lia. apply orb_true_r.
  - intros H4. rewrite testbit_u8_low, Z.lor_spec by lia.
    subst b5. cbn [memory set_ppu_of set_ppu].
    rewrite Bus_IF_request by exact Hs3.
    assert (Hc4 : c4 = true).
    { subst c4 s3. cbn [STAT_interrupt_selected]. rewrite Hst2.
      destruct (144 =? m_lyc (ppu b2)).
      - rewrite testbit_u8_low, Z.lor_spec, H4 by lia. reflexivity.
      - rewrite testbit_u8_low, Z.land_spec, H4 by lia. reflexivity. }
    rewrite Hc4. rewrite testbit_u8_low, Z.lor_spec by lia.
    change (Z.testbit 2 1) with true. rewrite orb_true_r. reflexivity.
Qed.

Lemma PPU_Step_enters_VBlank_witness :
  exists b', PPU_Step 204 Bus_at_line_143 = Some b'
    /\ m_mode (ppu b') = VBLANK /\ m_frame_ready (ppu b') = true.
Proof.
  destruct (PPU_Step_enters_VBlank 204 Bus_at_line_143) as (b' & E & M & _ & F & _).
  - repeat split; vm_compute; reflexivity.
  - repeat split; vm_compute; reflexivity.
  - vm_compute. discriminate.
  - reflexivity.
  - reflexivity.
  - vm_compute. discriminate.
  - exists b'. split; [exact E |]. split; [exact M | exact F].
Defined.

(** X19: a step that ends HBLANK on a line before 143 begins the OAM scan
    of the next line: LY is incremented, STAT bit 2 says whether the new LY
    equals LYC, and bit 1 of IF is set exactly when that coincidence holds
    with STAT bit 6 set, or STAT bit 5 (OAM interrupt) is set; otherwise IF
    is unchanged. *)
Theorem PPU_Step_next_line (cycles : Z) (b : Bus) (flags : Z) :
  Bus_wired b -> Memory_sized (memory b) -> PPU_lcd_on b ->
  m_mode (ppu b) = HBLANK -> 0 <= m_scanline (ppu b) < 143 ->
  HBLANK_CYCLES <= u32 (m_cycle_counter (ppu b) + cycles) ->
  Memory_Read b 0xFF0F = Some flags ->
  exists b', PPU_Step cycles b = Some b'
    /\ m_mode (ppu b') = OAM_SCAN
    /\ m_scanline (ppu b') = m_scanline (ppu b) + 1
    /\ m_frame_ready (ppu b') = m_frame_ready (ppu b)
    /\ Z.testbit (m_stat (ppu b')) 2 = (m_scanline (ppu b) + 1 =? m_lyc (ppu b))
    /\ Memory_Read b' 0xFF0F
       = Some (if ((m_scanline (ppu b) + 1 =? m_lyc (ppu b)) && Z.testbit (m_stat (ppu b)) 6)
                  || Z.testbit (m_stat (ppu b)) 5
               then u8 (Z.lor flags 0x02) else flags).
Proof.
  intros Hw Hs Hon Hmode Hline Hcnt Hif. unfold PPU_lcd_on in Hon.
  rewrite Memory_Read_IF in Hif by exact Hw. injection Hif as Hif.
  unfold PPU_Step. rewrite (proj2 (Z.eqb_neq _ _) Hon). cbv zeta.
  cbn [ppu set_ppu_of set_ppu m_mode set_m_cycle_counter m_cycle_counter].
  rewrite Hmode. rewrite (proj2 (Z.leb_le _ _) Hcnt).
  match goal with |- context [Memory_Write ?x 0xFF44 _] => set (b2 := x) end.
  assert (Hw2 : Bus_wired b2) by exact Hw.
  assert (Hl2 : m_scanline (ppu b2) = m_scanline (ppu b) + 1)
    by (subst b2; cbn [ppu set_ppu_of set_ppu m_scanline set_m_scanline set_m_cycle_counter];
        apply u8_small; lia).
  assert (Hm2 : memory b2 = memory b) by reflexivity.
  assert (Hst2 : m_stat (ppu b2) = m_stat (ppu b)) by reflexivity.
  assert (Hlyc2 : m_lyc (ppu b2) = m_lyc (ppu b)) by reflexivity.
  assert (Hfr2 : m_frame_ready (ppu b2) = m_frame_ready (ppu b)) by reflexivity.
  clearbody b2.
  rewrite Memory_Write_LY by exact Hw2.
  rewrite PPU_UpdateStatRegister_exact by exact Hw2. cbn [mbind option_bind].
  cbn [ppu memory timer m_scanline set_m_stat].
  rewrite Hl2, Hlyc2, Hst2, Hm2.
  rewrite (proj2 (Z.leb_gt SCREEN_HEIGHT (m_scanline (ppu b) + 1)))
    by (unfold SCREEN_HEIGHT; lia).
  set (eq := m_scanline (ppu b) + 1 =? m_lyc (ppu b)).
  set (s3 := if eq then _ else _).
  assert (Hw3 : Bus_wired (mkBus (if eq && Z.testbit (m_stat (ppu b)) 6
                                  then Memory_RequestInterrupt (memory b) 2 else memory b)
                             (set_m_stat s3 (ppu b2)) (timer b2)))
    by (apply (Bus_wired_request b); exact Hw).
  rewrite PPU_SetMode_exact by exact Hw3.
  cbn [ppu memory timer m_stat set_m_stat].
  eexists. split; [reflexivity |].
  split; [reflexivity |]. split; [exact Hl2 |]. split; [exact Hfr2 |].
  assert (H5 : STAT_interrupt_selected OAM_SCAN s3 = Z.testbit (m_stat (ppu b)) 5).
  { subst s3. cbn [STAT_interrupt_selected]. destruct eq.
    - rewrite testbit_u8_low, Z.lor_spec by lia. apply orb_false_r.
    - rewrite testbit_u8_low, Z.land_spec by lia. apply andb_true_r. }
  split.
  - cbn [ppu m_stat set_m_stat set_m_mode].
    rewrite testbit_u8_low, Z.lor_spec, Z.land_spec by lia.
    change (Z.testbit (Mode_to_u8 OAM_SCAN) 2) with false.
    change (Z.testbit 252 2) with true. rewrite orb_false_r, andb_true_r.
    subst s3. destruct eq.
    + rewrite testbit_u8_low, Z.lor_spec by lia. apply orb_true_r.
    + rewrite testbit_u8_low, Z.land_spec by lia. apply andb_false_r.
  - match goal with |- Memory_Read ?x _ = _ => assert (Hw4 : Bus_wired x) end.
    { destruct (STAT_interrupt_selected OAM_SCAN s3), (eq && Z.testbit (m_stat (ppu b)) 6);
        exact Hw. }
    rewrite Memory_Read_IF by exact Hw4. f_equal. unfold Bus_IF. cbn [memory].
    rewrite H5. unfold Bus_IF in Hif.
    pose proof (Memory_RequestInterrupt_sized (memory b) 2 Hs) as Hs3.
    destruct (Z.testbit (m_stat (ppu b)) 5), (eq && Z.testbit (m_stat (ppu b)) 6);
      cbn [orb]; rewrite ?Memory_RequestInterrupt_IF by assumption; rewrite ?Hif;
      rewrite ?u8_lor_idem; reflexivity.
Qed.

Lemma PPU_Step_next_line_witness :
  exists b', PPU_Step 204 Bus_in_HBLANK = Some b'
    /\ m_mode (ppu b') = OAM_SCAN /\ m_scanline (ppu b') = 1.
Proof.
  destruct (PPU_Step_next_line 204 Bus_in_HBLANK 0) as (b' & E & M & L & _).
  - repeat split; vm_compute; reflexivity.
  - repeat split; vm_compute; reflexivity.
  - vm_compute. discriminate.
  - reflexivity.
  - vm_compute. split; [discriminate | reflexivity].
  - vm_compute. discriminate.
  - vm_compute. reflexivity.
  - exists b'. split; [exact E |]. split; [exact M | exact L].
Defined.

(** X20: a step that ends a line of the vertical blank increments LY and
    stays in VBLANK up to line 153, after which LY wraps to 0 and the OAM
    scan begins; the frame-ready flag is unchanged, and STAT bit 2 compares
    LYC with the incremented line, which is 154 on the wrap: the coincidence
    with line 0 is not recomputed there. *)
Theorem PPU_Step_VBlank_line (cycles : Z) (b : Bus) :
  Bus_wired b -> PPU_lcd_on b ->
  m_mode (ppu b) = VBLANK -> 144 <= m_scanline (ppu b) <= 153 ->
  CYCLES_PER_SCANLINE <= u32 (m_cycle_counter (ppu b) + cycles) ->
  exists b', PPU_Step cycles b = Some b'
    /\ m_scanline (ppu b') = (if m_scanline (ppu b) <? 153 then m_scanline (ppu b) + 1 else 0)
    /\ m_mode (ppu b') = (if m_scanline (ppu b) <? 153 then VBLANK else OAM_SCAN)
    /\ m_cycle_counter (ppu b')
       = u32 (u32 (m_cycle_counter (ppu b) + cycles) - CYCLES_PER_SCANLINE)
    /\ m_frame_ready (ppu b') = m_frame_ready (ppu b)
    /\ Z.testbit (m_stat (ppu b')) 2 = (m_scanline (ppu b) + 1 =? m_lyc (ppu b))
    /\ Memory_Read b' 0xFF44 = Some (m_scanline (ppu b')).
Proof.
  intros Hw Hon Hmode Hline Hcnt. unfold PPU_lcd_on in Hon.
  unfold PPU_Step. rewrite (proj2 (Z.eqb_neq _ _) Hon). cbv zeta.
  cbn [ppu set_ppu_of set_ppu m_mode set_m_cycle_counter m_cycle_counter].
  rewrite Hmode. rewrite (proj2 (Z.leb_le _ _) Hcnt).
  match goal with |- context [Memory_Write ?x 0xFF44 _] => set (b2 := x) end.
  assert (Hw2 : Bus_wired b2) by exact Hw.
  assert (Hl2 : m_scanline (ppu b2) = m_scanline (ppu b) + 1)
    by (subst b2; cbn [ppu set_ppu_of set_ppu m_scanline set_m_scanline set_m_cycle_counter];
        apply u8_small; lia).
  assert (Hst2 : m_stat (ppu b2) = m_stat (ppu b)) by reflexivity.
  assert (Hlyc2 : m_lyc (ppu b2) = m_lyc (ppu b)) by reflexivity.
  assert (Hfr2 : m_frame_ready (ppu b2) = m_frame_ready (ppu b)) by reflexivity.
  assert (Hmo2 : m_mode (ppu b2) = VBLANK) by exact Hmode.
  assert (Hc2 : m_cycle_counter (ppu b2)
                = u32 (u32 (m_cycle_counter (ppu b) + cycles) - CYCLES_PER_SCANLINE))
    by reflexivity.
  clearbody b2.
  rewrite Memory_Write_LY by exact Hw2.
  rewrite PPU_UpdateStatRegister_exact by exact Hw2. cbn [mbind option_bind].
  cbn [ppu memory timer m_scanline set_m_stat].
  rewrite Hl2, Hlyc2, Hst2.
  set (eq := m_scanline (ppu b) + 1 =? m_lyc (ppu b)).
  set (s3 := if eq then _ else _).
  assert (Hbit : Z.testbit s3 2 = eq).
  { subst s3. destruct eq.
    - rewrite testbit_u8_low, Z.lor_spec by lia. apply orb_true_r.
    - rewrite testbit_u8_low, Z.land_spec by lia. apply andb_false_r. }
  unfold SCANLINES_PER_FRAME.
  destruct (Z.ltb_spec (m_scanline (ppu b)) 153) as [Hlt | Hge].
  - rewrite (proj2 (Z.leb_gt 154 (m_scanline (ppu b) + 1))) by lia.
    eexists. split; [reflexivity |]. cbn [ppu m_scanline m_mode set_m_stat m_cycle_counter
                                          m_frame_ready m_stat].
    split; [exact Hl2 |]. split; [exact Hmo2 |]. split; [exact Hc2 |]. split; [exact Hfr2 |].
    split; [exact Hbit |].
    match goal with |- Memory_Read ?x _ = _ => assert (Hw3 : Bus_wired x) end.
    { apply (Bus_wired_request b2). exact Hw2. }
    rewrite Memory_Read_LY by exact Hw3. reflexivity.
  - rewrite (proj2 (Z.leb_le 154 (m_scanline (ppu b) + 1))) by lia.
    match goal with |- context [Memory_Write ?x 0xFF44 _] => set (b4 := x) end.
    assert (Hw4 : Bus_wired b4).
    { subst b4. unfold set_ppu_of, set_ppu. cbn [memory ppu timer].
      apply (Bus_wired_request b2). exact Hw2. }
    rewrite Memory_Write_LY by exact Hw4.
    rewrite PPU_SetMode_exact by exact Hw4.
    eexists. split; [reflexivity |].
    cbn [ppu m_scanline m_mode set_m_stat set_m_mode m_cycle_counter m_frame_ready m_stat].
    subst b4. cbn [ppu set_ppu_of set_ppu m_scanline set_m_scanline m_cycle_counter
                   m_frame_ready m_stat set_m_stat].
    split; [reflexivity |]. split; [reflexivity |]. split; [exact Hc2 |]. split; [exact Hfr2 |].
    split.
    + rewrite testbit_u8_low, Z.lor_spec, Z.land_spec by lia.
      change (Z.testbit (Mode_to_u8 OAM_SCAN) 2) with false.
      change (Z.testbit 252 2) with true. rewrite orb_false_r, andb_true_r. exact Hbit.
    + match goal with |- Memory_Read ?x _ = _ => assert (Hw5 : Bus_wired x) end.
      { match goal with |- Bus_wired (mkBus (if ?c then _ else _) _ _) => destruct c end;
          exact Hw4. }
      rewrite Memory_Read_LY by exact Hw5. reflexivity.
Qed.

Lemma PPU_Step_VBlank_line_witness :
  exists b', PPU_Step 456 Bus_at_line_153 = Some b'
    /\ m_scanline (ppu b') = 0 /\ m_mode (ppu b') = OAM_SCAN
    /\ Z.testbit (m_stat (ppu b')) 2 = false.
Proof.
  destruct (PPU_Step_VBlank_line 456 Bus_at_line_153) as (b' & E & L & M & _ & _ & S & _).
  - repeat split; vm_compute; reflexivity.
  - vm_compute. discriminate.
  - reflexivity.
  - vm_compute. split; discriminate.
  - vm_compute. discriminate.
  - exists b'. split; [exact E |]. split; [exact L |]. split; [exact M | exact S].
Defined.

(** ** The picture unit: registers *)

Lemma STAT_write_low_bits (v stat : Z) :
  Z.land (Z.lor (Z.land v 0xF8) (Z.land stat 0x07)) 0x07 = Z.land stat 0x07.
Proof.
  rewrite Z.land_lor_distr_l, <- !Z.land_assoc.
  change (Z.land 0xF8 0x07) with 0. change (Z.land 0x07 0x07) with 0x07.
  rewrite Z.land_0_r. reflexivity.
Qed.

Lemma IOWriteHandler_call_PPU_state (h : IOWriteHandler) (b : Bus) (a v : Z) :
  let b' := IOWriteHandler_call h b a v in
  m_mode (ppu b') = m_mode (ppu b)
  /\ m_scanline (ppu b') = m_scanline (ppu b)
  /\ m_cycle_counter (ppu b') = m_cycle_counter (ppu b)
  /\ m_frame_ready (ppu b') = m_frame_ready (ppu b)
  /\ m_framebuffer (ppu b') = m_framebuffer (ppu b)
  /\ Z.land (m_stat (ppu b')) 0x07 = Z.land (m_stat (ppu b)) 0x07.
Proof.
  destruct h; cbn; repeat split; try reflexivity. apply STAT_write_low_bits.
Qed.

(** X21: no [Memory::Write], whatever the address and the value, changes
    the mode of the picture unit, its line, its cycle counter, the
    frame-ready flag, the frame buffer, or the low three bits of STAT. *)
Theorem Memory_Write_keeps_PPU_state (b : Bus) (a v : Z) :
  let b' := Memory_Write b a v in
  m_mode (ppu b') = m_mode (ppu b)
  /\ m_scanline (ppu b') = m_scanline (ppu b)
  /\ m_cycle_counter (ppu b') = m_cycle_counter (ppu b)
  /\ m_frame_ready (ppu b') = m_frame_ready (ppu b)
  /\ m_framebuffer (ppu b') = m_framebuffer (ppu b)
  /\ Z.land (m_stat (ppu b')) 0x07 = Z.land (m_stat (ppu b)) 0x07.
Proof.
  cbv zeta. unfold Memory_Write.
  destruct (default None (m_write_page_table (memory b) !! Z.to_nat (u8 (a / PAGE_SIZE))));
    [by repeat split |].
  repeat match goal with
         | |- context [if ?c then _ else _] => destruct c
         | |- context [match m_mbc ?m with _ => _ end] => destruct (m_mbc m)
         end; try (by repeat split).
  unfold Memory_WriteIO.
  destruct (default None (m_io_write_handlers (memory b) !! Z.to_nat (u16 (a - IO_START))));
    [apply IOWriteHandler_call_PPU_state | by repeat split].
Qed.

(** X22: through the bus of a constructed machine, LCDC, SCY, SCX, LYC,
    BGP, OBP0, OBP1, WY and WX read back the value written, the write
    touching neither memory nor the timer; a write to STAT replaces its upper
    five bits and keeps its low three. *)
Theorem PPU_registers (b : Bus) (a v : Z) :
  Bus_wired b ->
  (a ∈ PPU_plain_registers ->
   Memory_Read (Memory_Write b a v) a = Some v
   /\ memory (Memory_Write b a v) = memory b
   /\ timer (Memory_Write b a v) = timer b)
  /\ Memory_Read (Memory_Write b 0xFF41 v) 0xFF41
     = Some (Z.lor (Z.land v 0xF8) (Z.land (m_stat (ppu b)) 0x07)).
Proof.
  intros Hw. split.
  - intros Ha. unfold PPU_plain_registers in Ha.
    repeat (apply elem_of_cons in Ha; destruct Ha as [-> | Ha]);
      try (by apply elem_of_nil in Ha);
      (rewrite Memory_Write_IO by (unfold IO_START, IO_END; done || lia);
       rewrite Memory_Read_IO; [| exact Hw | unfold IO_START, IO_END; lia];
       repeat split; reflexivity).
  - rewrite Memory_Write_STAT by exact Hw. rewrite Memory_Read_STAT by exact Hw. reflexivity.
Qed.

Lemma PPU_registers_witness :
  Memory_Read (Memory_Write (bus GameBoy_new) 0xFF47 0xE4) 0xFF47 = Some 0xE4.
Proof.
  assert (H := PPU_registers (bus GameBoy_new) 0xFF47 0xE4).
  destruct H as (H & _).
  - repeat split; vm_compute; reflexivity.
  - apply H. unfold PPU_plain_registers.
    do 4 apply list_elem_of_further. apply list_elem_of_here.
Defined.

(** ** The scheduler: distances and due events *)

Section SchedulerEventProofs.

Context {EventCallback Q : Type}.
Context {PQ : PriorityQueue (ScheduledEvent EventCallback) Q}.
Context {Laws : PriorityQueueLaws fire_at_cycle PQ}.

Lemma earliest_fire_nil_iff (l : list (ScheduledEvent EventCallback)) : earliest_fire l = None <-> l = [].
Proof. destruct l; cbn; split; done. Qed.

Lemma earliest_fire_spec (l : list (ScheduledEvent EventCallback)) (m : Z) :
  earliest_fire l = Some m
  <-> (exists e, e ∈ l /\ fire_at_cycle e = m) /\ Forall (fun e => m <= fire_at_cycle e) l.
Proof.
  revert m. induction l as [| e l IH]; intros m.
  - cbn. split; [discriminate |]. intros [(e & He & _) _]. by apply elem_of_nil in He.
  - cbn [earliest_fire foldr]. fold (earliest_fire l).
    destruct (earliest_fire l) as [m' |] eqn:E.
    + destruct (proj1 (IH m') eq_refl) as [(e' & He' & Hm') Hall].
      split.
      * intros [= <-]. split.
        -- destruct (Z.min_spec (fire_at_cycle e) m') as [[_ ->] | [_ ->]].
           ++ exists e. split; [apply list_elem_of_here | reflexivity].
           ++ exists e'. split; [by apply list_elem_of_further | exact Hm'].
        -- constructor; [lia |]. eapply Forall_impl; [exact Hall |]. cbn. intros; lia.
      * intros [(x & Hx & Hxm) Ha]. f_equal.
        apply Forall_cons in Ha as [Hae Hal].
        rewrite Forall_forall in Hal, Hall.
        specialize (Hal e' He'). rewrite Hm' in Hal.
        apply elem_of_cons in Hx as [-> | Hx].
        -- lia.
        -- specialize (Hall x Hx). lia.
    + apply earliest_fire_nil_iff in E. subst l. split.
      * intros [= <-]. split; [exists e; split; [apply list_elem_of_here | reflexivity] |].
        constructor; [lia | constructor].
      * intros [(x & Hx & Hxm) _]. apply list_elem_of_singleton in Hx. subst x. by f_equal.
Qed.

Lemma earliest_fire_perm (l l' : list (ScheduledEvent EventCallback)) : l ≡ₚ l' -> earliest_fire l = earliest_fire l'.
Proof.
  intros Hp. destruct (earliest_fire l) as [m |] eqn:E.
  - symmetry. apply earliest_fire_spec. apply earliest_fire_spec in E as [(e & He & Hm) Hall].
    split; [exists e; split; [by rewrite <- Hp | exact Hm] | by rewrite <- Hp].
  - apply earliest_fire_nil_iff in E. subst l. apply Permutation_nil_l in Hp. by subst l'.
Qed.

Lemma earliest_fire_cons (e : ScheduledEvent EventCallback) (l : list (ScheduledEvent EventCallback)) :
  earliest_fire (e :: l)
  = Some match earliest_fire l with
         | Some m => Z.min (fire_at_cycle e) m
         | None => fire_at_cycle e
         end.
Proof. reflexivity. Qed.

Lemma pq_top_earliest (q : Q) :
  pq_wf q -> pq_empty q = false ->
  exists e, pq_top q = Some e /\ earliest_fire (pq_elements q) = Some (fire_at_cycle e)
            /\ pq_elements q ≡ₚ e :: pq_elements (pq_pop q).
Proof.
  intros Hwf Hne. destruct (pq_top_spec q Hwf Hne) as (e & Htop & Hperm & Hall).
  exists e. split; [exact Htop |]. split; [| exact Hperm].
  apply earliest_fire_spec. split; [| exact Hall].
  exists e. split; [| reflexivity]. rewrite Hperm. apply list_elem_of_here.
Qed.

Lemma pq_empty_false_iff (q : Q) : pq_empty q = false <-> pq_elements q <> [].
Proof.
  rewrite <- not_true_iff_false. rewrite pq_empty_spec. reflexivity.
Qed.

Lemma u64_small (z : Z) : 0 <= z < 2 ^ 64 -> u64 z = z.
Proof. intros H. unfold u64. apply Z.mod_small. exact H. Qed.

Lemma u64_range (z : Z) : 0 <= u64 z < 2 ^ 64.
Proof. unfold u64. apply Z.mod_pos_bound. reflexivity. Qed.

Lemma Scheduler_distance_earliest (s : Scheduler Q) :
  pq_wf (m_event_queue s) -> Scheduler_in_range s ->
  Scheduler_GetCyclesUntilNextEvent s
  = match earliest_fire (pq_elements (m_event_queue s)) with
    | Some m => Z.max 0 (m - m_current_cycle s)
    | None => 0xFFFFFFFFFFFFFFFF
    end.
Proof.
  intros Hwf [Hc Hr]. unfold Scheduler_GetCyclesUntilNextEvent.
  destruct (pq_empty (m_event_queue s)) eqn:Hempty.
  - apply pq_empty_spec in Hempty. rewrite Hempty. reflexivity.
  - destruct (pq_top_earliest _ Hwf Hempty) as (e & -> & -> & Hperm).
    assert (He : 0 <= fire_at_cycle e < 2 ^ 64).
    { rewrite Forall_forall in Hr. apply Hr. rewrite Hperm. apply list_elem_of_here. }
    destruct (Z.leb_spec (fire_at_cycle e) (m_current_cycle s)); [lia |].
    rewrite u64_small by lia. lia.
Qed.

(** X23: over a lawful priority queue holding 64-bit cycle counts,
    [Scheduler::GetCyclesUntilNextEvent] is 0xFFFFFFFFFFFFFFFF when nothing is
    pending, and otherwise the distance from the current cycle to the least
    fire cycle among the pending events, 0 when that event is already due. *)
Theorem Scheduler_GetCyclesUntilNextEvent_earliest (s : Scheduler Q) :
  pq_wf (m_event_queue s) -> Scheduler_in_range s ->
  Scheduler_GetCyclesUntilNextEvent s
  = match earliest_fire (pq_elements (m_event_queue s)) with
    | Some m => Z.max 0 (m - m_current_cycle s)
    | None => 0xFFFFFFFFFFFFFFFF
    end.
Proof. exact (Scheduler_distance_earliest s). Qed.

Lemma Scheduler_Schedule_in_range (type : EventType.t) (cycles : Z) (cb : EventCallback)
    (s : Scheduler Q) :
  pq_wf (m_event_queue s) -> Scheduler_in_range s ->
  pq_wf (m_event_queue (Scheduler_Schedule type cycles cb s))
  /\ Scheduler_in_range (Scheduler_Schedule type cycles cb s).
Proof.
  intros Hwf [Hc Hr]. unfold Scheduler_Schedule. cbn.
  split; [apply pq_push_wf; exact Hwf |]. split; [exact Hc |]. cbn.
  rewrite pq_push_elements. constructor; [apply u64_range | exact Hr].
Qed.

Lemma Scheduler_Schedule_distance (type : EventType.t) (cycles : Z) (cb : EventCallback)
    (s : Scheduler Q) :
  pq_wf (m_event_queue s) -> Scheduler_in_range s ->
  0 <= cycles -> m_current_cycle s + cycles < 2 ^ 64 ->
  let s' := Scheduler_Schedule type cycles cb s in
  pq_elements (m_event_queue s')
    ≡ₚ mkScheduledEvent type (m_current_cycle s + cycles) cb :: pq_elements (m_event_queue s)
  /\ m_current_cycle s' = m_current_cycle s
  /\ pq_wf (m_event_queue s') /\ Scheduler_in_range s'
  /\ Scheduler_GetCyclesUntilNextEvent s'
     = Z.min cycles (Scheduler_GetCyclesUntilNextEvent s).
Proof.
  intros Hwf Hin Hc Hsum s'.
  destruct (Scheduler_Schedule_in_range type cycles cb s Hwf Hin) as [Hwf' Hin'].
  fold s' in Hwf', Hin'.
  assert (Hel : pq_elements (m_event_queue s')
                ≡ₚ mkScheduledEvent type (m_current_cycle s + cycles) cb
                   :: pq_elements (m_event_queue s)).
  { subst s'. unfold Scheduler_Schedule. cbn. rewrite pq_push_elements.
    rewrite u64_small by (destruct Hin; lia). reflexivity. }
  split; [exact Hel |]. split; [reflexivity |]. split; [exact Hwf' |]. split; [exact Hin' |].
  rewrite !Scheduler_distance_earliest by assumption.
  rewrite (earliest_fire_perm _ _ Hel), earliest_fire_cons. cbn [fire_at_cycle].
  change (m_current_cycle s') with (m_current_cycle s).
  destruct Hin as [Hcur _]. change (2 ^ 64) with 0x10000000000000000 in *.
  destruct (earliest_fire (pq_elements (m_event_queue s))) as [m |]; lia.
Qed.

Lemma Scheduler_Advance_distance (cycles : Z) (s : Scheduler Q) :
  pq_wf (m_event_queue s) -> Scheduler_in_range s ->
  0 <= cycles -> m_current_cycle s + cycles < 2 ^ 64 ->
  let s' := Scheduler_Advance cycles s in
  m_current_cycle s' = m_current_cycle s + cycles
  /\ m_event_queue s' = m_event_queue s
  /\ Scheduler_in_range s'
  /\ Scheduler_GetCyclesUntilNextEvent s'
     = if pq_empty (m_event_queue s) then 0xFFFFFFFFFFFFFFFF
       else Z.max 0 (Scheduler_GetCyclesUntilNextEvent s - cycles).
Proof.
  intros Hwf Hin Hc Hsum s'. pose proof Hin as [Hcur Hr].
  assert (Hcyc : m_current_cycle s' = m_current_cycle s + cycles)
    by (subst s'; cbn; apply u64_small; lia).
  assert (Hin' : Scheduler_in_range s') by (split; [rewrite Hcyc; lia | exact Hr]).
  split; [exact Hcyc |]. split; [reflexivity |]. split; [exact Hin' |].
  rewrite !Scheduler_distance_earliest by assumption.
  rewrite Hcyc. change (m_event_queue s') with (m_event_queue s).
  destruct (pq_empty (m_event_queue s)) eqn:Hempty.
  - apply pq_empty_spec in Hempty. rewrite Hempty. reflexivity.
  - apply pq_empty_false_iff in Hempty.
    destruct (earliest_fire (pq_elements (m_event_queue s))) as [m |] eqn:E; [lia |].
    apply earliest_fire_nil_iff in E. contradiction.
Qed.

Lemma Scheduler_Reset_loop_empty (fuel : nat) (queue : Q) :
  pq_wf queue -> (pq_size queue <= fuel)%nat ->
  pq_empty (Scheduler_Reset_loop fuel queue) = true
  /\ pq_wf (Scheduler_Reset_loop fuel queue).
Proof.
  revert queue. induction fuel as [| fuel IH]; intros queue Hwf Hsize.
  - cbn. rewrite pq_size_spec in Hsize. split; [| exact Hwf]. apply pq_empty_spec.
    destruct (pq_elements queue); [done | cbn in Hsize; lia].
  - cbn [Scheduler_Reset_loop]. destruct (pq_empty queue) eqn:Hempty; [by split |].
    apply IH; [by apply pq_pop_wf |].
    destruct (pq_top_spec queue Hwf Hempty) as (e & _ & Hperm & _).
    rewrite !pq_size_spec in *. apply Permutation_length in Hperm. cbn in Hperm. lia.
Qed.

Lemma Scheduler_Reset_empties (s : Scheduler Q) :
  pq_wf (m_event_queue s) ->
  let s' := Scheduler_Reset s in
  pq_elements (m_event_queue s') = []
  /\ m_current_cycle s' = 0
  /\ pq_wf (m_event_queue s')
  /\ Scheduler_GetCyclesUntilNextEvent s' = 0xFFFFFFFFFFFFFFFF.
Proof.
  intros Hwf s'.
  destruct (Scheduler_Reset_loop_empty (pq_size (m_event_queue s)) (m_event_queue s) Hwf
              ltac:(lia)) as [He Hw].
  split; [apply pq_empty_spec; exact He |]. split; [reflexivity |]. split; [exact Hw |].
  unfold Scheduler_GetCyclesUntilNextEvent. subst s'. cbn [Scheduler_Reset m_event_queue].
  rewrite He. reflexivity.
Qed.

(** X24: without 64-bit overflow, [Schedule(type, cycles, cb)] adds exactly
    one event, firing [cycles] after the current cycle, and the distance to
    the next event becomes the minimum of [cycles] and the old distance;
    [Advance(cycles)] moves the current cycle and shortens the distance by
    [cycles], not below 0, when an event is pending; [Reset] empties the queue
    and returns the cycle count to 0. *)
Theorem Scheduler_distance_after (type : EventType.t) (cycles : Z) (cb : EventCallback)
    (s : Scheduler Q) :
  pq_wf (m_event_queue s) -> Scheduler_in_range s ->
  0 <= cycles -> m_current_cycle s + cycles < 2 ^ 64 ->
  (pq_elements (m_event_queue (Scheduler_Schedule type cycles cb s))
     ≡ₚ mkScheduledEvent type (m_current_cycle s + cycles) cb :: pq_elements (m_event_queue s)
   /\ Scheduler_GetCyclesUntilNextEvent (Scheduler_Schedule type cycles cb s)
      = Z.min cycles (Scheduler_GetCyclesUntilNextEvent s))
  /\ (m_current_cycle (Scheduler_Advance cycles s) = m_current_cycle s + cycles
      /\ m_event_queue (Scheduler_Advance cycles s) = m_event_queue s
      /\ Scheduler_GetCyclesUntilNextEvent (Scheduler_Advance cycles s)
         = if pq_empty (m_event_queue s) then 0xFFFFFFFFFFFFFFFF
           else Z.max 0 (Scheduler_GetCyclesUntilNextEvent s - cycles))
  /\ (pq_elements (m_event_queue (Scheduler_Reset s)) = []
      /\ m_current_cycle (Scheduler_Reset s) = 0
      /\ Scheduler_GetCyclesUntilNextEvent (Scheduler_Reset s) = 0xFFFFFFFFFFFFFFFF).
Proof.
  intros Hwf Hin Hc Hsum. split; [| split].
  - destruct (Scheduler_Schedule_distance type cycles cb s Hwf Hin Hc Hsum)
      as (H1 & _ & _ & _ & H2).
    split; [exact H1 | exact H2].
  - destruct (Scheduler_Advance_distance cycles s Hwf Hin Hc Hsum) as (H1 & H2 & _ & H3).
    split; [exact H1 |]. split; [exact H2 | exact H3].
  - destruct (Scheduler_Reset_empties s Hwf) as (H1 & H2 & _ & H3).
    split; [exact H1 |]. split; [exact H2 | exact H3].
Qed.

Lemma filter_Forall_all {A : Type} (P : A -> Prop) `{!forall x, Decision (P x)} (l : list A) :
  Forall P l -> filter P l = l.
Proof.
  induction 1 as [| x l Hx Hl IH]; [reflexivity |].
  rewrite filter_cons_True by exact Hx. by rewrite IH.
Qed.

Lemma filter_Forall_none {A : Type} (P : A -> Prop) `{!forall x, Decision (P x)} (l : list A) :
  Forall (fun x => ~ P x) l -> filter P l = [].
Proof.
  induction 1 as [| x l Hx Hl IH]; [reflexivity |].
  rewrite filter_cons_False by exact Hx. exact IH.
Qed.

Lemma Scheduler_ProcessEvents_loop_spec {W : Type} (run : EventCallback -> W -> W)
    (now : Z) (fuel : nat) (queue : Q) (w : W) :
  pq_wf queue -> (pq_size queue <= fuel)%nat ->
  let r := Scheduler_ProcessEvents_loop fuel run now queue w in
  pq_wf (fst r)
  /\ pq_elements (fst r) ≡ₚ filter (fun e => now < fire_at_cycle e) (pq_elements queue)
  /\ exists fired,
       fired ≡ₚ filter (fun e => fire_at_cycle e <= now) (pq_elements queue)
       /\ StronglySorted (fun a b => fire_at_cycle a <= fire_at_cycle b) fired
       /\ snd r = fold_left (fun w e => run (callback e) w) fired w.
Proof.
  revert queue w. induction fuel as [| fuel IH]; intros queue w Hwf Hsize.
  - cbn. rewrite pq_size_spec in Hsize.
    assert (E : pq_elements queue = [])
      by (destruct (pq_elements queue); [done | cbn in Hsize; lia]).
    split; [exact Hwf |]. rewrite E. split; [reflexivity |].
    exists []. split; [reflexivity |]. split; [constructor | reflexivity].
  - cbn [Scheduler_ProcessEvents_loop].
    destruct (pq_empty queue) eqn:Hempty.
    + cbn. apply pq_empty_spec in Hempty. split; [exact Hwf |]. rewrite Hempty.
      split; [reflexivity |].
      exists []. split; [reflexivity |]. split; [constructor | reflexivity].
    + destruct (pq_top_spec queue Hwf Hempty) as (e & Htop & Hperm & Hall).
      rewrite Htop.
      destruct (Z.leb_spec (fire_at_cycle e) now) as [Hdue | Hlater].
      * assert (Hsize' : (pq_size (pq_pop queue) <= fuel)%nat).
        { rewrite !pq_size_spec in *. apply Permutation_length in Hperm. cbn in Hperm. lia. }
        destruct (IH (pq_pop queue) (run (callback e) w) (pq_pop_wf _ Hwf) Hsize')
          as (H1 & H2 & fired & F1 & F2 & F3).
        split; [exact H1 |]. split.
        -- rewrite H2, Hperm. rewrite filter_cons_False by lia. reflexivity.
        -- exists (e :: fired). split; [| split].
           ++ rewrite Hperm. rewrite filter_cons_True by exact Hdue. by rewrite F1.
           ++ constructor; [exact F2 |]. rewrite F1.
              rewrite Hperm in Hall. apply Forall_cons in Hall as [_ Hall].
              rewrite Forall_forall in Hall. apply Forall_forall. intros x Hx.
              apply list_elem_of_filter in Hx as [_ Hx]. apply Hall. exact Hx.
           ++ exact F3.
      * cbn [fst snd]. split; [exact Hwf |].
        rewrite filter_Forall_all
          by (eapply Forall_impl; [exact Hall |]; cbn; intros; lia).
        split; [reflexivity |].
        exists []. split; [| split; [constructor | reflexivity]].
        rewrite filter_Forall_none
          by (eapply Forall_impl; [exact Hall |]; cbn; intros; lia).
        reflexivity.
Qed.

(** X25: for callbacks that act on a state outside the scheduler,
    [Scheduler::ProcessEvents] runs the callbacks of exactly the pending
    events whose fire cycle is at most the current cycle, each once and in
    order of fire cycle, and leaves exactly the events that fire later; the
    current cycle is unchanged. *)
Theorem Scheduler_ProcessEvents_fires_due {W : Type} (run : EventCallback -> W -> W)
    (s : Scheduler Q) (w : W) :
  pq_wf (m_event_queue s) ->
  let s' := fst (Scheduler_ProcessEvents run s w) in
  let w' := snd (Scheduler_ProcessEvents run s w) in
  m_current_cycle s' = m_current_cycle s
  /\ pq_wf (m_event_queue s')
  /\ pq_elements (m_event_queue s')
     ≡ₚ filter (fun e => m_current_cycle s < fire_at_cycle e) (pq_elements (m_event_queue s))
  /\ exists fired,
       fired ≡ₚ filter (fun e => fire_at_cycle e <= m_current_cycle s)
                  (pq_elements (m_event_queue s))
       /\ StronglySorted (fun a b => fire_at_cycle a <= fire_at_cycle b) fired
       /\ w' = fold_left (fun w e => run (callback e) w) fired w.
Proof.
  intros Hwf s' w'. subst s' w'. unfold Scheduler_ProcessEvents.
  pose proof (Scheduler_ProcessEvents_loop_spec run (m_current_cycle s)
                (pq_size (m_event_queue s)) (m_event_queue s) w Hwf ltac:(lia)) as H.
  cbv zeta in H.
  destruct (Scheduler_ProcessEvents_loop _ _ _ _ _) as [q' w']. cbn [fst snd] in *.
  destruct H as (H1 & H2 & H3). split; [reflexivity |]. split; [exact H1 |].
  split; [exact H2 | exact H3].
Qed.

End SchedulerEventProofs.

Lemma Scheduler_GetCyclesUntilNextEvent_earliest_witness :
  Scheduler_GetCyclesUntilNextEvent Scheduler_example = 9.
Proof.
  refine (eq_trans (Scheduler_GetCyclesUntilNextEvent_earliest (Laws := SortedQueue_laws)
                      Scheduler_example _ _) _).
  - vm_compute. repeat constructor; discriminate.
  - unfold Scheduler_in_range. compute_done.
  - reflexivity.
Defined.

Lemma Scheduler_distance_after_witness :
  Scheduler_GetCyclesUntilNextEvent
    (Scheduler_Schedule EventType.DMA_TRANSFER 4 (5 : Z) Scheduler_example)
  = Z.min 4 (Scheduler_GetCyclesUntilNextEvent Scheduler_example)
  /\ pq_elements (m_event_queue (Scheduler_Reset Scheduler_example)) = [].
Proof.
  assert (H := Scheduler_distance_after (Laws := SortedQueue_laws) EventType.DMA_TRANSFER 4
                 (5 : Z) Scheduler_example).
  destruct H as ((_ & H1) & _ & (H2 & _)).
  - vm_compute. repeat constructor; discriminate.
  - unfold Scheduler_in_range. compute_done.
  - lia.
  - vm_compute. reflexivity.
  - split; [exact H1 | exact H2].
Defined.

Lemma Scheduler_ProcessEvents_fires_due_witness :
  let r := Scheduler_ProcessEvents (fun (cb : Z) (w : list Z) => w ++ [cb])
             (Scheduler_Advance 60 Scheduler_example) [] in
  pq_elements (m_event_queue (fst r))
  ≡ₚ filter (fun e => m_current_cycle (Scheduler_Advance 60 Scheduler_example) < fire_at_cycle e)
       (pq_elements (m_event_queue (Scheduler_Advance 60 Scheduler_example))).
Proof.
  refine (proj1 (proj2 (proj2
    (Scheduler_ProcessEvents_fires_due (Laws := SortedQueue_laws)
       (fun (cb : Z) (w : list Z) => w ++ [cb]) (Scheduler_Advance 60 Scheduler_example) [] _)))).
  vm_compute. repeat constructor; discriminate.
Defined.

Example Scheduler_ProcessEvents_example :
  Scheduler_ProcessEvents (fun (cb : Z) (w : list Z) => w ++ [cb])
    (Scheduler_Advance 60 Scheduler_example) []
  = (mkScheduler [mkScheduledEvent EventType.VBLANK 100 3] 67, [2; 1; 0]).
Proof. reflexivity. Qed.

(** ** The processor: registers, stack, calls and interrupts *)

Lemma Memory_Write16_Read16_cells (b : Bus) (a w : Z) :
  Memory_paged (memory b) -> Memory_sized (memory b) ->
  in_RAM a -> in_RAM (a + 1) -> 0 <= w <= 0xFFFF ->
  Memory_Read16 (Memory_Write16 b a w) a = Some w.
Proof. intros. by apply Memory_Write16_RAM_cells. Qed.

Lemma byte_land_ones (w : Z) : Z.land w 0xFF = w mod 256.
Proof. change 0xFF with (Z.ones 8). rewrite Z.land_ones by lia. reflexivity. Qed.

Lemma high_byte_div (w : Z) : high_byte w = (w / 256) mod 256.
Proof.
  unfold high_byte. rewrite byte_land_ones, Z.shiftr_div_pow2 by lia. reflexivity.
Qed.

Lemma low_byte_mod (w : Z) : low_byte w = w mod 256.
Proof. apply byte_land_ones. Qed.

Lemma lor_disjoint_add (a b : Z) : Z.land a b = 0 -> Z.lor a b = a + b.
Proof.
  intros H. rewrite <- Z.lxor_lor by exact H. symmetry. apply Z.add_nocarry_lxor. exact H.
Qed.

Lemma with_high_byte_value (w v : Z) : with_high_byte w v = v * 256 + w mod 256.
Proof.
  unfold with_high_byte. rewrite byte_land_ones, Z.shiftl_mul_pow2 by lia.
  change (2 ^ 8) with 256.
  apply lor_disjoint_add.
  apply Z.bits_inj'. intros n Hn. rewrite Z.land_spec, Z.bits_0.
  destruct (Z.lt_ge_cases n 8).
  - change 256 with (2 ^ 8). rewrite Z.mul_pow2_bits_low by lia. reflexivity.
  - change 256 with (2 ^ 8). rewrite Z.mod_pow2_bits_high by lia. apply andb_false_r.
Qed.

Lemma with_low_byte_value (w v : Z) :
  0 <= w <= 0xFFFF -> 0 <= v <= 0xFF -> with_low_byte w v = (w / 256) * 256 + v.
Proof.
  intros Hw Hv. unfold with_low_byte.
  assert (E : Z.land w 0xFF00 = (w / 256) * 256).
  { apply Z.bits_inj'. intros n Hn. rewrite Z.land_spec.
    change 256 with (2 ^ 8).
    destruct (Z.lt_ge_cases n 8).
    - rewrite Z.mul_pow2_bits_low by lia.
      assert (Z.testbit 0xFF00 n = false).
      { assert (n = 0 \/ n = 1 \/ n = 2 \/ n = 3 \/ n = 4 \/ n = 5 \/ n = 6 \/ n = 7)
          as [-> | [-> | [-> | [-> | [-> | [-> | [-> | ->]]]]]]] by lia; reflexivity. }
      rewrite H0. apply andb_false_r.
    - rewrite Z.mul_pow2_bits by lia. rewrite Z.div_pow2_bits by lia.
      replace (n - 8 + 8) with n by lia.
      destruct (Z.lt_ge_cases n 16).
      + assert (Z.testbit 0xFF00 n = true).
        { assert (n = 8 \/ n = 9 \/ n = 10 \/ n = 11 \/ n = 12 \/ n = 13 \/ n = 14 \/ n = 15)
            as [-> | [-> | [-> | [-> | [-> | [-> | [-> | ->]]]]]]] by lia; reflexivity. }
        rewrite H1. apply andb_true_r.
      + assert (Z.testbit w n = false).
        { destruct (Z.eq_dec w 0) as [-> | Hw0]; [apply Z.bits_0 |].
          apply Z.bits_above_log2; [lia |].
          assert (Z.log2 w < 16) by (apply Z.log2_lt_pow2; lia). lia. }
        rewrite H1. reflexivity. }
  rewrite E. apply lor_disjoint_add.
  apply Z.bits_inj'. intros n Hn. rewrite Z.land_spec, Z.bits_0.
  change 256 with (2 ^ 8).
  destruct (Z.lt_ge_cases n 8).
  - rewrite Z.mul_pow2_bits_low by lia. reflexivity.
  - assert (Z.testbit v n = false).
    { destruct (Z.eq_dec v 0) as [-> | Hv0]; [apply Z.bits_0 |].
      apply Z.bits_above_log2; [lia |].
      assert (Z.log2 v < 8) by (apply Z.log2_lt_pow2; lia). lia. }
    rewrite H0. apply andb_false_r.
Qed.

Lemma pair_bytes (w hi lo : Z) :
  0 <= hi <= 0xFF -> 0 <= lo <= 0xFF -> w = hi * 256 + lo ->
  0 <= w <= 0xFFFF /\ high_byte w = hi /\ low_byte w = lo.
Proof.
  intros Hh Hl ->. rewrite high_byte_div, low_byte_mod.
  assert (E1 : (hi * 256 + lo) / 256 = hi)
    by (rewrite Z.div_add_l by lia; rewrite Z.div_small by lia; lia).
  assert (E2 : (hi * 256 + lo) mod 256 = lo)
    by (rewrite Z.add_comm, Z.mod_add by lia; apply Z.mod_small; lia).
  rewrite E1, E2. rewrite Z.mod_small by lia. lia.
Qed.

Lemma word_bytes (w : Z) :
  0 <= w <= 0xFFFF ->
  w = high_byte w * 256 + low_byte w /\ 0 <= high_byte w <= 0xFF /\ 0 <= low_byte w <= 0xFF.
Proof.
  intros Hw. rewrite high_byte_div, low_byte_mod.
  assert (0 <= w / 256 < 256)
    by (split; [apply Z.div_pos; lia | apply Z.div_lt_upper_bound; lia]).
  rewrite (Z.mod_small (w / 256)) by lia.
  pose proof (Z.mod_pos_bound w 256 ltac:(lia)).
  pose proof (Z.div_mod w 256 ltac:(lia)). lia.
Qed.

Lemma with_high_byte_bytes (w v : Z) :
  0 <= w <= 0xFFFF -> 0 <= v <= 0xFF ->
  0 <= with_high_byte w v <= 0xFFFF
  /\ high_byte (with_high_byte w v) = v /\ low_byte (with_high_byte w v) = low_byte w.
Proof.
  intros Hw Hv. rewrite (low_byte_mod w).
  pose proof (Z.mod_pos_bound w 256 ltac:(lia)).
  apply pair_bytes; [lia | lia | apply with_high_byte_value].
Qed.

Lemma with_low_byte_bytes (w v : Z) :
  0 <= w <= 0xFFFF -> 0 <= v <= 0xFF ->
  0 <= with_low_byte w v <= 0xFFFF
  /\ high_byte (with_low_byte w v) = high_byte w /\ low_byte (with_low_byte w v) = v.
Proof.
  intros Hw Hv.
  assert (0 <= w / 256 < 256)
    by (split; [apply Z.div_pos; lia | apply Z.div_lt_upper_bound; lia]).
  assert (E : high_byte w = w / 256)
    by (rewrite high_byte_div; apply Z.mod_small; lia).
  rewrite E.
  apply pair_bytes; [lia | lia | apply with_low_byte_value; lia].
Qed.

(** X26: the 8-bit and 16-bit members of the register unions agree: with
    16-bit register values and a byte [v], storing [v] in an 8-bit register
    reads back [v], leaves the other seven 8-bit registers, SP and PC as they
    were and every register 16-bit; and each pair AF, BC, DE, HL equals
    [high * 256 + low] of its two halves. *)
Theorem Registers_byte_views (r : Reg8) (v : Z) (x : Registers) :
  Registers_in_range x -> 0 <= v <= 0xFF ->
  Registers_get8 r (Registers_set8 r v x) = v
  /\ (forall r', r' <> r -> Registers_get8 r' (Registers_set8 r v x) = Registers_get8 r' x)
  /\ Registers_in_range (Registers_set8 r v x)
  /\ (forall p hi lo, Reg16_halves p = Some (hi, lo) ->
        Registers_get16 p x = Registers_get8 hi x * 256 + Registers_get8 lo x)
  /\ (forall p, Reg16_halves p = None ->
        Registers_get16 p (Registers_set8 r v x) = Registers_get16 p x).
Proof.
  intros Hx Hv.
  pose proof (Hx reg_af) as Haf. pose proof (Hx reg_bc) as Hbc.
  pose proof (Hx reg_de) as Hde. pose proof (Hx reg_hl) as Hhl.
  pose proof (Hx reg_sp) as Hsp. pose proof (Hx reg_pc) as Hpc.
  cbn [Registers_get16] in Haf, Hbc, Hde, Hhl, Hsp, Hpc.
  split; [| split; [| split; [| split]]].
  - destruct r; cbn [Registers_get8 Registers_set8 af bc de hl set_af set_bc set_de set_hl];
      first [apply with_high_byte_bytes | apply with_low_byte_bytes]; assumption.
  - intros r' Hne.
    destruct r, r'; try contradiction;
      cbn [Registers_get8 Registers_set8 af bc de hl set_af set_bc set_de set_hl];
      try reflexivity;
      first [apply with_high_byte_bytes | apply with_low_byte_bytes]; assumption.
  - intros p.
    destruct r, p;
      cbn [Registers_get16 Registers_set8 af bc de hl sp pc set_af set_bc set_de set_hl];
      try assumption;
      first [apply with_high_byte_bytes | apply with_low_byte_bytes]; assumption.
  - intros p hi lo Hp. destruct p; cbn in Hp; inversion Hp; subst hi lo;
      cbn [Registers_get16 Registers_get8]; apply word_bytes; assumption.
  - intros p Hp. destruct p; cbn in Hp; try discriminate Hp; destruct r; reflexivity.
Qed.

Lemma Registers_byte_views_witness :
  Registers_get8 reg_c (Registers_set8 reg_c 0x42 (m_regs CPU_new)) = 0x42.
Proof.
  refine (proj1 (Registers_byte_views reg_c 0x42 (m_regs CPU_new) _ _)).
  - intros r. destruct r; vm_compute; split; discriminate.
  - lia.
Defined.

Section CPUStackProofs.

#[local] Arguments Memory_Read : simpl never.
#[local] Arguments Memory_Write : simpl never.
#[local] Arguments Memory_Read16 : simpl never.
#[local] Arguments Memory_Write16 : simpl never.

Lemma M_bind_Some {A B : Type} (m : M A) (f : A -> M B) (s s' : Machine) (a : A) :
  m s = Some (a, s') -> (m ≫= f) s = f a s'.
Proof. intros H. unfold mbind, M_bind. rewrite H. reflexivity. Qed.

Lemma u16_sp_restore (x : Z) : 0 <= x <= 0xFFFF -> u16 (u16 (x - 2) + 2) = x.
Proof.
  intros Hx. unfold u16.
  rewrite Z.add_mod_idemp_l by lia. replace (x - 2 + 2) with x by lia.
  apply Z.mod_small. lia.
Qed.

Lemma CPU_Push_exact (value : Z) (s : Machine) :
  CPU_Push value s
  = Some (tt, {| cpu := set_m_cycles (u32 (m_cycles (cpu s) + 8))
                          (set_m_regs (set_sp (u16 (sp (m_regs (cpu s)) - 2)) (m_regs (cpu s)))
                             (cpu s));
                 bus := Memory_Write16 (bus s) (u16 (sp (m_regs (cpu s)) - 2)) value |}).
Proof. destruct s as [[[r_af r_bc r_de r_hl r_sp r_pc] ime halted stopped cycles] b]. reflexivity. Qed.

Lemma CPU_Pop_exact (value : Z) (s : Machine) :
  Memory_Read16 (bus s) (sp (m_regs (cpu s))) = Some value ->
  CPU_Pop s
  = Some (value, {| cpu := set_m_regs (set_sp (u16 (sp (m_regs (cpu s)) + 2)) (m_regs (cpu s)))
                             (set_m_cycles (u32 (m_cycles (cpu s) + 8)) (cpu s));
                    bus := bus s |}).
Proof.
  destruct s as [[[r_af r_bc r_de r_hl r_sp r_pc] ime halted stopped cycles] b].
  cbn [cpu bus m_regs sp]. intros H.
  cpu_run. rewrite H. reflexivity.
Qed.

(** X27: with the two bytes below SP in RAM, [Push(value)] moves SP down by
    2 (modulo 2^16) and stores the word there, and the [Pop] that follows
    returns [value] and restores every register; the pair costs 16 cycles. *)
Theorem CPU_Push_Pop (value : Z) (s : Machine) :
  Memory_paged (memory (bus s)) -> Memory_sized (memory (bus s)) ->
  CPU_stack_in_RAM s ->
  0 <= sp (m_regs (cpu s)) <= 0xFFFF -> 0 <= value <= 0xFFFF ->
  exists s1 s2,
    CPU_Push value s = Some (tt, s1)
    /\ sp (m_regs (cpu s1)) = u16 (sp (m_regs (cpu s)) - 2)
    /\ Memory_Read16 (bus s1) (sp (m_regs (cpu s1))) = Some value
    /\ CPU_Pop s1 = Some (value, s2)
    /\ m_regs (cpu s2) = m_regs (cpu s)
    /\ bus s2 = bus s1
    /\ m_cycles (cpu s2) = u32 (u32 (m_cycles (cpu s) + 8) + 8).
Proof.
  intros Hp Hs [Hr0 Hr1] Hsp Hv.
  rewrite CPU_Push_exact. eexists. eexists. split; [reflexivity |].
  cbn [cpu bus m_regs sp set_m_cycles set_m_regs set_sp].
  split; [reflexivity |].
  assert (R : Memory_Read16 (Memory_Write16 (bus s) (u16 (sp (m_regs (cpu s)) - 2)) value)
                (u16 (sp (m_regs (cpu s)) - 2)) = Some value)
    by (apply Memory_Write16_Read16_cells; assumption).
  split; [exact R |].
  rewrite (CPU_Pop_exact value) by exact R.
  split; [reflexivity |].
  cbn [cpu bus m_regs sp set_m_cycles set_m_regs set_sp m_cycles].
  rewrite u16_sp_restore by exact Hsp.
  split; [| split; reflexivity].
  destruct (m_regs (cpu s)); reflexivity.
Qed.

Lemma CPU_Push_Pop_witness :
  exists s1 s2,
    CPU_Push 0x1234 GameBoy_new = Some (tt, s1)
    /\ CPU_Pop s1 = Some (0x1234, s2)
    /\ m_regs (cpu s2) = m_regs (cpu GameBoy_new).
Proof.
  destruct (CPU_Push_Pop 0x1234 GameBoy_new) as (s1 & s2 & H1 & _ & _ & H2 & H3 & _).
  - apply GameBoy_new_wired.
  - repeat split; vm_compute; reflexivity.
  - split; vm_compute; right; right; right; right; split; discriminate.
  - vm_compute. split; discriminate.
  - lia.
  - exists s1, s2. split; [exact H1 |]. split; [exact H2 | exact H3].
Defined.


Lemma CPU_OP_CALL_nn_exact (nn : Z) (s : Machine) :
  Memory_Read16 (bus s) (pc (m_regs (cpu s))) = Some nn ->
  CPU_OP_CALL_nn s
  = Some (tt, {| cpu := set_m_cycles (u32 (u32 (u32 (m_cycles (cpu s) + 8) + 8) + 4))
                          (set_m_regs
                             (set_pc nn (set_sp (u16 (sp (m_regs (cpu s)) - 2)) (m_regs (cpu s))))
                             (cpu s));
                 bus := Memory_Write16 (bus s) (u16 (sp (m_regs (cpu s)) - 2))
                          (u16 (pc (m_regs (cpu s)) + 2)) |}).
Proof.
  destruct s as [[[r_af r_bc r_de r_hl r_sp r_pc] ime halted stopped cycles] b].
  cbn [cpu bus m_regs pc]. intros H. cpu_run. rewrite H. reflexivity.
Qed.

Lemma u16_range (z : Z) : 0 <= u16 z <= 0xFFFF.
Proof. unfold u16. pose proof (Z.mod_pos_bound z 0x10000 ltac:(lia)). lia. Qed.

(** X28: with the two bytes below SP in RAM and the word [nn] at PC, the
    handler of CALL nn jumps to [nn] after pushing the address that follows
    the operand (20 cycles), and the handler of RET executed on that stack
    returns to that address with SP and every other register restored
    (12 cycles). *)
Theorem CPU_CALL_RET (nn : Z) (s : Machine) :
  Memory_paged (memory (bus s)) -> Memory_sized (memory (bus s)) ->
  CPU_stack_in_RAM s ->
  0 <= sp (m_regs (cpu s)) <= 0xFFFF ->
  Memory_Read16 (bus s) (pc (m_regs (cpu s))) = Some nn ->
  exists s1 s2,
    CPU_OP_CALL_nn s = Some (tt, s1)
    /\ pc (m_regs (cpu s1)) = nn
    /\ sp (m_regs (cpu s1)) = u16 (sp (m_regs (cpu s)) - 2)
    /\ Memory_Read16 (bus s1) (sp (m_regs (cpu s1))) = Some (u16 (pc (m_regs (cpu s)) + 2))
    /\ m_cycles (cpu s1) = u32 (u32 (u32 (m_cycles (cpu s) + 8) + 8) + 4)
    /\ CPU_OP_RET s1 = Some (tt, s2)
    /\ m_regs (cpu s2) = set_pc (u16 (pc (m_regs (cpu s)) + 2)) (m_regs (cpu s))
    /\ bus s2 = bus s1
    /\ m_cycles (cpu s2) = u32 (u32 (m_cycles (cpu s1) + 8) + 4).
Proof.
  intros Hp Hs [Hr0 Hr1] Hsp Hnn.
  rewrite (CPU_OP_CALL_nn_exact nn) by exact Hnn. eexists. eexists.
  split; [reflexivity |].
  cbn [cpu bus m_regs sp pc set_m_cycles set_m_regs set_sp set_pc m_cycles].
  split; [reflexivity |]. split; [reflexivity |].
  assert (R : Memory_Read16
                (Memory_Write16 (bus s) (u16 (sp (m_regs (cpu s)) - 2))
                   (u16 (pc (m_regs (cpu s)) + 2)))
                (u16 (sp (m_regs (cpu s)) - 2)) = Some (u16 (pc (m_regs (cpu s)) + 2)))
    by (apply Memory_Write16_Read16_cells; try assumption; apply u16_range).
  split; [exact R |]. split; [reflexivity |].
  unfold CPU_OP_RET.
  match goal with |- context [(CPU_Pop ≫= ?f) ?m] =>
    rewrite (M_bind_Some CPU_Pop f m _ _ (CPU_Pop_exact (u16 (pc (m_regs (cpu s)) + 2)) m R))
  end.
  split; [reflexivity |].
  cbn [cpu bus m_regs sp pc set_m_cycles set_m_regs set_sp set_pc m_cycles
       Registers_set16].
  rewrite u16_sp_restore by exact Hsp.
  split; [| split; reflexivity].
  destruct (m_regs (cpu s)); reflexivity.
Qed.

Lemma Memory_Read_Write16_RAM_other (b : Bus) (a w a' : Z) :
  Memory_paged (memory b) -> Memory_sized (memory b) ->
  in_RAM a -> in_RAM (a + 1) -> 0 <= a' <= 0xFFFF -> RAM_cell a' = None ->
  Memory_Read (Memory_Write16 b a w) a' = Memory_Read b a'.
Proof.
  intros Hp Hs Hr0 Hr1 Ha' Hc.
  apply in_RAM_cell in Hr0. apply in_RAM_cell in Hr1.
  assert (Ha1 : 0 <= a + 1 <= 0xFFFF).
  { destruct Hr1 as [[k i] Hk]. apply RAM_cell_range in Hk. lia. }
  assert (Hu : u16 (a + 1) = a + 1) by (unfold u16; apply Z.mod_small; lia).
  unfold Memory_Write16. rewrite Hu.
  destruct (Memory_Write_RAM_invariant b a (u8 (Z.land w 0xFF)) Hp Hs Hr0) as [Hp' Hs'].
  rewrite Memory_Read_Write_RAM_other; try assumption.
  - rewrite Memory_Read_Write_RAM_other; try assumption; [reflexivity |].
    rewrite Hc. destruct Hr0 as [x ->]. discriminate.
  - rewrite Hc. destruct Hr1 as [x ->]. discriminate.
Qed.

(** X29: with IME set, on a constructed bus with the stack in RAM,
    [ServiceInterrupts] accepts the lowest interrupt [i] < 5 whose bit is set
    in both IF and IE: it clears IME and bit [i] of IF, pushes PC and jumps to
    0x40 + 8 * [i]; the handler of RETI executed then restores PC and SP and
    sets IME. *)
Theorem CPU_interrupt_RETI (s : Machine) (if_reg ie_reg i : Z) :
  Bus_wired (bus s) -> Memory_sized (memory (bus s)) ->
  CPU_stack_in_RAM s ->
  0 <= sp (m_regs (cpu s)) <= 0xFFFF -> 0 <= pc (m_regs (cpu s)) <= 0xFFFF ->
  m_ime (cpu s) = true ->
  Memory_Read (bus s) 0xFF0F = Some if_reg ->
  Memory_Read (bus s) 0xFFFF = Some ie_reg ->
  0 <= i < 5 ->
  Z.testbit (Z.land if_reg ie_reg) i = true ->
  (forall j, 0 <= j < i -> Z.testbit (Z.land if_reg ie_reg) j = false) ->
  exists s1 s2,
    CPU_ServiceInterrupts s = Some (tt, s1)
    /\ pc (m_regs (cpu s1)) = 0x0040 + i * 0x08
    /\ m_ime (cpu s1) = false
    /\ Memory_Read (bus s1) 0xFF0F = Some (u8 (Z.land if_reg (Z.lnot (Z.shiftl 1 i))))
    /\ Memory_Read16 (bus s1) (sp (m_regs (cpu s1))) = Some (pc (m_regs (cpu s)))
    /\ CPU_OP_RETI s1 = Some (tt, s2)
    /\ m_regs (cpu s2) = m_regs (cpu s)
    /\ m_ime (cpu s2) = true
    /\ bus s2 = bus s1.
Proof.
  intros Hw Hs [Hr0 Hr1] Hsp Hpc Hime Hif Hie Hi Hbit Hlow.
  rewrite (CPU_ServiceInterrupts_accepts s if_reg ie_reg i) by assumption.
  eexists. eexists. split; [reflexivity |].
  unfold CPU_interrupt_accepted.
  cbn [cpu bus m_regs sp pc set_sp set_pc m_ime].
  split; [reflexivity |]. split; [reflexivity |].
  set (x := u8 (Z.land if_reg (Z.lnot (Z.shiftl 1 i)))).
  set (b1 := Memory_Write (bus s) 0xFF0F x).
  assert (Eb1 : b1 = set_memory_of (fun m => set_m_io (array_set (m_io m) 0x0F x) m) (bus s)).
  { subst b1. rewrite Memory_Write_IO by (unfold IO_START, IO_END; done || lia). reflexivity. }
  assert (Hw1 : Bus_wired b1) by (rewrite Eb1; exact Hw).
  assert (Hs1 : Memory_sized (memory b1)).
  { rewrite Eb1. destruct Hs as (S1 & S2 & S3 & S4 & S5).
    repeat split; cbn; rewrite ?array_set_length; assumption. }
  assert (R1 : Memory_Read b1 0xFF0F = Some x).
  { rewrite Memory_Read_IO by (try exact Hw1; unfold IO_START, IO_END; lia).
    rewrite Eb1. cbn. f_equal. apply array_get_set_eq.
    destruct Hs as (_ & _ & _ & _ & S5). rewrite S5. unfold IO_SIZE. lia. }
  assert (R : Memory_Read16 (Memory_Write16 b1 (u16 (sp (m_regs (cpu s)) - 2))
                               (pc (m_regs (cpu s))))
                (u16 (sp (m_regs (cpu s)) - 2)) = Some (pc (m_regs (cpu s))))
    by (apply Memory_Write16_Read16_cells; try assumption; apply Hw1).
  split.
  { rewrite Memory_Read_Write16_RAM_other; try assumption; [apply Hw1 | lia | reflexivity]. }
  split; [exact R |].
  unfold CPU_OP_RETI.
  match goal with |- context [(CPU_Pop ≫= ?f) ?m] =>
    rewrite (M_bind_Some CPU_Pop f m _ _ (CPU_Pop_exact (pc (m_regs (cpu s))) m R))
  end.
  split; [reflexivity |].
  cbn [cpu bus m_regs sp pc set_m_cycles set_m_regs set_sp set_pc m_cycles m_ime
       Registers_set16].
  rewrite u16_sp_restore by exact Hsp.
  split; [| split; reflexivity].
  destruct (m_regs (cpu s)); reflexivity.
Qed.

End CPUStackProofs.

Lemma CPU_CALL_RET_witness :
  exists s1 s2,
    CPU_OP_CALL_nn CPU_call_example = Some (tt, s1)
    /\ pc (m_regs (cpu s1)) = 0xC110
    /\ CPU_OP_RET s1 = Some (tt, s2)
    /\ pc (m_regs (cpu s2)) = 0xC002.
Proof.
  destruct (CPU_CALL_RET 0xC110 CPU_call_example)
    as (s1 & s2 & H1 & H2 & _ & _ & _ & H3 & H4 & _).
  - repeat split; vm_compute; reflexivity.
  - repeat split; vm_compute; reflexivity.
  - split; vm_compute; right; right; right; right; split; discriminate.
  - vm_compute. split; discriminate.
  - vm_compute. reflexivity.
  - exists s1, s2. split; [exact H1 |]. split; [exact H2 |]. split; [exact H3 |].
    rewrite H4. reflexivity.
Defined.

Lemma CPU_interrupt_RETI_witness :
  exists s1 s2,
    CPU_ServiceInterrupts CPU_interrupt_example = Some (tt, s1)
    /\ pc (m_regs (cpu s1)) = 0x0050
    /\ Memory_Read (bus s1) 0xFF0F = Some 0x01
    /\ CPU_OP_RETI s1 = Some (tt, s2)
    /\ m_regs (cpu s2) = m_regs (cpu CPU_interrupt_example).
Proof.
  destruct (CPU_interrupt_RETI CPU_interrupt_example 0x05 0x04 2)
    as (s1 & s2 & H1 & H2 & _ & H3 & _ & H4 & H5 & _).
  - repeat split; vm_compute; reflexivity.
  - repeat split; vm_compute; reflexivity.
  - split; vm_compute; right; right; right; right; split; discriminate.
  - vm_compute. split; discriminate.
  - vm_compute. split; discriminate.
  - reflexivity.
  - vm_compute. reflexivity.
  - vm_compute. reflexivity.
  - lia.
  - reflexivity.
  - intros j Hj. assert (j = 0 \/ j = 1) as [-> | ->] by lia; reflexivity.
  - exists s1, s2. split; [exact H1 |]. split; [exact H2 |]. split; [exact H3 |].
    split; [exact H4 | exact H5].
Defined.

(** ** The processor: flags and decimal adjust *)

Lemma testbit_byte_high (v n : Z) : 0 <= v <= 0xFF -> 8 <= n -> Z.testbit v n = false.
Proof.
  intros Hv Hn. destruct (Z.eq_dec v 0) as [-> | Hv0]; [apply Z.bits_0 |].
  apply Z.bits_above_log2; [lia |].
  assert (Z.log2 v < 8) by (apply Z.log2_lt_pow2; lia). lia.
Qed.

Lemma testbit_FF (n : Z) : 0 <= n -> Z.testbit 0xFF n = (n <? 8).
Proof.
  intros Hn. change 0xFF with (Z.ones 8). rewrite Z.testbit_ones_nonneg by lia.
  destruct (Z.ltb_spec n 8); reflexivity.
Qed.

Lemma testbit_FF00 (n : Z) : 0 <= n -> Z.testbit 0xFF00 n = (8 <=? n) && (n <? 16).
Proof.
  intros Hn. change 0xFF00 with (Z.shiftl (Z.ones 8) 8).
  destruct (Z.leb_spec 8 n).
  - rewrite Z.shiftl_spec by lia. rewrite Z.testbit_ones_nonneg by lia.
    destruct (Z.ltb_spec (n - 8) 8), (Z.ltb_spec n 16); try reflexivity; lia.
  - rewrite Z.shiftl_spec_low by lia. reflexivity.
Qed.

Lemma low_byte_with_low_byte (w v : Z) : 0 <= v <= 0xFF -> low_byte (with_low_byte w v) = v.
Proof.
  intros Hv. unfold low_byte, with_low_byte. apply Z.bits_inj'. intros n Hn.
  rewrite Z.land_spec, Z.lor_spec, Z.land_spec, testbit_FF, testbit_FF00 by lia.
  destruct (Z.ltb_spec n 8).
  - rewrite (proj2 (Z.leb_gt 8 n)) by lia. cbn. rewrite andb_false_r, andb_true_r. reflexivity.
  - rewrite (testbit_byte_high v n) by lia. rewrite !andb_false_r. reflexivity.
Qed.

Lemma high_byte_with_low_byte (w v : Z) :
  0 <= v <= 0xFF -> high_byte (with_low_byte w v) = high_byte w.
Proof.
  intros Hv. unfold high_byte, with_low_byte. apply Z.bits_inj'. intros n Hn.
  rewrite !Z.land_spec, !Z.shiftr_spec, Z.lor_spec, Z.land_spec, testbit_FF, testbit_FF00 by lia.
  rewrite (testbit_byte_high v (n + 8)) by lia. rewrite orb_false_r.
  destruct (Z.ltb_spec n 8).
  - rewrite (proj2 (Z.leb_le 8 (n + 8))), (proj2 (Z.ltb_lt (n + 8) 16)) by lia.
    cbn. rewrite !andb_true_r. reflexivity.
  - rewrite !andb_false_r. reflexivity.
Qed.

Lemma low_byte_with_high_byte (w v : Z) : low_byte (with_high_byte w v) = low_byte w.
Proof.
  unfold low_byte, with_high_byte. apply Z.bits_inj'. intros n Hn.
  rewrite !Z.land_spec, Z.lor_spec, Z.land_spec, testbit_FF by lia.
  destruct (Z.ltb_spec n 8).
  - rewrite Z.shiftl_spec_low by lia. cbn. rewrite !andb_true_r. reflexivity.
  - rewrite !andb_false_r. reflexivity.
Qed.

Lemma high_byte_with_high_byte (w v : Z) :
  0 <= v <= 0xFF -> high_byte (with_high_byte w v) = v.
Proof.
  intros Hv. unfold high_byte, with_high_byte. apply Z.bits_inj'. intros n Hn.
  rewrite Z.land_spec, Z.shiftr_spec, Z.lor_spec, Z.land_spec, !testbit_FF by lia.
  rewrite Z.shiftl_spec by lia. replace (n + 8 - 8) with n by lia.
  rewrite (proj2 (Z.ltb_ge (n + 8) 8)) by lia. rewrite andb_false_r, orb_false_r.
  destruct (Z.ltb_spec n 8); [apply andb_true_r |].
  rewrite (testbit_byte_high v n) by lia. reflexivity.
Qed.

Lemma Registers_get8_f_set8_f (v : Z) (x : Registers) :
  0 <= v <= 0xFF -> Registers_get8 reg_f (Registers_set8 reg_f v x) = v.
Proof. intros Hv. cbn. apply low_byte_with_low_byte. exact Hv. Qed.

Lemma Registers_get8_a_set8_f (v : Z) (x : Registers) :
  0 <= v <= 0xFF -> Registers_get8 reg_a (Registers_set8 reg_f v x) = Registers_get8 reg_a x.
Proof. intros Hv. cbn. apply high_byte_with_low_byte. exact Hv. Qed.

Lemma Registers_get8_f_set8_a (v : Z) (x : Registers) :
  Registers_get8 reg_f (Registers_set8 reg_a v x) = Registers_get8 reg_f x.
Proof. cbn. apply low_byte_with_high_byte. Qed.

Lemma Registers_get8_a_set8_a (v : Z) (x : Registers) :
  0 <= v <= 0xFF -> Registers_get8 reg_a (Registers_set8 reg_a v x) = v.
Proof. intros Hv. cbn. apply high_byte_with_high_byte. exact Hv. Qed.

Lemma flag_update_byte (f flag : Z) (v : bool) : 0 <= flag_update f flag v <= 0xFF.
Proof. unfold flag_update. destruct v; apply u8_byte. Qed.

(** Reading flag bit [k'] after flag bit [k] was set to [v]. *)
Lemma flag_update_read (f k k' : Z) (v : bool) :
  0 <= k < 8 -> 0 <= k' < 8 ->
  nonzero (Z.land (flag_update f (Z.shiftl 1 k) v) (Z.shiftl 1 k'))
  = if k =? k' then v else nonzero (Z.land f (Z.shiftl 1 k')).
Proof.
  intros Hk Hk'. rewrite !nonzero_land_bit by lia. unfold flag_update.
  destruct v.
  - rewrite testbit_u8_low, Z.lor_spec by lia. rewrite Z.shiftl_1_l, Z.pow2_bits_eqb by lia.
    destruct (k =? k'); [apply orb_true_r | apply orb_false_r].
  - rewrite testbit_u8_low, Z.land_spec, Z.lnot_spec by lia.
    rewrite Z.shiftl_1_l, Z.pow2_bits_eqb by lia.
    destruct (k =? k'); [apply andb_false_r | apply andb_true_r].
Qed.

Lemma flag_update_low_nibble (f k : Z) (v : bool) :
  4 <= k < 8 -> Z.land (flag_update f (Z.shiftl 1 k) v) 0x0F = Z.land (u8 f) 0x0F.
Proof.
  intros Hk. apply Z.bits_inj'. intros n Hn. rewrite !Z.land_spec.
  change 0x0F with (Z.ones 4). rewrite Z.testbit_ones_nonneg by lia.
  destruct (Z.ltb_spec n 4); [| rewrite !andb_false_r; reflexivity].
  rewrite !andb_true_r. unfold flag_update. destruct v.
  - rewrite !testbit_u8_low, Z.lor_spec by lia.
    rewrite Z.shiftl_1_l, Z.pow2_bits_eqb by lia.
    rewrite (proj2 (Z.eqb_neq k n)) by lia. apply orb_false_r.
  - rewrite !testbit_u8_low, Z.land_spec, Z.lnot_spec by lia.
    rewrite Z.shiftl_1_l, Z.pow2_bits_eqb by lia.
    rewrite (proj2 (Z.eqb_neq k n)) by lia. apply andb_true_r.
Qed.

Lemma CPU_SetFlag_exact (flag : Z) (v : bool) (s : Machine) :
  CPU_SetFlag flag v s
  = Some (tt, set_cpu (set_m_regs
                         (Registers_set8 reg_f
                            (flag_update (Registers_get8 reg_f (m_regs (cpu s))) flag v)
                            (m_regs (cpu s))) (cpu s)) s).
Proof. destruct v; reflexivity. Qed.

Lemma CPU_GetFlag_exact (flag : Z) (s : Machine) :
  CPU_GetFlag flag s = Some (CPU_flag flag s, s).
Proof. reflexivity. Qed.

Lemma CPU_ALU_frame_refl (s : Machine) : CPU_ALU_frame s s.
Proof. by repeat split. Qed.

Lemma CPU_ALU_frame_trans (s1 s2 s3 : Machine) :
  CPU_ALU_frame s1 s2 -> CPU_ALU_frame s2 s3 -> CPU_ALU_frame s1 s3.
Proof.
  intros (A1 & A2 & A3 & A4 & A5 & A6 & A7 & A8 & A9 & A10)
         (B1 & B2 & B3 & B4 & B5 & B6 & B7 & B8 & B9 & B10).
  repeat split; congruence.
Qed.

Lemma low_byte_byte (w : Z) : 0 <= low_byte w <= 0xFF.
Proof.
  rewrite low_byte_mod. pose proof (Z.mod_pos_bound w 256 ltac:(lia)). lia.
Qed.

Lemma high_byte_byte (w : Z) : 0 <= high_byte w <= 0xFF.
Proof.
  rewrite high_byte_div. pose proof (Z.mod_pos_bound (w / 256) 256 ltac:(lia)). lia.
Qed.

Lemma Registers_get8_byte (r : Reg8) (x : Registers) : 0 <= Registers_get8 r x <= 0xFF.
Proof. destruct r; cbn; first [apply high_byte_byte | apply low_byte_byte]. Qed.

(** The state after [SetFlag]: the flag reads back, the other flags, A and
    everything else stay. *)
Lemma CPU_SetFlag_spec (k : Z) (v : bool) (s : Machine) :
  4 <= k < 8 ->
  exists s', CPU_SetFlag (Z.shiftl 1 k) v s = Some (tt, s')
    /\ (forall k', 0 <= k' < 8 ->
          CPU_flag (Z.shiftl 1 k') s' = if k =? k' then v else CPU_flag (Z.shiftl 1 k') s)
    /\ Registers_get8 reg_a (m_regs (cpu s')) = Registers_get8 reg_a (m_regs (cpu s))
    /\ m_cycles (cpu s') = m_cycles (cpu s)
    /\ CPU_ALU_frame s s'.
Proof.
  intros Hk. rewrite CPU_SetFlag_exact. eexists. split; [reflexivity |].
  pose proof (flag_update_byte (Registers_get8 reg_f (m_regs (cpu s))) (Z.shiftl 1 k) v) as Hb.
  split; [| split; [| split]].
  - intros k' Hk'. unfold CPU_flag. cbn [cpu m_regs set_cpu set_m_regs].
    rewrite Registers_get8_f_set8_f by exact Hb. apply flag_update_read; lia.
  - cbn [cpu m_regs set_cpu set_m_regs]. apply Registers_get8_a_set8_f. exact Hb.
  - reflexivity.
  - unfold CPU_ALU_frame. cbn [cpu m_regs set_cpu set_m_regs bus m_ime m_halted m_stopped].
    rewrite Registers_get8_f_set8_f by exact Hb.
    rewrite flag_update_low_nibble by lia.
    rewrite (u8_small (Registers_get8 reg_f (m_regs (cpu s))))
      by (pose proof (Registers_get8_byte reg_f (m_regs (cpu s))); lia).
    destruct (m_regs (cpu s)); repeat split; reflexivity.
Qed.

(** The state after [m_regs.a = value]. *)
Lemma CPU_set8_a_spec (value : Z) (s : Machine) :
  0 <= value <= 0xFF ->
  exists s', CPU_set8 reg_a value s = Some (tt, s')
    /\ (forall flag, CPU_flag flag s' = CPU_flag flag s)
    /\ Registers_get8 reg_a (m_regs (cpu s')) = value
    /\ m_cycles (cpu s') = m_cycles (cpu s)
    /\ CPU_ALU_frame s s'.
Proof.
  intros Hv. eexists. split; [reflexivity |].
  cbn [cpu m_regs set_cpu set_m_regs].
  split; [| split; [| split]].
  - intros flag. unfold CPU_flag. cbn [cpu m_regs set_cpu set_m_regs].
    rewrite Registers_get8_f_set8_a. reflexivity.
  - apply Registers_get8_a_set8_a. exact Hv.
  - reflexivity.
  - unfold CPU_ALU_frame. cbn [cpu m_regs set_cpu set_m_regs bus m_ime m_halted m_stopped].
    rewrite Registers_get8_f_set8_a.
    destruct (m_regs (cpu s)); repeat split; reflexivity.
Qed.

(** One [SetFlag] at the head of a sequence: the facts about the state it
    leaves are put in the context. *)
Ltac alu_set_flag k s1 E F A C Fr :=
  match goal with
  | |- context [(CPU_SetFlag _ ?val ≫= ?f) ?s] =>
      destruct (CPU_SetFlag_spec k val s ltac:(lia)) as (s1 & E & F & A & C & Fr);
      rewrite (M_bind_Some (CPU_SetFlag (Z.shiftl 1 k) val) f s s1 tt E)
  end.

Ltac alu_flags_const :=
  change FLAG_Z with (Z.shiftl 1 7) in *; change FLAG_N with (Z.shiftl 1 6) in *;
  change FLAG_H with (Z.shiftl 1 5) in *; change FLAG_C with (Z.shiftl 1 4) in *.

Lemma CPU_OP_ADD_A_r_spec (value : Z) (s : Machine) :
  let a := Registers_get8 reg_a (m_regs (cpu s)) in
  let result := u16 (a + value) in
  exists s', CPU_OP_ADD_A_r value s = Some (tt, s')
    /\ Registers_get8 reg_a (m_regs (cpu s')) = u8 result
    /\ CPU_flag FLAG_Z s' = (Z.land result 0xFF =? 0)
    /\ CPU_flag FLAG_N s' = false
    /\ CPU_flag FLAG_H s' = (0x0F <? Z.land a 0x0F + Z.land value 0x0F)
    /\ CPU_flag FLAG_C s' = (0xFF <? result)
    /\ m_cycles (cpu s') = u32 (m_cycles (cpu s) + 4)
    /\ CPU_ALU_frame s s'.
Proof.
  intros a result. unfold CPU_OP_ADD_A_r. alu_flags_const.
  rewrite (M_bind_Some (CPU_get8 reg_a) _ s s a eq_refl). cbv zeta. fold a. fold result.
  alu_set_flag 7 s1 E1 F1 A1 C1 Fr1.
  alu_set_flag 6 s2 E2 F2 A2 C2 Fr2.
  alu_set_flag 5 s3 E3 F3 A3 C3 Fr3.
  alu_set_flag 4 s4 E4 F4 A4 C4 Fr4.
  destruct (CPU_set8_a_spec (u8 result) s4 (u8_byte _)) as (s5 & E5 & F5 & A5 & C5 & Fr5).
  rewrite (M_bind_Some _ _ s4 s5 tt E5).
  eexists. split; [reflexivity |].
  unfold CPU_flag in *. cbn [cpu m_regs set_cpu set_m_cycles m_cycles].
  split; [exact A5 |].
  split; [rewrite F5, (F4 7), (F3 7), (F2 7), (F1 7) by lia; reflexivity |].
  split; [rewrite F5, (F4 6), (F3 6), (F2 6) by lia; reflexivity |].
  split; [rewrite F5, (F4 5), (F3 5) by lia; reflexivity |].
  split; [rewrite F5, (F4 4) by lia; reflexivity |].
  split; [congruence |].
  assert (Fr : CPU_ALU_frame s s5)
    by (repeat (eapply CPU_ALU_frame_trans; [eassumption |]); apply CPU_ALU_frame_refl).
  destruct Fr as (B1 & B2 & B3 & B4 & B5 & B6 & B7 & B8 & B9 & B10).
  repeat split; assumption.
Qed.

Lemma CPU_OP_SUB_r_spec (value : Z) (s : Machine) :
  let a := Registers_get8 reg_a (m_regs (cpu s)) in
  let result := u16 (a - value) in
  exists s', CPU_OP_SUB_r value s = Some (tt, s')
    /\ Registers_get8 reg_a (m_regs (cpu s')) = u8 result
    /\ CPU_flag FLAG_Z s' = (Z.land result 0xFF =? 0)
    /\ CPU_flag FLAG_N s' = true
    /\ CPU_flag FLAG_H s' = (Z.land a 0x0F <? Z.land value 0x0F)
    /\ CPU_flag FLAG_C s' = (a <? value)
    /\ m_cycles (cpu s') = u32 (m_cycles (cpu s) + 4)
    /\ CPU_ALU_frame s s'.
Proof.
  intros a result. unfold CPU_OP_SUB_r. alu_flags_const.
  rewrite (M_bind_Some (CPU_get8 reg_a) _ s s a eq_refl). cbv zeta. fold a. fold result.
  alu_set_flag 7 s1 E1 F1 A1 C1 Fr1.
  alu_set_flag 6 s2 E2 F2 A2 C2 Fr2.
  alu_set_flag 5 s3 E3 F3 A3 C3 Fr3.
  alu_set_flag 4 s4 E4 F4 A4 C4 Fr4.
  destruct (CPU_set8_a_spec (u8 result) s4 (u8_byte _)) as (s5 & E5 & F5 & A5 & C5 & Fr5).
  rewrite (M_bind_Some _ _ s4 s5 tt E5).
  eexists. split; [reflexivity |].
  unfold CPU_flag in *. cbn [cpu m_regs set_cpu set_m_cycles m_cycles].
  split; [exact A5 |].
  split; [rewrite F5, (F4 7), (F3 7), (F2 7), (F1 7) by lia; reflexivity |].
  split; [rewrite F5, (F4 6), (F3 6), (F2 6) by lia; reflexivity |].
  split; [rewrite F5, (F4 5), (F3 5) by lia; reflexivity |].
  split; [rewrite F5, (F4 4) by lia; reflexivity |].
  split; [congruence |].
  assert (Fr : CPU_ALU_frame s s5)
    by (repeat (eapply CPU_ALU_frame_trans; [eassumption |]); apply CPU_ALU_frame_refl).
  destruct Fr as (B1 & B2 & B3 & B4 & B5 & B6 & B7 & B8 & B9 & B10).
  repeat split; assumption.
Qed.

Lemma CPU_OP_DAA_spec (s : Machine) :
  let a := Registers_get8 reg_a (m_regs (cpu s)) in
  let nf := CPU_flag FLAG_N s in
  let hf := CPU_flag FLAG_H s in
  let cf := CPU_flag FLAG_C s in
  let a' :=
    if negb nf then
      let a1 := if cf || (0x99 <? a) then u8 (a + 0x60) else a in
      if hf || (0x09 <? Z.land a1 0x0F) then u8 (a1 + 0x06) else a1
    else
      let a1 := if cf then u8 (a - 0x60) else a in
      if hf then u8 (a1 - 0x06) else a1 in
  exists s', CPU_OP_DAA s = Some (tt, s')
    /\ Registers_get8 reg_a (m_regs (cpu s')) = a'
    /\ CPU_flag FLAG_Z s' = (a' =? 0)
    /\ CPU_flag FLAG_N s' = nf
    /\ CPU_flag FLAG_H s' = false
    /\ CPU_flag FLAG_C s' = cf || (negb nf && (0x99 <? a))
    /\ m_cycles (cpu s') = u32 (m_cycles (cpu s) + 4)
    /\ CPU_ALU_frame s s'.
Proof.
  intros a nf hf cf a'.
  pose proof (Registers_get8_byte reg_a (m_regs (cpu s))) as Ha. fold a in Ha.
  assert (Ha' : 0 <= a' <= 0xFF).
  { subst a'. destruct (negb nf); cbv zeta;
      repeat match goal with |- context [if ?c then _ else _] => destruct c end;
      first [apply u8_byte | exact Ha]. }
  unfold CPU_OP_DAA. alu_flags_const.
  rewrite (M_bind_Some (CPU_get8 reg_a) _ s s a eq_refl).
  rewrite (M_bind_Some (CPU_GetFlag (Z.shiftl 1 6)) _ s s nf (CPU_GetFlag_exact _ s)).
  match goal with |- context [(?inner ≫= ?k) s] =>
    assert (Hinner : exists s1, inner s = Some (a', s1)
              /\ (forall k', 0 <= k' < 8 ->
                    CPU_flag (Z.shiftl 1 k') s1
                    = if (4 =? k') && negb nf && (cf || (0x99 <? a)) then true
                      else CPU_flag (Z.shiftl 1 k') s)
              /\ Registers_get8 reg_a (m_regs (cpu s1)) = a
              /\ m_cycles (cpu s1) = m_cycles (cpu s)
              /\ CPU_ALU_frame s s1)
  end.
  { subst a'. destruct (negb nf) eqn:Hnf.
    - rewrite (M_bind_Some (CPU_GetFlag (Z.shiftl 1 4)) _ s s cf (CPU_GetFlag_exact _ s)).
      destruct (cf || (0x99 <? a)) eqn:Hc.
      + destruct (CPU_SetFlag_spec 4 true s ltac:(lia)) as (s1 & E1 & F1 & A1 & C1 & Fr1).
        rewrite (M_bind_Some (CPU_SetFlag (Z.shiftl 1 4) true ≫= _) _ s s1 (u8 (a + 0x60)))
          by (rewrite (M_bind_Some _ _ s s1 tt E1); reflexivity).
        rewrite (M_bind_Some (CPU_GetFlag (Z.shiftl 1 5)) _ s1 s1 hf)
          by (rewrite CPU_GetFlag_exact, (F1 5) by lia; reflexivity).
        exists s1. split.
        * cbv zeta. destruct (hf || (0x09 <? Z.land (u8 (a + 0x60)) 0x0F)); reflexivity.
        * split; [| split; [exact A1 | split; [exact C1 | exact Fr1]]].
          intros k' Hk'. rewrite (F1 k' Hk'). rewrite andb_true_r.
          destruct (4 =? k'); reflexivity.
      + rewrite (M_bind_Some (mret a) _ s s a eq_refl).
        rewrite (M_bind_Some (CPU_GetFlag (Z.shiftl 1 5)) _ s s hf (CPU_GetFlag_exact _ s)).
        exists s. split.
        * cbv zeta. destruct (hf || (0x09 <? Z.land a 0x0F)); reflexivity.
        * split; [| split; [reflexivity | split; [reflexivity | apply CPU_ALU_frame_refl]]].
          intros k' Hk'. rewrite andb_false_r. reflexivity.
    - rewrite (M_bind_Some (CPU_GetFlag (Z.shiftl 1 4)) _ s s cf (CPU_GetFlag_exact _ s)).
      cbv zeta.
      rewrite (M_bind_Some (CPU_GetFlag (Z.shiftl 1 5)) _ s s hf (CPU_GetFlag_exact _ s)).
      exists s. split; [reflexivity |].
      split; [| split; [reflexivity | split; [reflexivity | apply CPU_ALU_frame_refl]]].
      intros k' Hk'. rewrite andb_false_r. reflexivity. }
  destruct Hinner as (s1 & E1 & F1 & A1 & C1 & Fr1).
  rewrite (M_bind_Some _ _ s s1 a' E1).
  destruct (CPU_set8_a_spec a' s1 Ha') as (s2 & E2 & F2 & A2 & C2 & Fr2).
  rewrite (M_bind_Some _ _ s1 s2 tt E2).
  rewrite (M_bind_Some (CPU_get8 reg_a) _ s2 s2 a')
    by (unfold CPU_get8; rewrite A2; reflexivity).
  alu_set_flag 7 s3 E3 F3 A3 C3 Fr3.
  alu_set_flag 5 s4 E4 F4 A4 C4 Fr4.
  eexists. split; [reflexivity |].
  unfold CPU_flag in *. cbn [cpu m_regs set_cpu set_m_cycles m_cycles].
  split; [congruence |].
  split; [rewrite (F4 7), (F3 7) by lia; reflexivity |].
  split; [rewrite (F4 6), (F3 6), F2, (F1 6) by lia; reflexivity |].
  split; [rewrite (F4 5) by lia; reflexivity |].
  split.
  { rewrite (F4 4), (F3 4), F2, (F1 4) by lia. cbn [Z.eqb Pos.eqb andb].
    fold nf. fold cf. destruct nf, cf, (0x99 <? a); reflexivity. }
  split; [congruence |].
  assert (Fr : CPU_ALU_frame s s4)
    by (repeat (eapply CPU_ALU_frame_trans; [eassumption |]); apply CPU_ALU_frame_refl).
  destruct Fr as (B1 & B2 & B3 & B4 & B5 & B6 & B7 & B8 & B9 & B10).
  repeat split; assumption.
Qed.

Lemma BCD_valid_value (b : Z) :
  BCD_valid b -> 0 <= BCD_value b < 100 /\ to_BCD (BCD_value b) = b /\ 0 <= b <= 0x99.
Proof.
  intros (H0 & Hh & Hl). unfold BCD_value, to_BCD.
  pose proof (Z.mod_pos_bound b 16 ltac:(lia)) as Hm.
  assert (0 <= b / 16) by (apply Z.div_pos; lia).
  assert (E1 : (b / 16 * 10 + b mod 16) / 10 = b / 16)
    by (rewrite Z.div_add_l by lia; rewrite (Z.div_small (b mod 16)) by lia; lia).
  assert (E2 : (b / 16 * 10 + b mod 16) mod 10 = b mod 16)
    by (rewrite Z.add_comm, Z.mod_add by lia; apply Z.mod_small; lia).
  rewrite E1, E2. pose proof (Z.div_mod b 16 ltac:(lia)). lia.
Qed.

Lemma BCD_valid_elem (b : Z) : BCD_valid b -> b ∈ BCD_bytes.
Proof.
  intros Hb. destruct (BCD_valid_value b Hb) as (Hr & E & _).
  unfold BCD_bytes. apply list_elem_of_fmap. exists (BCD_value b).
  split; [symmetry; exact E |]. apply elem_of_seqZ. lia.
Qed.

Lemma DAA_after_ADD_BCD (a v : Z) :
  BCD_valid a -> BCD_valid v ->
  DAA_after_ADD a v
  = (to_BCD ((BCD_value a + BCD_value v) mod 100), 100 <=? BCD_value a + BCD_value v).
Proof.
  intros Ha Hv. apply BCD_valid_elem in Ha, Hv.
  assert (H : Forall (fun a => Forall (fun v =>
                DAA_after_ADD a v
                = (to_BCD ((BCD_value a + BCD_value v) mod 100),
                   100 <=? BCD_value a + BCD_value v)) BCD_bytes) BCD_bytes).
  { compute_done. }
  rewrite Forall_forall in H. specialize (H a Ha). rewrite Forall_forall in H.
  exact (H v Hv).
Qed.

Lemma DAA_after_SUB_BCD (a v : Z) :
  BCD_valid a -> BCD_valid v ->
  DAA_after_SUB a v
  = (to_BCD ((BCD_value a - BCD_value v) mod 100), BCD_value a <? BCD_value v).
Proof.
  intros Ha Hv. apply BCD_valid_elem in Ha, Hv.
  assert (H : Forall (fun a => Forall (fun v =>
                DAA_after_SUB a v
                = (to_BCD ((BCD_value a - BCD_value v) mod 100),
                   BCD_value a <? BCD_value v)) BCD_bytes) BCD_bytes).
  { compute_done. }
  rewrite Forall_forall in H. specialize (H a Ha). rewrite Forall_forall in H.
  exact (H v Hv).
Qed.

(** X30: when A and the operand are packed decimals (both digits at most
    9), the handlers of ADD A,r and then DAA leave in A the packed decimal of
    the sum modulo 100, with the carry flag set exactly when the sum is 100 or
    more; the handlers of SUB r and then DAA leave the packed decimal of the
    difference modulo 100, with the carry flag set exactly when A was the
    smaller; in both cases Z tells whether A is 0, H is clear, and every
    other register and the bus are unchanged. *)
Theorem CPU_DAA_BCD (value : Z) (s : Machine) :
  let a := Registers_get8 reg_a (m_regs (cpu s)) in
  BCD_valid a -> BCD_valid value ->
  (exists s', (CPU_OP_ADD_A_r value;; CPU_OP_DAA) s = Some (tt, s')
     /\ Registers_get8 reg_a (m_regs (cpu s'))
        = to_BCD ((BCD_value a + BCD_value value) mod 100)
     /\ CPU_flag FLAG_C s' = (100 <=? BCD_value a + BCD_value value)
     /\ CPU_flag FLAG_Z s' = (Registers_get8 reg_a (m_regs (cpu s')) =? 0)
     /\ CPU_flag FLAG_H s' = false
     /\ m_cycles (cpu s') = u32 (u32 (m_cycles (cpu s) + 4) + 4)
     /\ CPU_ALU_frame s s')
  /\ (exists s', (CPU_OP_SUB_r value;; CPU_OP_DAA) s = Some (tt, s')
        /\ Registers_get8 reg_a (m_regs (cpu s'))
           = to_BCD ((BCD_value a - BCD_value value) mod 100)
        /\ CPU_flag FLAG_C s' = (BCD_value a <? BCD_value value)
        /\ CPU_flag FLAG_Z s' = (Registers_get8 reg_a (m_regs (cpu s')) =? 0)
        /\ CPU_flag FLAG_H s' = false
        /\ m_cycles (cpu s') = u32 (u32 (m_cycles (cpu s) + 4) + 4)
        /\ CPU_ALU_frame s s').
Proof.
  intros a Ha Hv. split.
  - destruct (CPU_OP_ADD_A_r_spec value s) as (s1 & E1 & A1 & Z1 & N1 & H1 & C1 & Y1 & Fr1).
    fold a in A1, Z1, H1, C1.
    destruct (CPU_OP_DAA_spec s1) as (s2 & E2 & A2 & Z2 & N2 & H2 & C2 & Y2 & Fr2).
    cbv zeta in A2, Z2, C2. rewrite A1, N1, H1, C1 in A2. rewrite A1, N1, H1, C1 in Z2.
    rewrite A1, N1, C1 in C2. cbn [negb andb] in A2, Z2, C2.
    pose proof (DAA_after_ADD_BCD a value Ha Hv) as Hd. unfold DAA_after_ADD in Hd.
    cbv zeta in Hd. injection Hd as Hd1 Hd2.
    exists s2. split; [rewrite (M_bind_Some _ _ s s1 tt E1); exact E2 |].
    split; [rewrite A2; exact Hd1 |].
    split; [rewrite C2; exact Hd2 |].
    split; [rewrite Z2, A2; reflexivity |].
    split; [exact H2 |].
    split; [congruence |].
    eapply CPU_ALU_frame_trans; eassumption.
  - destruct (CPU_OP_SUB_r_spec value s) as (s1 & E1 & A1 & Z1 & N1 & H1 & C1 & Y1 & Fr1).
    fold a in A1, Z1, H1, C1.
    destruct (CPU_OP_DAA_spec s1) as (s2 & E2 & A2 & Z2 & N2 & H2 & C2 & Y2 & Fr2).
    cbv zeta in A2, Z2, C2. rewrite A1, N1, H1, C1 in A2. rewrite A1, N1, H1, C1 in Z2.
    rewrite A1, N1, C1 in C2. cbn [negb andb] in A2, Z2, C2.
    rewrite orb_false_r in C2.
    pose proof (DAA_after_SUB_BCD a value Ha Hv) as Hd. unfold DAA_after_SUB in Hd.
    cbv zeta in Hd. injection Hd as Hd1 Hd2.
    exists s2. split; [rewrite (M_bind_Some _ _ s s1 tt E1); exact E2 |].
    split; [rewrite A2; exact Hd1 |].
    split; [rewrite C2; exact Hd2 |].
    split; [rewrite Z2, A2; reflexivity |].
    split; [exact H2 |].
    split; [congruence |].
    eapply CPU_ALU_frame_trans; eassumption.
Qed.

Lemma CPU_DAA_BCD_witness :
  exists s', (CPU_OP_ADD_A_r 0x27;; CPU_OP_DAA) GameBoy_new = Some (tt, s')
    /\ Registers_get8 reg_a (m_regs (cpu s')) = 0x28.
Proof.
  destruct (CPU_DAA_BCD 0x27 GameBoy_new) as [(s' & E & A & _) _].
  - vm_compute. repeat split; discriminate.
  - vm_compute. repeat split; discriminate.
  - exists s'. split; [exact E | exact A].
Defined.
